(** * KeepNote notebook data structure (keepnote/notebook.py)

    A shallow embedding of the node tree, the file-name policy, the
    metadata codec and the dirty-tracking protocol of
    [keepnote/notebook.py], with the properties stated about them.

    Conventions.
    - Python objects live in a heap indexed by [positive]; object
      identity ([==] on nodes, which define no [__eq__]) is equality of
      indices.
    - A method is a function in the monad [M]: it takes the world (heap,
      store-wide fields of the notebook, file system, clock) and returns
      a value or a raised exception together with the world as it is at
      that point, so that what a failed call has already mutated stays
      visible.
    - Text is [string]; Python integers are [Z]. *)

From Stdlib Require Import ZArith String Ascii List DecimalString DecimalZ.
From stdpp Require Import gmap strings list fin_maps sorting.

Set Warnings "-register-all,-clear-no-such-hyp".

Open Scope string_scope.
Open Scope list_scope.
Open Scope Z_scope.

(* ===================================================================== *)
(** * Python strings *)
(* ===================================================================== *)

Module PyStr.

(** [x in chars] for a one-character [x]. *)
Fixpoint mem (c : ascii) (chars : string) : bool :=
  match chars with
  | EmptyString => false
  | String d r => if Ascii.eqb c d then true else mem c r
  end.

Fixpoint map (f : ascii -> ascii) (s : string) : string :=
  match s with
  | EmptyString => EmptyString
  | String c r => String (f c) (map f r)
  end.

Fixpoint filter (p : ascii -> bool) (s : string) : string :=
  match s with
  | EmptyString => EmptyString
  | String c r => if p c then String c (filter p r) else filter p r
  end.

Fixpoint forallb (p : ascii -> bool) (s : string) : bool :=
  match s with
  | EmptyString => true
  | String c r => p c && forallb p r
  end.

(** [s.lstrip(chars)] *)
Fixpoint lstrip (chars : string) (s : string) : string :=
  match s with
  | EmptyString => EmptyString
  | String c r => if mem c chars then lstrip chars r else s
  end.

(** [s.rstrip(chars)] *)
Fixpoint rstrip (chars : string) (s : string) : string :=
  match s with
  | EmptyString => EmptyString
  | String c r =>
      match rstrip chars r with
      | EmptyString => if mem c chars then EmptyString else String c EmptyString
      | r' => String c r'
      end
  end.

(** [s.strip(chars)] *)
Definition strip (chars : string) (s : string) : string :=
  rstrip chars (lstrip chars s).

(** [s.startswith(p)] *)
Definition startswith (p s : string) : bool := String.prefix p s.

(** [s.endswith(p)] for a one-character [p]. *)
Fixpoint endswith_char (c : ascii) (s : string) : bool :=
  match s with
  | EmptyString => false
  | String d EmptyString => Ascii.eqb c d
  | String _ r => endswith_char c r
  end.

(** [s[n:]] *)
Fixpoint drop (n : nat) (s : string) : string :=
  match n, s with
  | O, _ => s
  | S _, EmptyString => EmptyString
  | S n', String _ r => drop n' r
  end.

(** [p] removed from the front of [s], when [s] starts with [p]. *)
Fixpoint strip_prefix (p s : string) : option string :=
  match p, s with
  | EmptyString, _ => Some s
  | String a p', String b s' => if Ascii.eqb a b then strip_prefix p' s' else None
  | String _ _, EmptyString => None
  end.

(** [c.lower()] on the ASCII letters. *)
Definition lower_char (c : ascii) : ascii :=
  let n := nat_of_ascii c in
  if (Nat.leb 65 n && Nat.leb n 90)%bool then ascii_of_nat (n + 32) else c.

Definition lower (s : string) : string := map lower_char s.

(** [s.replace(a, b)] for one-character [a] and [b]. *)
Definition replace_char (a b : ascii) (s : string) : string :=
  map (fun c => if Ascii.eqb c a then b else c) s.

(** [str(i)] / [unicode(i)] of an integer. *)
Definition of_int (i : Z) : string := NilZero.string_of_int (Z.to_int i).

Definition whitespace : string :=
  String " " (String "009" (String "010" (String "013"
    (String "011" (String "012" EmptyString))))).

(** [int(s)]: surrounding white space is dropped, an optional sign and
    decimal digits are read; anything else is a [ValueError] ([None]). *)
Definition to_int (s : string) : option Z :=
  let t := strip whitespace s in
  let t' := match t with
            | String "+" (String c r) =>
                if Ascii.eqb c "-" then EmptyString else String c r
            | _ => t
            end in
  Z.of_int <$> NilZero.int_of_string t'.

End PyStr.

(* ===================================================================== *)
(** * Exceptions and the world monad *)
(* ===================================================================== *)

Inductive Exn : Type :=
  | NoteBookError (msg : string) (error : option Exn)
  | NoteBookVersionError (notebook_version readable_version : Z)
  | OSError
  | IOError
  | XmlError
  | ExpatError
  | KeyError (key : string)
  | ValueError
  | TypeError
  | AssertionError
  | AttributeError
  | PlainException (msg : string)
  | NonTermination
  | InvalidReference.

(** [isinstance(e, NoteBookError)]: [NoteBookVersionError] is a subclass. *)
Definition is_NoteBookError (e : Exn) : bool :=
  match e with
  | NoteBookError _ _ | NoteBookVersionError _ _ => true
  | _ => false
  end.

(** [isinstance(e, Exception)]. [NonTermination] stands for a loop that
    never ends and [InvalidReference] for an index that names no object
    of the heap (which no Python run produces); no handler sees them. *)
Definition is_Exception (e : Exn) : bool :=
  match e with
  | NonTermination | InvalidReference => false
  | _ => true
  end.

Definition is_OSError (e : Exn) : bool :=
  match e with OSError => true | _ => false end.
Definition is_IOError (e : Exn) : bool :=
  match e with IOError => true | _ => false end.
Definition is_XmlError (e : Exn) : bool :=
  match e with XmlError => true | _ => false end.

Inductive result (A : Type) : Type :=
  | Ok (a : A)
  | Raise (e : Exn).
Arguments Ok {A} a.
Arguments Raise {A} e.

Definition result_bind {A B} (r : result A) (k : A -> result B) : result B :=
  match r with
  | Ok a => k a
  | Raise e => Raise e
  end.

(* ===================================================================== *)
(** * The file system and [os.path] *)
(* ===================================================================== *)

Inductive FsEntry : Type :=
  | FsDir
  | FsFile (data : string).

(** The file system is a finite map from path to entry, together with
    the paths on which the operating system refuses a mutation
    (permissions). *)
Record FileSystem : Type := mkFS {
  fs_entries : gmap string FsEntry;
  fs_denied : gset string;
}.

Module os_path.

(** [os.path.join(a, b)] *)
Definition join (a b : string) : string :=
  if PyStr.startswith "/" b then b
  else if (String.eqb a "" || PyStr.endswith_char "/" a)%bool then a +:+ b
  else a +:+ "/" +:+ b.

(** Index just after the last ["/"], as the pair (head, tail). *)
Fixpoint split_last (s : string) : string * string :=
  match s with
  | EmptyString => (EmptyString, EmptyString)
  | String c r =>
      let '(h, t) := split_last r in
      if PyStr.mem "/" r then (String c h, t)
      else if Ascii.eqb c "/" then (String c EmptyString, r)
      else (EmptyString, String c r)
  end.

(** [os.path.basename(p)] *)
Definition basename (p : string) : string := snd (split_last p).

(** [os.path.dirname(p)] *)
Definition dirname (p : string) : string :=
  let head := fst (split_last p) in
  if PyStr.forallb (Ascii.eqb "/") head then head
  else PyStr.rstrip "/" head.

(** [os.path.exists(p)] *)
Definition exists_ (fs : FileSystem) (p : string) : bool :=
  bool_decide (is_Some (fs_entries fs !! p)).

(** [os.path.isdir(p)] *)
Definition isdir (fs : FileSystem) (p : string) : bool :=
  match fs_entries fs !! p with
  | Some FsDir => true
  | _ => false
  end.

End os_path.

(* ===================================================================== *)
(** * File-name creation functions *)
(* ===================================================================== *)

(** [REGEX_SLASHES = re.compile(r"[/\\]")] *)
Definition REGEX_SLASHES (c : ascii) : bool := PyStr.mem c "/\".
(** [REGEX_BAD_CHARS = re.compile(r"[\?'&<>|`:;]")] *)
Definition REGEX_BAD_CHARS (c : ascii) : bool := PyStr.mem c "?'&<>|`:;".

Definition TAB : ascii := "009".

Definition get_valid_filename_with (filename default : string) : string :=
  let filename := PyStr.map (fun c => if REGEX_SLASHES c then "-"%char else c) filename in
  let filename := PyStr.filter (fun c => negb (REGEX_BAD_CHARS c)) filename in
  let filename := PyStr.replace_char TAB " " filename in
  let filename := PyStr.strip (String " " (String TAB ".")) filename in
  let filename := if PyStr.startswith "__" filename
                  then PyStr.drop 2 filename else filename in
  let filename := if String.eqb filename "" then default else filename in
  PyStr.lower filename.

Definition get_valid_filename (filename : string) : string :=
  get_valid_filename_with filename "folder".

(** The [while True] loop of [get_unique_filename], from counter [i]. *)
Fixpoint unique_filename_loop (fuel : nat) (fs : FileSystem)
    (path filename ext sep : string) (i : Z) : result string :=
  match fuel with
  | O => Raise NonTermination
  | S fuel' =>
      let newname := os_path.join path (filename +:+ sep +:+ PyStr.of_int i +:+ ext) in
      if negb (os_path.exists_ fs newname) then Ok newname
      else unique_filename_loop fuel' fs path filename ext sep (i + 1)
  end.

(** Among [size + 1] distinct candidates one is free, so this many
    iterations are as good as the unbounded loop (see
    [get_unique_filename_total]). *)
Definition loop_bound (fs : FileSystem) : nat := S (size (fs_entries fs)).

Definition get_unique_filename (fs : FileSystem)
    (path filename ext sep : string) (number : Z) : result string :=
  if (negb (String.eqb path "") && negb (os_path.exists_ fs path))%bool
  then Raise AssertionError
  else
    let newname := os_path.join path (filename +:+ ext) in
    if negb (os_path.exists_ fs newname) then Ok newname
    else unique_filename_loop (loop_bound fs) fs path filename ext sep number.

Definition get_valid_unique_filename (fs : FileSystem)
    (path filename ext sep : string) (number : Z) : result string :=
  get_unique_filename fs path (get_valid_filename filename) ext sep number.

(** The in-memory variant, over the names already in use. *)
Fixpoint unique_filename_list_loop (fuel : nat) (filenames : gset string)
    (filename ext sep : string) (i : Z) : result string :=
  match fuel with
  | O => Raise NonTermination
  | S fuel' =>
      let newname := filename +:+ sep +:+ PyStr.of_int i +:+ ext in
      if bool_decide (newname ∉ filenames) then Ok newname
      else unique_filename_list_loop fuel' filenames filename ext sep (i + 1)
  end.

Definition get_unique_filename_list (filenames : list string)
    (filename ext sep : string) (number : Z) : result string :=
  let filenames : gset string := list_to_set filenames in
  let newname := filename +:+ ext in
  if bool_decide (newname ∉ filenames) then Ok newname
  else unique_filename_list_loop (S (size filenames)) filenames filename ext sep number.

(* ===================================================================== *)
(** * Attribute values and the attribute schema *)
(* ===================================================================== *)

(** The Python values an attribute holds. *)
Inductive Value : Type :=
  | VNone
  | VBool (b : bool)
  | VInt (i : Z)
  | VText (s : string).

#[global] Instance Value_eq_dec : EqDecision Value.
Proof. solve_decision. Defined.

(** A [bool] is an [int] in Python: [True == 1]. *)
Definition py_number (v : Value) : option Z :=
  match v with
  | VBool b => Some (if b then 1 else 0)
  | VInt i => Some i
  | _ => None
  end.

(** [a == b] *)
Definition py_eq (a b : Value) : bool :=
  match py_number a, py_number b with
  | Some x, Some y => Z.eqb x y
  | _, _ => bool_decide (a = b)
  end.

(** [a < b] in Python 2: [None] is below everything, numbers are below
    text, numbers and texts compare among themselves. *)
Definition py_lt (a b : Value) : bool :=
  match a, b with
  | _, VNone => false
  | VNone, _ => true
  | VText s, VText t =>
      match String.compare s t with Lt => true | _ => false end
  | VText _, _ => false
  | _, VText _ => true
  | _, _ =>
      match py_number a, py_number b with
      | Some x, Some y => Z.ltb x y
      | _, _ => false
      end
  end.

(** [unicode(x)] *)
Definition py_unicode (v : Value) : string :=
  match v with
  | VNone => "None"
  | VBool true => "True"
  | VBool false => "False"
  | VInt i => PyStr.of_int i
  | VText s => s
  end.

(** [int(x)] *)
Definition py_int (v : Value) : result Z :=
  match v with
  | VNone => Raise TypeError
  | VBool b => Ok (if b then 1 else 0)
  | VInt i => Ok i
  | VText s => match PyStr.to_int s with Some i => Ok i | None => Raise ValueError end
  end.

(** The [datatype] of a [NoteBookAttr]. *)
Inductive DataType : Type := Tunicode | Tint | Tbool.

#[global] Instance DataType_eq_dec : EqDecision DataType.
Proof. solve_decision. Defined.

(** [NoteBookAttr]; the reader and the writer are the defaults the
    constructor derives from [datatype] (no attribute of the source
    passes its own). *)
Record NoteBookAttr : Type := mkAttr {
  attr_name : string;
  attr_datatype : DataType;
  attr_key : string;
}.

(** [attr.write(x)]: [unicode(int(x))] for booleans, [unicode(x)] otherwise. *)
Definition NoteBookAttr_write (a : NoteBookAttr) (x : Value) : result string :=
  match attr_datatype a with
  | Tbool => result_bind (py_int x) (fun i => Ok (PyStr.of_int i))
  | _ => Ok (py_unicode x)
  end.

(** [attr.read(x)] on the text [x] of the file: [bool(int(x))] for
    booleans, [datatype(x)] otherwise. *)
Definition NoteBookAttr_read (a : NoteBookAttr) (x : string) : result Value :=
  match attr_datatype a with
  | Tbool => result_bind (py_int (VText x)) (fun i => Ok (VBool (negb (Z.eqb i 0))))
  | Tint => result_bind (py_int (VText x)) (fun i => Ok (VInt i))
  | Tunicode => Ok (VText x)
  end.

Definition g_default_attrs : list NoteBookAttr := [
  mkAttr "Title" Tunicode "title";
  mkAttr "Content type" Tunicode "content_type";
  mkAttr "Order" Tint "order";
  mkAttr "Created" Tint "created_time";
  mkAttr "Modified" Tint "modified_time";
  mkAttr "Expaned" Tbool "expanded";
  mkAttr "Expanded2" Tbool "expanded2";
  mkAttr "Folder Sort" Tint "info_sort";
  mkAttr "Folder Sort Direction" Tint "info_sort_dir"
].

(** The registry [NoteBook.__init__] builds: [notebook_attrs[attr.key] = attr]. *)
Definition default_notebook_attrs : gmap string NoteBookAttr :=
  foldl (fun m a => <[attr_key a := a]> m) ∅ g_default_attrs.

(** A value is of the registered type. *)
Definition has_datatype (v : Value) (t : DataType) : bool :=
  match v, t with
  | VText _, Tunicode | VInt _, Tint | VBool _, Tbool => true
  | _, _ => false
  end.

(* ===================================================================== *)
(** * Constants of the module *)
(* ===================================================================== *)

Definition NL : string := String "010" EmptyString.
Definition DQUOTE : string := String "034" EmptyString.

Definition XML_HEADER : string :=
  "<?xml version=" +:+ DQUOTE +:+ "1.0" +:+ DQUOTE +:+ " encoding=" +:+ DQUOTE
    +:+ "UTF-8" +:+ DQUOTE +:+ "?>" +:+ NL.

Definition BLANK_NOTE : string :=
  XML_HEADER
  +:+ "<!DOCTYPE html PUBLIC " +:+ DQUOTE +:+ "-//W3C//DTD XHTML 1.0 Transitional//EN"
  +:+ DQUOTE +:+ " " +:+ DQUOTE
  +:+ "http://www.w3.org/TR/xhtml1/DTD/xhtml1-transitional.dtd" +:+ DQUOTE +:+ ">" +:+ NL
  +:+ "<html xmlns=" +:+ DQUOTE +:+ "http://www.w3.org/1999/xhtml" +:+ DQUOTE
  +:+ "><body></body></html>" +:+ NL.

Definition NOTEBOOK_FORMAT_VERSION : Z := 2.
Definition NODE_META_FILE : string := "node.xml".
Definition PAGE_DATA_FILE : string := "page.html".
Definition PREF_FILE : string := "notebook.nbk".
Definition NOTEBOOK_META_DIR : string := "__NOTEBOOK__".
Definition TRASH_DIR : string := "__TRASH__".
Definition TRASH_NAME : string := "Trash".
Definition DEFAULT_FONT : string := "Sans 10".

Definition CONTENT_TYPE_PAGE : string := "text/xhtml+xml".
Definition CONTENT_TYPE_TRASH : string := "application/x-notebook-trash".
Definition CONTENT_TYPE_DIR : string := "application/x-notebook-dir".

Definition INFO_SORT_NONE : Z := 0.

(** [sys.maxint] on a 64-bit build. *)
Definition sys_maxint : Z := 9223372036854775807.

Definition get_node_meta_file (nodepath : string) : string :=
  os_path.join nodepath NODE_META_FILE.
Definition get_page_data_file (pagepath : string) : string :=
  os_path.join pagepath PAGE_DATA_FILE.
Definition get_pref_file (nodepath : string) : string :=
  os_path.join nodepath PREF_FILE.
Definition get_pref_dir (nodepath : string) : string :=
  os_path.join nodepath NOTEBOOK_META_DIR.
Definition get_trash_dir (nodepath : string) : string :=
  os_path.join nodepath TRASH_DIR.

(* ===================================================================== *)
(** * The XML layer: [xml.sax.saxutils.escape] and [xml.parsers.expat] *)
(* ===================================================================== *)

(** [escape(data)]: ampersand first, then the two angle brackets; one
    pass over the characters gives the same text. *)
Fixpoint escape (data : string) : string :=
  match data with
  | EmptyString => EmptyString
  | String c r =>
      (if Ascii.eqb c "&" then "&amp;"
       else if Ascii.eqb c ">" then "&gt;"
       else if Ascii.eqb c "<" then "&lt;"
       else String c EmptyString) +:+ escape r
  end.

(** The parser the source drives through its three handlers is expat, a
    library outside the repository. The model below is the part of
    XML 1.0 that the writers of this module produce, with the checks of
    a conforming parser on it: one root element, matching tags,
    attributes in quotes, the five predefined entities, the characters
    XML 1.0 allows, end-of-line normalisation of character data
    (XML 1.0, 2.11: a carriage return, with the line feed that may follow
    it, is reported as one line feed) and normalisation of white space in
    attribute values (3.3.3). Processing instructions are skipped.
    Comments, CDATA sections, document type declarations and numeric
    character references are outside the model and end the parse with
    [ExpatError].

    The text of a file is the sequence of its bytes, and a text value
    is the UTF-8 encoding of the [unicode] object it stands for: the
    writer encodes what it writes ([codec="utf-8"]) and the parser
    decodes what it reads. The parser therefore checks, byte by byte,
    that its input is well-formed UTF-8 and that no character is
    outside [Char] of XML 1.0: a control character other than tab, line
    feed and carriage return, a surrogate, U+FFFE or U+FFFF ends the
    parse with [ExpatError], and so does a byte that cannot start or
    continue a character. Character data is reported one byte at a
    time; the handlers of this module append what they are given, so
    the chunking is not observable. *)
Module expat.

Definition CR : ascii := "013".
Definition LF : ascii := "010".

Definition is_space (c : ascii) : bool :=
  PyStr.mem c (String " " (String "009" (String LF (String CR EmptyString)))).

(** [Char] of XML 1.0 for a byte that is a character by itself: no
    control character but the white space. The bytes from 128 on are
    parts of longer characters, which [utf8_step] checks. *)
Definition is_xml_char (c : ascii) : bool :=
  (Nat.leb 32 (nat_of_ascii c) || is_space c)%bool.

(** Where the parser is inside a character: at the boundary between two
    characters, before the last one, two or three bytes of one, or just
    after a first byte (or after the first two, [EF BF]) that narrows
    what may follow. *)
Inductive Utf8 : Type :=
  | Boundary | Tail1 | Tail2 | Tail3
  | AfterE0 | AfterED | AfterEF | AfterEFBF | AfterF0 | AfterF4.

Definition in_range (lo hi : nat) (c : ascii) : bool :=
  (Nat.leb lo (nat_of_ascii c) && Nat.leb (nat_of_ascii c) hi)%bool.

(** One byte of well-formed UTF-8 whose characters are in [Char]:
    no overlong form (a first byte [C0], [C1], or [E0] before [80..9F],
    or [F0] before [80..8F]), no surrogate ([ED] before [A0..BF]),
    nothing above U+10FFFF ([F4] before [90..BF], [F5] and up), and
    neither U+FFFE nor U+FFFF ([EF BF BE], [EF BF BF]). [None] is the
    byte the parser rejects. *)
Definition utf8_step (u : Utf8) (c : ascii) : option Utf8 :=
  match u with
  | Boundary =>
      if in_range 0 127 c then Some Boundary
      else if in_range 194 223 c then Some Tail1
      else if in_range 224 224 c then Some AfterE0
      else if in_range 237 237 c then Some AfterED
      else if in_range 239 239 c then Some AfterEF
      else if in_range 225 238 c then Some Tail2
      else if in_range 240 240 c then Some AfterF0
      else if in_range 241 243 c then Some Tail3
      else if in_range 244 244 c then Some AfterF4
      else None
  | Tail1 => if in_range 128 191 c then Some Boundary else None
  | Tail2 => if in_range 128 191 c then Some Tail1 else None
  | Tail3 => if in_range 128 191 c then Some Tail2 else None
  | AfterE0 => if in_range 160 191 c then Some Tail1 else None
  | AfterED => if in_range 128 159 c then Some Tail1 else None
  | AfterEF =>
      if in_range 191 191 c then Some AfterEFBF
      else if in_range 128 190 c then Some Tail1
      else None
  | AfterEFBF => if in_range 128 189 c then Some Boundary else None
  | AfterF0 => if in_range 144 191 c then Some Tail2 else None
  | AfterF4 => if in_range 128 143 c then Some Tail2 else None
  end.

(** The bytes of [s], read from the state [u]. *)
Fixpoint utf8_run (u : Utf8) (s : string) : option Utf8 :=
  match s with
  | EmptyString => Some u
  | String c r =>
      match utf8_step u c with
      | Some u' => utf8_run u' r
      | None => None
      end
  end.

Definition is_name_start (c : ascii) : bool :=
  let n := nat_of_ascii c in
  ((Nat.leb 65 n && Nat.leb n 90) || (Nat.leb 97 n && Nat.leb n 122)
   || Ascii.eqb c "_" || Ascii.eqb c ":" || Nat.leb 128 n)%bool.

Definition is_name_char (c : ascii) : bool :=
  let n := nat_of_ascii c in
  (is_name_start c || (Nat.leb 48 n && Nat.leb n 57)
   || Ascii.eqb c "-" || Ascii.eqb c ".")%bool.

Definition snoc (s : string) (c : ascii) : string := s +:+ String c EmptyString.

(** The predefined entities. *)
Definition entity (name : string) : option ascii :=
  if String.eqb name "amp" then Some "&"%char
  else if String.eqb name "lt" then Some "<"%char
  else if String.eqb name "gt" then Some ">"%char
  else if String.eqb name "quot" then Some "034"%char
  else if String.eqb name "apos" then Some "'"%char
  else None.

Definition attrs_t : Type := list (string * string).

(** [attrs.get(key, None)] on the dictionary a start handler receives. *)
Fixpoint attrs_get (attrs : attrs_t) (key : string) : option string :=
  match attrs with
  | [] => None
  | (k, v) :: r => if String.eqb k key then Some v else attrs_get r key
  end.

Inductive Mode : Type :=
  | Content (after_cr : bool)
  | Reference (name : string)
  | TagOpen
  | Instruction (question : bool)
  | StartName (name : string)
  | Attrs (name : string) (attrs : attrs_t) (need_space : bool)
  | AttrName (name : string) (attrs : attrs_t) (key : string)
  | AttrQuote (name : string) (attrs : attrs_t) (key : string)
  | AttrValue (name : string) (attrs : attrs_t) (key : string)
              (quote : ascii) (val : string)
  | AttrReference (name : string) (attrs : attrs_t) (key : string)
                  (quote : ascii) (val : string) (ref : string)
  | EmptyTag (name : string) (attrs : attrs_t)
  | EndName (name : string) (closed : bool).

Section Parser.
(** The state of the object whose methods are the handlers. *)
Context {H : Type}.

Record Handlers : Type := mkHandlers {
  StartElementHandler : string -> attrs_t -> H -> result H;
  EndElementHandler : string -> H -> result H;
  CharacterDataHandler : string -> H -> result H;
}.

Record Parser : Type := mkParserAt {
  mode : Mode;
  open_elements : list string;
  root_closed : bool;
  user : H;
  pending : Utf8;
}.

(** A parser between two characters. *)
Definition mkParser (m : Mode) (els : list string) (rc : bool) (h : H) : Parser :=
  mkParserAt m els rc h Boundary.

Variable hs : Handlers.

Definition ParserCreate (h : H) : Parser :=
  mkParser (Content false) [] false h.

Definition with_mode (m : Mode) (p : Parser) : Parser :=
  mkParserAt m (open_elements p) (root_closed p) (user p) (pending p).

Definition with_pending (u : Utf8) (p : Parser) : Parser :=
  mkParserAt (mode p) (open_elements p) (root_closed p) (user p) u.

Definition char_data (c : ascii) (m : Mode) (p : Parser) : result Parser :=
  result_bind (CharacterDataHandler hs (String c EmptyString) (user p))
    (fun h => Ok (mkParserAt m (open_elements p) (root_closed p) h (pending p))).

Definition start_element (name : string) (attrs : attrs_t) (p : Parser)
    : result Parser :=
  if (bool_decide (open_elements p = []) && root_closed p)%bool
  then Raise ExpatError
  else result_bind (StartElementHandler hs name attrs (user p))
         (fun h => Ok (mkParserAt (Content false) (name :: open_elements p)
                                  (root_closed p) h (pending p))).

Definition end_element (name : string) (p : Parser) : result Parser :=
  match open_elements p with
  | top :: rest =>
      if String.eqb top name
      then result_bind (EndElementHandler hs name (user p))
             (fun h => Ok (mkParserAt (Content false) rest
                                      (bool_decide (rest = [])) h (pending p)))
      else Raise ExpatError
  | [] => Raise ExpatError
  end.

Definition add_attr (name : string) (attrs : attrs_t) (key val : string)
    (p : Parser) : result Parser :=
  match attrs_get attrs key with
  | Some _ => Raise ExpatError
  | None => Ok (with_mode (Attrs name (attrs ++ [(key, val)]) true) p)
  end.

(** What the byte [c] does in the mode the parser is in. *)
Definition dispatch (p : Parser) (c : ascii) : result Parser :=
  match mode p with
  | Content after_cr =>
      if Ascii.eqb c "<" then Ok (with_mode TagOpen p)
      else if bool_decide (open_elements p = []) then
        if is_space c then Ok (with_mode (Content false) p) else Raise ExpatError
      else if Ascii.eqb c "&" then Ok (with_mode (Reference EmptyString) p)
      else if Ascii.eqb c CR then char_data LF (Content true) p
      else if Ascii.eqb c LF then
        if after_cr then Ok (with_mode (Content false) p)
        else char_data LF (Content false) p
      else if is_xml_char c then char_data c (Content false) p
      else Raise ExpatError
  | Reference name =>
      if Ascii.eqb c ";" then
        match entity name with
        | Some d => char_data d (Content false) p
        | None => Raise ExpatError
        end
      else if is_name_char c then Ok (with_mode (Reference (snoc name c)) p)
      else Raise ExpatError
  | TagOpen =>
      if Ascii.eqb c "/" then Ok (with_mode (EndName EmptyString false) p)
      else if Ascii.eqb c "?" then Ok (with_mode (Instruction false) p)
      else if is_name_start c then Ok (with_mode (StartName (String c EmptyString)) p)
      else Raise ExpatError
  | Instruction question =>
      if (question && Ascii.eqb c ">")%bool then Ok (with_mode (Content false) p)
      else Ok (with_mode (Instruction (Ascii.eqb c "?")) p)
  | StartName name =>
      if is_name_char c then Ok (with_mode (StartName (snoc name c)) p)
      else if is_space c then Ok (with_mode (Attrs name [] false) p)
      else if Ascii.eqb c ">" then start_element name [] p
      else if Ascii.eqb c "/" then Ok (with_mode (EmptyTag name []) p)
      else Raise ExpatError
  | Attrs name attrs need_space =>
      if is_space c then Ok (with_mode (Attrs name attrs false) p)
      else if Ascii.eqb c ">" then start_element name attrs p
      else if Ascii.eqb c "/" then Ok (with_mode (EmptyTag name attrs) p)
      else if (negb need_space && is_name_start c)%bool
      then Ok (with_mode (AttrName name attrs (String c EmptyString)) p)
      else Raise ExpatError
  | AttrName name attrs key =>
      if is_name_char c then Ok (with_mode (AttrName name attrs (snoc key c)) p)
      else if Ascii.eqb c "=" then Ok (with_mode (AttrQuote name attrs key) p)
      else Raise ExpatError
  | AttrQuote name attrs key =>
      if (Ascii.eqb c "034" || Ascii.eqb c "'")%bool
      then Ok (with_mode (AttrValue name attrs key c EmptyString) p)
      else Raise ExpatError
  | AttrValue name attrs key quote val =>
      if Ascii.eqb c quote then add_attr name attrs key val p
      else if Ascii.eqb c "<" then Raise ExpatError
      else if Ascii.eqb c "&"
      then Ok (with_mode (AttrReference name attrs key quote val EmptyString) p)
      else if is_space c
      then Ok (with_mode (AttrValue name attrs key quote (snoc val " ")) p)
      else if is_xml_char c
      then Ok (with_mode (AttrValue name attrs key quote (snoc val c)) p)
      else Raise ExpatError
  | AttrReference name attrs key quote val ref =>
      if Ascii.eqb c ";" then
        match entity ref with
        | Some d => Ok (with_mode (AttrValue name attrs key quote (snoc val d)) p)
        | None => Raise ExpatError
        end
      else if is_name_char c
      then Ok (with_mode (AttrReference name attrs key quote val (snoc ref c)) p)
      else Raise ExpatError
  | EmptyTag name attrs =>
      if Ascii.eqb c ">"
      then result_bind (start_element name attrs p) (end_element name)
      else Raise ExpatError
  | EndName name closed =>
      if Ascii.eqb c ">" then end_element name p
      else if is_space c then Ok (with_mode (EndName name true) p)
      else if (negb closed && is_name_char c)%bool
      then Ok (with_mode (EndName (snoc name c) false) p)
      else Raise ExpatError
  end.

(** One byte of the input: it has to continue the text as UTF-8, and
    then the mode decides. *)
Definition step (p : Parser) (c : ascii) : result Parser :=
  match utf8_step (pending p) c with
  | Some u => result_bind (dispatch p c) (fun p' => Ok (with_pending u p'))
  | None => Raise ExpatError
  end.

Fixpoint feed (p : Parser) (text : string) : result Parser :=
  match text with
  | EmptyString => Ok p
  | String c r => result_bind (step p c) (fun p' => feed p' r)
  end.

(** [parser.ParseFile(infile)] on the text of the file: the state of
    the handlers' object after the last event, or the exception
    that stopped the parse together with nothing. *)
Definition ParseFile (h : H) (text : string) : result H :=
  result_bind (feed (ParserCreate h) text) (fun p =>
    match mode p, open_elements p, root_closed p, pending p with
    | Content _, [], true, Boundary => Ok (user p)
    | _, _, _, _ => Raise ExpatError
    end).

End Parser.
Arguments Handlers : clear implicits.
Arguments Parser : clear implicits.

End expat.

(* ===================================================================== *)
(** * [NoteBookNodeMetaData]: the metadata codec *)
(* ===================================================================== *)

(** The fields of a [NoteBookNodeMetaData] object that [read] uses. *)
Record NoteBookNodeMetaData : Type := mkMeta {
  md_attr : gmap string Value;                   (* self.attr *)
  md_notebook_attrs : gmap string NoteBookAttr;  (* self._notebook_attrs *)
  md_meta_root : bool;                           (* self.__meta_root *)
  md_meta_data : option string;                  (* self.__meta_data *)
  md_meta_tag : option string;                   (* self.__meta_tag *)
  md_meta_attr : option expat.attrs_t;           (* self.__meta_attr *)
}.

Definition md_set_attr (k : string) (v : Value) (self : NoteBookNodeMetaData)
    : NoteBookNodeMetaData :=
  mkMeta (<[k := v]> (md_attr self)) (md_notebook_attrs self) (md_meta_root self)
         (md_meta_data self) (md_meta_tag self) (md_meta_attr self).

Definition md_set_root (b : bool) (self : NoteBookNodeMetaData)
    : NoteBookNodeMetaData :=
  mkMeta (md_attr self) (md_notebook_attrs self) b
         (md_meta_data self) (md_meta_tag self) (md_meta_attr self).

Definition md_set_tag (tag : option string) (attrs : option expat.attrs_t)
    (data : option string) (self : NoteBookNodeMetaData) : NoteBookNodeMetaData :=
  mkMeta (md_attr self) (md_notebook_attrs self) (md_meta_root self) data tag attrs.

(** The text or [None] that [__meta_data] holds, as a value. *)
Definition md_data_value (self : NoteBookNodeMetaData) : Value :=
  match md_meta_data self with
  | Some d => VText d
  | None => VNone
  end.

(** [attr.read(x)] on a value: [bool(int(x))], [int(x)] or [unicode(x)]. *)
Definition NoteBookAttr_read_value (a : NoteBookAttr) (x : Value) : result Value :=
  match x with
  | VText s => NoteBookAttr_read a s
  | _ =>
      match attr_datatype a with
      | Tbool => result_bind (py_int x) (fun i => Ok (VBool (negb (Z.eqb i 0))))
      | Tint => result_bind (py_int x) (fun i => Ok (VInt i))
      | Tunicode => Ok (VText (py_unicode x))
      end
  end.

Definition meta_start_element (name : string) (attrs : expat.attrs_t)
    (self : NoteBookNodeMetaData) : result NoteBookNodeMetaData :=
  if md_meta_root self then
    match md_meta_tag self with
    | Some _ => Raise (PlainException "corrupt meta file")
    | None => Ok (md_set_tag (Some name) (Some attrs) (Some EmptyString) self)
    end
  else if String.eqb name "node" then Ok (md_set_root true self)
  else Ok self.

Definition meta_end_element (name : string) (self : NoteBookNodeMetaData)
    : result NoteBookNodeMetaData :=
  let self := if String.eqb name "node" then md_set_root false self else self in
  if negb (md_meta_root self) then Ok self
  else
    result_bind
      (if bool_decide (md_meta_tag self = Some "version") then
         result_bind (py_int (md_data_value self))
           (fun i => Ok (md_set_attr "version" (VInt i) self))
       else if bool_decide (md_meta_tag self = Some "attr") then
         match md_meta_attr self with
         | None => Raise AttributeError
         | Some attrs =>
             match expat.attrs_get attrs "key" with
             | None => Ok self
             | Some key =>
                 match md_notebook_attrs self !! key with
                 | Some attr =>
                     result_bind (NoteBookAttr_read_value attr (md_data_value self))
                       (fun v => Ok (md_set_attr key v self))
                 | None => Ok (md_set_attr key (md_data_value self) self)
                 end
             end
         end
       else Ok self)
      (fun self => Ok (md_set_tag None None None self)).

Definition meta_char_data (data : string) (self : NoteBookNodeMetaData)
    : result NoteBookNodeMetaData :=
  match md_meta_data self with
  | Some d => Ok (md_set_tag (md_meta_tag self) (md_meta_attr self) (Some (d +:+ data)) self)
  | None => Ok self
  end.

Definition meta_handlers : expat.Handlers NoteBookNodeMetaData :=
  expat.mkHandlers meta_start_element meta_end_element meta_char_data.

(** [NoteBookNodeMetaData.read] once the file is open: [infile] is its
    text, or the exception [open] raised; [now] is what [get_timestamp()]
    returns. The result is [self.attr]. *)
Definition NoteBookNodeMetaData_read (infile : result string)
    (notebook_attrs : gmap string NoteBookAttr) (now : Z)
    : result (gmap string Value) :=
  let self := mkMeta (<["modified_time" := VNone]> (<["created_time" := VNone]> ∅))
                     notebook_attrs false None None None in
  match result_bind infile (expat.ParseFile meta_handlers self) with
  | Raise e =>
      if is_Exception e then Raise (NoteBookError "Cannot read meta data" (Some e))
      else Raise e
  | Ok self =>
      let attr := md_attr self in
      let attr := if bool_decide (attr !! "created_time" = Some VNone)
                  then <["created_time" := VInt now]> attr else attr in
      let attr := if bool_decide (attr !! "modified_time" = Some VNone)
                  then <["modified_time" := VInt now]> attr else attr in
      Ok attr
  end.

(** One pass of the loop of [write] over [node.iter_attr()]: the text
    written for [(key, val)]. *)
Definition meta_write_attr (notebook_attrs : gmap string NoteBookAttr)
    (kv : string * Value) : result string :=
  let '(key, val) := kv in
  match notebook_attrs !! key with
  | Some attr =>
      result_bind (NoteBookAttr_write attr val) (fun s =>
        Ok ("<attr key=" +:+ DQUOTE +:+ key +:+ DQUOTE +:+ ">" +:+ escape s +:+ "</attr>" +:+ NL))
  | None =>
      if String.eqb key "version" then Ok EmptyString
      else match val with
           | VText s =>
               Ok ("<attr key=" +:+ DQUOTE +:+ escape key +:+ DQUOTE +:+ ">" +:+ escape s
                   +:+ "</attr>" +:+ NL)
           | _ => Ok EmptyString
           end
  end.

Fixpoint meta_write_attrs (notebook_attrs : gmap string NoteBookAttr)
    (kvs : list (string * Value)) : result string :=
  match kvs with
  | [] => Ok EmptyString
  | kv :: r =>
      result_bind (meta_write_attr notebook_attrs kv) (fun s =>
        result_bind (meta_write_attrs notebook_attrs r) (fun t => Ok (s +:+ t)))
  end.

(** Everything [NoteBookNodeMetaData.write] writes to [out], for a node
    of format version [version] and attributes [attr]. *)
Definition meta_text (version : Z) (attr : gmap string Value)
    (notebook_attrs : gmap string NoteBookAttr) : result string :=
  result_bind (meta_write_attrs notebook_attrs (map_to_list attr)) (fun body =>
    Ok (XML_HEADER +:+ "<node>" +:+ NL +:+ "<version>" +:+ PyStr.of_int version
        +:+ "</version>" +:+ NL +:+ body +:+ "</node>" +:+ NL)).

(* ===================================================================== *)
(** * File-system calls *)
(* ===================================================================== *)

Module os.

(** The parent directory of [p] is there ([""] is the current one). *)
Definition parent_ok (fs : FileSystem) (p : string) : bool :=
  let d := os_path.dirname p in
  (String.eqb d "" || os_path.isdir fs d)%bool.

(** [k] lies strictly below the directory [p]. *)
Definition below (p k : string) : bool :=
  match PyStr.strip_prefix (p +:+ "/") k with
  | Some _ => true
  | None => false
  end.

Definition is_empty_dir (fs : FileSystem) (p : string) : bool :=
  (os_path.isdir fs p
   && forallb (fun k => negb (below p k)) (map_to_list (fs_entries fs)).*1)%bool.

(** The name under which [os.listdir(p)] reports the entry at [k]. *)
Definition entry_name (p k : string) : option string :=
  match PyStr.strip_prefix (p +:+ "/") k with
  | Some name =>
      if (negb (String.eqb name "") && negb (PyStr.mem "/" name))%bool
      then Some name else None
  | None => None
  end.

(** [os.listdir(p)] *)
Definition listdir (fs : FileSystem) (p : string) : result (list string) :=
  if os_path.isdir fs p
  then Ok (omap (entry_name p) (map_to_list (fs_entries fs)).*1)
  else Raise OSError.

(** [os.mkdir(p)] *)
Definition mkdir (fs : FileSystem) (p : string) : result FileSystem :=
  if (os_path.exists_ fs p || bool_decide (p ∈ fs_denied fs)
      || negb (parent_ok fs p))%bool
  then Raise OSError
  else Ok (mkFS (<[p := FsDir]> (fs_entries fs)) (fs_denied fs)).

(** Where the entry at [k] is after [src] has become [dst]. *)
Definition rename_key (src dst k : string) : string :=
  if String.eqb k src then dst
  else match PyStr.strip_prefix (src +:+ "/") k with
       | Some rest => dst +:+ "/" +:+ rest
       | None => k
       end.

(** Whether [os.rename] may put an entry of kind [e] at [dst]. *)
Definition may_replace (fs : FileSystem) (e : FsEntry) (dst : string) : bool :=
  match fs_entries fs !! dst, e with
  | None, _ => true
  | Some (FsFile _), FsFile _ => true
  | Some FsDir, FsDir => is_empty_dir fs dst
  | _, _ => false
  end.

(** [os.rename(src, dst)] *)
Definition rename (fs : FileSystem) (src dst : string) : result FileSystem :=
  match fs_entries fs !! src with
  | None => Raise OSError
  | Some e =>
      if String.eqb src dst then Ok fs
      else if (bool_decide (src ∈ fs_denied fs) || bool_decide (dst ∈ fs_denied fs)
               || negb (parent_ok fs dst) || below src dst
               || negb (may_replace fs e dst))%bool
      then Raise OSError
      else Ok (mkFS (list_to_map
                       (prod_map (rename_key src dst) id
                          <$> map_to_list (delete dst (fs_entries fs))))
                    (fs_denied fs))
  end.

(** [os.remove(p)]: the entry of a file goes. *)
Definition remove (fs : FileSystem) (p : string) : result FileSystem :=
  match fs_entries fs !! p with
  | Some (FsFile _) =>
      if bool_decide (p ∈ fs_denied fs) then Raise OSError
      else Ok (mkFS (delete p (fs_entries fs)) (fs_denied fs))
  | _ => Raise OSError
  end.

(** [os.rmdir(p)]: the entry of an empty directory goes. *)
Definition rmdir (fs : FileSystem) (p : string) : result FileSystem :=
  if (is_empty_dir fs p && negb (bool_decide (p ∈ fs_denied fs)))%bool
  then Ok (mkFS (delete p (fs_entries fs)) (fs_denied fs))
  else Raise OSError.

(** The entries directly inside the directory [p], by their full names,
    in the order in which [os.listdir(p)] reports them. *)
Definition listed (fs : FileSystem) (p : string) : list string :=
  filter (fun k => is_Some (entry_name p k)) (map_to_list (fs_entries fs)).*1.

(** [shutil.rmtree(p)], with [ignore_errors] and [onerror] left out as
    [delete] leaves them: the entries of the directory are listed, the
    directories among them are removed in the same way and the files
    with [os.remove], one after the other, and at the end the directory
    itself goes with [os.rmdir]. The first call that fails ends the
    walk with its [OSError], and what has been removed until then stays
    removed: next to the result stands the file system as the walk
    leaves it. The recursion is as deep as the tree; [fuel] bounds
    it. *)
Fixpoint rmtree_walk (fuel : nat) (fs : FileSystem) (p : string)
    : result unit * FileSystem :=
  match fuel with
  | O => (Raise NonTermination, fs)
  | S fuel' =>
      if negb (os_path.isdir fs p) then (Raise OSError, fs)
      else
        let entries :=
          fix entries (names : list string) (fs : FileSystem)
              : result unit * FileSystem :=
            match names with
            | [] => (Ok tt, fs)
            | fullname :: r =>
                let '(res, fs1) :=
                  if os_path.isdir fs fullname then rmtree_walk fuel' fs fullname
                  else match remove fs fullname with
                       | Ok fs1 => (Ok tt, fs1)
                       | Raise e => (Raise e, fs)
                       end in
                match res with
                | Ok _ => entries r fs1
                | Raise e => (Raise e, fs1)
                end
            end in
        match entries (listed fs p) fs with
        | (Ok _, fs1) =>
            match rmdir fs1 p with
            | Ok fs2 => (Ok tt, fs2)
            | Raise e => (Raise e, fs1)
            end
        | (Raise e, fs1) => (Raise e, fs1)
        end
  end.

Definition rmtree (fs : FileSystem) (p : string) : result unit * FileSystem :=
  rmtree_walk (S (size (fs_entries fs))) fs p.

(** [open(p)] for reading, and [read()]. *)
Definition read_file (fs : FileSystem) (p : string) : result string :=
  match fs_entries fs !! p with
  | Some (FsFile data) => Ok data
  | _ => Raise IOError
  end.

(** [safefile.open(p, "w")]: the file can be created or replaced. *)
Definition open_w (fs : FileSystem) (p : string) : result unit :=
  if (os_path.isdir fs p || bool_decide (p ∈ fs_denied fs)
      || negb (parent_ok fs p))%bool
  then Raise IOError
  else Ok tt.

(** [out.close()] of a file opened by [safefile.open]: [data] replaces
    the file at [p] in one step. *)
Definition commit (fs : FileSystem) (p data : string) : FileSystem :=
  mkFS (<[p := FsFile data]> (fs_entries fs)) (fs_denied fs).

End os.

(* ===================================================================== *)
(** * Objects *)
(* ===================================================================== *)

(** References to node objects. *)
Abbreviation ref := positive (only parsing).

(** The Python class of a node object. *)
Inductive NodeClass : Type :=
  | NoteBookPage
  | NoteBookDir
  | NoteBookTrash
  | NoteBook.

#[global] Instance NodeClass_eq_dec : EqDecision NodeClass.
Proof. solve_decision. Defined.

(** The fields [NoteBookNode.__init__] creates. [_meta] is the [attr]
    dictionary of the node's own [NoteBookNodeMetaData] object. *)
Record NoteBookNode : Type := mkNode {
  node_class : NodeClass;
  _notebook : option ref;
  _parent : option ref;
  _basename : option string;
  _children : option (list ref);
  _valid : bool;
  _version : Z;
  _meta : gmap string Value;
  _attr : gmap string Value;
}.

Record NoteBookPreferences : Type := mkPref {
  version : Z;
  default_font : string;
}.

(** The world: the heap of node objects, the store-wide fields of the
    one [NoteBook] object ([pref], [_dirty], [_trash], [_trash_path],
    [notebook_attrs], the makers of its [_node_factory] and what its
    [node_changed] listeners were told), the file system and the clock.
    A node whose [_notebook] is [Some _] points to that notebook. *)
Record World : Type := mkWorld {
  heap : gmap ref NoteBookNode;
  next_ref : ref;
  pref : NoteBookPreferences;
  _dirty : gset ref;
  _trash : option ref;
  _trash_path : option string;
  notebook_attrs : gmap string NoteBookAttr;
  _makers : gmap string NodeClass;
  node_changed : list (list ref * bool);
  fs : FileSystem;
  clock : Z;
}.

Definition set_heap (h : gmap ref NoteBookNode) (w : World) : World :=
  mkWorld h (next_ref w) (pref w) (_dirty w) (_trash w) (_trash_path w)
          (notebook_attrs w) (_makers w) (node_changed w) (fs w) (clock w).
Definition set_next_ref (r : ref) (w : World) : World :=
  mkWorld (heap w) r (pref w) (_dirty w) (_trash w) (_trash_path w)
          (notebook_attrs w) (_makers w) (node_changed w) (fs w) (clock w).
Definition set_pref (p : NoteBookPreferences) (w : World) : World :=
  mkWorld (heap w) (next_ref w) p (_dirty w) (_trash w) (_trash_path w)
          (notebook_attrs w) (_makers w) (node_changed w) (fs w) (clock w).
Definition set_dirty (d : gset ref) (w : World) : World :=
  mkWorld (heap w) (next_ref w) (pref w) d (_trash w) (_trash_path w)
          (notebook_attrs w) (_makers w) (node_changed w) (fs w) (clock w).
Definition set_trash (t : option ref) (w : World) : World :=
  mkWorld (heap w) (next_ref w) (pref w) (_dirty w) t (_trash_path w)
          (notebook_attrs w) (_makers w) (node_changed w) (fs w) (clock w).
Definition set_node_changed (l : list (list ref * bool)) (w : World) : World :=
  mkWorld (heap w) (next_ref w) (pref w) (_dirty w) (_trash w) (_trash_path w)
          (notebook_attrs w) (_makers w) l (fs w) (clock w).
Definition set_fs (f : FileSystem) (w : World) : World :=
  mkWorld (heap w) (next_ref w) (pref w) (_dirty w) (_trash w) (_trash_path w)
          (notebook_attrs w) (_makers w) (node_changed w) f (clock w).

Definition with_notebook (x : option ref) (n : NoteBookNode) : NoteBookNode :=
  mkNode (node_class n) x (_parent n) (_basename n) (_children n) (_valid n)
         (_version n) (_meta n) (_attr n).
Definition with_parent (x : option ref) (n : NoteBookNode) : NoteBookNode :=
  mkNode (node_class n) (_notebook n) x (_basename n) (_children n) (_valid n)
         (_version n) (_meta n) (_attr n).
Definition with_basename (x : option string) (n : NoteBookNode) : NoteBookNode :=
  mkNode (node_class n) (_notebook n) (_parent n) x (_children n) (_valid n)
         (_version n) (_meta n) (_attr n).
Definition with_children (x : option (list ref)) (n : NoteBookNode) : NoteBookNode :=
  mkNode (node_class n) (_notebook n) (_parent n) (_basename n) x (_valid n)
         (_version n) (_meta n) (_attr n).
Definition with_valid (x : bool) (n : NoteBookNode) : NoteBookNode :=
  mkNode (node_class n) (_notebook n) (_parent n) (_basename n) (_children n) x
         (_version n) (_meta n) (_attr n).
Definition with_version (x : Z) (n : NoteBookNode) : NoteBookNode :=
  mkNode (node_class n) (_notebook n) (_parent n) (_basename n) (_children n)
         (_valid n) x (_meta n) (_attr n).
Definition with_attr (x : gmap string Value) (n : NoteBookNode) : NoteBookNode :=
  mkNode (node_class n) (_notebook n) (_parent n) (_basename n) (_children n)
         (_valid n) (_version n) (_meta n) x.

(* ===================================================================== *)
(** * The monad of methods *)
(* ===================================================================== *)

Definition M (A : Type) : Type := World -> result A * World.

#[global] Instance M_ret : MRet M := fun A a w => (Ok a, w).
#[global] Instance M_bind : MBind M := fun A B k m w =>
  match m w with
  | (Ok a, w') => k a w'
  | (Raise e, w') => (Raise e, w')
  end.

Definition raise {A} (e : Exn) : M A := fun w => (Raise e, w).
Definition get_world : M World := fun w => (Ok w, w).
Definition modify (f : World -> World) : M unit := fun w => (Ok tt, f w).

(** A pure computation that may raise. *)
Definition lift {A} (r : result A) : M A := fun w => (r, w).

(** [try: m  except <classes>, e: handler(e)] *)
Definition try_except {A} (m : M A) (classes : Exn -> bool) (handler : Exn -> M A)
    : M A :=
  fun w =>
    match m w with
    | (Raise e, w') => if classes e then handler e w' else (Raise e, w')
    | r => r
    end.

(** [for x in l: body(x)] *)
Fixpoint for_each {A} (l : list A) (body : A -> M unit) : M unit :=
  match l with
  | [] => mret tt
  | x :: r => body x;; for_each r body
  end.

(** The object behind a reference. *)
Definition deref (n : ref) : M NoteBookNode :=
  fun w =>
    match heap w !! n with
    | Some nd => (Ok nd, w)
    | None => (Raise InvalidReference, w)
    end.

(** Assignment to fields of the object [n]. *)
Definition update (n : ref) (f : NoteBookNode -> NoteBookNode) : M unit :=
  nd ← deref n;
  modify (fun w => set_heap (<[n := f nd]> (heap w)) w).

(** A file-system call that changes the file system. *)
Definition fs_call (f : FileSystem -> result FileSystem) : M unit :=
  fun w =>
    match f (fs w) with
    | Ok fs' => (Ok tt, set_fs fs' w)
    | Raise e => (Raise e, w)
    end.

(** A file-system call that only looks. *)
Definition fs_query {A} (f : FileSystem -> result A) : M A :=
  fun w => (f (fs w), w).

(** A call that may have changed the file system when it raises. *)
Definition fs_run (f : FileSystem -> result unit * FileSystem) : M unit :=
  fun w => let '(r, fs') := f (fs w) in (r, set_fs fs' w).

(** [get_timestamp()] *)
Definition get_timestamp : M Z := fun w => (Ok (clock w), w).

(** [d[key]] *)
Definition getitem (d : gmap string Value) (key : string) : M Value :=
  match d !! key with
  | Some v => mret v
  | None => raise (KeyError key)
  end.

(* ===================================================================== *)
(** * Python lists *)
(* ===================================================================== *)

(** [l.insert(index, x)]: a negative index counts from the end, and an
    index out of range is clamped. *)
Definition py_insert {A} (index : Z) (x : A) (l : list A) : list A :=
  let len := Z.of_nat (length l) in
  let i := if index <? 0 then Z.max 0 (index + len) else Z.min index len in
  take (Z.to_nat i) l ++ x :: drop (Z.to_nat i) l.

(** [l.remove(x)]: the first occurrence goes; [None] stands for the
    [ValueError] of a list without [x]. *)
Fixpoint py_remove (x : ref) (l : list ref) : option (list ref) :=
  match l with
  | [] => None
  | y :: r => if Pos.eqb y x then Some r else cons y <$> py_remove x r
  end.

(** [l.sort(key=...)] on the list of (key, element): a stable sort that
    compares keys with [<]. *)
Fixpoint sort_insert {A} (kx : Value * A) (l : list (Value * A)) : list (Value * A) :=
  match l with
  | [] => [kx]
  | ky :: r => if py_lt ky.1 kx.1 then ky :: sort_insert kx r else kx :: ky :: r
  end.

Definition py_sort {A} (l : list (Value * A)) : list (Value * A) :=
  foldr sort_insert [] l.

(* ===================================================================== *)
(** * [NoteBookNode] *)
(* ===================================================================== *)

(** [clear_attr] builds this dictionary. *)
Definition default_attr (title : Value) (content_type : string) : gmap string Value :=
  list_to_map [
    ("title", title);
    ("content_type", VText content_type);
    ("order", VInt sys_maxint);
    ("created_time", VNone);
    ("modified_time", VNone);
    ("expanded", VBool false);
    ("expanded2", VBool false);
    ("info_sort", VInt INFO_SORT_NONE);
    ("info_sort_dir", VInt 1)].

(** [_set_basename] on the fields of a node. *)
Definition set_basename (path : option string) (nd : NoteBookNode) : NoteBookNode :=
  match _parent nd, path with
  | None, _ => with_basename path nd
  | Some _, None => with_basename None nd
  | Some _, Some p => with_basename (Some (os_path.basename p)) nd
  end.

Definition _set_basename (self : ref) (path : option string) : M unit :=
  update self (set_basename path).

(** [NoteBookNode.__init__], for an object of class [cls]: the new
    object is allocated and its reference returned. *)
Definition NoteBookNode_init (cls : NodeClass) (path : option string) (title : Value)
    (parent notebook : option ref) (content_type : string) : M ref :=
  w ← get_world;
  let self := next_ref w in
  let nd := mkNode cls notebook parent None None true NOTEBOOK_FORMAT_VERSION ∅
                   (default_attr title content_type) in
  modify (fun w => set_next_ref (Pos.succ self) (set_heap (<[self := nd]> (heap w)) w));;
  _set_basename self path;;
  mret self.

(** The base names from [ptr] up to the root, as the loop of [get_path]
    collects them; a chain of parents that never reaches [None] keeps
    the loop running. *)
Fixpoint path_list (fuel : nat) (h : gmap ref NoteBookNode) (ptr : option ref)
    : result (list (option string)) :=
  match ptr with
  | None => Ok []
  | Some n =>
      match fuel with
      | O => Raise NonTermination
      | S fuel' =>
          match h !! n with
          | None => Raise InvalidReference
          | Some nd =>
              result_bind (path_list fuel' h (_parent nd)) (fun r =>
                Ok (_basename nd :: r))
          end
      end
  end.

(** [os.path.join( * path_list)]; a base name that is [None] has no
    [startswith] and no [endswith]. *)
Fixpoint join_all (acc : string) (l : list (option string)) : result string :=
  match l with
  | [] => Ok acc
  | Some b :: r => join_all (os_path.join acc b) r
  | None :: _ => Raise AttributeError
  end.

Definition get_path (self : ref) : M string :=
  w ← get_world;
  l ← lift (path_list (S (size (heap w))) (heap w) (Some self));
  match rev l with
  | Some a :: r => lift (join_all a r)
  | _ => raise AttributeError
  end.

Definition get_meta_file (self : ref) : M string :=
  p ← get_path self; mret (get_node_meta_file p).

Definition get_attr (self : ref) (name : string) (dflt : Value) : M Value :=
  nd ← deref self; mret (default dflt (_attr nd !! name)).

(** [NoteBook._set_dirty_node(node, dirty)] *)
Definition _set_dirty_node (node : ref) (dirty : bool) : M unit :=
  modify (fun w =>
    if dirty then set_dirty ({[node]} ∪ _dirty w) w
    else if bool_decide (node ∈ _dirty w) then set_dirty (_dirty w ∖ {[node]}) w
    else w).

(** [NoteBook._is_dirty_node(node)] *)
Definition _is_dirty_node (node : ref) : M bool :=
  w ← get_world; mret (bool_decide (node ∈ _dirty w)).

(** [NoteBook.save_needed()] *)
Definition save_needed : M bool :=
  w ← get_world; mret (bool_decide (0 < size (_dirty w))%nat).

(** [self._notebook.<method>]: a node without notebook has none. *)
Definition the_notebook (self : ref) : M ref :=
  nd ← deref self;
  match _notebook nd with
  | Some nb => mret nb
  | None => raise AttributeError
  end.

Definition _set_dirty (self : ref) (dirty : bool) : M unit :=
  the_notebook self;; _set_dirty_node self dirty.

Definition _is_dirty (self : ref) : M bool :=
  the_notebook self;; _is_dirty_node self.

Definition set_attr (self : ref) (name : string) (value : Value) : M unit :=
  update self (fun nd => with_attr (<[name := value]> (_attr nd)) nd);;
  _set_dirty self true.

Definition del_attr (self : ref) (name : string) : M unit :=
  nd ← deref self;
  match _attr nd !! name with
  | None => raise (KeyError name)
  | Some _ => update self (fun nd => with_attr (delete name (_attr nd)) nd)
  end.

Definition set_attr_timestamp (self : ref) (name : string) (timestamp : option Z)
    : M unit :=
  timestamp ← match timestamp with
              | None => get_timestamp
              | Some t => mret t
              end;
  update self (fun nd => with_attr (<[name := VInt timestamp]> (_attr nd)) nd);;
  _set_dirty self true.

Definition set_info_sort (self : ref) (info sort_dir : Value) : M unit :=
  update self (fun nd => with_attr (<["info_sort" := info]> (_attr nd)) nd);;
  update self (fun nd => with_attr (<["info_sort_dir" := sort_dir]> (_attr nd)) nd);;
  _set_dirty self true.

(** [node_changed.notify(nodes, recurse)] when the node has a notebook. *)
Definition notify_changes (self : ref) (nodes : list ref) (recurse : bool) : M unit :=
  nd ← deref self;
  match _notebook nd with
  | Some _ => modify (fun w => set_node_changed (node_changed w ++ [(nodes, recurse)]) w)
  | None => mret tt
  end.

Definition notify_change (self : ref) (recurse : bool) : M unit :=
  notify_changes self [self] recurse.

(** [NoteBookNodeMetaData.write(filename, node, notebook_attrs)] *)
Definition NoteBookNodeMetaData_write (filename : string) (node : ref) : M unit :=
  try_except
    (fs_query (fun fs => os.open_w fs filename);;
     nd ← deref node;
     w ← get_world;
     text ← lift (meta_text (_version nd) (_attr nd) (notebook_attrs w));
     modify (fun w => set_fs (os.commit (fs w) filename text) w))
    is_Exception
    (fun e => raise (NoteBookError "Cannot write meta data" (Some e))).

Definition write_meta_data (self : ref) : M unit :=
  filename ← get_meta_file self;
  the_notebook self;;
  NoteBookNodeMetaData_write filename self.

(** [NoteBookNode.save(force)] *)
Definition NoteBookNode_save (self : ref) (force : bool) : M unit :=
  dirty ← (if force then mret true else _is_dirty self);
  nd ← deref self;
  if (dirty && _valid nd)%bool then
    write_meta_data self;;
    _set_dirty self false
  else mret tt.

(** [set_meta_data(attr)]: the version is looked up in the node's own
    [_meta.attr], the attributes are those of the argument. *)
Definition set_meta_data (self : ref) (attr : gmap string Value) : M unit :=
  nd ← deref self;
  v ← match _meta nd !! "version" with
      | None => mret NOTEBOOK_FORMAT_VERSION
      | Some (VInt v) => mret v
      | Some _ => raise TypeError
      end;
  update self (fun nd => with_attr (attr ∪ _attr nd) (with_version v nd)).

(** [NoteBookTrash.__init__(name, notebook)] *)
Definition NoteBookTrash_init (name : string) (notebook : ref) : M ref :=
  root ← get_path notebook;
  self ← NoteBookNode_init NoteBookTrash (Some (get_trash_dir root)) (VText name)
           (Some notebook) (Some notebook) CONTENT_TYPE_DIR;
  set_attr self "content_type" (VText CONTENT_TYPE_TRASH);;
  mret self.

(** The makers [NoteBook.__init__] registers with its node factory. *)
Definition default_makers : gmap string NodeClass :=
  <[CONTENT_TYPE_TRASH := NoteBookTrash]>
    (<[CONTENT_TYPE_PAGE := NoteBookPage]>
       (<[CONTENT_TYPE_DIR := NoteBookDir]> ∅)).

(** A maker called on [(path, parent, notebook, attr)]. *)
Definition make_node (cls : NodeClass) (path : string) (parent notebook : ref) : M ref :=
  match cls with
  | NoteBookTrash => NoteBookTrash_init TRASH_NAME notebook
  | NoteBookPage =>
      NoteBookNode_init NoteBookPage (Some path) (VText "") (Some parent)
        (Some notebook) CONTENT_TYPE_PAGE
  | _ =>
      NoteBookNode_init NoteBookDir (Some path) (VText "") (Some parent)
        (Some notebook) CONTENT_TYPE_DIR
  end.

(** [NoteBookNodeFactory.read_node(notebook, parent, path)]; [None] is
    the Python [None]. *)
Definition read_node (notebook parent : ref) (path : string) : M (option ref) :=
  let metafile := get_node_meta_file path in
  w ← get_world;
  if os_path.exists_ (fs w) metafile then
    attr ← lift (NoteBookNodeMetaData_read (os.read_file (fs w) metafile)
                   (notebook_attrs w) (clock w));
    let maker :=
      match default (VText CONTENT_TYPE_DIR) (attr !! "content_type") with
      | VText ct => _makers w !! ct
      | _ => None
      end in
    match maker with
    | Some cls =>
        node ← make_node cls path parent notebook;
        set_meta_data node attr;;
        mret (Some node)
    | None => mret None
    end
  else mret None.

(** [_set_child_order] over the children from position [i] on. *)
Fixpoint set_child_order_from (i : Z) (children : list ref) : M unit :=
  match children with
  | [] => mret tt
  | child :: r =>
      nd ← deref child;
      order ← getitem (_attr nd) "order";
      (if negb (py_eq order (VInt i)) then
         update child (fun nd => with_attr (<["order" := VInt i]> (_attr nd)) nd);;
         _set_dirty child true
       else mret tt);;
      set_child_order_from (i + 1) r
  end.

(** The list a node's [_children] refers to ([None] is not iterable). *)
Definition children_of (self : ref) : M (list ref) :=
  nd ← deref self;
  match _children nd with
  | Some l => mret l
  | None => raise TypeError
  end.

Definition _set_child_order (self : ref) : M unit :=
  children ← children_of self;
  set_child_order_from 0 children.

(** The loop of [_get_children] over the directory listing. *)
Fixpoint read_children (self : ref) (path : string) (files : list string) : M unit :=
  match files with
  | [] => mret tt
  | filename :: r =>
      let path2 := os_path.join path filename in
      try_except
        (nb ← the_notebook self;
         node ← read_node nb self path2;
         match node with
         | Some node =>
             update self (fun nd =>
               with_children (Some (default [] (_children nd) ++ [node])) nd)
         | None => mret tt
         end)
        is_NoteBookError
        (fun _ => mret tt);;
      read_children self path r
  end.

(** The sort keys [x._attr["order"]] of the children. *)
Fixpoint order_keys (children : list ref) : M (list (Value * ref)) :=
  match children with
  | [] => mret []
  | child :: r =>
      nd ← deref child;
      k ← getitem (_attr nd) "order";
      ks ← order_keys r;
      mret ((k, child) :: ks)
  end.

(** [NoteBookNode._get_children] down to the end of its [for] loop:
    the children list is emptied, the directory is listed and the nodes
    found there are appended. *)
Definition load_children (self : ref) : M unit :=
  update self (with_children (Some []));;
  path ← get_path self;
  files ← try_except (fs_query (fun fs => os.listdir fs path))
            is_OSError
            (fun e => raise (NoteBookError
                               "Do not have permission to read folder contents"
                               (Some e)));
  read_children self path files.

(** [NoteBookNode._get_children]: the loop, then the two lines under
    the comment assign orders. *)
Definition _get_children (self : ref) : M unit :=
  load_children self;;
  children ← children_of self;
  keyed ← order_keys children;
  update self (with_children (Some (py_sort keyed).*2));;
  _set_child_order self.

(** The first lines of the methods that need the children loaded. *)
Definition ensure_children (self : ref) : M unit :=
  nd ← deref self;
  match _children nd with
  | None => _get_children self
  | Some _ => mret tt
  end.

(** [NoteBookNode.get_children] *)
Definition NoteBookNode_get_children (self : ref) : M (list ref) :=
  ensure_children self;;
  children_of self.

(** [NoteBook.get_trash()] *)
Definition get_trash : M (option ref) :=
  w ← get_world; mret (_trash w).

(** [_add_child(child, index)] *)
Definition _add_child (self child : ref) (index : option Z) : M unit :=
  nd ← deref self;
  update child (with_notebook (_notebook nd));;
  ensure_children self;;
  children ← children_of self;
  trash ← get_trash;
  (match index with
   | Some index =>
       update self (with_children (Some (py_insert index child children)));;
       _set_child_order self
   | None =>
       if (bool_decide (is_Some (_notebook nd))
           && bool_decide (0 < length children)%nat
           && bool_decide (Some <$> last children = Some trash))%bool
       then
         update self (with_children
           (Some (py_insert (Z.of_nat (length children) - 1) child children)));;
         _set_child_order self
       else
         update child (fun c =>
           with_attr (<["order" := VInt (Z.of_nat (length children))]> (_attr c)) c);;
         update self (with_children (Some (children ++ [child])))
   end);;
  _set_dirty child true.

(** [_remove_child(child)] *)
Definition _remove_child (self child : ref) : M unit :=
  ensure_children self;;
  children ← children_of self;
  match py_remove child children with
  | Some l => update self (with_children (Some l))
  | None => raise ValueError
  end.

(** The title handed to [get_valid_unique_filename]: the regular
    expressions want a string. *)
Definition as_text (v : Value) : M string :=
  match v with
  | VText s => mret s
  | _ => raise TypeError
  end.

(** [index] as the value Python compares. *)
Definition index_value (index : option Z) : Value :=
  match index with
  | Some i => VInt i
  | None => VNone
  end.

(** [NoteBookNode.move(parent, index)] *)
Definition NoteBookNode_move (self parent : ref) (index : option Z) : M unit :=
  (if Pos.eqb self parent then raise AssertionError else mret tt);;
  path ← get_path self;
  nd ← deref self;
  let old_parent := _parent nd in
  (if negb (bool_decide (old_parent = Some parent)) then
     parent_path ← get_path parent;
     basename ← match _basename nd with
                | Some b => mret b
                | None => raise AttributeError
                end;
     let path2 := os_path.join parent_path basename in
     let parent_path := os_path.dirname path2 in
     title ← getitem (_attr nd) "title";
     title ← as_text title;
     path2 ← fs_query (fun fs =>
               get_valid_unique_filename fs parent_path title "" " " 2);
     try_except (fs_call (fun fs => os.rename fs path path2))
       is_OSError
       (fun e => raise (NoteBookError "Do not have permission for move" (Some e)));;
     _set_basename self (Some path2)
   else mret tt);;
  (* perform move in data structure *)
  match old_parent with
  | None => raise AttributeError
  | Some old =>
      _remove_child old self;;
      (if negb (Pos.eqb old parent) then
         _set_child_order old;;
         update self (with_parent (Some parent));;
         _add_child parent self index
       else
         nd ← deref self;
         order ← getitem (_attr nd) "order";
         let index := if py_lt order (index_value index)
                      then (fun i => i - 1) <$> index else index in
         _add_child old self index);;
      _set_dirty self true;;
      NoteBookNode_save self true;;
      (* notify listeners *)
      (if negb (Pos.eqb parent old)
       then notify_changes self [old; parent] true
       else notify_change old true)
  end.

(** The [walk] of [delete]: the loaded descendants become invalid. *)
Fixpoint invalidate_walk (fuel : nat) (node : ref) : M unit :=
  match fuel with
  | O => raise NonTermination
  | S fuel' =>
      nd ← deref node;
      match _children nd with
      | None => mret tt
      | Some children =>
          for_each children (fun child =>
            update child (with_valid false);;
            invalidate_walk fuel' child)
      end
  end.

(** [NoteBookNode.delete()] *)
Definition NoteBookNode_delete (self : ref) : M unit :=
  path ← get_path self;
  try_except (fs_run (fun fs => os.rmtree fs path))
    is_OSError
    (fun e => raise (NoteBookError "Do not have permission to delete" (Some e)));;
  nd ← deref self;
  match _parent nd with
  | None => raise AttributeError
  | Some parent =>
      _remove_child parent self;;
      _set_child_order parent;;
      update self (with_valid false);;
      _set_dirty self false;;
      w ← get_world;
      invalidate_walk (S (size (heap w))) self;;
      notify_change parent true
  end.

(** [NoteBookNode.rename(title)] *)
Definition rename (self : ref) (title : string) : M unit :=
  nd ← deref self;
  old_title ← getitem (_attr nd) "title";
  if py_eq (VText title) old_title then mret tt
  else
    match _parent nd with
    | None =>
        update self (fun nd => with_attr (<["title" := VText title]> (_attr nd)) nd);;
        _set_dirty self true
    | Some _ =>
        path ← get_path self;
        let parent_path := os_path.dirname path in
        path2 ← fs_query (fun fs =>
                  get_valid_unique_filename fs parent_path title "" " " 2);
        try_except
          (fs_call (fun fs => os.rename fs path path2);;
           update self (fun nd => with_attr (<["title" := VText title]> (_attr nd)) nd);;
           _set_basename self (Some path2);;
           NoteBookNode_save self true)
          (fun e => (is_OSError e || is_NoteBookError e)%bool)
          (fun e => raise (NoteBookError
                             ("Cannot rename '" +:+ path +:+ "' to '" +:+ path2 +:+ "'")
                             (Some e)));;
        notify_change self false
    end.

(* ===================================================================== *)
(** * [NoteBookTrash] *)
(* ===================================================================== *)

(** [NoteBookTrash.move(parent, index)] *)
Definition NoteBookTrash_move (self parent : ref) (index : option Z) : M unit :=
  nd ← deref self;
  if bool_decide (Some parent = _notebook nd) then
    (if bool_decide (Some parent = _parent nd) then mret tt else raise AssertionError);;
    NoteBookNode_move self parent index
  else raise (NoteBookError "The Trash folder must be a top-level folder." None).

(** [NoteBookTrash.delete()] *)
Definition NoteBookTrash_delete (self : ref) : M unit :=
  raise (NoteBookError "The Trash folder cannot be deleted." None).

(** [node.move(parent, index)] and [node.delete()]: the method of the
    object's class runs. *)
Definition node_move (self parent : ref) (index : option Z) : M unit :=
  nd ← deref self;
  match node_class nd with
  | NoteBookTrash => NoteBookTrash_move self parent index
  | _ => NoteBookNode_move self parent index
  end.

Definition node_delete (self : ref) : M unit :=
  nd ← deref self;
  match node_class nd with
  | NoteBookTrash => NoteBookTrash_delete self
  | _ => NoteBookNode_delete self
  end.

(* ===================================================================== *)
(** * Preferences *)
(* ===================================================================== *)

(** Modelled from the spec: [keepnote.xmlobject] (the class [XmlObject]
    and its [Tag]s, of which [g_notebook_pref_parser] is an instance) is
    not under [src/]. The preference file is a root element [notebook]
    wrapping a [version] element (integer) and a [default_font] element
    (text). Reading stores what each element decodes to into the object
    it is given, as the [getobj] pairs of the source say
    ([("version", int)] and [("default_font", str)]) and as
    [get_notebook_version] relies on; a file that is not well formed is
    an [XmlError]. *)
Module xmlo.

Record Reader : Type := mkReader {
  in_root : bool;
  tag : option string;
  data : string;
  obj : NoteBookPreferences;
}.

Definition start (name : string) (attrs : expat.attrs_t) (r : Reader) : result Reader :=
  if in_root r then Ok (mkReader true (Some name) EmptyString (obj r))
  else if String.eqb name "notebook" then Ok (mkReader true None EmptyString (obj r))
  else Raise XmlError.

Definition end_ (name : string) (r : Reader) : result Reader :=
  match tag r with
  | None => Ok (mkReader false None EmptyString (obj r))
  | Some t =>
      result_bind
        (if String.eqb t "version" then
           result_bind (py_int (VText (data r)))
             (fun v => Ok (mkPref v (default_font (obj r))))
         else if String.eqb t "default_font" then
           Ok (mkPref (version (obj r)) (data r))
         else Ok (obj r))
        (fun o => Ok (mkReader true None EmptyString o))
  end.

Definition chars (d : string) (r : Reader) : result Reader :=
  Ok (mkReader (in_root r) (tag r) (data r +:+ d) (obj r)).

Definition handlers : expat.Handlers Reader := expat.mkHandlers start end_ chars.

(** [g_notebook_pref_parser.read(obj, filename)] on the opened file. *)
Definition read (o : NoteBookPreferences) (infile : result string)
    : result NoteBookPreferences :=
  match infile with
  | Raise e => Raise e
  | Ok text =>
      match expat.ParseFile handlers (mkReader false None EmptyString o) text with
      | Ok r => Ok (obj r)
      | Raise ExpatError => Raise XmlError
      | Raise e => Raise e
      end
  end.

(** What [g_notebook_pref_parser.write(obj, filename)] writes. *)
Definition text (o : NoteBookPreferences) : string :=
  XML_HEADER +:+ "<notebook>" +:+ NL
  +:+ "<version>" +:+ PyStr.of_int (version o) +:+ "</version>" +:+ NL
  +:+ "<default_font>" +:+ escape (default_font o) +:+ "</default_font>" +:+ NL
  +:+ "</notebook>" +:+ NL.

End xmlo.

(** [NoteBook.get_pref_file()] and [NoteBook.get_pref_dir()] *)
Definition NoteBook_get_pref_file (self : ref) : M string :=
  p ← get_path self; mret (get_pref_file p).
Definition NoteBook_get_pref_dir (self : ref) : M string :=
  p ← get_path self; mret (get_pref_dir p).

(** [NoteBook.write_preferences()] *)
Definition write_preferences (self : ref) : M unit :=
  try_except
    (d ← NoteBook_get_pref_dir self;
     w ← get_world;
     (if negb (os_path.exists_ (fs w) d)
      then fs_call (fun fs => os.mkdir fs d) else mret tt);;
     f ← NoteBook_get_pref_file self;
     fs_query (fun fs => os.open_w fs f);;
     modify (fun w => set_fs (os.commit (fs w) f (xmlo.text (pref w))) w))
    (fun e => (is_IOError e || is_OSError e || is_XmlError e)%bool)
    (fun e => if is_XmlError e
              then raise (NoteBookError "File format error" (Some e))
              else raise (NoteBookError "Cannot save notebook preferences" (Some e))).

(** [NoteBook.read_preferences()]. The parser is handed [self.pref] and
    stores into it; what it stored is there when the version is
    compared. *)
Definition read_preferences (self : ref) : M unit :=
  try_except
    (f ← NoteBook_get_pref_file self;
     w ← get_world;
     p ← lift (xmlo.read (pref w) (os.read_file (fs w) f));
     modify (set_pref p))
    (fun e => (is_IOError e || is_XmlError e)%bool)
    (fun e => if is_IOError e
              then raise (NoteBookError "Cannot read notebook preferences" (Some e))
              else raise (NoteBookError "Notebook preference data is corrupt" (Some e)));;
  w ← get_world;
  if NOTEBOOK_FORMAT_VERSION <? version (pref w)
  then raise (NoteBookVersionError (version (pref w)) NOTEBOOK_FORMAT_VERSION)
  else mret tt.

(* ===================================================================== *)
(** * [NoteBook] *)
(* ===================================================================== *)

(** [safefile.open(datafile, "w")], [write(BLANK_NOTE)], [close()] *)
Definition write_empty_data_file (self : ref) : M unit :=
  p ← get_path self;
  let datafile := get_page_data_file p in
  try_except
    (fs_query (fun fs => os.open_w fs datafile);;
     modify (fun w => set_fs (os.commit (fs w) datafile BLANK_NOTE) w))
    is_IOError
    (fun e => raise (NoteBookError
                       ("Cannot initialize richtext file '" +:+ datafile +:+ "'")
                       (Some e))).

(** [NoteBookNode.create()] *)
Definition NoteBookNode_create (self : ref) : M unit :=
  path ← get_path self;
  try_except (fs_call (fun fs => os.mkdir fs path))
    is_OSError
    (fun e => raise (NoteBookError "Cannot create node" (Some e)));;
  t ← get_timestamp;
  update self (fun nd => with_attr (<["created_time" := VInt t]> (_attr nd)) nd);;
  t ← get_timestamp;
  update self (fun nd => with_attr (<["modified_time" := VInt t]> (_attr nd)) nd);;
  write_meta_data self;;
  _set_dirty self false;;
  nd ← deref self;
  content_type ← getitem (_attr nd) "content_type";
  if py_eq content_type (VText CONTENT_TYPE_PAGE)
  then write_empty_data_file self
  else mret tt.

(** [NoteBook.is_trash_dir(child)] *)
Definition is_trash_dir (child : ref) : M bool :=
  p ← get_path child;
  w ← get_world;
  match _trash_path w with
  | Some t => mret (String.eqb p t)
  | None => raise AttributeError
  end.

(** The search loop of [_init_trash]. *)
Fixpoint find_trash (children : list ref) : M unit :=
  match children with
  | [] => mret tt
  | child :: r =>
      b ← is_trash_dir child;
      if (b : bool) then modify (set_trash (Some child))
      else find_trash r
  end.

(** [NoteBook._init_trash()] *)
Definition _init_trash (self : ref) : M unit :=
  modify (set_trash None);;
  children ← children_of self;
  find_trash children;;
  trash ← get_trash;
  match trash with
  | Some _ => mret tt
  | None =>
      try_except
        (t ← NoteBookTrash_init TRASH_NAME self;
         modify (set_trash (Some t));;
         NoteBookNode_create t;;
         _add_child self t None)
        is_NoteBookError
        (fun e => raise (NoteBookError "Cannot create Trash folder" (Some e)))
  end.

(** [NoteBook.get_children()] *)
Definition NoteBook_get_children (self : ref) : M (list ref) :=
  nd ← deref self;
  (match _children nd with
   | None => _get_children self;; _init_trash self
   | Some _ => mret tt
   end);;
  children_of self.

(** [NoteBook.save(force)]. The nodes the two loops save are not the
    notebook itself (it is no child of itself, and [_set_dirty(False)]
    has just taken it out of [_dirty]), so [node.save] is the method of
    [NoteBookNode]. *)
Definition NoteBook_save (self : ref) (force : bool) : M unit :=
  w ← get_world;
  (if (force || bool_decide (self ∈ _dirty w))%bool then
     write_meta_data self;;
     write_preferences self
   else mret tt);;
  _set_dirty self false;;
  (if force then
     children ← NoteBook_get_children self;
     for_each children (fun node => NoteBookNode_save node force)
   else
     w ← get_world;
     for_each (elements (_dirty w)) (fun node => NoteBookNode_save node false));;
  modify (set_dirty (∅ : gset ref)).

(** [NoteBook.__init__(rootdir)]: the world just after the notebook
    object, which gets the reference [1], has been built, over the file
    system [fs0] and with the clock at [now]. *)
Definition NoteBook_init (rootdir : option string) (fs0 : FileSystem) (now : Z) : World :=
  let self : ref := 1%positive in
  let title := match rootdir with
               | Some r => VText (os_path.basename r)
               | None => VNone
               end in
  let nd := mkNode NoteBook (Some self) None rootdir None true
                   NOTEBOOK_FORMAT_VERSION ∅
                   (<["order" := VInt 0]>
                      (<["title" := title]> (default_attr (VText "") CONTENT_TYPE_DIR))) in
  mkWorld {[self := nd]} 2%positive (mkPref NOTEBOOK_FORMAT_VERSION DEFAULT_FONT)
          ∅ None
          (match rootdir with
           | Some r => if String.eqb r "" then None else Some (get_trash_dir r)
           | None => None
           end)
          default_notebook_attrs default_makers [] fs0 now.

(* ===================================================================== *)
(** * HTML functions *)
(* ===================================================================== *)

(** [s.find(sub)]: the index of the first occurrence; [None] is the -1
    of a text without [sub]. *)
Fixpoint str_find (sub s : string) : option nat :=
  if String.prefix sub s then Some O
  else match s with
       | EmptyString => None
       | String _ r => S <$> str_find sub r
       end.

(** [s[:n]] *)
Fixpoint str_take (n : nat) (s : string) : string :=
  match n, s with
  | S n', String c r => String c (str_take n' r)
  | _, _ => EmptyString
  end.

(** [re.sub(TAG_PATTERN, replacement, line)] with the empty replacement,
    for [TAG_PATTERN = re.compile("<[^>]*>")]. The scan goes from the
    left: an opening angle bracket that has a closing one somewhere after
    it starts a match, which ends at the first closing bracket (the class
    between them takes every other character, line feeds too); any other
    character is kept. [in_tag] says that the scan is inside a match. *)
Fixpoint strip_tags_from (in_tag : bool) (line : string) : string :=
  match line with
  | EmptyString => EmptyString
  | String c r =>
      if in_tag then
        if Ascii.eqb c ">" then strip_tags_from false r else strip_tags_from true r
      else if (Ascii.eqb c "<" && PyStr.mem ">" r)%bool then strip_tags_from true r
      else String c (strip_tags_from false r)
  end.

Definition strip_tags (line : string) : string := strip_tags_from false line.

(** The second loop of [read_data_as_plain_text], over the lines the
    first loop has left in the iterator. *)
Fixpoint plain_text_until_end (infile : list string) : list string :=
  match infile with
  | [] => []
  | line :: r =>
      match str_find "</body>" line with
      | Some pos => [strip_tags (str_take pos line)]
      | None => strip_tags line :: plain_text_until_end r
      end
  end.

(** [read_data_as_plain_text(infile)]: everything the generator yields,
    for the lines [infile] iterates over. Both loops draw from the same
    iterator: the second one starts after the line at which the first
    one stopped. *)
Fixpoint read_data_as_plain_text (infile : list string) : list string :=
  match infile with
  | [] => []
  | line :: r =>
      match str_find "<body>" line with
      | Some pos => strip_tags (PyStr.drop (pos + 6) line) :: plain_text_until_end r
      | None => read_data_as_plain_text r
      end
  end.

(** The lines [for line in infile] gives for a file with the text
    [text]: each ends with its line feed, the last one may lack it. *)
Fixpoint file_lines_from (cur text : string) : list string :=
  match text with
  | EmptyString => if String.eqb cur EmptyString then [] else [cur]
  | String c r =>
      if Ascii.eqb c expat.LF then expat.snoc cur c :: file_lines_from EmptyString r
      else file_lines_from (expat.snoc cur c) r
  end.

Definition file_lines (text : string) : list string :=
  file_lines_from EmptyString text.

(** [NoteBookNode.get_data_file()] *)
Definition get_data_file (self : ref) : M string :=
  p ← get_path self; mret (get_page_data_file p).

(** [NoteBookNode.read_data_as_plain_text()]: the lines the generator
    yields until it is exhausted. *)
Definition NoteBookNode_read_data_as_plain_text (self : ref) : M (list string) :=
  filename ← get_data_file self;
  text ← fs_query (fun fs => os.read_file fs filename);
  mret (read_data_as_plain_text (file_lines text)).

(* ===================================================================== *)
(** * Loading the metadata of a node *)
(* ===================================================================== *)

Definition with_meta (x : gmap string Value) (n : NoteBookNode) : NoteBookNode :=
  mkNode (node_class n) (_notebook n) (_parent n) (_basename n) (_children n)
         (_valid n) (_version n) x (_attr n).

Definition set_trash_path (p : option string) (w : World) : World :=
  mkWorld (heap w) (next_ref w) (pref w) (_dirty w) (_trash w) p
          (notebook_attrs w) (_makers w) (node_changed w) (fs w) (clock w).

(** The state of the parser before the character at which [feed] stops,
    or at the end of the text. *)
Fixpoint feed_reached {H : Type} (hs : expat.Handlers H) (p : expat.Parser H)
    (text : string) : expat.Parser H :=
  match text with
  | EmptyString => p
  | String c r =>
      match expat.step hs p c with
      | Ok p' => feed_reached hs p' r
      | Raise _ => p
      end
  end.

(** [self.attr] of a [NoteBookNodeMetaData] object once [read] is over,
    also when it has raised: the handlers assign to [self.attr] as their
    last action, so what is there after an exception is what the events
    before it have stored. *)
Definition NoteBookNodeMetaData_attr_after (infile : result string)
    (notebook_attrs : gmap string NoteBookAttr) (now : Z) : gmap string Value :=
  match NoteBookNodeMetaData_read infile notebook_attrs now with
  | Ok attr => attr
  | Raise _ =>
      let self := mkMeta (<["modified_time" := VNone]> (<["created_time" := VNone]> ∅))
                         notebook_attrs false None None None in
      match infile with
      | Ok text =>
          md_attr (expat.user (feed_reached meta_handlers (expat.ParserCreate self) text))
      | Raise _ => md_attr self
      end
  end.

(** [NoteBookNode.read_meta_data()]: the node's own metadata object
    reads the file, then [set_meta_data] takes what it holds. *)
Definition read_meta_data (self : ref) : M unit :=
  filename ← get_meta_file self;
  the_notebook self;;
  w ← get_world;
  let infile := os.read_file (fs w) filename in
  update self (with_meta (NoteBookNodeMetaData_attr_after infile (notebook_attrs w)
                            (clock w)));;
  attr ← lift (NoteBookNodeMetaData_read infile (notebook_attrs w) (clock w));
  set_meta_data self attr.

(** [NoteBookNode.load()] *)
Definition NoteBookNode_load (self : ref) : M unit := read_meta_data self.

(** [NoteBookNode.get_title()] *)
Definition get_title (self : ref) : M Value :=
  nd ← deref self;
  title ← getitem (_attr nd) "title";
  (if bool_decide (title = VNone) then read_meta_data self else mret tt);;
  nd ← deref self;
  getitem (_attr nd) "title".

(* ===================================================================== *)
(** * The trash and new nodes *)
(* ===================================================================== *)

(** The loop of [in_trash], from [ptr]; a chain of parents that never
    reaches [None] or the trash folder keeps it running. *)
Fixpoint in_trash_loop (fuel : nat) (self : ref) (ptr : option ref) : M bool :=
  match ptr with
  | None => mret false
  | Some p =>
      match fuel with
      | O => raise NonTermination
      | S fuel' =>
          the_notebook self;;
          trash ← get_trash;
          if bool_decide (Some p = trash) then mret true
          else
            pd ← deref p;
            in_trash_loop fuel' self (_parent pd)
      end
  end.

(** [NoteBookNode.in_trash()] *)
Definition in_trash (self : ref) : M bool :=
  nd ← deref self;
  w ← get_world;
  in_trash_loop (S (size (heap w))) self (_parent nd).

(** [NoteBookNode.trash()]. When the notebook has no trash folder yet,
    the argument of [move] is [None]: the trash folder refuses it as any
    parent that is not its notebook, and for the other nodes [move]
    fails at the first use of the parent, after [get_path]. *)
Definition trash (self : ref) : M unit :=
  nd ← deref self;
  match _notebook nd with
  | None => raise (NoteBookError "This node is not part of any notebook" None)
  | Some _ =>
      b ← in_trash self;
      if (b : bool) then node_delete self
      else
        t ← get_trash;
        match t with
        | Some t => node_move self t None
        | None =>
            match node_class nd with
            | NoteBookTrash =>
                raise (NoteBookError "The Trash folder must be a top-level folder." None)
            | _ => get_path self;; raise AttributeError
            end
        end
  end.

(** [new_page] and [new_dir]: the class and the content type of the
    node are what differs. *)
Definition new_child (cls : NodeClass) (content_type : string) (self : ref)
    (title : string) : M ref :=
  path ← get_path self;
  newpath ← fs_query (fun fs => get_valid_unique_filename fs path title "" " " 2);
  nd ← deref self;
  node ← NoteBookNode_init cls (Some newpath) (VText title) (Some self) (_notebook nd)
           content_type;
  NoteBookNode_create node;;
  _add_child self node None;;
  NoteBookNode_save node true;;
  notify_change self true;;
  mret node.

(** [NoteBookNode.new_page(title)] *)
Definition new_page (self : ref) (title : string) : M ref :=
  new_child NoteBookPage CONTENT_TYPE_PAGE self title.

(** [NoteBookNode.new_dir(title)] *)
Definition new_dir (self : ref) (title : string) : M ref :=
  new_child NoteBookDir CONTENT_TYPE_DIR self title.

(* ===================================================================== *)
(** * Creating, loading and emptying a notebook *)
(* ===================================================================== *)

(** [os.path.isfile(p)] *)
Definition os_path_isfile (fs : FileSystem) (p : string) : bool :=
  match fs_entries fs !! p with
  | Some (FsFile _) => true
  | _ => false
  end.

(** [NoteBook.create()] *)
Definition NoteBook_create (self : ref) : M unit :=
  NoteBookNode_create self;;
  d ← NoteBook_get_pref_dir self;
  fs_call (fun fs => os.mkdir fs d);;
  write_meta_data self;;
  write_preferences self.

(** [NoteBook.load(filename)] *)
Definition NoteBook_load (self : ref) (filename : option string) : M unit :=
  (match filename with
   | Some filename =>
       w ← get_world;
       (if os_path.isdir (fs w) filename then _set_basename self (Some filename)
        else if os_path_isfile (fs w) filename
        then _set_basename self (Some (os_path.dirname filename))
        else raise (NoteBookError ("Cannot find notebook '" +:+ filename +:+ "'") None));;
       p ← get_path self;
       modify (set_trash_path (Some (get_trash_dir p)))
   | None => mret tt
   end);;
  read_meta_data self;;
  read_preferences self;;
  notify_change self true.

(** [NoteBook.empty_trash()]: the loop runs over a copy of the children
    list, last child first. *)
Definition empty_trash (self : ref) : M unit :=
  t ← get_trash;
  (match t with
   | None => _init_trash self
   | Some _ => mret tt
   end);;
  t ← get_trash;
  match t with
  | None => raise AttributeError
  | Some t =>
      children ← NoteBookNode_get_children t;
      for_each (rev children) node_delete
  end.

(* ===================================================================== *)
(** * Predicates of the statements *)
(* ===================================================================== *)

(** The two worlds have the same children lists. *)
Definition same_children (w w' : World) : Prop :=
  ∀ n, _children <$> heap w' !! n = _children <$> heap w !! n.

(** The two worlds have the same objects. *)
Definition same_heap (w w' : World) : Prop := heap w' = heap w.

(** A computation that assigns to no [_children]. *)
Definition keeps_children {A} (m : M A) : Prop :=
  ∀ w, same_children w (m w).2.

(** The sort keys of children whose stored orders are integers. *)
Definition int_keyed (stored : list (Z * ref)) : list (Value * ref) :=
  prod_map VInt id <$> stored.

(** The stable insertion sort of [py_sort], on integer keys. *)
Fixpoint z_insert (x : Z * ref) (l : list (Z * ref)) : list (Z * ref) :=
  match l with
  | [] => [x]
  | y :: r => if y.1 <? x.1 then y :: z_insert x r else x :: y :: r
  end.

Definition z_sort (l : list (Z * ref)) : list (Z * ref) := foldr z_insert [] l.

(** The children that [_set_child_order] renumbers, counting from [i]:
    those whose order is not their position. *)
Fixpoint renumbered (i : Z) (l : list (Z * ref)) : gset ref :=
  match l with
  | [] => ∅
  | (z, c) :: r => (if z =? i then ∅ else {[c]}) ∪ renumbered (i + 1) r
  end.

(** The attribute of a node in a world. *)
Definition attr_of (w : World) (n : ref) (name : string) : option Value :=
  heap w !! n ≫= (fun nd => _attr nd !! name).

(** The class of the object behind a reference. *)
Definition class_of (w : World) (n : ref) : option NodeClass :=
  node_class <$> heap w !! n.

(** The order, when the metadata has one, is an integer. *)
Definition order_ok (attr : gmap string Value) : Prop :=
  attr !! "order" = None ∨ ∃ z, attr !! "order" = Some (VInt z).

(** What the handlers of the metadata reader keep true, for the
    registry [nattrs]. *)
Definition meta_inv (nattrs : gmap string NoteBookAttr)
    (self : NoteBookNodeMetaData) : Prop :=
  md_notebook_attrs self = nattrs ∧ order_ok (md_attr self).

(** [w'] is [w] after the allocation of one node, which has an integer
    order and is dirty exactly when it is a trash folder. *)
Definition allocated (w w' : World) : Prop :=
  next_ref w' = Pos.succ (next_ref w)
  ∧ (∀ r, r ≠ next_ref w -> heap w' !! r = heap w !! r)
  ∧ (∃ z, attr_of w' (next_ref w) "order" = Some (VInt z))
  ∧ _dirty w' = _dirty w ∪ (if bool_decide (class_of w' (next_ref w) = Some NoteBookTrash)
                           then {[next_ref w]} else ∅)
  ∧ notebook_attrs w' = notebook_attrs w.

(** The state of the loop of [_get_children] on [self], started in
    [w0]: [stored] are the children appended so far, in that order, with
    the order each was loaded with. They are new objects without
    repetition; the old objects other than [self] are untouched; the
    dirty set has grown by the new trash folders. *)
Definition loading (w0 : World) (self : ref) (w : World) (stored : list (Z * ref))
    : Prop :=
  (next_ref w0 ≤ next_ref w)%positive
  ∧ (∀ r, (r < next_ref w0)%positive -> r ≠ self -> heap w !! r = heap w0 !! r)
  ∧ (∃ sd, heap w !! self = Some sd ∧ _children sd = Some stored.*2)
  ∧ NoDup stored.*2
  ∧ (∀ z c, (z, c) ∈ stored ->
       (next_ref w0 ≤ c)%positive ∧ (c < next_ref w)%positive
       ∧ attr_of w c "order" = Some (VInt z))
  ∧ (∀ r, r ∈ _dirty w ↔
          r ∈ _dirty w0
          ∨ ((next_ref w0 ≤ r)%positive ∧ (r < next_ref w)%positive
             ∧ class_of w r = Some NoteBookTrash))
  ∧ notebook_attrs w = notebook_attrs w0.

(** The text a value may be for the metadata file to give it back:
    the UTF-8 encoding of characters that XML 1.0 allows, without the
    carriage return (which a parser reports as a line feed). *)
Definition xml_char_ok (c : ascii) : bool :=
  (expat.is_xml_char c && negb (Ascii.eqb c expat.CR))%bool.

(** The bytes are characters of XML 1.0 in well-formed UTF-8, from the
    first byte of a character to the last byte of one. *)
Definition utf8_ok (s : string) : bool :=
  match expat.utf8_run expat.Boundary s with
  | Some expat.Boundary => true
  | _ => false
  end.

Definition xml_text_ok (s : string) : bool :=
  (utf8_ok s && PyStr.forallb xml_char_ok s)%bool.

Definition xml_value_ok (v : Value) : bool :=
  match v with
  | VText s => xml_text_ok s
  | _ => true
  end.

(** A sign or a decimal digit. *)
Definition decimal_char (c : ascii) : bool := PyStr.mem c "-0123456789".

(** An ASCII character that stands for itself inside a quoted attribute
    value. *)
Definition key_char (c : ascii) : bool :=
  (expat.in_range 0 127 c && expat.is_xml_char c && negb (expat.is_space c)
   && negb (PyStr.mem c (String "034" "'<&")))%bool.

(** The state of the parser between two elements of the metadata file,
    inside the root element, with [m] decoded so far. *)
Definition between (m : gmap string Value) : expat.Parser NoteBookNodeMetaData :=
  expat.mkParser (expat.Content false) ["node"] false
    (mkMeta m default_notebook_attrs true None None None).

(** The attributes decoded after the lines of [kvs]. *)
Definition decoded_after (kvs : list (string * Value)) (m : gmap string Value)
    : gmap string Value :=
  foldl (fun m kv => <[kv.1 := kv.2]> m) m kvs.

(** Every attribute of the list has a registered schema entry, a value
    of the registered type and, when it is text, characters the file
    gives back. *)
Definition registered (kvs : list (string * Value)) : Prop :=
  ∀ k v, (k, v) ∈ kvs ->
    ∃ a, default_notebook_attrs !! k = Some a
         ∧ has_datatype v (attr_datatype a) = true
         ∧ xml_value_ok v = true.

(* ===================================================================== *)
(** * Predicates of the further statements *)
(* ===================================================================== *)

(** An upper-case ASCII letter. *)
Definition is_upper (c : ascii) : bool :=
  let n := nat_of_ascii c in (Nat.leb 65 n && Nat.leb n 90)%bool.

(** A character that a sanitised file name may hold: no slash or
    backslash, none of [REGEX_BAD_CHARS], no tab, no upper-case letter. *)
Definition filename_char (c : ascii) : bool :=
  (negb (REGEX_SLASHES c) && negb (REGEX_BAD_CHARS c)
   && negb (Ascii.eqb c TAB) && negb (is_upper c))%bool.

(** The candidate that [get_unique_filename] probes for the number [i]. *)
Definition candidate (path filename ext sep : string) (i : Z) : string :=
  os_path.join path (filename +:+ sep +:+ PyStr.of_int i +:+ ext).

(** The text holds a complete tag: an opening angle bracket with a
    closing one somewhere after it. *)
Fixpoint has_tag (s : string) : bool :=
  match s with
  | EmptyString => false
  | String c r => (Ascii.eqb c "<" && PyStr.mem ">" r) || has_tag r
  end.

(** The nodes from [ptr] up the chain of parents. *)
Fixpoint ancestors (fuel : nat) (h : gmap ref NoteBookNode) (ptr : option ref)
    : list ref :=
  match ptr, fuel with
  | Some n, S fuel' =>
      n :: match h !! n with
           | Some nd => ancestors fuel' h (_parent nd)
           | None => []
           end
  | _, _ => []
  end.

(** The trash folder of the notebook is among the nodes of [l]. *)
Definition trash_among (w : World) (l : list ref) : Prop :=
  ∃ t, _trash w = Some t ∧ t ∈ l.

#[global] Instance trash_among_dec (w : World) (l : list ref) : Decision (trash_among w l).
Proof.
  unfold trash_among. destruct (_trash w) as [t|].
  - destruct (decide (t ∈ l)) as [Hin|Hnin].
    + left. by exists t.
    + right. intros (t' & [= <-] & Hin). by apply Hnin.
  - right. by intros (t' & [=] & _).
Defined.

(** The file system [fs'] is [fs] without some of the entries below the
    directory [p]: nothing has been added or rewritten, and nothing
    outside [p], and not [p] itself, has been removed. *)
Definition removed_below (p : string) (fs fs' : FileSystem) : Prop :=
  fs_denied fs' = fs_denied fs
  ∧ ∀ k, fs_entries fs' !! k = fs_entries fs !! k
         ∨ (fs_entries fs' !! k = None ∧ os.below p k = true).

(** The path of the node [c] is the path of the trash folder:
    [is_trash_dir(c)] answers [True]. *)
Definition at_trash_path (w : World) (c : ref) : Prop :=
  ∃ p, (get_path c w).1 = Ok p ∧ _trash_path w = Some p.

(** The node [c] has a path and it is not the path of the trash folder:
    [is_trash_dir(c)] answers [False]. *)
Definition off_trash_path (w : World) (c : ref) : Prop :=
  ∃ p t, (get_path c w).1 = Ok p ∧ _trash_path w = Some t ∧ p ≠ t.

(** [_init_trash] has found the trash folder [t] among the children
    [l1] loaded in [w1]: [t] is the first child whose path is the path
    of the trash folder, the children returned are the children loaded,
    and only the field [_trash] has been assigned. *)
Definition trash_found (t : ref) (l1 l : list ref) (w1 w' : World) : Prop :=
  l = l1
  ∧ w' = set_trash (Some t) w1
  ∧ ∃ pre post, l1 = pre ++ t :: post
                ∧ Forall (off_trash_path w1) pre ∧ at_trash_path w1 t.

(** [_init_trash] has created the trash folder [t] of the notebook
    [self]: none of the children [l1] loaded in [w1] has the path of
    the trash folder; [t] is the object the constructor has allocated,
    a valid [NoteBookTrash] with the notebook as parent, with the base
    name of the trash directory of the notebook, the title [TRASH_NAME]
    and the content type of a trash folder; its directory exists. *)
Definition trash_created (self t : ref) (l1 : list ref) (w1 w' : World) : Prop :=
  Forall (off_trash_path w1) l1
  ∧ t = next_ref w1
  ∧ ∃ td root p,
      (get_path self w1).1 = Ok root
      ∧ heap w' !! t = Some td
      ∧ node_class td = NoteBookTrash ∧ _parent td = Some self
      ∧ _basename td = Some (os_path.basename (get_trash_dir root))
      ∧ _valid td = true
      ∧ _attr td !! "title" = Some (VText TRASH_NAME)
      ∧ _attr td !! "content_type" = Some (VText CONTENT_TYPE_TRASH)
      ∧ (get_path t w').1 = Ok p
      ∧ os_path.isdir (fs w') p = true.

(** The keys of the two timestamps are in [attr]. *)
Definition has_timestamps (self : NoteBookNodeMetaData) : Prop :=
  is_Some (md_attr self !! "created_time") ∧ is_Some (md_attr self !! "modified_time").

(** What the operations that load, create, add and save nodes leave of
    a node they did not build: its class, its parent, its base name, its
    validity, its title and its content type. *)
Definition node_core (nd : NoteBookNode)
    : NodeClass * option ref * option string * bool * option Value * option Value :=
  (node_class nd, _parent nd, _basename nd, _valid nd,
   _attr nd !! "title", _attr nd !! "content_type").

(** [w'] has the objects of [w], with what [node_core] keeps of them,
    maybe new objects above them, and the trash folder and the registry
    of [w]. *)
Definition extends (w w' : World) : Prop :=
  (next_ref w ≤ next_ref w')%positive
  ∧ (∀ r, (r < next_ref w)%positive ->
          node_core <$> heap w' !! r = node_core <$> heap w !! r)
  ∧ _trash w' = _trash w
  ∧ notebook_attrs w' = notebook_attrs w.

(** A computation that only extends the world. *)
Definition keeps_nodes {A} (m : M A) : Prop :=
  ∀ w, extends w (m w).2.

(** What [new_page] and [new_dir] have done when they return [node] in
    the world [w'], called on [self] in the world [w]: [node] is a new
    object of the class [cls], valid, with the title and the content
    type given and with [self] as parent; it is among the children of
    [self] and not in the dirty set, and its metadata file holds the
    encoding of its attributes. *)
Definition created_under (cls : NodeClass) (content_type : string) (self : ref)
    (title : string) (node : ref) (w w' : World) : Prop :=
  node = next_ref w
  ∧ ∃ nd l path text,
      heap w' !! node = Some nd
      ∧ node_class nd = cls ∧ _parent nd = Some self ∧ _valid nd = true
      ∧ _attr nd !! "title" = Some (VText title)
      ∧ _attr nd !! "content_type" = Some (VText content_type)
      ∧ _children <$> heap w' !! self = Some (Some l) ∧ node ∈ l
      ∧ (node ∉ _dirty w')
      ∧ (get_path node w').1 = Ok path
      ∧ meta_text (_version nd) (_attr nd) (notebook_attrs w') = Ok text
      ∧ os.read_file (fs w') (get_node_meta_file path) = Ok text.

(** A computation whose final world is related by [R] to the world it
    starts in, whether it returns or raises. *)
Definition frame {A} (R : World -> World -> Prop) (m : M A) : Prop :=
  ∀ w, R w (m w).2.

(** Nothing has been written, marked dirty or moved in a children list,
    every node has the parent it had, and no node that was not valid
    has become valid. *)
Definition fades (w w' : World) : Prop :=
  fs w' = fs w ∧ _dirty w' = _dirty w ∧ same_children w w'
  ∧ (∀ r, _parent <$> heap w' !! r = _parent <$> heap w !! r)
  ∧ ∀ r, _valid <$> heap w !! r = Some false -> _valid <$> heap w' !! r = Some false.

(** Nothing has been written, the nodes have the class, parent, base
    name, validity, title and content type they had, and the children
    lists of the nodes other than [p] are what they were. *)
Definition settled (p : ref) (w w' : World) : Prop :=
  fs w' = fs w
  ∧ (∀ r, node_core <$> heap w' !! r = node_core <$> heap w !! r)
  ∧ ∀ r, r ≠ p -> _children <$> heap w' !! r = _children <$> heap w !! r.

(** Nothing has been written, the path of the trash folder is the same
    and every node is where it was: it has the parent and the base name
    it had. *)
Definition same_places (w w' : World) : Prop :=
  fs w' = fs w ∧ _trash_path w' = _trash_path w
  ∧ ∀ r nd, heap w !! r = Some nd ->
      ∃ nd', heap w' !! r = Some nd' ∧ _parent nd' = _parent nd
             ∧ _basename nd' = _basename nd.

(** Only the nodes and the dirty set may differ: nothing has been
    written, and the preferences, the trash folder, its path and the
    notifications sent to the listeners are what they were. *)
Definition in_memory (w w' : World) : Prop :=
  fs w' = fs w ∧ pref w' = pref w ∧ _trash w' = _trash w
  ∧ _trash_path w' = _trash_path w ∧ node_changed w' = node_changed w.

(* ===================================================================== *)
(** * Worlds used in the examples *)
(* ===================================================================== *)

Module Examples.

(** The text of a [node.xml], as [NoteBookNodeMetaData.write] puts it
    for a node with the attributes of [clear_attr] and these. *)
Definition node_xml (title content_type : string) (order : Z) : string :=
  match meta_text NOTEBOOK_FORMAT_VERSION
          (<["order" := VInt order]>
             (<["created_time" := VInt 5]>
                (<["modified_time" := VInt 6]>
                   (default_attr (VText title) content_type))))
          default_notebook_attrs with
  | Ok s => s
  | Raise _ => EmptyString
  end.

(** A directory [nb] with the entries [notes], [notes 2], [notes 3]. *)
Definition fs_notes : FileSystem :=
  mkFS (list_to_map [("nb", FsDir); ("nb/notes", FsDir);
                     ("nb/notes 2", FsDir); ("nb/notes 3", FsDir)]) ∅.

(** A notebook on disk: the root [nb] with its preference file, the
    folder [f] whose three children [y], [z], [x] (as the directory
    lists them) have the stored orders 2, 0, 1,
    the folder [g] whose children [a], [b], [c] have the orders
    0, 1, 2, the page [d] inside [c], and the trash folder, stored as a
    node of the trash type with the order 2. *)
Definition fs_tree : FileSystem :=
  mkFS (list_to_map [
    ("nb", FsDir);
    ("nb/node.xml", FsFile (node_xml "nb" CONTENT_TYPE_DIR 0));
    ("nb/__NOTEBOOK__", FsDir);
    ("nb/notebook.nbk",
     FsFile (xmlo.text (mkPref NOTEBOOK_FORMAT_VERSION DEFAULT_FONT)));
    ("nb/f", FsDir);
    ("nb/f/node.xml", FsFile (node_xml "F" CONTENT_TYPE_DIR 0));
    ("nb/f/x", FsDir);
    ("nb/f/x/node.xml", FsFile (node_xml "X" CONTENT_TYPE_PAGE 1));
    ("nb/f/y", FsDir);
    ("nb/f/y/node.xml", FsFile (node_xml "Y" CONTENT_TYPE_DIR 2));
    ("nb/f/z", FsDir);
    ("nb/f/z/node.xml", FsFile (node_xml "Z" CONTENT_TYPE_PAGE 0));
    ("nb/g", FsDir);
    ("nb/g/node.xml", FsFile (node_xml "G" CONTENT_TYPE_DIR 1));
    ("nb/g/a", FsDir);
    ("nb/g/a/node.xml", FsFile (node_xml "A" CONTENT_TYPE_PAGE 0));
    ("nb/g/b", FsDir);
    ("nb/g/b/node.xml", FsFile (node_xml "B" CONTENT_TYPE_PAGE 1));
    ("nb/g/c", FsDir);
    ("nb/g/c/node.xml", FsFile (node_xml "C" CONTENT_TYPE_DIR 2));
    ("nb/g/c/d", FsDir);
    ("nb/g/c/d/node.xml", FsFile (node_xml "D" CONTENT_TYPE_PAGE 0));
    ("nb/__TRASH__", FsDir);
    ("nb/__TRASH__/node.xml", FsFile (node_xml "Trash" CONTENT_TYPE_TRASH 2))
  ]) ∅.

(** The notebook object. *)
Definition nb : ref := 1%positive.

(** [NoteBook("nb")] over that file system. *)
Definition w_init : World := NoteBook_init (Some "nb") fs_tree 100.

(** The same notebook over a preference file written by a newer
    version of the format. *)
Definition w_newer : World :=
  set_fs (os.commit fs_tree "nb/notebook.nbk" (xmlo.text (mkPref 3 "Serif 12")))
         w_init.

(** The world after [nb.get_children()]: the children of the root are
    loaded; they are [f], [g] and the trash folder. *)
Definition w_root : World := (NoteBook_get_children nb w_init).2.
Definition f : ref := 4%positive.
Definition g : ref := 3%positive.
Definition trash : ref := 2%positive.

(** The world after [g.get_children()] on top of that; the children of
    [g] are [a], [b] and [c]. *)
Definition w_loaded : World := (NoteBookNode_get_children g w_root).2.
Definition a : ref := 6%positive.
Definition b : ref := 7%positive.
Definition c : ref := 5%positive.

(** The world after [c.get_children()] on top of that, then a
    notebook-wide save, then a change to the page [d] of [c], then the
    deletion of [c]: [d] is invalid and still in the dirty set. *)
Definition w_sub : World := (NoteBookNode_get_children c w_loaded).2.
Definition d : ref := 8%positive.
Definition w_saved : World := (NoteBook_save nb false w_sub).2.
Definition w_edited : World := (set_attr d "expanded" (VBool true) w_saved).2.
Definition w_deleted : World := (node_delete c w_edited).2.

(** [w_loaded] where the directory of [a] may neither be renamed nor
    removed. *)
Definition w_locked : World :=
  set_fs (mkFS (fs_entries (fs w_loaded)) {["nb/g/a"]}) w_loaded.

(** [w_loaded] where nothing may be written to the [node.xml] that a
    directory [alpha] of [g] would hold. *)
Definition w_readonly : World :=
  set_fs (mkFS (fs_entries (fs w_loaded)) {["nb/g/alpha/node.xml"]}) w_loaded.

(** The reference of the child of [parent] with the given title, among
    the loaded children. *)
Definition child_titled (w : World) (parent : ref) (title : string) : option ref :=
  nd ← heap w !! parent;
  children ← _children nd;
  list_find (fun c => bool_decide
               ((heap w !! c) ≫= (fun cd => _attr cd !! "title") = Some (VText title)))
            children ≫= (fun ic => Some ic.2).

(** The titles and the orders of the loaded children of [parent]. *)
Definition children_view (w : World) (parent : ref) : list (option Value * option Value) :=
  match heap w !! parent ≫= _children with
  | Some children =>
      (fun c => ((heap w !! c) ≫= (fun cd => _attr cd !! "title"),
                 (heap w !! c) ≫= (fun cd => _attr cd !! "order"))) <$> children
  | None => []
  end.

(** A title with a carriage return in it, and one with a control
    character. *)
Definition cr_title : string := String "a" (String "013" "b").
Definition ctrl_title : string := String "a" (String "001" "b").

(** Titles that no file can hold: the bytes of U+FFFF and of the
    surrogate U+D800. *)
Definition ffff_title : string := String "239" (String "191" (String "191" "")).
Definition surrogate_title : string := String "237" (String "160" (String "128" "")).

(** A title with characters of two, three and four bytes: e acute,
    the euro sign and U+1F600. *)
Definition wide_title : string :=
  "caf" +:+ String "195" (String "169" (String " "
    (String "226" (String "130" (String "172" (String " "
      (String "240" (String "159" (String "152" (String "128" "")))))))))).

(** Decoding what the writer wrote for the attributes [attr]: the
    decoded value of [key], or the exception of the reader. *)
Definition write_then_read (attr : gmap string Value) (key : string)
    : result (option Value) :=
  result_bind (meta_text NOTEBOOK_FORMAT_VERSION attr default_notebook_attrs)
    (fun text =>
       result_bind (NoteBookNodeMetaData_read (Ok text) default_notebook_attrs 100)
         (fun decoded => Ok (decoded !! key))).

End Examples.

(** Further worlds and texts. *)
Module Scenarios.

(** The lines of a note: a head, a body that opens and closes in the
    middle of a line, a bare angle bracket inside the body, and a line
    after the end of the body. *)
Definition note_lines : list string := [
  "<html><head><title>t</title></head>" +:+ NL;
  "<body><p>Hello <b>world</b></p>" +:+ NL;
  "<p>a < b</p>" +:+ NL;
  "<p>end</p></body></html>" +:+ NL;
  "<!-- trailer -->" +:+ NL ].

(** A notebook directory with one page whose [node.xml] was written
    with the format version 5. *)
Definition fs_v5 : FileSystem :=
  mkFS (list_to_map [
    ("nb", FsDir);
    ("nb/p", FsDir);
    ("nb/p/node.xml",
     FsFile (match meta_text 5
                     (<["order" := VInt 0]>
                        (<["created_time" := VInt 5]>
                           (<["modified_time" := VInt 6]>
                              (default_attr (VText "P") CONTENT_TYPE_PAGE))))
                     default_notebook_attrs with
             | Ok s => s
             | Raise _ => EmptyString
             end))
  ]) ∅.

(** [NoteBook("nb")] over that file system. *)
Definition w_v5 : World := NoteBook_init (Some "nb") fs_v5 100.

(** A metadata file that ends before its root element is closed. *)
Definition fs_truncated : FileSystem :=
  mkFS {["n/node.xml" := FsFile "<node><version>2</version>"]} ∅.

(** [NoteBook("nb2")] over an empty file system. *)
Definition w_new : World := NoteBook_init (Some "nb2") (mkFS ∅ ∅) 100.

(** The notebook of the examples after the children of the trash folder
    have been loaded and the pages [a] and [b] have been put into it. *)
Definition w_trashed : World :=
  (trash Examples.b
     (trash Examples.a
        (NoteBookNode_get_children Examples.trash Examples.w_loaded).2).2).2.

End Scenarios.

(** Closed facts about the example worlds are settled by evaluation. *)
Ltac by_computation :=
  repeat match goal with |- _ ∧ _ => split end;
  vm_compute; first [reflexivity | discriminate].

(* ===================================================================== *)
(** * Properties of the file-name policy *)
(* ===================================================================== *)

Section StringFacts.

Lemma append_cons (x : ascii) (a b : string) :
  String x a +:+ b = String x (a +:+ b).
Proof. reflexivity. Qed.

Lemma append_assoc (a b c : string) : (a +:+ b) +:+ c = a +:+ (b +:+ c).
Proof.
  induction a as [|x a IH]; [done|]. rewrite !append_cons. by rewrite IH.
Qed.

Lemma append_nil_r (a : string) : a +:+ "" = a.
Proof. induction a as [|x a IH]; [done|]. rewrite append_cons. by rewrite IH. Qed.

Lemma append_length (a b : string) :
  String.length (a +:+ b) = (String.length a + String.length b)%nat.
Proof.
  induction a as [|x a IH]; [done|]. rewrite append_cons. cbn. by rewrite IH.
Qed.

End StringFacts.

Section FilenamePolicy.

Lemma join_relative (path a : string) :
  PyStr.startswith "/" a = false ->
  os_path.join path a =
    (if (String.eqb path "" || PyStr.endswith_char "/" path)%bool
     then path else path +:+ "/") +:+ a.
Proof.
  intros Ha. unfold os_path.join. rewrite Ha.
  destruct (String.eqb path "" || PyStr.endswith_char "/" path)%bool; [done|].
  by rewrite append_assoc.
Qed.

Lemma join_inj (path a b : string) :
  PyStr.startswith "/" a = false -> PyStr.startswith "/" b = false ->
  os_path.join path a = os_path.join path b -> a = b.
Proof.
  intros Ha Hb. rewrite !join_relative by done. apply String.app_inj.
Qed.

Lemma exists_lookup (fs : FileSystem) (p : string) :
  os_path.exists_ fs p = true -> is_Some (fs_entries fs !! p).
Proof. unfold os_path.exists_. apply bool_decide_eq_true_1. Qed.

(** Two different paths that exist leave room for three iterations. *)
Lemma loop_bound_two (fs : FileSystem) (p q : string) :
  p ≠ q -> os_path.exists_ fs p = true -> os_path.exists_ fs q = true ->
  ∃ n, loop_bound fs = S (S (S n)).
Proof.
  intros Hpq [x Hp]%exists_lookup [y Hq]%exists_lookup.
  unfold loop_bound.
  assert (Hq' : delete p (fs_entries fs) !! q = Some y)
    by (by rewrite lookup_delete_ne).
  rewrite <- (insert_delete_id _ _ _ Hp).
  rewrite map_size_insert_None by apply lookup_delete_eq.
  rewrite <- (insert_delete_id _ _ _ Hq').
  rewrite map_size_insert_None by apply lookup_delete_eq.
  eauto.
Qed.

End FilenamePolicy.

(** C9. Sanitisation takes only one leading pair of underscores away,
    so it is not idempotent: the sanitised form of the title of four
    underscores and an x is two underscores and an x, which still starts
    with the reserved prefix, and sanitising that once more gives
    another name, the single x. *)
Theorem get_valid_filename_not_idempotent :
  get_valid_filename "____x" = "__x"
  ∧ PyStr.startswith "__" (get_valid_filename "____x") = true
  ∧ get_valid_filename (get_valid_filename "____x") = "x"
  ∧ get_valid_filename (get_valid_filename "____x") ≠ get_valid_filename "____x".
Proof. repeat split; try reflexivity. discriminate. Qed.

(** C4, as stated, fails: the function returns the path of the free
    name inside the directory, not the bare name. *)
Lemma get_valid_unique_filename_returns_path :
  get_valid_unique_filename Examples.fs_notes "nb" "Notes" "" " " 2
    = Ok "nb/notes 4"
  ∧ get_valid_unique_filename Examples.fs_notes "nb" "Notes" "" " " 2
    ≠ Ok "notes 4".
Proof. split; [by vm_compute | vm_compute; discriminate]. Qed.

(** C4, amended. In a directory [path] that holds [notes], [notes 2] and
    [notes 3] and no [notes 4], the title Notes gets the path of
    [notes 4] in that directory: the title is put in lower case, the
    base name is probed first, then the suffixes from 2 on, and the
    first free candidate is returned, joined to the directory. *)
Theorem get_valid_unique_filename_notes (fs : FileSystem) (path : string) :
  (path = "" ∨ os_path.exists_ fs path = true) ->
  os_path.exists_ fs (os_path.join path "notes") = true ->
  os_path.exists_ fs (os_path.join path "notes 2") = true ->
  os_path.exists_ fs (os_path.join path "notes 3") = true ->
  os_path.exists_ fs (os_path.join path "notes 4") = false ->
  get_valid_unique_filename fs path "Notes" "" " " 2
    = Ok (os_path.join path "notes 4").
Proof.
  intros Hdir H1 H2 H3 H4.
  unfold get_valid_unique_filename, get_unique_filename.
  replace (get_valid_filename "Notes") with "notes" by reflexivity.
  assert (Hassert :
    (negb (String.eqb path "") && negb (os_path.exists_ fs path))%bool = false).
  { destruct Hdir as [-> | ->]; [done|]. by rewrite andb_false_r. }
  rewrite Hassert.
  change ("notes" +:+ "") with "notes". rewrite H1. cbn [negb].
  destruct (loop_bound_two fs (os_path.join path "notes") (os_path.join path "notes 2"))
    as [n ->]; [|done|done|].
  { intros Heq. by apply join_inj in Heq. }
  cbn [unique_filename_loop].
  change ("notes" +:+ " " +:+ PyStr.of_int 2 +:+ "") with "notes 2".
  rewrite H2. cbn [negb].
  change ("notes" +:+ " " +:+ PyStr.of_int (2 + 1) +:+ "") with "notes 3".
  rewrite H3. cbn [negb].
  change ("notes" +:+ " " +:+ PyStr.of_int (2 + 1 + 1) +:+ "") with "notes 4".
  by rewrite H4.
Qed.

Lemma get_valid_unique_filename_notes_witness :
  get_valid_unique_filename Examples.fs_notes "nb" "Notes" "" " " 2
    = Ok (os_path.join "nb" "notes 4").
Proof.
  apply (get_valid_unique_filename_notes Examples.fs_notes "nb");
    first [ by right; vm_compute | by vm_compute ].
Defined.

(* ===================================================================== *)
(** * Reasoning in the monad *)
(* ===================================================================== *)

Section MonadFacts.
Context {A B : Type}.

Lemma bind_ok (m : M A) (k : A -> M B) (w w' : World) (a : A) :
  m w = (Ok a, w') -> (m ≫= k) w = k a w'.
Proof. intros H. unfold mbind, M_bind. by rewrite H. Qed.

Lemma bind_raise (m : M A) (k : A -> M B) (w w' : World) (e : Exn) :
  m w = (Raise e, w') -> (m ≫= k) w = (Raise e, w').
Proof. intros H. unfold mbind, M_bind. by rewrite H. Qed.

Lemma try_except_ok (m : M A) (c : Exn -> bool) (h : Exn -> M A)
    (w w' : World) (a : A) :
  m w = (Ok a, w') -> try_except m c h w = (Ok a, w').
Proof. intros H. unfold try_except. by rewrite H. Qed.

Lemma try_except_caught (m : M A) (c : Exn -> bool) (h : Exn -> M A)
    (w w' : World) (e : Exn) :
  m w = (Raise e, w') -> c e = true -> try_except m c h w = h e w'.
Proof. intros H Hc. unfold try_except. by rewrite H, Hc. Qed.

Lemma try_except_passed (m : M A) (c : Exn -> bool) (h : Exn -> M A)
    (w w' : World) (e : Exn) :
  m w = (Raise e, w') -> c e = false -> try_except m c h w = (Raise e, w').
Proof. intros H Hc. unfold try_except. by rewrite H, Hc. Qed.

End MonadFacts.

Lemma deref_ok (w : World) (n : ref) (nd : NoteBookNode) :
  heap w !! n = Some nd -> deref n w = (Ok nd, w).
Proof. intros H. unfold deref. by rewrite H. Qed.

Lemma update_ok (w : World) (n : ref) (nd : NoteBookNode)
    (f : NoteBookNode -> NoteBookNode) :
  heap w !! n = Some nd ->
  update n f w = (Ok tt, set_heap (<[n := f nd]> (heap w)) w).
Proof. intros H. unfold update. by rewrite (bind_ok _ _ _ _ _ (deref_ok _ _ _ H)). Qed.

(** [get_path] only looks at the world. *)
Lemma get_path_world (n : ref) (w : World) : (get_path n w).2 = w.
Proof.
  unfold get_path, mbind, M_bind, get_world, lift, raise.
  destruct (path_list _ _ _) as [l|e]; [|done].
  destruct (rev l) as [|[a|] r]; done.
Qed.

Lemma get_path_eq (n : ref) (w : World) : get_path n w = ((get_path n w).1, w).
Proof. rewrite <- (get_path_world n w) at 3. by destruct (get_path n w). Qed.

Lemma the_notebook_ok (w : World) (n nb : ref) (nd : NoteBookNode) :
  heap w !! n = Some nd -> _notebook nd = Some nb ->
  the_notebook n w = (Ok nb, w).
Proof.
  intros H Hnb. unfold the_notebook.
  rewrite (bind_ok _ _ _ _ _ (deref_ok _ _ _ H)). by rewrite Hnb.
Qed.

Lemma _set_dirty_true (w : World) (n nb : ref) (nd : NoteBookNode) :
  heap w !! n = Some nd -> _notebook nd = Some nb ->
  _set_dirty n true w = (Ok tt, set_dirty ({[n]} ∪ _dirty w) w).
Proof.
  intros H Hnb. unfold _set_dirty.
  by rewrite (bind_ok _ _ _ _ _ (the_notebook_ok _ _ _ _ H Hnb)).
Qed.

(* ===================================================================== *)
(** * The version gate of the preferences *)
(* ===================================================================== *)

(** C1, as stated, fails: after the version error the [pref] record is
    no longer what it was. The preference file of [w_newer] holds the
    version 3 and another font; the call raises and leaves both in
    [pref]. *)
Lemma read_preferences_overwrites_pref :
  xmlo.read (pref Examples.w_newer)
            (os.read_file (fs Examples.w_newer) "nb/notebook.nbk")
    = Ok (mkPref 3 "Serif 12")
  ∧ (read_preferences Examples.nb Examples.w_newer).1
    = Raise (NoteBookVersionError 3 NOTEBOOK_FORMAT_VERSION)
  ∧ pref (read_preferences Examples.nb Examples.w_newer).2 = mkPref 3 "Serif 12"
  ∧ pref (read_preferences Examples.nb Examples.w_newer).2 ≠ pref Examples.w_newer.
Proof. by_computation. Qed.

(** C1, amended. If the preference file decodes to a record [p] whose
    version is above [NOTEBOOK_FORMAT_VERSION], [read_preferences]
    raises [NoteBookVersionError] with that version, and the world is
    the one from before the call except that [pref] is now [p], the
    record decoded from the file. *)
Theorem read_preferences_version_gate (w : World) (self : ref) (path : string)
    (p : NoteBookPreferences) :
  (get_path self w).1 = Ok path ->
  xmlo.read (pref w) (os.read_file (fs w) (get_pref_file path)) = Ok p ->
  NOTEBOOK_FORMAT_VERSION < version p ->
  read_preferences self w
    = (Raise (NoteBookVersionError (version p) NOTEBOOK_FORMAT_VERSION), set_pref p w).
Proof.
  intros Hpath Hread Hv.
  assert (Hpath' : get_path self w = (Ok path, w))
    by (rewrite get_path_eq; by rewrite Hpath).
  unfold read_preferences, NoteBook_get_pref_file.
  erewrite bind_ok; last first.
  { apply try_except_ok.
    erewrite bind_ok; last by (erewrite bind_ok; [|exact Hpath']).
    unfold mbind at 1, M_bind at 1, get_world, lift. rewrite Hread. reflexivity. }
  unfold mbind, M_bind, get_world, modify, raise; cbn.
  apply Z.ltb_lt in Hv. by rewrite Hv.
Qed.

Lemma read_preferences_version_gate_witness :
  read_preferences Examples.nb Examples.w_newer
    = (Raise (NoteBookVersionError 3 NOTEBOOK_FORMAT_VERSION),
       set_pref (mkPref 3 "Serif 12") Examples.w_newer).
Proof.
  apply (read_preferences_version_gate Examples.w_newer Examples.nb "nb"
           (mkPref 3 "Serif 12")); by vm_compute.
Defined.

(* ===================================================================== *)
(** * Attribute mutation and the dirty set *)
(* ===================================================================== *)

Section AttributeMutation.
Variables (w : World) (self nb : ref) (nd : NoteBookNode).
Hypothesis Hself : heap w !! self = Some nd.
Hypothesis Hnb : _notebook nd = Some nb.

(** The three setters end with [_set_dirty(True)]. *)
Lemma set_attr_marks_dirty (name : string) (value : Value) :
  ∃ w', set_attr self name value w = (Ok tt, w') ∧ self ∈ _dirty w'.
Proof.
  unfold set_attr. eexists. split.
  - erewrite bind_ok; [|by apply update_ok].
    eapply _set_dirty_true; [apply lookup_insert_eq|exact Hnb].
  - cbn. set_solver.
Qed.

Lemma set_attr_timestamp_marks_dirty (name : string) (timestamp : option Z) :
  ∃ w', set_attr_timestamp self name timestamp w = (Ok tt, w') ∧ self ∈ _dirty w'.
Proof.
  unfold set_attr_timestamp. eexists. split.
  - erewrite (bind_ok _ _ w w (default (clock w) timestamp));
      [|by destruct timestamp].
    erewrite bind_ok; [|by apply update_ok].
    eapply _set_dirty_true; [apply lookup_insert_eq|exact Hnb].
  - cbn. set_solver.
Qed.

Lemma set_info_sort_marks_dirty (info sort_dir : Value) :
  ∃ w', set_info_sort self info sort_dir w = (Ok tt, w') ∧ self ∈ _dirty w'.
Proof.
  unfold set_info_sort. eexists. split.
  - erewrite bind_ok; [|by apply update_ok].
    erewrite bind_ok; [|apply update_ok; apply lookup_insert_eq].
    eapply _set_dirty_true; [apply lookup_insert_eq|exact Hnb].
  - cbn. set_solver.
Qed.

(** [del_attr] has no such last line: the dirty set stays as it was. *)
Lemma del_attr_dirty_unchanged (name : string) :
  _dirty (del_attr self name w).2 = _dirty w.
Proof.
  unfold del_attr. rewrite (bind_ok _ _ _ _ _ (deref_ok _ _ _ Hself)).
  destruct (_attr nd !! name); [|done].
  by rewrite (update_ok _ _ _ _ Hself).
Qed.

End AttributeMutation.

(** C3, at the failing input. The page [a] of the loaded notebook is
    clean; [del_attr] takes its attribute [expanded] away, returns, and
    [a] is still not in the dirty set, whereas [set_attr] on the same
    node puts it there. *)
Theorem del_attr_does_not_mark_dirty :
  Examples.child_titled Examples.w_loaded Examples.g "A" = Some Examples.a
  ∧ (_is_dirty Examples.a Examples.w_loaded).1 = Ok false
  ∧ (del_attr Examples.a "expanded" Examples.w_loaded).1 = Ok tt
  ∧ (get_attr Examples.a "expanded" VNone
       (del_attr Examples.a "expanded" Examples.w_loaded).2).1 = Ok VNone
  ∧ (_is_dirty Examples.a (del_attr Examples.a "expanded" Examples.w_loaded).2).1
    = Ok false
  ∧ (_is_dirty Examples.a
       (set_attr Examples.a "expanded" (VBool true) Examples.w_loaded).2).1
    = Ok true.
Proof. by_computation. Qed.

(* ===================================================================== *)
(** * The trash folder *)
(* ===================================================================== *)

(** C7. On a node of class [NoteBookTrash], [delete] raises and leaves
    the world (heap, dirty set, file system, notifications) as it was;
    [move] to a parent that is not the node's notebook raises and leaves
    the world as it was; [move] to the notebook, which is the parent of
    the trash folder, is [NoteBookNode.move]. *)
Theorem trash_delete_and_move (w : World) (self parent : ref) (index : option Z)
    (nd : NoteBookNode) :
  heap w !! self = Some nd ->
  node_class nd = NoteBookTrash ->
  node_delete self w
    = (Raise (NoteBookError "The Trash folder cannot be deleted." None), w)
  ∧ (_notebook nd ≠ Some parent ->
     node_move self parent index w
       = (Raise (NoteBookError "The Trash folder must be a top-level folder." None), w))
  ∧ (_notebook nd = Some parent -> _parent nd = Some parent ->
     node_move self parent index w = NoteBookNode_move self parent index w).
Proof.
  intros Hself Hcls. unfold node_delete, node_move.
  rewrite !(bind_ok _ _ _ _ _ (deref_ok _ _ _ Hself)), Hcls.
  unfold NoteBookTrash_delete, NoteBookTrash_move.
  rewrite !(bind_ok _ _ _ _ _ (deref_ok _ _ _ Hself)).
  repeat split.
  - intros Hne. rewrite bool_decide_eq_false_2; [done|congruence].
  - intros Hnb Hp. rewrite !bool_decide_eq_true_2 by congruence.
    unfold mbind, M_bind, mret, M_ret. reflexivity.
Qed.

Lemma trash_delete_and_move_witness :
  node_delete Examples.trash Examples.w_loaded
    = (Raise (NoteBookError "The Trash folder cannot be deleted." None),
       Examples.w_loaded)
  ∧ node_move Examples.trash Examples.f None Examples.w_loaded
    = (Raise (NoteBookError "The Trash folder must be a top-level folder." None),
       Examples.w_loaded)
  ∧ node_move Examples.trash Examples.nb (Some 0) Examples.w_loaded
    = NoteBookNode_move Examples.trash Examples.nb (Some 0) Examples.w_loaded.
Proof.
  assert (Hnd : ∃ nd, heap Examples.w_loaded !! Examples.trash = Some nd
                      ∧ node_class nd = NoteBookTrash
                      ∧ _notebook nd = Some Examples.nb
                      ∧ _parent nd = Some Examples.nb).
  { eexists. split; [by vm_compute|]. repeat split. }
  destruct Hnd as (nd & Hnd & Hcls & Hnb & Hp).
  split; [|split].
  - exact (proj1 (trash_delete_and_move _ _ Examples.nb None nd Hnd Hcls)).
  - apply (proj1 (proj2 (trash_delete_and_move _ _ Examples.f None nd Hnd Hcls))).
    rewrite Hnb. discriminate.
  - by apply (proj2 (proj2 (trash_delete_and_move _ _ Examples.nb (Some 0) nd Hnd Hcls))).
Defined.

(* ===================================================================== *)
(** * Renaming a node *)
(* ===================================================================== *)

(** C2, as stated, fails for the forced save. In [w_readonly] the
    directory of the page [a] can be renamed, but the [node.xml] inside
    the renamed directory cannot be written: [rename] raises the rename
    error, and the node keeps the new title and the new base name that
    were assigned before the save. *)
Lemma rename_save_failure_keeps_new_state :
  Examples.child_titled Examples.w_readonly Examples.g "A" = Some Examples.a
  ∧ (_parent <$> heap Examples.w_readonly !! Examples.a) = Some (Some Examples.g)
  ∧ (_basename <$> heap Examples.w_readonly !! Examples.a) = Some (Some "a")
  ∧ (rename Examples.a "Alpha" Examples.w_readonly).1
    = Raise (NoteBookError "Cannot rename 'nb/g/a' to 'nb/g/alpha'"
               (Some (NoteBookError "Cannot write meta data" (Some IOError))))
  ∧ (get_attr Examples.a "title" VNone
       (rename Examples.a "Alpha" Examples.w_readonly).2).1 = Ok (VText "Alpha")
  ∧ (_basename <$> heap (rename Examples.a "Alpha" Examples.w_readonly).2 !! Examples.a)
    = Some (Some "alpha").
Proof. by_computation. Qed.

(** C2, amended. For a node with a parent and a title different from
    its current one: if the directory rename ([os.rename]) fails, then
    [rename] raises the rename error and the world, hence the title and
    the base name of the node, is what it was before the call. *)
Theorem rename_directory_failure (w : World) (self parent : ref) (title : string)
    (nd : NoteBookNode) (old : Value) (path path2 : string) :
  heap w !! self = Some nd ->
  _parent nd = Some parent ->
  _attr nd !! "title" = Some old ->
  py_eq (VText title) old = false ->
  (get_path self w).1 = Ok path ->
  get_valid_unique_filename (fs w) (os_path.dirname path) title "" " " 2 = Ok path2 ->
  os.rename (fs w) path path2 = Raise OSError ->
  rename self title w
    = (Raise (NoteBookError ("Cannot rename '" +:+ path +:+ "' to '" +:+ path2 +:+ "'")
                (Some OSError)), w).
Proof.
  intros Hself Hparent Htitle Hne Hpath Hpath2 Hrename.
  assert (Hpath' : get_path self w = (Ok path, w))
    by (rewrite get_path_eq; by rewrite Hpath).
  unfold rename.
  rewrite (bind_ok _ _ _ _ _ (deref_ok _ _ _ Hself)).
  unfold getitem. rewrite Htitle.
  unfold mbind at 1, M_bind at 1, mret at 1, M_ret at 1.
  rewrite Hne, Hparent.
  rewrite (bind_ok _ _ _ _ _ Hpath').
  erewrite bind_ok; [|unfold fs_query; by rewrite Hpath2].
  erewrite bind_raise; [reflexivity|].
  erewrite try_except_caught; [reflexivity| |reflexivity].
  apply bind_raise. unfold fs_call. by rewrite Hrename.
Qed.

Lemma rename_directory_failure_witness :
  rename Examples.a "Alpha" Examples.w_locked
    = (Raise (NoteBookError
                ("Cannot rename '" +:+ "nb/g/a" +:+ "' to '" +:+ "nb/g/alpha" +:+ "'")
                (Some OSError)), Examples.w_locked).
Proof.
  assert (Hnd : ∃ nd, heap Examples.w_locked !! Examples.a = Some nd
                      ∧ _parent nd = Some Examples.g
                      ∧ _attr nd !! "title" = Some (VText "A")).
  { eexists. split; [by vm_compute|]. split; by vm_compute. }
  destruct Hnd as (nd & Hnd & Hp & Ht).
  apply (rename_directory_failure Examples.w_locked Examples.a Examples.g "Alpha"
           nd (VText "A") "nb/g/a" "nb/g/alpha" Hnd Hp Ht); by vm_compute.
Defined.

(* ===================================================================== *)
(** * Saving the notebook *)
(* ===================================================================== *)

Lemma bind_inv {A B : Type} (m : M A) (k : A -> M B) (w w' : World) (b : B) :
  (m ≫= k) w = (Ok b, w') -> ∃ a w1, m w = (Ok a, w1) ∧ k a w1 = (Ok b, w').
Proof.
  unfold mbind, M_bind. destruct (m w) as [[a|e] w1]; [eauto|discriminate].
Qed.

(** [node.save()] on a node that is not valid writes nothing and leaves
    the world as it is. *)
Lemma NoteBookNode_save_invalid (w : World) (n nb : ref) (nd : NoteBookNode) :
  heap w !! n = Some nd -> _notebook nd = Some nb -> _valid nd = false ->
  NoteBookNode_save n false w = (Ok tt, w).
Proof.
  intros Hn Hnb Hv. unfold NoteBookNode_save, _is_dirty.
  erewrite bind_ok; last first.
  { erewrite bind_ok; [|by eapply the_notebook_ok]. reflexivity. }
  rewrite (bind_ok _ _ _ _ _ (deref_ok _ _ _ Hn)).
  by rewrite Hv, andb_false_r.
Qed.

Lemma for_each_save_invalid (w : World) (l : list ref) :
  Forall (fun n => ∃ nd nb, heap w !! n = Some nd ∧ _notebook nd = Some nb
                            ∧ _valid nd = false) l ->
  for_each l (fun node => NoteBookNode_save node false) w = (Ok tt, w).
Proof.
  induction 1 as [|n l (nd & nb & Hn & Hnb & Hv) _ IH]; [done|].
  cbn [for_each].
  by rewrite (bind_ok _ _ _ _ _ (NoteBookNode_save_invalid _ _ _ _ Hn Hnb Hv)).
Qed.

(** C10. [NoteBook.save(force=False)] ends by emptying the dirty set:
    whenever it returns, the dirty set is empty and [save_needed()] is
    false. In particular, when the notebook itself is clean and every
    node of the dirty set is invalid, the call returns, each per-node
    save is a no-op, and the world after it is the world before it with
    the dirty set emptied: the file system is untouched. *)
Theorem NoteBook_save_clears_dirty (w : World) (self : ref) :
  (∀ w', NoteBook_save self false w = (Ok tt, w') ->
         _dirty w' = ∅ ∧ save_needed w' = (Ok false, w'))
  ∧ (∀ snd nb,
       heap w !! self = Some snd -> _notebook snd = Some nb -> self ∉ _dirty w ->
       (∀ n, n ∈ _dirty w ->
             ∃ nd nb', heap w !! n = Some nd ∧ _notebook nd = Some nb'
                       ∧ _valid nd = false) ->
       NoteBook_save self false w = (Ok tt, set_dirty ∅ w)).
Proof.
  split.
  - intros w' H. unfold NoteBook_save in H.
    apply bind_inv in H as (w0 & w1 & _ & H).
    apply bind_inv in H as (? & w2 & _ & H).
    apply bind_inv in H as (? & w3 & _ & H).
    apply bind_inv in H as (? & w4 & _ & H).
    unfold modify in H. injection H as <-.
    split; [done|]. unfold save_needed, mbind, M_bind, get_world, mret, M_ret.
    cbn. by rewrite size_empty.
  - intros snd nb Hself Hnb Hclean Hinv. unfold NoteBook_save.
    unfold mbind at 1, M_bind at 1, get_world at 1.
    rewrite (bool_decide_eq_false_2 _ Hclean). cbn [orb].
    unfold mbind at 1, M_bind at 1, mret at 1, M_ret at 1.
    erewrite (bind_ok _ _ w w tt); last first.
    { unfold _set_dirty.
      rewrite (bind_ok _ _ _ _ _ (the_notebook_ok _ _ _ _ Hself Hnb)).
      unfold _set_dirty_node, modify. by rewrite (bool_decide_eq_false_2 _ Hclean). }
    erewrite (bind_ok _ _ w w tt); [done|].
    unfold mbind at 1, M_bind at 1, get_world at 1.
    apply for_each_save_invalid, Forall_forall.
    intros n Hn. apply Hinv. by apply elem_of_elements.
Qed.

Lemma NoteBook_save_clears_dirty_witness :
  Examples.d ∈ _dirty Examples.w_deleted
  ∧ (_valid <$> heap Examples.w_deleted !! Examples.d) = Some false
  ∧ NoteBook_save Examples.nb false Examples.w_deleted
    = (Ok tt, set_dirty ∅ Examples.w_deleted)
  ∧ save_needed (set_dirty ∅ Examples.w_deleted)
    = (Ok false, set_dirty ∅ Examples.w_deleted).
Proof.
  assert (Hd : _dirty Examples.w_deleted = {[Examples.d]}) by (by vm_compute).
  assert (Hnd : ∃ nd, heap Examples.w_deleted !! Examples.d = Some nd
                      ∧ _notebook nd = Some Examples.nb ∧ _valid nd = false).
  { eexists. split; [by vm_compute|]. split; reflexivity. }
  assert (Hroot : ∃ nd, heap Examples.w_deleted !! Examples.nb = Some nd
                        ∧ _notebook nd = Some Examples.nb).
  { eexists. split; [by vm_compute|]. reflexivity. }
  destruct Hnd as (nd & Hnd & Hnb & Hv). destruct Hroot as (rd & Hrd & Hrnb).
  assert (Hsave : NoteBook_save Examples.nb false Examples.w_deleted
                  = (Ok tt, set_dirty ∅ Examples.w_deleted)).
  { apply (proj2 (NoteBook_save_clears_dirty Examples.w_deleted Examples.nb)
             rd Examples.nb Hrd Hrnb).
    - rewrite Hd. by vm_compute.
    - intros n Hn. rewrite Hd in Hn. apply elem_of_singleton in Hn as ->.
      exists nd, Examples.nb. split; [exact Hnd|]. split; [exact Hnb|exact Hv]. }
  split; [rewrite Hd; apply elem_of_singleton; reflexivity|].
  split; [rewrite Hnd; cbn; rewrite Hv; reflexivity|].
  split; [exact Hsave|].
  exact (proj2 (proj1 (NoteBook_save_clears_dirty Examples.w_deleted Examples.nb)
                  _ Hsave)).
Defined.

(* ===================================================================== *)
(** * Moving a node *)
(* ===================================================================== *)

Section KeepsChildren.

Lemma same_children_refl (w : World) : same_children w w.
Proof. done. Qed.

Lemma same_children_trans (w1 w2 w3 : World) :
  same_children w1 w2 -> same_children w2 w3 -> same_children w1 w3.
Proof. intros H1 H2 n. by rewrite H2, H1. Qed.

Lemma keeps_ret {A} (a : A) : keeps_children (mret a).
Proof. by intros w. Qed.

Lemma keeps_raise {A} (e : Exn) : keeps_children (raise (A:=A) e).
Proof. by intros w. Qed.

Lemma keeps_lift {A} (r : result A) : keeps_children (lift r).
Proof. by intros w. Qed.

Lemma keeps_bind {A B} (m : M A) (k : A -> M B) :
  keeps_children m -> (∀ a, keeps_children (k a)) -> keeps_children (m ≫= k).
Proof.
  intros Hm Hk w. specialize (Hm w). unfold mbind, M_bind.
  destruct (m w) as [[a|e] w1]; [|exact Hm].
  eapply same_children_trans; [exact Hm|apply Hk].
Qed.

Lemma keeps_try_except {A} (m : M A) (c : Exn -> bool) (h : Exn -> M A) :
  keeps_children m -> (∀ e, keeps_children (h e)) -> keeps_children (try_except m c h).
Proof.
  intros Hm Hh w. specialize (Hm w). unfold try_except.
  destruct (m w) as [[a|e] w1]; [exact Hm|].
  destruct (c e); [|exact Hm].
  eapply same_children_trans; [exact Hm|apply Hh].
Qed.

Lemma keeps_modify (f : World -> World) :
  (∀ w, heap (f w) = heap w) -> keeps_children (modify f).
Proof. intros Hf w n. cbn. by rewrite Hf. Qed.

Lemma keeps_get_world : keeps_children get_world.
Proof. by intros w. Qed.

Lemma keeps_deref (n : ref) : keeps_children (deref n).
Proof. intros w. unfold deref. by destruct (heap w !! n). Qed.

Lemma keeps_update (n : ref) (f : NoteBookNode -> NoteBookNode) :
  (∀ nd, _children (f nd) = _children nd) -> keeps_children (update n f).
Proof.
  intros Hf w n'. unfold update, mbind, M_bind, deref, modify.
  destruct (heap w !! n) as [nd|] eqn:Hn; [|done]. cbn.
  destruct (decide (n = n')) as [<-|Hne].
  - by rewrite lookup_insert_eq, Hn; cbn; rewrite Hf.
  - by rewrite lookup_insert_ne.
Qed.

Lemma keeps_fs_query {A} (f : FileSystem -> result A) : keeps_children (fs_query f).
Proof. by intros w. Qed.

Lemma keeps_getitem (d : gmap string Value) (k : string) : keeps_children (getitem d k).
Proof. intros w. unfold getitem. by destruct (d !! k). Qed.

Lemma keeps_get_path (n : ref) : keeps_children (get_path n).
Proof. intros w. by rewrite get_path_world. Qed.

Lemma keeps_the_notebook (n : ref) : keeps_children (the_notebook n).
Proof.
  apply keeps_bind; [apply keeps_deref|].
  intros nd. destruct (_notebook nd); [apply keeps_ret|apply keeps_raise].
Qed.

Lemma keeps_set_dirty (n : ref) (b : bool) : keeps_children (_set_dirty n b).
Proof.
  apply keeps_bind; [apply keeps_the_notebook|]. intros _.
  apply keeps_modify. intros w. destruct b; [done|]. by case_bool_decide.
Qed.

Lemma keeps_is_dirty (n : ref) : keeps_children (_is_dirty n).
Proof.
  apply keeps_bind; [apply keeps_the_notebook|]. intros _.
  apply keeps_bind; [apply keeps_get_world|]. intros w. apply keeps_ret.
Qed.

Lemma keeps_write_meta_data (n : ref) : keeps_children (write_meta_data n).
Proof.
  apply keeps_bind.
  { apply keeps_bind; [apply keeps_get_path|]. intros p. apply keeps_ret. }
  intros filename. apply keeps_bind; [apply keeps_the_notebook|]. intros _.
  apply keeps_try_except; [|intros e; apply keeps_raise].
  apply keeps_bind; [apply keeps_fs_query|]. intros _.
  apply keeps_bind; [apply keeps_deref|]. intros nd.
  apply keeps_bind; [apply keeps_get_world|]. intros w.
  apply keeps_bind; [apply keeps_lift|]. intros text.
  by apply keeps_modify.
Qed.

Lemma keeps_save (n : ref) (force : bool) : keeps_children (NoteBookNode_save n force).
Proof.
  apply keeps_bind.
  { destruct force; [apply keeps_ret|apply keeps_is_dirty]. }
  intros dirty. apply keeps_bind; [apply keeps_deref|]. intros nd.
  destruct (dirty && _valid nd)%bool; [|apply keeps_ret].
  apply keeps_bind; [apply keeps_write_meta_data|]. intros _. apply keeps_set_dirty.
Qed.

Lemma keeps_notify_changes (n : ref) (l : list ref) (b : bool) :
  keeps_children (notify_changes n l b).
Proof.
  apply keeps_bind; [apply keeps_deref|]. intros nd.
  destruct (_notebook nd); [by apply keeps_modify|apply keeps_ret].
Qed.

Lemma keeps_set_child_order_from (children : list ref) (i : Z) :
  keeps_children (set_child_order_from i children).
Proof.
  revert i. induction children as [|child r IH]; intros i; [apply keeps_ret|].
  cbn [set_child_order_from].
  apply keeps_bind; [apply keeps_deref|]. intros nd.
  apply keeps_bind; [apply keeps_getitem|]. intros order.
  apply keeps_bind; [|intros _; apply IH].
  destruct (negb (py_eq order (VInt i))); [|apply keeps_ret].
  apply keeps_bind; [by apply keeps_update|]. intros _. apply keeps_set_dirty.
Qed.

Lemma keeps_set_child_order (n : ref) : keeps_children (_set_child_order n).
Proof.
  apply keeps_bind.
  { apply keeps_bind; [apply keeps_deref|]. intros nd.
    destruct (_children nd); [apply keeps_ret|apply keeps_raise]. }
  intros l. apply keeps_set_child_order_from.
Qed.

(** What follows a computation that keeps the children lists sees the
    lists left by what came before. *)
Lemma bind_keeps_tail {A B} (m : M A) (k : A -> M B) (w : World) :
  (∀ a, keeps_children (k a)) -> same_children (m w).2 ((m ≫= k) w).2.
Proof.
  intros Hk. unfold mbind, M_bind.
  destruct (m w) as [[a|e] w1]; [apply Hk|done].
Qed.

End KeepsChildren.

Lemma bind_assoc_w {A B C} (m : M A) (k1 : A -> M B) (k2 : B -> M C) (w : World) :
  ((m ≫= k1) ≫= k2) w = (m ≫= (fun a => k1 a ≫= k2)) w.
Proof. unfold mbind, M_bind. by destruct (m w) as [[a|e] w1]. Qed.

Lemma heap_set_heap (h : gmap ref NoteBookNode) (w : World) : heap (set_heap h w) = h.
Proof. done. Qed.

Lemma children_of_ok (w : World) (n : ref) (nd : NoteBookNode) (l : list ref) :
  heap w !! n = Some nd -> _children nd = Some l -> children_of n w = (Ok l, w).
Proof.
  intros Hn Hc. unfold children_of.
  rewrite (bind_ok _ _ _ _ _ (deref_ok _ _ _ Hn)). by rewrite Hc.
Qed.

Lemma ensure_children_loaded (w : World) (n : ref) (nd : NoteBookNode) (l : list ref) :
  heap w !! n = Some nd -> _children nd = Some l -> ensure_children n w = (Ok tt, w).
Proof.
  intros Hn Hc. unfold ensure_children.
  rewrite (bind_ok _ _ _ _ _ (deref_ok _ _ _ Hn)). by rewrite Hc.
Qed.





(* ===================================================================== *)
(** * Loading the children of a node *)
(* ===================================================================== *)

Section Sorting.

Lemma sort_insert_int (z : Z) (c : ref) (l : list (Z * ref)) :
  sort_insert (VInt z, c) (int_keyed l) = int_keyed (z_insert (z, c) l).
Proof.
  induction l as [|[y e] l IH]; [done|].
  cbn. destruct (y <? z); [|done]. cbn. f_equal. exact IH.
Qed.

Lemma py_sort_int (l : list (Z * ref)) : py_sort (int_keyed l) = int_keyed (z_sort l).
Proof.
  induction l as [|[z c] l IH]; [done|].
  change (py_sort (int_keyed ((z, c) :: l)))
    with (sort_insert (VInt z, c) (py_sort (int_keyed l))).
  rewrite IH. apply sort_insert_int.
Qed.

Lemma z_insert_perm (x : Z * ref) (l : list (Z * ref)) : z_insert x l ≡ₚ x :: l.
Proof.
  induction l as [|y l IH]; [done|].
  cbn. destruct (y.1 <? x.1); [|done]. rewrite IH. apply Permutation_swap.
Qed.

Lemma z_sort_perm (l : list (Z * ref)) : z_sort l ≡ₚ l.
Proof.
  induction l as [|x l IH]; [done|].
  cbn. rewrite z_insert_perm. by rewrite IH.
Qed.

Lemma z_insert_sorted (x : Z * ref) (l : list (Z * ref)) :
  Sorted Z.le l.*1 -> Sorted Z.le (z_insert x l).*1.
Proof.
  induction l as [|y l IH]; intros Hs; [by repeat constructor|].
  cbn. destruct (y.1 <? x.1) eqn:Hlt.
  - cbn. apply Sorted_inv in Hs as [Hs Hhd]. constructor; [by apply IH|].
    destruct l as [|y' l]; cbn.
    + constructor. apply Z.ltb_lt in Hlt. lia.
    + destruct (y'.1 <? x.1); cbn; constructor.
      * by apply HdRel_inv in Hhd.
      * apply Z.ltb_lt in Hlt. lia.
  - cbn. constructor; [exact Hs|]. constructor. apply Z.ltb_ge in Hlt. lia.
Qed.

Lemma z_sort_sorted (l : list (Z * ref)) : Sorted Z.le (z_sort l).*1.
Proof.
  induction l as [|x l IH]; [constructor|]. by apply z_insert_sorted.
Qed.

End Sorting.

Section Renumbering.

Lemma attr_of_Some (w : World) (n : ref) (name : string) (v : Value) :
  attr_of w n name = Some v ->
  ∃ nd, heap w !! n = Some nd ∧ _attr nd !! name = Some v.
Proof.
  unfold attr_of. destruct (heap w !! n) as [nd|]; [|done]. cbn. eauto.
Qed.

Lemma _set_dirty_true_inv (w w' : World) (n : ref) :
  _set_dirty n true w = (Ok tt, w') -> w' = set_dirty ({[n]} ∪ _dirty w) w.
Proof.
  intros H. unfold _set_dirty in H. apply bind_inv in H as (nb & w1 & Hnb & H).
  unfold the_notebook, mbind, M_bind, deref in Hnb.
  destruct (heap w !! n) as [nd|]; [|discriminate].
  destruct (_notebook nd); [|discriminate].
  unfold mret, M_ret in Hnb. injection Hnb as _ <-.
  unfold _set_dirty_node, modify in H. by injection H as <-.
Qed.

(** [_set_child_order] on children without repetition whose orders are
    integers: every child ends with its position as order, the nodes
    outside the list are untouched, and the dirty set grows by the
    children whose order was not their position. *)
Lemma set_child_order_from_spec (zl : list (Z * ref)) :
  ∀ (i : Z) (w w' : World),
    NoDup zl.*2 ->
    (∀ z c, (z, c) ∈ zl -> attr_of w c "order" = Some (VInt z)) ->
    set_child_order_from i zl.*2 w = (Ok tt, w') ->
    (∀ r, r ∉ zl.*2 -> heap w' !! r = heap w !! r)
    ∧ (∀ j z c, zl !! j = Some (z, c) ->
                attr_of w' c "order" = Some (VInt (i + Z.of_nat j)))
    ∧ (∀ r, class_of w' r = class_of w r)
    ∧ _dirty w' = _dirty w ∪ renumbered i zl.
Proof.
  induction zl as [|[z c] zl IH]; intros i w w' Hnd Hord Hrun.
  { cbn in Hrun. injection Hrun as <-.
    split; [done|]. split; [|split; [done|set_solver]].
    intros j z c Hj. by rewrite lookup_nil in Hj. }
  cbn [fmap list_fmap snd] in Hnd, Hrun. apply NoDup_cons in Hnd as [Hc Hnd].
  destruct (attr_of_Some _ _ _ _ (Hord z c ltac:(left))) as (cd & Hcd & Hz).
  cbn [set_child_order_from] in Hrun.
  rewrite (bind_ok _ _ _ _ _ (deref_ok _ _ _ Hcd)) in Hrun.
  unfold getitem in Hrun. rewrite Hz in Hrun.
  unfold mbind at 1, M_bind at 1, mret at 1, M_ret at 1 in Hrun.
  change (py_eq (VInt z) (VInt i)) with (z =? i) in Hrun.
  apply bind_inv in Hrun as ([] & wa & Hhead & Htail).
  assert (Hwa : (∀ r, r ≠ c -> heap wa !! r = heap w !! r)
                ∧ attr_of wa c "order" = Some (VInt i)
                ∧ (∀ r, class_of wa r = class_of w r)
                ∧ _dirty wa = _dirty w ∪ (if z =? i then ∅ else {[c]})).
  { destruct (z =? i) eqn:Hzi; cbn [negb] in Hhead.
    - injection Hhead as <-. apply Z.eqb_eq in Hzi as ->.
      repeat split; [|set_solver]. unfold attr_of. by rewrite Hcd.
    - rewrite (bind_ok _ _ _ _ _ (update_ok _ _ _ _ Hcd)) in Hhead.
      apply _set_dirty_true_inv in Hhead as ->. cbn.
      repeat split.
      + intros r Hr. by rewrite lookup_insert_ne.
      + unfold attr_of. cbn. rewrite lookup_insert_eq. cbn. by rewrite lookup_insert_eq.
      + intros r. unfold class_of. cbn. destruct (decide (c = r)) as [<-|Hne].
        * by rewrite lookup_insert_eq, Hcd.
        * by rewrite lookup_insert_ne.
      + set_solver. }
  destruct Hwa as (Hframe & Hci & Hcls & Hdirty).
  destruct (IH (i + 1) wa w' Hnd) as (IHframe & IHord & IHcls & IHdirty); [|exact Htail|].
  { intros z' c' Hin. unfold attr_of. rewrite Hframe.
    - apply Hord. by right.
    - intros ->. apply Hc. apply list_elem_of_fmap. by exists (z', c). }
  repeat split.
  - intros r Hr. apply not_elem_of_cons in Hr as [Hrc Hr].
    by rewrite IHframe, Hframe.
  - intros [|j] z' c' Hj.
    + cbn in Hj. injection Hj as -> ->. unfold attr_of. rewrite IHframe by done.
      replace (i + Z.of_nat 0) with i by lia. exact Hci.
    + cbn in Hj. rewrite (IHord j z' c' Hj). do 2 f_equal. lia.
  - intros r. by rewrite IHcls, Hcls.
  - rewrite IHdirty, Hdirty. cbn [renumbered]. set_solver.
Qed.

End Renumbering.

Section ParserInvariant.
Context {H : Type} (hs : expat.Handlers H) (P : H -> Prop).
Hypothesis Hstart : ∀ name attrs h h',
  P h -> expat.StartElementHandler hs name attrs h = Ok h' -> P h'.
Hypothesis Hend : ∀ name h h',
  P h -> expat.EndElementHandler hs name h = Ok h' -> P h'.
Hypothesis Hchars : ∀ data h h',
  P h -> expat.CharacterDataHandler hs data h = Ok h' -> P h'.

Lemma result_bind_inv {A B} (r : result A) (k : A -> result B) (b : B) :
  result_bind r k = Ok b -> ∃ a, r = Ok a ∧ k a = Ok b.
Proof. destruct r as [a|e]; [eauto|discriminate]. Qed.

Lemma char_data_invariant (c : ascii) (m : expat.Mode) (p p' : expat.Parser H) :
  P (expat.user p) -> expat.char_data hs c m p = Ok p' -> P (expat.user p').
Proof.
  intros HP Hr. unfold expat.char_data in Hr.
  apply result_bind_inv in Hr as (h & Hh & Hr). injection Hr as <-. cbn. eauto.
Qed.

Lemma start_element_invariant (name : string) (attrs : expat.attrs_t)
    (p p' : expat.Parser H) :
  P (expat.user p) -> expat.start_element hs name attrs p = Ok p' -> P (expat.user p').
Proof.
  intros HP Hr. unfold expat.start_element in Hr.
  destruct (_ && _)%bool; [discriminate|].
  apply result_bind_inv in Hr as (h & Hh & Hr). injection Hr as <-. cbn. eauto.
Qed.

Lemma end_element_invariant (name : string) (p p' : expat.Parser H) :
  P (expat.user p) -> expat.end_element hs name p = Ok p' -> P (expat.user p').
Proof.
  intros HP Hr. unfold expat.end_element in Hr.
  destruct (expat.open_elements p) as [|top rest]; [discriminate|].
  destruct (String.eqb top name); [|discriminate].
  apply result_bind_inv in Hr as (h & Hh & Hr). injection Hr as <-. cbn. eauto.
Qed.

Lemma dispatch_invariant (c : ascii) (p p' : expat.Parser H) :
  P (expat.user p) -> expat.dispatch hs p c = Ok p' -> P (expat.user p').
Proof.
  intros HP Hr. unfold expat.dispatch, expat.add_attr in Hr.
  repeat case_match; try discriminate;
    try (injection Hr as <-; exact HP);
    try (by eapply char_data_invariant);
    try (by eapply start_element_invariant);
    try (by eapply end_element_invariant).
  apply result_bind_inv in Hr as (p1 & Hp1 & Hr).
  eapply end_element_invariant; [|exact Hr].
  exact (start_element_invariant _ _ _ _ HP Hp1).
Qed.

Lemma step_invariant (c : ascii) (p p' : expat.Parser H) :
  P (expat.user p) -> expat.step hs p c = Ok p' -> P (expat.user p').
Proof.
  intros HP Hr. unfold expat.step in Hr.
  destruct (expat.utf8_step _ c) as [u|]; [|discriminate].
  apply result_bind_inv in Hr as (p1 & Hp1 & Hr). injection Hr as <-.
  exact (dispatch_invariant _ _ _ HP Hp1).
Qed.

(** What the handlers preserve holds at the end of a parse. *)
Lemma feed_invariant (text : string) :
  ∀ p p', P (expat.user p) -> expat.feed hs p text = Ok p' -> P (expat.user p').
Proof.
  induction text as [|c text IH]; intros p p' HP Hr.
  - injection Hr as <-. exact HP.
  - cbn in Hr. apply result_bind_inv in Hr as (p1 & Hp1 & Hr).
    eapply IH; [|exact Hr]. exact (step_invariant _ _ _ HP Hp1).
Qed.

Lemma ParseFile_invariant (h h' : H) (text : string) :
  P h -> expat.ParseFile hs h text = Ok h' -> P h'.
Proof.
  intros HP Hr. unfold expat.ParseFile in Hr.
  apply result_bind_inv in Hr as (p & Hp & Hr).
  assert (P (expat.user p)) by exact (feed_invariant _ (expat.ParserCreate h) _ HP Hp).
  repeat case_match; try discriminate. by injection Hr as <-.
Qed.

End ParserInvariant.

Section MetaOrder.
Variables (nattrs : gmap string NoteBookAttr) (a : NoteBookAttr).
Hypothesis Horder : nattrs !! "order" = Some a.
Hypothesis Hint : attr_datatype a = Tint.

Lemma order_ok_insert_ne (k : string) (v : Value) (attr : gmap string Value) :
  k ≠ "order" -> order_ok attr -> order_ok (<[k := v]> attr).
Proof. intros Hk. unfold order_ok. by rewrite lookup_insert_ne. Qed.

Lemma read_value_int (x v : Value) :
  NoteBookAttr_read_value a x = Ok v -> ∃ z, v = VInt z.
Proof.
  unfold NoteBookAttr_read_value, NoteBookAttr_read. rewrite Hint.
  destruct x; intros Hr;
    apply result_bind_inv in Hr as (r & _ & Hr); injection Hr as <-; eauto.
Qed.

Lemma meta_start_inv (name : string) (attrs : expat.attrs_t)
    (self self' : NoteBookNodeMetaData) :
  meta_inv nattrs self -> meta_start_element name attrs self = Ok self' -> meta_inv nattrs self'.
Proof.
  intros HP Hr. unfold meta_start_element in Hr.
  repeat case_match; try discriminate; by injection Hr as <-.
Qed.

Lemma meta_chars_inv (data : string) (self self' : NoteBookNodeMetaData) :
  meta_inv nattrs self -> meta_char_data data self = Ok self' -> meta_inv nattrs self'.
Proof.
  intros HP Hr. unfold meta_char_data in Hr.
  repeat case_match; try discriminate; by injection Hr as <-.
Qed.

Lemma meta_end_inv (name : string) (self self' : NoteBookNodeMetaData) :
  meta_inv nattrs self -> meta_end_element name self = Ok self' -> meta_inv nattrs self'.
Proof.
  intros HP Hr. unfold meta_end_element in Hr.
  set (self0 := if String.eqb name "node" then md_set_root false self else self) in Hr.
  assert (HP0 : meta_inv nattrs self0) by (subst self0; by destruct (String.eqb name "node")).
  clearbody self0. clear HP.
  destruct (negb (md_meta_root self0)); [by injection Hr as <-|].
  apply result_bind_inv in Hr as (self1 & H1 & Hr). injection Hr as <-.
  enough (meta_inv nattrs self1) by done.
  destruct HP0 as [Hreg Hok].
  repeat case_match; try discriminate.
  - apply result_bind_inv in H1 as (i & _ & H1). injection H1 as <-.
    split; [done|]. by apply order_ok_insert_ne.
  - apply result_bind_inv in H1 as (v & Hv & H1). injection H1 as <-.
    split; [done|]. cbn.
    match goal with Hk : md_notebook_attrs self0 !! ?k = Some ?n |- _ =>
      destruct (decide (k = "order")) as [->|Hne];
        [rewrite Hreg, Horder in Hk; injection Hk as <-|]
    end.
    + apply read_value_int in Hv as [z ->]. right. exists z. apply lookup_insert_eq.
    + by apply order_ok_insert_ne.
  - injection H1 as <-. split; [done|]. cbn.
    apply order_ok_insert_ne; [|done].
    intros ->. congruence.
  - by injection H1 as <-.
  - by injection H1 as <-.
Qed.

Lemma NoteBookNodeMetaData_read_order (infile : result string) (now : Z)
    (attr : gmap string Value) :
  NoteBookNodeMetaData_read infile nattrs now = Ok attr -> order_ok attr.
Proof.
  unfold NoteBookNodeMetaData_read. intros Hr.
  destruct (result_bind infile _) as [self|e] eqn:Hparse;
    [|destruct (is_Exception e); discriminate].
  destruct infile as [text|e]; [|discriminate]. cbn in Hparse.
  assert (Hinv : meta_inv nattrs self).
  { eapply (ParseFile_invariant meta_handlers (meta_inv nattrs));
      [exact meta_start_inv|exact meta_end_inv|exact meta_chars_inv| |exact Hparse].
    split; [done|]. by left. }
  injection Hr as <-. destruct Hinv as [_ Hok].
  repeat case_bool_decide; repeat apply order_ok_insert_ne; done.
Qed.

End MetaOrder.

Section ReadNode.

Lemma default_attr_order (title : Value) (content_type : string) :
  default_attr title content_type !! "order" = Some (VInt sys_maxint).
Proof. reflexivity. Qed.

Lemma union_order (attr base : gmap string Value) (z0 : Z) :
  order_ok attr -> base !! "order" = Some (VInt z0) ->
  ∃ z, (attr ∪ base) !! "order" = Some (VInt z).
Proof.
  intros [Hn|[z Hz]] Hb.
  - exists z0. by rewrite lookup_union_r.
  - exists z. by apply lookup_union_Some_l.
Qed.

(** The constructor allocates the next reference. *)
Lemma NoteBookNode_init_run (cls : NodeClass) (path : option string) (title : Value)
    (parent notebook : option ref) (content_type : string) (w : World) :
  NoteBookNode_init cls path title parent notebook content_type w
  = (Ok (next_ref w),
     set_heap (<[next_ref w :=
                   set_basename path
                     (mkNode cls notebook parent None None true
                             NOTEBOOK_FORMAT_VERSION ∅
                             (default_attr title content_type))]> (heap w))
              (set_next_ref (Pos.succ (next_ref w)) w)).
Proof.
  unfold NoteBookNode_init.
  unfold mbind at 1, M_bind at 1, get_world at 1.
  unfold mbind at 1, M_bind at 1, modify at 1.
  erewrite bind_ok; last first.
  { unfold _set_basename. apply update_ok. cbn. apply lookup_insert_eq. }
  unfold mret, M_ret. f_equal. cbn. unfold set_heap. cbn.
  by rewrite insert_insert_eq.
Qed.

Lemma set_meta_data_run (w : World) (n : ref) (nd : NoteBookNode)
    (attr : gmap string Value) :
  heap w !! n = Some nd -> _meta nd = ∅ ->
  set_meta_data n attr w
  = (Ok tt, set_heap (<[n := with_attr (attr ∪ _attr nd)
                                 (with_version NOTEBOOK_FORMAT_VERSION nd)]> (heap w)) w).
Proof.
  intros Hn Hm. unfold set_meta_data.
  rewrite (bind_ok _ _ _ _ _ (deref_ok _ _ _ Hn)). rewrite Hm, lookup_empty.
  unfold mbind at 1, M_bind at 1, mret at 1, M_ret at 1.
  by rewrite (update_ok _ _ _ _ Hn).
Qed.

Lemma set_basename_fields (path : option string) (nd : NoteBookNode) :
  node_class (set_basename path nd) = node_class nd
  ∧ _attr (set_basename path nd) = _attr nd
  ∧ _meta (set_basename path nd) = _meta nd
  ∧ _notebook (set_basename path nd) = _notebook nd.
Proof. unfold set_basename. by repeat case_match. Qed.

Lemma set_attr_run (w : World) (n nb : ref) (nd : NoteBookNode) (name : string)
    (value : Value) :
  heap w !! n = Some nd -> _notebook nd = Some nb ->
  set_attr n name value w
  = (Ok tt, set_dirty ({[n]} ∪ _dirty w)
              (set_heap (<[n := with_attr (<[name := value]> (_attr nd)) nd]> (heap w)) w)).
Proof.
  intros Hn Hnb. unfold set_attr.
  rewrite (bind_ok _ _ _ _ _ (update_ok _ _ _ _ Hn)).
  erewrite _set_dirty_true; [reflexivity|apply lookup_insert_eq|exact Hnb].
Qed.

(** The world after a maker and [set_meta_data], for the node [nd] the
    constructor has built. *)
Lemma allocated_intro (w : World) (nd : NoteBookNode) (attr : gmap string Value)
    (base : gmap string Value) (d : gset ref) (z0 : Z) :
  order_ok attr -> base !! "order" = Some (VInt z0) ->
  d = _dirty w ∪ (if bool_decide (node_class nd = NoteBookTrash)
                  then {[next_ref w]} else ∅) ->
  allocated w
    (set_dirty d
       (set_heap (<[next_ref w := with_attr (attr ∪ base)
                                    (with_version NOTEBOOK_FORMAT_VERSION nd)]> (heap w))
                 (set_next_ref (Pos.succ (next_ref w)) w))).
Proof.
  intros Hok Hbase ->. unfold allocated, attr_of, class_of. cbn.
  rewrite lookup_insert_eq. cbn.
  split; [done|]. split; [intros r Hr; by rewrite lookup_insert_ne|].
  split; [by eapply union_order|]. split; [|done].
  destruct (decide (node_class nd = NoteBookTrash)) as [Hc|Hc].
  - by rewrite !bool_decide_eq_true_2 by congruence.
  - by rewrite !bool_decide_eq_false_2 by congruence.
Qed.

Lemma read_node_cases (w w' : World) (nb parent : ref) (path : string)
    (a : NoteBookAttr) (r : result (option ref)) :
  notebook_attrs w !! "order" = Some a -> attr_datatype a = Tint ->
  read_node nb parent path w = (r, w') ->
  (w' = w ∧ (r = Ok None ∨ ∃ e, r = Raise e))
  ∨ (r = Ok (Some (next_ref w)) ∧ allocated w w').
Proof.
  intros Ha Hint Hrun. unfold read_node in Hrun.
  unfold mbind at 1, M_bind at 1, get_world at 1 in Hrun.
  destruct (os_path.exists_ (fs w) (get_node_meta_file path));
    [|left; injection Hrun as <- <-; eauto].
  unfold mbind at 1, M_bind at 1, lift at 1 in Hrun.
  destruct (NoteBookNodeMetaData_read _ _ _) as [attr|e] eqn:Hread;
    [|left; injection Hrun as <- <-; eauto].
  pose proof (NoteBookNodeMetaData_read_order _ _ Ha Hint _ _ _ Hread) as Hok.
  destruct (match default (VText CONTENT_TYPE_DIR) (attr !! "content_type") with
            | VText ct => _makers w !! ct
            | _ => None
            end) as [cls|]; [|left; injection Hrun as <- <-; eauto].
  destruct (decide (cls = NoteBookTrash)) as [->|Hcls].
  - (* the trash maker *)
    unfold make_node, NoteBookTrash_init in Hrun.
    rewrite !bind_assoc_w in Hrun.
    unfold mbind at 1, M_bind at 1 in Hrun.
    rewrite (get_path_eq nb w) in Hrun.
    destruct (get_path nb w).1 as [root|e]; [|left; injection Hrun as <- <-; eauto].
    rewrite !bind_assoc_w in Hrun.
    rewrite (bind_ok _ _ _ _ _ (NoteBookNode_init_run _ _ _ _ _ _ _)) in Hrun.
    set (nd1 := set_basename _ _) in Hrun.
    pose proof (set_basename_fields (Some (get_trash_dir root))
                (mkNode NoteBookTrash (Some nb) (Some nb) None None true
                        NOTEBOOK_FORMAT_VERSION ∅
                        (default_attr (VText TRASH_NAME) CONTENT_TYPE_DIR)))
      as Hf.
    fold nd1 in Hf. clearbody nd1. destruct Hf as (Hc1 & Ha1 & Hm1 & Hn1).
    cbn [node_class _attr _meta _notebook] in Hc1, Ha1, Hm1, Hn1.
    rewrite !bind_assoc_w in Hrun.
    erewrite bind_ok in Hrun;
      [|eapply set_attr_run; [apply lookup_insert_eq|exact Hn1]].
    unfold mbind at 1, M_bind at 1, mret at 1, M_ret at 1 in Hrun.
    erewrite bind_ok in Hrun;
      [|eapply set_meta_data_run; [apply lookup_insert_eq|exact Hm1]].
    unfold mret, M_ret in Hrun. injection Hrun as <- <-. right. split; [done|].
    cbn. unfold set_heap, set_dirty. cbn. rewrite !insert_insert_eq.
    eapply (allocated_intro w nd1 attr _ _ sys_maxint); [done| |].
    + rewrite lookup_insert_ne by done. rewrite Ha1. reflexivity.
    + rewrite bool_decide_eq_true_2 by done. apply union_comm_L.
  - (* the makers of pages and folders *)
    assert (Hmk : ∃ c ct, c ≠ NoteBookTrash ∧
              make_node cls path parent nb
              = NoteBookNode_init c (Some path) (VText "") (Some parent) (Some nb) ct).
    { destruct cls; [by exists NoteBookPage, CONTENT_TYPE_PAGE
                    |by exists NoteBookDir, CONTENT_TYPE_DIR
                    |done
                    |by exists NoteBookDir, CONTENT_TYPE_DIR]. }
    destruct Hmk as (c & ct & Hc & Hmk). rewrite Hmk in Hrun.
    rewrite (bind_ok _ _ _ _ _ (NoteBookNode_init_run _ _ _ _ _ _ _)) in Hrun.
    set (nd1 := set_basename _ _) in Hrun.
    pose proof (set_basename_fields (Some path)
                (mkNode c (Some nb) (Some parent) None None true
                        NOTEBOOK_FORMAT_VERSION ∅ (default_attr (VText "") ct)))
      as Hf.
    fold nd1 in Hf. clearbody nd1. destruct Hf as (Hc1 & Ha1 & Hm1 & Hn1).
    cbn [node_class _attr _meta _notebook] in Hc1, Ha1, Hm1, Hn1.
    erewrite bind_ok in Hrun;
      [|eapply set_meta_data_run; [apply lookup_insert_eq|exact Hm1]].
    unfold mret, M_ret in Hrun. injection Hrun as <- <-. right. split; [done|].
    cbn. unfold set_heap. cbn. rewrite !insert_insert_eq.
    pose proof (allocated_intro w nd1 attr (_attr nd1) (_dirty w) sys_maxint Hok) as Hal.
    rewrite Hc1, bool_decide_eq_false_2 in Hal by done.
    specialize (Hal ltac:(by rewrite Ha1) ltac:(by rewrite union_empty_r_L)).
    unfold set_dirty, set_heap in Hal. cbn in Hal.
    exact Hal.
Qed.
End ReadNode.

Section LoadingLoop.
Variables (w0 : World) (self : ref) (a : NoteBookAttr).
Hypothesis Hself : (self < next_ref w0)%positive.
Hypothesis Ha : notebook_attrs w0 !! "order" = Some a.
Hypothesis Hint : attr_datatype a = Tint.

(** One pass of the loop that ends normally keeps the invariant. *)
Lemma loading_step (w w' : World) (stored : list (Z * ref)) (path path2 : string) :
  loading w0 self w stored ->
  try_except
    (nb ← the_notebook self;
     node ← read_node nb self path2;
     match node with
     | Some node =>
         update self (fun nd =>
           with_children (Some (default [] (_children nd) ++ [node])) nd)
     | None => mret tt
     end)
    is_NoteBookError
    (fun _ => mret tt) w = (Ok tt, w') ->
  ∃ stored', loading w0 self w' stored'.
Proof.
  intros Hinv Hrun.
  destruct Hinv as (Hnext & Hframe & (sd & Hsd & Hch) & Hnd & Hst & Hdirty & Hreg).
  unfold try_except in Hrun.
  unfold the_notebook in Hrun. rewrite bind_assoc_w in Hrun.
  rewrite (bind_ok _ _ _ _ _ (deref_ok _ _ _ Hsd)) in Hrun.
  destruct (_notebook sd) as [nb|]; [|discriminate].
  unfold mbind at 1, M_bind at 1, mret at 1, M_ret at 1 in Hrun.
  unfold mbind at 1, M_bind at 1 in Hrun.
  destruct (read_node nb self path2 w) as [r w1] eqn:Hread.
  apply (read_node_cases _ _ _ _ _ a) in Hread; [|by rewrite Hreg|done].
  destruct Hread as [[-> Hr]|[-> Hal]].
  - (* nothing was made *)
    exists stored.
    assert (w' = w) as ->.
    { destruct Hr as [->|[e ->]].
      - by injection Hrun as <-.
      - destruct (is_NoteBookError e); [by injection Hrun as <-|discriminate]. }
    unfold loading; eauto 10.
  - (* a node was made and is appended *)
    destruct Hal as (Hn1 & Hh1 & [z Hz] & Hd1 & Hr1).
    assert (Hne : self ≠ next_ref w) by lia.
    assert (Hsd1 : heap w1 !! self = Some sd) by (by rewrite Hh1).
    rewrite (update_ok _ _ _ _ Hsd1) in Hrun. injection Hrun as <-.
    rewrite Hch. cbn [default].
    exists (stored ++ [(z, next_ref w)]).
    unfold loading. cbn [heap set_heap next_ref _dirty notebook_attrs].
    rewrite Hn1.
    split; [lia|].
    split.
    { intros r Hr Hrs. rewrite lookup_insert_ne by done.
      rewrite Hh1 by lia. by apply Hframe. }
    split.
    { eexists. split; [apply lookup_insert_eq|]. cbn. by rewrite fmap_app. }
    split.
    { rewrite fmap_app. apply NoDup_app. split; [done|]. split; [|apply NoDup_singleton].
      intros c Hc Hc2. apply list_elem_of_singleton in Hc2. cbn in Hc2. subst c.
      apply list_elem_of_fmap in Hc as ([z' c'] & Heq & Hin). cbn in Heq. subst c'.
      destruct (Hst _ _ Hin) as (_ & Hlt & _). lia. }
    split.
    { intros z' c [Hin|Hin]%elem_of_app.
      - destruct (Hst _ _ Hin) as (Hge & Hlt & Hattr).
        split; [done|]. split; [lia|].
        unfold attr_of in *. cbn [heap set_heap].
        rewrite lookup_insert_ne by lia. rewrite Hh1 by lia. exact Hattr.
      - apply list_elem_of_singleton in Hin. injection Hin as -> ->.
        split; [done|]. split; [lia|].
        unfold attr_of in *. cbn [heap set_heap].
        rewrite lookup_insert_ne by lia. exact Hz. }
    split; [|congruence].
    intros r. rewrite Hd1.
    assert (Hcls : ∀ r', class_of
                (set_heap (<[self := with_children (Some (stored.*2 ++ [next_ref w])) sd]>
                             (heap w1)) w1) r' = class_of w1 r').
    { intros r'. unfold class_of. cbn. destruct (decide (self = r')) as [<-|Hn].
      - by rewrite lookup_insert_eq, Hsd1.
      - by rewrite lookup_insert_ne. }
    rewrite Hcls.
    destruct (decide (r = next_ref w)) as [->|Hrn].
    + rewrite elem_of_union, Hdirty.
      case_bool_decide as Hc.
      * split; [intros _; right; split; [done|]; split; [lia|done]|].
        intros _. right. by apply elem_of_singleton.
      * split.
        -- intros [[Hin|(_ & Hlt & _)]|[]%elem_of_empty]; [by left|lia].
        -- intros [Hin|(_ & _ & Hc')]; [left; by left|done].
    + assert (class_of w1 r = class_of w r) as -> by (unfold class_of; by rewrite Hh1).
      rewrite elem_of_union, Hdirty.
      split.
      * intros [[Hin|(Hge & Hlt & Hc)]|Hin]; [by left|right; split; [done|]; split; [lia|done]|].
        case_bool_decide; [by apply elem_of_singleton in Hin|by apply elem_of_empty in Hin].
      * intros [Hin|(Hge & Hlt & Hc)]; [left; by left|].
        left. right. split; [done|]. split; [lia|done].
Qed.

(** The loop keeps the invariant. *)
Lemma read_children_loading (path : string) (files : list string) :
  ∀ (w w' : World) (stored : list (Z * ref)),
    loading w0 self w stored ->
    read_children self path files w = (Ok tt, w') ->
    ∃ stored', loading w0 self w' stored'.
Proof.
  induction files as [|filename files IH]; intros w w' stored Hinv Hrun.
  - injection Hrun as <-. eauto.
  - cbn [read_children] in Hrun.
    apply bind_inv in Hrun as ([] & w1 & Hstep & Hrun).
    destruct (loading_step _ _ _ path _ Hinv Hstep) as [stored1 Hinv1].
    eauto.
Qed.

End LoadingLoop.

Section GetChildren.

Lemma int_keyed_snd (l : list (Z * ref)) : (int_keyed l).*2 = l.*2.
Proof. unfold int_keyed. rewrite <- list_fmap_compose. by apply list_fmap_ext. Qed.

Lemma order_keys_stored (w : World) (stored : list (Z * ref)) :
  (∀ z c, (z, c) ∈ stored -> attr_of w c "order" = Some (VInt z)) ->
  order_keys stored.*2 w = (Ok (int_keyed stored), w).
Proof.
  induction stored as [|[z c] stored IH]; intros Hst; [done|].
  cbn [fmap list_fmap snd order_keys].
  destruct (attr_of_Some _ _ _ _ (Hst z c ltac:(left))) as (cd & Hcd & Hz).
  rewrite (bind_ok _ _ _ _ _ (deref_ok _ _ _ Hcd)).
  unfold getitem. rewrite Hz.
  unfold mbind at 1, M_bind at 1, mret at 1, M_ret at 1.
  rewrite (bind_ok _ _ _ _ _ (IH ltac:(intros z' c' Hin; apply Hst; by right))).
  reflexivity.
Qed.

Lemma renumbered_lookup (zl : list (Z * ref)) :
  ∀ (i : Z) (j : nat) (z : Z) (c : ref),
    NoDup zl.*2 -> zl !! j = Some (z, c) ->
    c ∈ renumbered i zl ↔ z ≠ i + Z.of_nat j.
Proof.
  induction zl as [|[z0 c0] zl IH]; intros i j z c Hnd Hj; [by rewrite lookup_nil in Hj|].
  cbn [fmap list_fmap snd] in Hnd. apply NoDup_cons in Hnd as [Hc0 Hnd].
  cbn [renumbered]. rewrite elem_of_union.
  destruct j as [|j]; cbn in Hj.
  - injection Hj as -> ->.
    assert (Hnot : c ∉ renumbered (i + 1) zl).
    { clear -Hc0. revert i. induction zl as [|[z1 c1] zl IH]; intros i; cbn.
      - set_solver.
      - cbn in Hc0. apply not_elem_of_cons in Hc0 as [Hne Hc0].
        specialize (IH Hc0 (i + 1)). destruct (z1 =? i + 1); set_solver. }
    destruct (z =? i) eqn:Hzi.
    + apply Z.eqb_eq in Hzi. split; [intros [[]%elem_of_empty|?]; done|lia].
    + apply Z.eqb_neq in Hzi. split; [lia|]. intros _. left. by apply elem_of_singleton.
  - assert (Hne : c ≠ c0).
    { intros ->. apply Hc0. apply list_elem_of_fmap. exists (z, c0).
      split; [done|]. by eapply list_elem_of_lookup_2. }
    rewrite (IH (i + 1) j z c Hnd Hj).
    split.
    + intros [Hin|Hz]; [|lia].
      destruct (z0 =? i); [by apply elem_of_empty in Hin|].
      by apply elem_of_singleton in Hin.
    + intros Hz. right. lia.
Qed.

Lemma try_listdir_world (path : string) (w w' : World) (files : list string) (msg : string) :
  try_except (fs_query (fun fs => os.listdir fs path)) is_OSError
    (fun e => raise (NoteBookError msg (Some e))) w = (Ok files, w') ->
  w' = w.
Proof.
  unfold try_except, fs_query, raise.
  destruct (os.listdir (fs w) path) as [l|e]; [by intros [= _ <-]|].
  by destruct (is_OSError e).
Qed.

(** [_get_children] that ends normally, in a world where new references
    are above [self] and above the dirty nodes and where the registry
    reads the order as an integer. *)
Lemma _get_children_spec (w w' : World) (self : ref) (a : NoteBookAttr) :
  notebook_attrs w !! "order" = Some a -> attr_datatype a = Tint ->
  (self < next_ref w)%positive ->
  (∀ r, r ∈ _dirty w -> (r < next_ref w)%positive) ->
  _get_children self w = (Ok tt, w') ->
  ∃ (w1 : World) (stored : list (Z * ref)),
    load_children self w = (Ok tt, w1)
    ∧ heap w1 !! self ≫= _children = Some stored.*2
    ∧ (∀ z c, (z, c) ∈ stored -> attr_of w1 c "order" = Some (VInt z))
    ∧ heap w' !! self ≫= _children = Some (z_sort stored).*2
    ∧ z_sort stored ≡ₚ stored
    ∧ Sorted Z.le (z_sort stored).*1
    ∧ (∀ i z c, z_sort stored !! i = Some (z, c) ->
         attr_of w' c "order" = Some (VInt (Z.of_nat i)))
    ∧ (∀ i z c, z_sort stored !! i = Some (z, c) ->
         c ∈ _dirty w' ↔ z ≠ Z.of_nat i ∨ class_of w' c = Some NoteBookTrash).
Proof.
  intros Ha Hint Hself Hwf Hrun. unfold _get_children in Hrun.
  apply bind_inv in Hrun as ([] & w1 & Hload & Hrun).
  exists w1.
  (* the loop *)
  assert (Hinv : ∃ wa stored, loading wa self w1 stored
                   ∧ next_ref wa = next_ref w ∧ _dirty wa = _dirty w).
  { unfold load_children in Hload.
    apply bind_inv in Hload as ([] & wa & Hupd & Hload).
    unfold update, mbind, M_bind, deref, modify in Hupd.
    destruct (heap w !! self) as [sd|] eqn:Hsd; [|discriminate].
    injection Hupd as <-.
    set (wa := set_heap _ w) in Hload.
    unfold mbind at 1, M_bind at 1 in Hload. rewrite (get_path_eq self wa) in Hload.
    destruct (get_path self wa).1 as [path|e]; [|discriminate].
    apply bind_inv in Hload as (files & wb & Hlist & Hload).
    apply try_listdir_world in Hlist as ->.
    assert (Hinit : loading wa self wa []).
    { unfold loading. split; [lia|]. split; [done|].
      split; [eexists; split; [apply lookup_insert_eq|done]|].
      split; [constructor|]. split; [intros z c []%elem_of_nil|].
      split; [|done]. intros r. split; [by left|]. intros [?|(? & ? & _)]; [done|lia]. }
    destruct (read_children_loading wa self a Hself Ha Hint _ _ _ _ _ Hinit Hload)
      as [stored Hinv].
    by exists wa, stored. }
  destruct Hinv as (wa & stored & Hinv & Hnext & Hdirtya).
  destruct Hinv as (Hge & Hframe & (sd1 & Hsd1 & Hch1) & Hnd & Hst & Hdirty & Hreg).
  exists stored.
  assert (Hord1 : ∀ z c, (z, c) ∈ stored -> attr_of w1 c "order" = Some (VInt z))
    by (intros z c Hin; by apply Hst).
  (* the sort and the renumbering *)
  rewrite (bind_ok _ _ _ _ _ (children_of_ok _ _ _ _ Hsd1 Hch1)) in Hrun.
  rewrite (bind_ok _ _ _ _ _ (order_keys_stored _ _ Hord1)) in Hrun.
  rewrite (bind_ok _ _ _ _ _ (update_ok _ _ _ _ Hsd1)) in Hrun.
  rewrite py_sort_int, int_keyed_snd in Hrun.
  set (w2 := set_heap _ w1) in Hrun.
  assert (Hsd2 : heap w2 !! self = Some (with_children (Some (z_sort stored).*2) sd1))
    by apply lookup_insert_eq.
  unfold _set_child_order in Hrun.
  rewrite (bind_ok _ _ _ _ _ (children_of_ok _ _ _ _ Hsd2 eq_refl)) in Hrun.
  pose proof (z_sort_perm stored) as Hperm.
  assert (Hin_sorted : ∀ z c, (z, c) ∈ z_sort stored -> (z, c) ∈ stored)
    by (intros z c; by rewrite Hperm).
  assert (Hfresh : ∀ z c, (z, c) ∈ z_sort stored -> c ≠ self).
  { intros z c Hin%Hin_sorted. destruct (Hst _ _ Hin) as (Hc & _). lia. }
  assert (Hnd2 : NoDup (z_sort stored).*2) by (by rewrite Hperm).
  destruct (set_child_order_from_spec (z_sort stored) 0 w2 w' Hnd2)
    as (Hframe' & Hord' & Hcls' & Hdirty'); [|exact Hrun|].
  { intros z c Hin. unfold attr_of. subst w2. cbn [heap set_heap].
    rewrite lookup_insert_ne by (intros ->; by eapply Hfresh).
    apply Hord1. by apply Hin_sorted. }
  split; [done|]. split; [by rewrite Hsd1|]. split; [done|].
  split.
  { rewrite Hframe'; [by rewrite Hsd2|].
    intros ([z c] & Heq & Hin)%list_elem_of_fmap. cbn in Heq. subst c.
    by eapply Hfresh. }
  split; [done|]. split; [apply z_sort_sorted|].
  split.
  { intros i z c Hi. rewrite (Hord' i z c Hi). do 2 f_equal. }
  intros i z c Hi.
  assert (Hin : (z, c) ∈ stored) by (apply Hin_sorted; by eapply list_elem_of_lookup_2).
  destruct (Hst _ _ Hin) as (Hcge & Hclt & _).
  rewrite Hdirty'. rewrite elem_of_union.
  rewrite (renumbered_lookup _ 0 i z c Hnd2 Hi).
  assert (Hc12 : class_of w' c = class_of w1 c).
  { rewrite Hcls'. unfold class_of. subst w2. cbn [heap set_heap].
    rewrite lookup_insert_ne; [done|]. intros ->. lia. }
  rewrite Hc12.
  change (_dirty w2) with (_dirty w1). rewrite Hdirty.
  split.
  - intros [[Hd|(_ & _ & Hc)]|Hz]; [|by right|left; lia].
    rewrite Hdirtya in Hd. apply Hwf in Hd. lia.
  - intros [Hz|Hc]; [right; lia|]. left. right. done.
Qed.

End GetChildren.

(** C6, as stated, fails for a trash folder. The trash folder of the
    notebook on disk has the stored order 2 and is the third child of
    the root; loading the children of the root leaves its order at 2,
    and yet it is in the dirty set, put there by its constructor. *)
Lemma get_children_marks_trash_dirty :
  _dirty Examples.w_init = ∅
  ∧ match NoteBookNodeMetaData_read
            (os.read_file Examples.fs_tree "nb/__TRASH__/node.xml")
            default_notebook_attrs 100 with
    | Ok attr => attr !! "order"
    | Raise _ => None
    end = Some (VInt 2)
  ∧ (NoteBook_get_children Examples.nb Examples.w_init).1
    = Ok [Examples.f; Examples.g; Examples.trash]
  ∧ Examples.children_view Examples.w_root Examples.nb
    = [(Some (VText "F"), Some (VInt 0)); (Some (VText "G"), Some (VInt 1));
       (Some (VText "Trash"), Some (VInt 2))]
  ∧ _dirty Examples.w_root = {[Examples.trash]}
  ∧ (_get_children Examples.nb Examples.w_init).1 = Ok tt
  ∧ _dirty (_get_children Examples.nb Examples.w_init).2 = {[Examples.trash]}.
Proof. by_computation. Qed.

(** C6, amended. The folder [f] of the notebook on disk has three
    children that are loaded with the stored orders 2, 0, 1;
    [get_children] returns them sorted, with the orders 0, 1, 2, and
    marks none of them dirty, no order having changed. In general, when [get_children] loads the
    children of a node, the list it returns is the loaded children
    sorted ascending by the order each was loaded with, every child has
    its position as order afterwards, and a child is in the dirty set
    exactly when its order was not its position or it is a trash folder
    (which its constructor marks dirty). *)
Theorem get_children_sorted_renumbered :
  (Examples.children_view (load_children Examples.f Examples.w_root).2 Examples.f
     = [(Some (VText "Y"), Some (VInt 2)); (Some (VText "Z"), Some (VInt 0));
        (Some (VText "X"), Some (VInt 1))]
   ∧ (NoteBookNode_get_children Examples.f Examples.w_root).1
     = Ok [6; 7; 5]%positive
   ∧ Examples.children_view
       (NoteBookNode_get_children Examples.f Examples.w_root).2 Examples.f
     = [(Some (VText "Z"), Some (VInt 0)); (Some (VText "X"), Some (VInt 1));
        (Some (VText "Y"), Some (VInt 2))]
   ∧ _dirty (NoteBookNode_get_children Examples.f Examples.w_root).2
     = _dirty Examples.w_root)
  ∧ ∀ (w w' : World) (self : ref) (sd : NoteBookNode) (a : NoteBookAttr)
      (l : list ref),
      notebook_attrs w !! "order" = Some a -> attr_datatype a = Tint ->
      (self < next_ref w)%positive ->
      (∀ r, r ∈ _dirty w -> (r < next_ref w)%positive) ->
      heap w !! self = Some sd -> _children sd = None ->
      NoteBookNode_get_children self w = (Ok l, w') ->
      ∃ (w1 : World) (stored : list (Z * ref)),
        load_children self w = (Ok tt, w1)
        ∧ heap w1 !! self ≫= _children = Some stored.*2
        ∧ (∀ z c, (z, c) ∈ stored -> attr_of w1 c "order" = Some (VInt z))
        ∧ l = (z_sort stored).*2
        ∧ z_sort stored ≡ₚ stored
        ∧ Sorted Z.le (z_sort stored).*1
        ∧ (∀ i z c, z_sort stored !! i = Some (z, c) ->
             attr_of w' c "order" = Some (VInt (Z.of_nat i)))
        ∧ (∀ i z c, z_sort stored !! i = Some (z, c) ->
             c ∈ _dirty w' ↔ z ≠ Z.of_nat i ∨ class_of w' c = Some NoteBookTrash).
Proof.
  split; [by_computation|].
  intros w w' self sd a l Ha Hint Hself Hwf Hsd Hnone Hrun.
  unfold NoteBookNode_get_children, ensure_children in Hrun.
  rewrite bind_assoc_w in Hrun.
  rewrite (bind_ok _ _ _ _ _ (deref_ok _ _ _ Hsd)) in Hrun. rewrite Hnone in Hrun.
  apply bind_inv in Hrun as ([] & w2 & Hget & Hrun).
  destruct (_get_children_spec _ _ _ _ Ha Hint Hself Hwf Hget)
    as (w1 & stored & H1 & H2 & H3 & H4 & H5 & H6 & H7 & H8).
  exists w1, stored.
  unfold children_of, mbind, M_bind, deref in Hrun.
  destruct (heap w2 !! self) as [sd2|]; [|discriminate]. cbn in H4.
  rewrite H4 in Hrun. injection Hrun as <- <-.
  repeat (split; [done|]). done.
Qed.

Lemma get_children_sorted_renumbered_witness :
  ∃ (w1 : World) (stored : list (Z * ref)),
    load_children Examples.f Examples.w_root = (Ok tt, w1)
    ∧ heap w1 !! Examples.f ≫= _children = Some stored.*2
    ∧ (∀ z c, (z, c) ∈ stored -> attr_of w1 c "order" = Some (VInt z))
    ∧ [6; 7; 5]%positive = (z_sort stored).*2
    ∧ z_sort stored ≡ₚ stored
    ∧ Sorted Z.le (z_sort stored).*1
    ∧ (∀ i z c, z_sort stored !! i = Some (z, c) ->
         attr_of (NoteBookNode_get_children Examples.f Examples.w_root).2 c "order"
         = Some (VInt (Z.of_nat i)))
    ∧ (∀ i z c, z_sort stored !! i = Some (z, c) ->
         c ∈ _dirty (NoteBookNode_get_children Examples.f Examples.w_root).2
         ↔ z ≠ Z.of_nat i
           ∨ class_of (NoteBookNode_get_children Examples.f Examples.w_root).2 c
             = Some NoteBookTrash).
Proof.
  assert (Hsd : ∃ sd, heap Examples.w_root !! Examples.f = Some sd ∧ _children sd = None).
  { eexists. split; [vm_compute; reflexivity|reflexivity]. }
  destruct Hsd as (sd & Hsd & Hnone).
  assert (Hd : _dirty Examples.w_root = {[Examples.trash]}) by (vm_compute; reflexivity).
  apply (proj2 get_children_sorted_renumbered Examples.w_root
           (NoteBookNode_get_children Examples.f Examples.w_root).2 Examples.f sd
           (mkAttr "Order" Tint "order") [6; 7; 5]%positive).
  - vm_compute; reflexivity.
  - reflexivity.
  - vm_compute; reflexivity.
  - intros r Hr. rewrite Hd in Hr. apply elem_of_singleton in Hr. subst r.
    vm_compute; reflexivity.
  - exact Hsd.
  - exact Hnone.
  - vm_compute; reflexivity.
Defined.

(* ===================================================================== *)
(** * The metadata round trip *)
(* ===================================================================== *)

Section Decimal.

Lemma string_of_uint_decimal (d : Decimal.uint) :
  PyStr.forallb decimal_char (NilEmpty.string_of_uint d) = true.
Proof. induction d; cbn; try done; exact IHd. Qed.

Lemma of_int_decimal (z : Z) : PyStr.forallb decimal_char (PyStr.of_int z) = true.
Proof.
  unfold PyStr.of_int, NilZero.string_of_int, NilZero.string_of_uint.
  destruct (Z.to_int z) as [d|d]; destruct d; try done;
    cbn; apply string_of_uint_decimal.
Qed.

Lemma of_int_nonempty (z : Z) : PyStr.of_int z ≠ "".
Proof.
  unfold PyStr.of_int. destruct z as [|p|p]; cbn; [done| |done].
  unfold NilZero.string_of_uint.
  pose proof (DecimalPos.Unsigned.to_uint_nonnil p).
  destruct (Pos.to_uint p); done.
Qed.

Lemma forallb_impl (p q : ascii -> bool) (s : string) :
  (∀ c, p c = true -> q c = true) ->
  PyStr.forallb p s = true -> PyStr.forallb q s = true.
Proof.
  intros Hpq. induction s as [|c s IH]; [done|]. cbn.
  intros [Hc Hs]%andb_prop. by rewrite (Hpq c Hc), (IH Hs).
Qed.

(** A property of the eleven decimal characters, by cases on the
    character. *)
Ltac by_ascii_cases c :=
  destruct c as [[] [] [] [] [] [] [] []]; try discriminate; reflexivity.

Lemma decimal_not_whitespace (c : ascii) :
  decimal_char c = true -> negb (PyStr.mem c PyStr.whitespace) = true.
Proof. by_ascii_cases c. Qed.

Lemma decimal_not_plus (c : ascii) : decimal_char c = true -> Ascii.eqb c "+" = false.
Proof. by_ascii_cases c. Qed.

Lemma decimal_xml_char_ok (c : ascii) : decimal_char c = true -> xml_char_ok c = true.
Proof. by_ascii_cases c. Qed.

Lemma lstrip_id (chars s : string) :
  PyStr.forallb (fun c => negb (PyStr.mem c chars)) s = true ->
  PyStr.lstrip chars s = s.
Proof.
  destruct s as [|c s]; [done|]. cbn. intros [Hc _]%andb_prop.
  by apply negb_true_iff in Hc as ->.
Qed.

Lemma rstrip_id (chars s : string) :
  PyStr.forallb (fun c => negb (PyStr.mem c chars)) s = true ->
  PyStr.rstrip chars s = s.
Proof.
  induction s as [|c s IH]; [done|]. cbn. intros [Hc Hs]%andb_prop.
  rewrite (IH Hs). apply negb_true_iff in Hc. rewrite Hc. by destruct s.
Qed.

(** [int(unicode(z)) == z] *)
Lemma to_int_of_int (z : Z) : PyStr.to_int (PyStr.of_int z) = Some z.
Proof.
  assert (Hws : PyStr.forallb (fun c => negb (PyStr.mem c PyStr.whitespace))
                  (PyStr.of_int z) = true).
  { eapply forallb_impl; [exact decimal_not_whitespace|apply of_int_decimal]. }
  unfold PyStr.to_int, PyStr.strip.
  rewrite (lstrip_id _ _ Hws), (rstrip_id _ _ Hws).
  assert (Hplus : match PyStr.of_int z with
                  | String "+" (String c r) =>
                      if Ascii.eqb c "-" then EmptyString else String c r
                  | _ => PyStr.of_int z
                  end = PyStr.of_int z).
  { pose proof (of_int_decimal z) as Hd.
    destruct (PyStr.of_int z) as [|c s]; [done|].
    cbn in Hd. apply andb_prop in Hd as [Hc%decimal_not_plus _].
    destruct (Ascii.eqb_spec c "+") as [->|Hne]; [discriminate|].
    destruct c as [[] [] [] [] [] [] [] []]; try reflexivity. by destruct Hne. }
  rewrite Hplus. unfold PyStr.of_int.
  rewrite NilZero.isi.
  - cbn. by rewrite DecimalZ.of_to.
  - destruct z; cbn; [done| |done]. intros [= H].
    by apply DecimalPos.Unsigned.to_uint_nonnil in H.
  - destruct z; cbn; [done|done|]. intros [= H].
    by apply DecimalPos.Unsigned.to_uint_nonnil in H.
Qed.

Lemma decimal_ascii (c : ascii) : decimal_char c = true -> expat.in_range 0 127 c = true.
Proof. by_ascii_cases c. Qed.

(** A text of ASCII characters is well-formed UTF-8. *)
Lemma ascii_utf8_ok (s : string) :
  PyStr.forallb (expat.in_range 0 127) s = true -> utf8_ok s = true.
Proof.
  unfold utf8_ok. induction s as [|c s IH]; [done|]. cbn [PyStr.forallb].
  intros [Hc Hs]%andb_prop. cbn [expat.utf8_run expat.utf8_step]. rewrite Hc.
  by apply IH.
Qed.

Lemma decimal_xml_text_ok (s : string) :
  PyStr.forallb decimal_char s = true -> xml_text_ok s = true.
Proof.
  intros Hs. unfold xml_text_ok. apply andb_true_intro. split.
  - apply ascii_utf8_ok. revert Hs. apply forallb_impl. exact decimal_ascii.
  - revert Hs. apply forallb_impl. exact decimal_xml_char_ok.
Qed.

End Decimal.

Section ParserRuns.

Lemma append_nil_l (a : string) : "" +:+ a = a.
Proof. reflexivity. Qed.

Lemma feed_app {H : Type} (hs : expat.Handlers H) (a b : string) :
  ∀ p, expat.feed hs p (a +:+ b)
       = result_bind (expat.feed hs p a) (fun p' => expat.feed hs p' b).
Proof.
  induction a as [|c a IH]; intros p; [done|].
  rewrite append_cons. cbn [expat.feed].
  destruct (expat.step hs p c) as [p1|e]; [apply IH|done].
Qed.

(** A byte that is a character by itself is read between two
    characters and leaves the parser between two characters. *)
Lemma utf8_step_ascii (u u' : expat.Utf8) (c : ascii) :
  expat.in_range 0 127 c = true -> expat.utf8_step u c = Some u' ->
  u = expat.Boundary ∧ u' = expat.Boundary.
Proof.
  intros Hc Hu. unfold expat.utf8_step in Hu.
  destruct u; [rewrite Hc in Hu; by injection Hu as <-|..];
    exfalso; destruct c as [[] [] [] [] [] [] [] []];
    vm_compute in Hc; try discriminate Hc; vm_compute in Hu; discriminate Hu.
Qed.

(** Escaped text between the tags of an element is handed to the
    character handler as the text it stands for, from whatever place
    inside a character the text starts at. *)
Lemma feed_escaped_from (s : string) :
  ∀ (u u' : expat.Utf8) (d rest e : string) (els : list string) (rc : bool)
    (m : gmap string Value) (reg : gmap string NoteBookAttr) (root : bool)
    (tag : option string) (mattr : option expat.attrs_t),
    expat.utf8_run u s = Some u' ->
    PyStr.forallb xml_char_ok s = true ->
    expat.feed meta_handlers
      (expat.mkParserAt (expat.Content false) (e :: els) rc
         (mkMeta m reg root (Some d) tag mattr) u)
      (escape s +:+ rest)
    = expat.feed meta_handlers
        (expat.mkParserAt (expat.Content false) (e :: els) rc
           (mkMeta m reg root (Some (d +:+ s)) tag mattr) u')
        rest.
Proof.
  induction s as [|c s IH]; intros u u' d rest e els rc m reg root tag mattr Hrun Hok.
  { injection Hrun as <-. by rewrite append_nil_r. }
  cbn [expat.utf8_run] in Hrun.
  destruct (expat.utf8_step u c) as [u1|] eqn:Hu; [|discriminate].
  cbn in Hok. apply andb_prop in Hok as [Hc Hs].
  replace (d +:+ String c s) with ((d +:+ String c "") +:+ s)
    by (by rewrite append_assoc).
  rewrite <- (IH u1 u' (d +:+ String c "") rest e els rc m reg root tag mattr Hrun Hs).
  cbn [escape]. rewrite append_assoc.
  destruct (Ascii.eqb_spec c "&") as [->|Hamp].
  { apply utf8_step_ascii in Hu as [-> ->]; [reflexivity|done]. }
  destruct (Ascii.eqb_spec c ">") as [->|Hgt].
  { apply utf8_step_ascii in Hu as [-> ->]; [reflexivity|done]. }
  destruct (Ascii.eqb_spec c "<") as [->|Hlt].
  { apply utf8_step_ascii in Hu as [-> ->]; [reflexivity|done]. }
  rewrite append_cons, append_nil_l. cbn [expat.feed].
  unfold xml_char_ok in Hc. apply andb_prop in Hc as [Hxml Hcr].
  apply negb_true_iff in Hcr.
  unfold expat.step. cbn [expat.pending]. rewrite Hu.
  unfold expat.dispatch. cbn [expat.mode expat.open_elements].
  rewrite (proj2 (Ascii.eqb_neq c "<") Hlt), (proj2 (Ascii.eqb_neq c "&") Hamp), Hcr.
  rewrite bool_decide_eq_false_2 by done.
  destruct (Ascii.eqb_spec c expat.LF) as [->|Hlf]; [reflexivity|].
  rewrite Hxml. reflexivity.
Qed.

Lemma feed_escaped (s : string) :
  ∀ (d rest e : string) (els : list string) (rc : bool) (m : gmap string Value)
    (reg : gmap string NoteBookAttr) (root : bool) (tag : option string)
    (mattr : option expat.attrs_t),
    xml_text_ok s = true ->
    expat.feed meta_handlers
      (expat.mkParser (expat.Content false) (e :: els) rc
         (mkMeta m reg root (Some d) tag mattr))
      (escape s +:+ rest)
    = expat.feed meta_handlers
        (expat.mkParser (expat.Content false) (e :: els) rc
           (mkMeta m reg root (Some (d +:+ s)) tag mattr))
        rest.
Proof.
  intros d rest e els rc m reg root tag mattr Hok.
  unfold xml_text_ok in Hok. apply andb_prop in Hok as [Hutf Hok].
  unfold utf8_ok in Hutf.
  destruct (expat.utf8_run expat.Boundary s) as [[]|] eqn:Hrun; try discriminate.
  unfold expat.mkParser. by apply feed_escaped_from.
Qed.

End ParserRuns.

Section UniqueNameTerminates.

Lemma append_inj_r (a b e : string) : a +:+ e = b +:+ e -> a = b.
Proof.
  revert b. induction a as [|x a IH]; intros [|y b] H.
  - done.
  - apply (f_equal String.length) in H. rewrite append_nil_l, append_length in H.
    cbn in H. lia.
  - apply (f_equal String.length) in H. rewrite append_nil_l, append_length in H.
    cbn in H. lia.
  - rewrite !append_cons in H. injection H as -> H. f_equal. by apply IH.
Qed.

Lemma of_int_inj (i j : Z) : PyStr.of_int i = PyStr.of_int j -> i = j.
Proof.
  intros H. apply (f_equal PyStr.to_int) in H.
  rewrite !to_int_of_int in H. by injection H.
Qed.

Lemma startswith_slash (c : ascii) (r : string) :
  PyStr.startswith "/" (String c r) = bool_decide (c = "/"%char).
Proof.
  unfold PyStr.startswith. cbn [String.prefix].
  destruct (ascii_dec "/" c) as [<-|Hc].
  - by destruct r.
  - symmetry. apply bool_decide_eq_false. congruence.
Qed.

Lemma of_int_relative (i : Z) (s : string) :
  PyStr.startswith "/" (PyStr.of_int i +:+ s) = false.
Proof.
  pose proof (of_int_decimal i) as Hd. pose proof (of_int_nonempty i) as Hn.
  destruct (PyStr.of_int i) as [|c r]; [done|].
  rewrite append_cons, startswith_slash. apply bool_decide_eq_false.
  intros ->. discriminate Hd.
Qed.

(** The candidates of the loop: one prefix, the number, one suffix. *)
Lemma candidate_shape (path filename ext sep : string) :
  ∃ prefix, ∀ i : Z,
    os_path.join path (filename +:+ sep +:+ PyStr.of_int i +:+ ext)
    = prefix +:+ PyStr.of_int i +:+ ext.
Proof.
  set (dir := if (String.eqb path "" || PyStr.endswith_char "/" path)%bool
              then path else path +:+ "/").
  destruct (filename +:+ sep) as [|c0 r0] eqn:Hfs.
  - (* the candidate starts with the number *)
    exists dir. intros i. rewrite <- append_assoc, Hfs, append_nil_l.
    by rewrite join_relative by apply of_int_relative.
  - destruct (decide (c0 = "/"%char)) as [->|Hc0].
    + (* an absolute candidate is returned as it is *)
      exists (String "/" r0). intros i. rewrite <- append_assoc, Hfs.
      unfold os_path.join. by rewrite append_cons, startswith_slash.
    + exists (dir +:+ String c0 r0).
      intros i. rewrite <- (append_assoc filename), Hfs.
      rewrite join_relative; [by rewrite <- !append_assoc|].
      rewrite append_cons, startswith_slash. by apply bool_decide_eq_false.
Qed.

Lemma candidate_inj (path filename ext sep : string) (i j : Z) :
  os_path.join path (filename +:+ sep +:+ PyStr.of_int i +:+ ext)
  = os_path.join path (filename +:+ sep +:+ PyStr.of_int j +:+ ext) ->
  i = j.
Proof.
  destruct (candidate_shape path filename ext sep) as [prefix Hp].
  rewrite !Hp. intros H%String.app_inj.
  apply of_int_inj. revert H. apply append_inj_r.
Qed.

(** A loop that used up its iterations has seen that many existing
    candidates. *)
Lemma unique_filename_loop_cases (fs : FileSystem) (path filename ext sep : string) :
  ∀ (fuel : nat) (i : Z),
    (∃ name, unique_filename_loop fuel fs path filename ext sep i = Ok name
             ∧ os_path.exists_ fs name = false)
    ∨ (unique_filename_loop fuel fs path filename ext sep i = Raise NonTermination
       ∧ ∀ j : nat, (j < fuel)%nat ->
           os_path.exists_ fs
             (os_path.join path
                (filename +:+ sep +:+ PyStr.of_int (i + Z.of_nat j) +:+ ext)) = true).
Proof.
  induction fuel as [|fuel IH]; intros i.
  { right. split; [done|]. intros j Hj. lia. }
  cbn [unique_filename_loop].
  destruct (os_path.exists_ fs _) eqn:Hex; cbn [negb]; [|left; eauto].
  destruct (IH (i + 1)) as [Hok|[Hraise Hall]]; [by left|].
  right. split; [done|]. intros [|j] Hj.
  - by rewrite Z.add_0_r.
  - replace (i + Z.of_nat (S j)) with (i + 1 + Z.of_nat j) by lia.
    apply Hall. lia.
Qed.

(** [get_unique_filename] returns: the directory has fewer entries
    than the loop has iterations, and the candidates are all
    different. *)
Lemma get_unique_filename_total (fs : FileSystem)
    (path filename ext sep : string) (number : Z) :
  path = "" ∨ os_path.exists_ fs path = true ->
  ∃ name, get_unique_filename fs path filename ext sep number = Ok name
          ∧ os_path.exists_ fs name = false.
Proof.
  intros Hdir. unfold get_unique_filename.
  assert (Hassert :
    (negb (String.eqb path "") && negb (os_path.exists_ fs path))%bool = false).
  { destruct Hdir as [-> | ->]; [done|]. by rewrite andb_false_r. }
  rewrite Hassert.
  destruct (os_path.exists_ fs (os_path.join path (filename +:+ ext))) eqn:Hex;
    cbn [negb]; [|eauto].
  destruct (unique_filename_loop_cases fs path filename ext sep (loop_bound fs) number)
    as [Hok|[_ Hall]]; [done|exfalso].
  set (cand := fun j : nat =>
         os_path.join path
           (filename +:+ sep +:+ PyStr.of_int (number + Z.of_nat j) +:+ ext)).
  set (l := cand <$> seq 0 (loop_bound fs)).
  assert (Hnd : NoDup l).
  { apply NoDup_fmap_2_strong; [|apply NoDup_seq].
    intros j1 j2 _ _ Heq. apply candidate_inj in Heq. lia. }
  assert (Hsub : list_to_set l ⊆ dom (fs_entries fs)).
  { intros x Hx. apply elem_of_list_to_set in Hx.
    apply list_elem_of_fmap in Hx as (j & -> & Hj). apply elem_of_seq in Hj.
    apply elem_of_dom. apply exists_lookup. apply Hall. lia. }
  apply subseteq_size in Hsub.
  rewrite size_list_to_set in Hsub by done.
  rewrite size_dom in Hsub. subst l. rewrite length_fmap, length_seq in Hsub.
  unfold loop_bound in Hsub. lia.
Qed.

End UniqueNameTerminates.

Section AttrLine.

Lemma feed_attr_value (k : string) :
  ∀ (val rest name key : string) (attrs : expat.attrs_t) (els : list string)
    (rc : bool) (h : NoteBookNodeMetaData),
    PyStr.forallb key_char k = true ->
    expat.feed meta_handlers
      (expat.mkParser (expat.AttrValue name attrs key "034" val) els rc h)
      (k +:+ rest)
    = expat.feed meta_handlers
        (expat.mkParser (expat.AttrValue name attrs key "034" (val +:+ k)) els rc h)
        rest.
Proof.
  induction k as [|c k IH]; intros val rest name key attrs els rc h Hok.
  { by rewrite append_nil_r. }
  cbn in Hok. apply andb_prop in Hok as [Hc Hk].
  replace (val +:+ String c k) with ((val +:+ String c "") +:+ k)
    by (by rewrite append_assoc).
  rewrite <- (IH (val +:+ String c "") rest name key attrs els rc h Hk).
  rewrite append_cons. cbn [expat.feed].
  unfold key_char in Hc.
  apply andb_prop in Hc
    as [[[Hascii Hxml]%andb_prop Hsp%negb_true_iff]%andb_prop Hq%negb_true_iff].
  cbn in Hq.
  destruct (Ascii.eqb c "034") eqn:E1; [discriminate|].
  destruct (Ascii.eqb c "'") eqn:E2; [discriminate|].
  destruct (Ascii.eqb c "<") eqn:E3; [discriminate|].
  destruct (Ascii.eqb c "&") eqn:E4; [discriminate|].
  unfold expat.step, expat.mkParser. cbn [expat.pending expat.utf8_step].
  rewrite Hascii. unfold expat.dispatch. cbn [expat.mode].
  rewrite E1, E3, E4, Hsp, Hxml.
  reflexivity.
Qed.

(** One [attr] element of the file, read back. *)
Lemma feed_attr_line (m : gmap string Value) (k s rest : string) (a : NoteBookAttr)
    (v : Value) :
  default_notebook_attrs !! k = Some a ->
  PyStr.forallb key_char k = true ->
  xml_text_ok s = true ->
  NoteBookAttr_read a s = Ok v ->
  expat.feed meta_handlers (between m)
    (("<attr key=" +:+ DQUOTE +:+ k +:+ DQUOTE +:+ ">" +:+ escape s +:+ "</attr>" +:+ NL)
     +:+ rest)
  = expat.feed meta_handlers (between (<[k := v]> m)) rest.
Proof.
  intros Ha Hk Hs Hv.
  rewrite !append_assoc.
  change ("<attr key=" +:+ DQUOTE +:+ k +:+ DQUOTE +:+ ">" +:+ escape s
          +:+ "</attr>" +:+ NL +:+ rest)
    with ("<attr key=" +:+ (DQUOTE +:+ (k +:+ (DQUOTE +:+ (">" +:+ (escape s
          +:+ ("</attr>" +:+ (NL +:+ rest)))))))).
  rewrite (feed_app meta_handlers "<attr key=").
  change (expat.feed meta_handlers (between m) "<attr key=")
    with (Ok (expat.mkParser (expat.AttrQuote "attr" [] "key") ["node"] false
                (mkMeta m default_notebook_attrs true None None None))).
  cbn [result_bind].
  unfold DQUOTE at 1. rewrite append_cons, append_nil_l. cbn [expat.feed].
  change (expat.step meta_handlers _ "034")
    with (Ok (expat.mkParser (expat.AttrValue "attr" [] "key" "034" "") ["node"] false
                (mkMeta m default_notebook_attrs true None None None))).
  cbn [result_bind].
  rewrite (feed_attr_value k "" _ _ _ _ _ _ _ Hk). rewrite append_nil_l.
  unfold DQUOTE at 1. rewrite !append_cons, !append_nil_l. cbn [expat.feed].
  change (expat.step meta_handlers
            (expat.mkParser (expat.AttrValue "attr" [] "key" "034" k) ["node"] false
               (mkMeta m default_notebook_attrs true None None None)) "034")
    with (Ok (expat.mkParser (expat.Attrs "attr" [("key", k)] true) ["node"] false
                (mkMeta m default_notebook_attrs true None None None))).
  cbn [result_bind].
  change (expat.step meta_handlers
            (expat.mkParser (expat.Attrs "attr" [("key", k)] true) ["node"] false
               (mkMeta m default_notebook_attrs true None None None)) ">")
    with (Ok (expat.mkParser (expat.Content false) ["attr"; "node"] false
                (mkMeta m default_notebook_attrs true (Some "") (Some "attr")
                        (Some [("key", k)])))).
  cbn [result_bind].
  rewrite (feed_escaped s "" _ _ _ _ _ _ _ _ _ Hs). rewrite append_nil_l.
  match goal with
  | |- expat.feed _ ?p _ = _ =>
      change (expat.feed meta_handlers p ("</attr>" +:+ (NL +:+ rest))
              = expat.feed meta_handlers (between (<[k := v]> m)) rest)
  end.
  rewrite feed_app.
  assert (Hend : expat.feed meta_handlers
            (expat.mkParser (expat.Content false) ["attr"; "node"] false
               (mkMeta m default_notebook_attrs true (Some s) (Some "attr")
                       (Some [("key", k)]))) "</attr>"
          = Ok (between (<[k := v]> m))).
  { change (expat.feed meta_handlers _ "</attr>")
      with (result_bind
              (result_bind
                 (result_bind
                    (meta_end_element "attr"
                       (mkMeta m default_notebook_attrs true (Some s) (Some "attr")
                               (Some [("key", k)])))
                    (fun h => Ok (expat.mkParser (expat.Content false) ["node"] false h)))
                 (fun p => Ok (expat.with_pending expat.Boundary p)))
              (fun p => Ok p)).
    unfold meta_end_element.
    change (String.eqb "attr" "node") with false. cbn [md_meta_root negb md_meta_tag].
    rewrite bool_decide_eq_false_2 by done. rewrite bool_decide_eq_true_2 by done.
    cbn [md_meta_attr expat.attrs_get]. change (String.eqb "key" "key") with true.
    cbn [md_notebook_attrs]. rewrite Ha.
    cbn [md_data_value md_meta_data NoteBookAttr_read_value]. rewrite Hv.
    reflexivity. }
  rewrite Hend. cbn [result_bind].
  unfold NL at 1. rewrite append_cons, append_nil_l. reflexivity.
Qed.

End AttrLine.

Section RoundTrip.

Lemma result_bind_Ok {A : Type} (r : result A) : result_bind r Ok = r.
Proof. by destruct r. Qed.

Lemma escape_decimal (s : string) :
  PyStr.forallb decimal_char s = true -> escape s = s.
Proof.
  induction s as [|c s IH]; [done|]. cbn. intros [Hc Hs]%andb_prop.
  rewrite (IH Hs).
  destruct c as [[] [] [] [] [] [] [] []]; try discriminate Hc; reflexivity.
Qed.

(** The registered keys can be written between quotes as they are. *)
Lemma registered_key_chars (k : string) (a : NoteBookAttr) :
  default_notebook_attrs !! k = Some a -> PyStr.forallb key_char k = true.
Proof.
  intros H. apply elem_of_map_to_list in H.
  remember (map_to_list default_notebook_attrs) as l eqn:El.
  vm_compute in El. subst l.
  repeat (apply elem_of_cons in H as [[= -> ->]|H]; [reflexivity|]).
  by apply elem_of_nil in H.
Qed.

(** What the writer of an attribute writes, the reader of the same
    attribute reads back. *)
Lemma write_read_value (a : NoteBookAttr) (v : Value) :
  has_datatype v (attr_datatype a) = true ->
  xml_value_ok v = true ->
  ∃ s, NoteBookAttr_write a v = Ok s
       ∧ xml_text_ok s = true
       ∧ NoteBookAttr_read a s = Ok v.
Proof.
  unfold NoteBookAttr_write, NoteBookAttr_read.
  destruct v as [|b|z|s], (attr_datatype a); try discriminate; intros _ Hok.
  - exists (PyStr.of_int (if b then 1 else 0)). cbn.
    split; [done|]. split; [apply decimal_xml_text_ok, of_int_decimal|].
    rewrite to_int_of_int. by destruct b.
  - exists (PyStr.of_int z). cbn.
    split; [done|]. split; [apply decimal_xml_text_ok, of_int_decimal|].
    by rewrite to_int_of_int.
  - exists s. by cbn.
Qed.

Lemma feed_attr_lines (kvs : list (string * Value)) :
  registered kvs ->
  ∃ body, meta_write_attrs default_notebook_attrs kvs = Ok body
    ∧ ∀ m rest,
        expat.feed meta_handlers (between m) (body +:+ rest)
        = expat.feed meta_handlers (between (decoded_after kvs m)) rest.
Proof.
  induction kvs as [|[k v] kvs IH]; intros Hreg.
  { exists "". split; [done|]. intros m rest. by rewrite append_nil_l. }
  destruct (Hreg k v ltac:(left)) as (a & Ha & Hty & Hok).
  destruct (write_read_value a v Hty Hok) as (s & Hw & Hs & Hr).
  destruct IH as (body & Hbody & IH).
  { intros k' v' Hin. apply Hreg. by right. }
  eexists. split.
  { cbn [meta_write_attrs meta_write_attr]. rewrite Ha, Hw. cbn [result_bind].
    rewrite Hbody. cbn [result_bind]. reflexivity. }
  intros m rest. rewrite append_assoc.
  rewrite (feed_attr_line m k s _ a v Ha (registered_key_chars _ _ Ha) Hs Hr).
  change (decoded_after ((k, v) :: kvs) m) with (decoded_after kvs (<[k := v]> m)).
  apply IH.
Qed.

Lemma decoded_after_notin (kvs : list (string * Value)) :
  ∀ (m : gmap string Value) (k : string),
    k ∉ kvs.*1 -> decoded_after kvs m !! k = m !! k.
Proof.
  induction kvs as [|[k0 v0] kvs IH]; intros m k Hk; [done|].
  cbn in Hk. apply not_elem_of_cons in Hk as [Hne Hk].
  change (decoded_after ((k0, v0) :: kvs) m) with (decoded_after kvs (<[k0 := v0]> m)).
  rewrite (IH _ _ Hk). by rewrite lookup_insert_ne.
Qed.

Lemma decoded_after_lookup (kvs : list (string * Value)) :
  ∀ (m : gmap string Value) (k : string) (v : Value),
    NoDup kvs.*1 -> (k, v) ∈ kvs -> decoded_after kvs m !! k = Some v.
Proof.
  induction kvs as [|[k0 v0] kvs IH]; intros m k v Hnd Hin;
    [by apply elem_of_nil in Hin|].
  cbn in Hnd. apply NoDup_cons in Hnd as [Hk0 Hnd].
  change (decoded_after ((k0, v0) :: kvs) m) with (decoded_after kvs (<[k0 := v0]> m)).
  apply elem_of_cons in Hin as [[= -> ->]|Hin].
  - rewrite decoded_after_notin by done. apply lookup_insert_eq.
  - by apply IH.
Qed.

(** The head of the file, down to the end of the [version] element. *)
Lemma feed_header (m0 : gmap string Value) (version : Z) (rest : string) :
  expat.feed meta_handlers
    (expat.ParserCreate (mkMeta m0 default_notebook_attrs false None None None))
    (XML_HEADER +:+ "<node>" +:+ NL +:+ "<version>" +:+ PyStr.of_int version
     +:+ "</version>" +:+ NL +:+ rest)
  = expat.feed meta_handlers (between (<["version" := VInt version]> m0)) rest.
Proof.
  change (XML_HEADER +:+ "<node>" +:+ NL +:+ "<version>" +:+ PyStr.of_int version
          +:+ "</version>" +:+ NL +:+ rest)
    with ((XML_HEADER +:+ "<node>" +:+ NL +:+ "<version>")
          +:+ (PyStr.of_int version +:+ ("</version>" +:+ (NL +:+ rest)))).
  rewrite feed_app.
  change (expat.feed meta_handlers _ (XML_HEADER +:+ "<node>" +:+ NL +:+ "<version>"))
    with (Ok (expat.mkParser (expat.Content false) ["version"; "node"] false
                (mkMeta m0 default_notebook_attrs true (Some "") (Some "version")
                        (Some [])))).
  cbn [result_bind].
  rewrite <- (escape_decimal _ (of_int_decimal version)) at 1.
  rewrite (feed_escaped _ "" _ _ _ _ _ _ _ _ _
             (decimal_xml_text_ok _ (of_int_decimal version))).
  rewrite append_nil_l. rewrite feed_app.
  assert (Hend : expat.feed meta_handlers
            (expat.mkParser (expat.Content false) ["version"; "node"] false
               (mkMeta m0 default_notebook_attrs true (Some (PyStr.of_int version))
                       (Some "version") (Some []))) "</version>"
          = Ok (between (<["version" := VInt version]> m0))).
  { change (expat.feed meta_handlers _ "</version>")
      with (result_bind
              (result_bind
                 (result_bind
                    (meta_end_element "version"
                       (mkMeta m0 default_notebook_attrs true
                               (Some (PyStr.of_int version)) (Some "version") (Some [])))
                    (fun h => Ok (expat.mkParser (expat.Content false) ["node"] false h)))
                 (fun p => Ok (expat.with_pending expat.Boundary p)))
              (fun p => Ok p)).
    unfold meta_end_element.
    change (String.eqb "version" "node") with false. cbn [md_meta_root negb md_meta_tag].
    rewrite bool_decide_eq_true_2 by done.
    cbn [md_data_value md_meta_data py_int]. rewrite to_int_of_int.
    reflexivity. }
  rewrite Hend. cbn [result_bind].
  unfold NL at 1. rewrite append_cons, append_nil_l. reflexivity.
Qed.

(** The tail of the file. *)
Lemma feed_footer (m : gmap string Value) :
  expat.feed meta_handlers (between m) ("</node>" +:+ NL)
  = Ok (expat.mkParser (expat.Content false) [] true
          (mkMeta m default_notebook_attrs false None None None)).
Proof. reflexivity. Qed.

End RoundTrip.

(** C8, as stated, fails for text with a carriage return: the writer
    writes it as it is, and the parser reports a line feed. Text with a
    control character is written to a file the reader rejects, and so
    is text with U+FFFF or a surrogate in it. *)
Lemma metadata_roundtrip_carriage_return :
  default_notebook_attrs !! "title" = Some (mkAttr "Title" Tunicode "title")
  ∧ Examples.write_then_read {["title" := VText Examples.cr_title]} "title"
    = Ok (Some (VText (String "a" (String "010" "b"))))
  ∧ Examples.write_then_read {["title" := VText Examples.cr_title]} "title"
    ≠ Ok (Some (VText Examples.cr_title))
  ∧ Examples.write_then_read {["title" := VText Examples.ctrl_title]} "title"
    = Raise (NoteBookError "Cannot read meta data" (Some ExpatError))
  ∧ Examples.write_then_read {["title" := VText Examples.ffff_title]} "title"
    = Raise (NoteBookError "Cannot read meta data" (Some ExpatError))
  ∧ Examples.write_then_read {["title" := VText Examples.surrogate_title]} "title"
    = Raise (NoteBookError "Cannot read meta data" (Some ExpatError)).
Proof. by_computation. Qed.

(** C8, amended. For attributes that all have registered schema entries
    and values of the registered types, where the text values hold only
    characters that XML 1.0 allows (their text is well-formed UTF-8 of
    such characters, of one to four bytes each) and no carriage return,
    the writer produces a file, the reader decodes it, and every
    attribute has its original value in what the reader decoded. *)
Theorem metadata_roundtrip (version now : Z) (attr : gmap string Value) :
  (∀ k v, attr !! k = Some v ->
     ∃ a, default_notebook_attrs !! k = Some a
          ∧ has_datatype v (attr_datatype a) = true
          ∧ xml_value_ok v = true) ->
  ∃ text decoded,
    meta_text version attr default_notebook_attrs = Ok text
    ∧ NoteBookNodeMetaData_read (Ok text) default_notebook_attrs now = Ok decoded
    ∧ ∀ k v, attr !! k = Some v -> decoded !! k = Some v.
Proof.
  intros Hattr.
  assert (Hreg : registered (map_to_list attr)).
  { intros k v Hin. apply Hattr. by apply elem_of_map_to_list. }
  destruct (feed_attr_lines _ Hreg) as (body & Hbody & Hfeed).
  unfold meta_text. rewrite Hbody. cbn [result_bind].
  eexists. eexists. split; [reflexivity|].
  unfold NoteBookNodeMetaData_read. cbn [result_bind].
  unfold expat.ParseFile.
  rewrite feed_header, Hfeed, feed_footer. cbn [result_bind expat.mode
    expat.open_elements expat.root_closed expat.user md_attr is_Exception].
  split; [reflexivity|].
  intros k v Hkv.
  destruct (Hattr k v Hkv) as (a & _ & Hty & _).
  assert (Hv : v ≠ VNone) by (intros ->; discriminate).
  set (m := decoded_after _ _).
  assert (Hm : m !! k = Some v).
  { apply decoded_after_lookup; [apply NoDup_fst_map_to_list|].
    by apply elem_of_map_to_list. }
  clearbody m.
  assert (Hstep : ∀ (m' : gmap string Value) (key : string),
            m' !! k = Some v ->
            (if bool_decide (m' !! key = Some VNone)
             then <[key := VInt now]> m' else m') !! k = Some v).
  { intros m' key Hm'. case_bool_decide as Hc; [|done].
    rewrite lookup_insert_ne; [done|]. intros ->. congruence. }
  by do 2 apply Hstep.
Qed.

Lemma metadata_roundtrip_witness :
  ∃ text decoded,
    meta_text 2 (<["title" := VText ("a <b> & c " +:+ Examples.wide_title)]>
                   (<["order" := VInt (-3)]> {["expanded" := VBool true]}))
              default_notebook_attrs = Ok text
    ∧ NoteBookNodeMetaData_read (Ok text) default_notebook_attrs 100 = Ok decoded
    ∧ ∀ k v, (<["title" := VText ("a <b> & c " +:+ Examples.wide_title)]>
                (<["order" := VInt (-3)]> {["expanded" := VBool true]})
              : gmap string Value) !! k = Some v ->
             decoded !! k = Some v.
Proof.
  apply (metadata_roundtrip 2 100).
  intros k v Hkv.
  apply lookup_insert_Some in Hkv as [[<- <-]|[_ Hkv]];
    [eexists; split; [reflexivity|split; reflexivity]|].
  apply lookup_insert_Some in Hkv as [[<- <-]|[_ Hkv]];
    [eexists; split; [reflexivity|split; reflexivity]|].
  apply lookup_singleton_Some in Hkv as [<- <-].
  eexists; split; [reflexivity|split; reflexivity].
Defined.

(* ===================================================================== *)
(** * Further properties of the file-name policy *)
(* ===================================================================== *)

Section Sanitising.

Lemma forallb_map (p : ascii -> bool) (f : ascii -> ascii) (s : string) :
  PyStr.forallb p (PyStr.map f s) = PyStr.forallb (fun c => p (f c)) s.
Proof. induction s as [|c s IH]; [done|]. cbn. by rewrite IH. Qed.

Lemma forallb_filter (p q : ascii -> bool) (s : string) :
  PyStr.forallb p s = true ->
  PyStr.forallb (fun c => p c && q c)%bool (PyStr.filter q s) = true.
Proof.
  induction s as [|c s IH]; [done|]. cbn. intros [Hc Hs]%andb_prop.
  destruct (q c) eqn:Hq; [|by apply IH]. cbn. by rewrite Hc, Hq, (IH Hs).
Qed.

Lemma forallb_lstrip (p : ascii -> bool) (chars s : string) :
  PyStr.forallb p s = true -> PyStr.forallb p (PyStr.lstrip chars s) = true.
Proof.
  induction s as [|c s IH]; [done|]. cbn. intros H.
  destruct (PyStr.mem c chars); [|done].
  apply andb_prop in H as [_ Hs]. by apply IH.
Qed.

Lemma forallb_rstrip (p : ascii -> bool) (chars s : string) :
  PyStr.forallb p s = true -> PyStr.forallb p (PyStr.rstrip chars s) = true.
Proof.
  induction s as [|c s IH]; [done|]. cbn. intros [Hc Hs]%andb_prop.
  specialize (IH Hs). destruct (PyStr.rstrip chars s) as [|d r].
  - destruct (PyStr.mem c chars); [done|]. cbn. by rewrite Hc.
  - change (PyStr.forallb p (String c (String d r)))
      with (p c && PyStr.forallb p (String d r))%bool.
    by rewrite Hc, IH.
Qed.

Lemma forallb_drop (p : ascii -> bool) (n : nat) (s : string) :
  PyStr.forallb p s = true -> PyStr.forallb p (PyStr.drop n s) = true.
Proof.
  revert s. induction n as [|n IH]; intros [|c s]; try done.
  cbn. intros [_ Hs]%andb_prop. by apply IH.
Qed.

Lemma lower_nonempty (s : string) : s ≠ "" -> PyStr.lower s ≠ "".
Proof. by destruct s. Qed.

(** Lower case takes a character that is no separator, no bad character
    and no tab to a character a file name may hold. *)
Lemma lower_char_filename_char (c : ascii) :
  (negb (REGEX_SLASHES c) && negb (REGEX_BAD_CHARS c) && negb (Ascii.eqb c TAB))%bool
    = true ->
  filename_char (PyStr.lower_char c) = true.
Proof. destruct c as [[] [] [] [] [] [] [] []]; try discriminate; reflexivity. Qed.

End Sanitising.

(** X1. Whatever the title, the sanitised file name is not empty and
    holds no slash, no backslash, none of the characters of
    [REGEX_BAD_CHARS], no tab and no upper-case ASCII letter. *)
Theorem get_valid_filename_clean (filename : string) :
  get_valid_filename filename ≠ ""
  ∧ PyStr.forallb filename_char (get_valid_filename filename) = true.
Proof.
  unfold get_valid_filename, get_valid_filename_with.
  set (s1 := PyStr.map _ filename).
  set (s2 := PyStr.filter _ s1).
  set (s3 := PyStr.replace_char TAB " " s2).
  set (s4 := PyStr.strip _ s3).
  set (s5 := if PyStr.startswith "__" s4 then PyStr.drop 2 s4 else s4).
  set (q := fun c => (negb (REGEX_SLASHES c) && negb (REGEX_BAD_CHARS c)
                      && negb (Ascii.eqb c TAB))%bool).
  assert (H1 : PyStr.forallb (fun c => negb (REGEX_SLASHES c)) s1 = true).
  { subst s1. rewrite forallb_map. clear. induction filename as [|c s IH]; [done|].
    cbn [PyStr.forallb]. rewrite IH, andb_true_r.
    destruct (REGEX_SLASHES c) eqn:Hc; [reflexivity|by rewrite Hc]. }
  assert (H2 : PyStr.forallb
                 (fun c => negb (REGEX_SLASHES c) && negb (REGEX_BAD_CHARS c))%bool
                 s2 = true).
  { subst s2. by apply (forallb_filter _ (fun c => negb (REGEX_BAD_CHARS c))). }
  assert (H3 : PyStr.forallb q s3 = true).
  { subst s3. unfold PyStr.replace_char. rewrite forallb_map.
    revert H2. apply forallb_impl. intros c Hc. subst q. cbn beta.
    destruct (Ascii.eqb c TAB) eqn:Ht; [reflexivity|]. by rewrite Hc, Ht. }
  assert (H4 : PyStr.forallb q s4 = true).
  { subst s4. unfold PyStr.strip. by apply forallb_rstrip, forallb_lstrip. }
  assert (H5 : PyStr.forallb q s5 = true).
  { subst s5. destruct (PyStr.startswith "__" s4); [by apply forallb_drop|done]. }
  clearbody s5. clear -H5.
  assert (H6 : PyStr.forallb q (if String.eqb s5 "" then "folder" else s5) = true)
    by (destruct (String.eqb s5 ""); [reflexivity|done]).
  assert (Hne : (if String.eqb s5 "" then "folder" else s5) ≠ "").
  { destruct (String.eqb_spec s5 ""); [discriminate|done]. }
  set (s6 := if String.eqb s5 "" then "folder" else s5) in *. clearbody s6.
  split; [by apply lower_nonempty|].
  unfold PyStr.lower. rewrite forallb_map.
  revert H6. apply forallb_impl. intros c. apply lower_char_filename_char.
Qed.

Section UniqueNames.

(** The directory cannot hold all the candidates the loop may probe. *)
Lemma candidates_exhausted (fs : FileSystem) (path filename ext sep : string)
    (number : Z) :
  ¬ (∀ j : nat, (j < loop_bound fs)%nat ->
       os_path.exists_ fs (candidate path filename ext sep (number + Z.of_nat j)) = true).
Proof.
  intros Hall.
  set (l := (fun j : nat => candidate path filename ext sep (number + Z.of_nat j))
              <$> seq 0 (loop_bound fs)).
  assert (Hnd : NoDup l).
  { apply NoDup_fmap_2_strong; [|apply NoDup_seq].
    intros j1 j2 _ _ Heq. apply candidate_inj in Heq. lia. }
  assert (Hsub : list_to_set l ⊆ dom (fs_entries fs)).
  { intros x Hx. apply elem_of_list_to_set in Hx.
    apply list_elem_of_fmap in Hx as (j & -> & Hj). apply elem_of_seq in Hj.
    apply elem_of_dom. apply exists_lookup. apply Hall. lia. }
  apply subseteq_size in Hsub.
  rewrite size_list_to_set in Hsub by done.
  rewrite size_dom in Hsub. subst l. rewrite length_fmap, length_seq in Hsub.
  unfold loop_bound in Hsub. lia.
Qed.

(** The loop returns the first candidate that does not exist, or runs
    out of iterations over candidates that all exist. *)
Lemma unique_filename_loop_first (fs : FileSystem) (path filename ext sep : string) :
  ∀ (fuel : nat) (i : Z),
    (∃ k : nat,
        unique_filename_loop fuel fs path filename ext sep i
          = Ok (candidate path filename ext sep (i + Z.of_nat k))
        ∧ os_path.exists_ fs (candidate path filename ext sep (i + Z.of_nat k)) = false
        ∧ ∀ j : nat, (j < k)%nat ->
            os_path.exists_ fs (candidate path filename ext sep (i + Z.of_nat j)) = true)
    ∨ (∀ j : nat, (j < fuel)%nat ->
         os_path.exists_ fs (candidate path filename ext sep (i + Z.of_nat j)) = true).
Proof.
  induction fuel as [|fuel IH]; intros i.
  { right. intros j Hj. lia. }
  cbn [unique_filename_loop]. fold (candidate path filename ext sep i).
  destruct (os_path.exists_ fs (candidate path filename ext sep i)) eqn:Hex; cbn [negb].
  - destruct (IH (i + 1)) as [(k & Hrun & Hfree & Hbelow)|Hall].
    + left. exists (S k).
      replace (i + Z.of_nat (S k)) with (i + 1 + Z.of_nat k) by lia.
      split; [exact Hrun|]. split; [exact Hfree|].
      intros [|j] Hj; [by rewrite Z.add_0_r|].
      replace (i + Z.of_nat (S j)) with (i + 1 + Z.of_nat j) by lia.
      apply Hbelow. lia.
    + right. intros [|j] Hj; [by rewrite Z.add_0_r|].
      replace (i + Z.of_nat (S j)) with (i + 1 + Z.of_nat j) by lia.
      apply Hall. lia.
  - left. exists O. rewrite Z.add_0_r. split; [done|]. split; [done|].
    intros j Hj. lia.
Qed.

Lemma list_candidate_inj (filename ext sep : string) (i j : Z) :
  filename +:+ sep +:+ PyStr.of_int i +:+ ext
  = filename +:+ sep +:+ PyStr.of_int j +:+ ext -> i = j.
Proof.
  intros H. apply String.app_inj in H. apply String.app_inj in H.
  apply of_int_inj. revert H. apply append_inj_r.
Qed.

Lemma unique_filename_list_loop_first (filenames : gset string)
    (filename ext sep : string) :
  ∀ (fuel : nat) (i : Z),
    (∃ k : nat,
        unique_filename_list_loop fuel filenames filename ext sep i
          = Ok (filename +:+ sep +:+ PyStr.of_int (i + Z.of_nat k) +:+ ext)
        ∧ ((filename +:+ sep +:+ PyStr.of_int (i + Z.of_nat k) +:+ ext) ∉ filenames)
        ∧ ∀ j : nat, (j < k)%nat ->
            (filename +:+ sep +:+ PyStr.of_int (i + Z.of_nat j) +:+ ext) ∈ filenames)
    ∨ (∀ j : nat, (j < fuel)%nat ->
         (filename +:+ sep +:+ PyStr.of_int (i + Z.of_nat j) +:+ ext) ∈ filenames).
Proof.
  induction fuel as [|fuel IH]; intros i.
  { right. intros j Hj. lia. }
  cbn [unique_filename_list_loop].
  case_bool_decide as Hex.
  - left. exists O. rewrite Z.add_0_r. split; [done|]. split; [done|].
    intros j Hj. lia.
  - destruct (IH (i + 1)) as [(k & Hrun & Hfree & Hbelow)|Hall].
    + left. exists (S k).
      replace (i + Z.of_nat (S k)) with (i + 1 + Z.of_nat k) by lia.
      split; [exact Hrun|]. split; [exact Hfree|].
      intros [|j] Hj; [by rewrite Z.add_0_r|].
      replace (i + Z.of_nat (S j)) with (i + 1 + Z.of_nat j) by lia.
      apply Hbelow. lia.
    + right. intros [|j] Hj; [by rewrite Z.add_0_r|].
      replace (i + Z.of_nat (S j)) with (i + 1 + Z.of_nat j) by lia.
      apply Hall. lia.
Qed.

End UniqueNames.

(** X2. In a directory that exists (or with the empty path),
    [get_unique_filename] returns, and what it returns does not exist:
    it is the plain name when that is free, and otherwise the candidate
    with the first number, counting up from [number], whose path does not
    exist. The unbounded loop of the source ends because the candidates
    are all different and the directory has finitely many entries. *)
Theorem get_unique_filename_first_free (fs : FileSystem)
    (path filename ext sep : string) (number : Z) :
  path = "" ∨ os_path.exists_ fs path = true ->
  ∃ name,
    get_unique_filename fs path filename ext sep number = Ok name
    ∧ os_path.exists_ fs name = false
    ∧ (name = os_path.join path (filename +:+ ext)
       ∨ (os_path.exists_ fs (os_path.join path (filename +:+ ext)) = true
          ∧ ∃ k : nat,
              name = candidate path filename ext sep (number + Z.of_nat k)
              ∧ ∀ j : nat, (j < k)%nat ->
                  os_path.exists_ fs
                    (candidate path filename ext sep (number + Z.of_nat j)) = true)).
Proof.
  intros Hdir. unfold get_unique_filename.
  assert (Hassert :
    (negb (String.eqb path "") && negb (os_path.exists_ fs path))%bool = false).
  { destruct Hdir as [-> | ->]; [done|]. by rewrite andb_false_r. }
  rewrite Hassert.
  destruct (os_path.exists_ fs (os_path.join path (filename +:+ ext))) eqn:Hex;
    cbn [negb]; [|eauto].
  destruct (unique_filename_loop_first fs path filename ext sep (loop_bound fs) number)
    as [(k & Hrun & Hfree & Hbelow)|Hall].
  - eexists. split; [exact Hrun|]. split; [exact Hfree|]. right. eauto.
  - by apply candidates_exhausted in Hall.
Qed.

Lemma get_unique_filename_first_free_witness :
  ∃ name,
    get_unique_filename Examples.fs_notes "nb" "notes" "" " " 2 = Ok name
    ∧ os_path.exists_ Examples.fs_notes name = false
    ∧ (name = os_path.join "nb" ("notes" +:+ "")
       ∨ (os_path.exists_ Examples.fs_notes (os_path.join "nb" ("notes" +:+ "")) = true
          ∧ ∃ k : nat,
              name = candidate "nb" "notes" "" " " (2 + Z.of_nat k)
              ∧ ∀ j : nat, (j < k)%nat ->
                  os_path.exists_ Examples.fs_notes
                    (candidate "nb" "notes" "" " " (2 + Z.of_nat j)) = true)).
Proof.
  apply (get_unique_filename_first_free Examples.fs_notes "nb" "notes" "" " " 2).
  right. vm_compute. reflexivity.
Defined.

(** X3. [get_unique_filename_list] returns for every list of names in
    use, and what it returns is not in the list: the plain name when
    that is free, and otherwise the name with the first number, counting
    up from [number], that is not in use. *)
Theorem get_unique_filename_list_free (filenames : list string)
    (filename ext sep : string) (number : Z) :
  ∃ name,
    get_unique_filename_list filenames filename ext sep number = Ok name
    ∧ (name ∉ filenames)
    ∧ (name = filename +:+ ext
       ∨ ((filename +:+ ext) ∈ filenames
          ∧ ∃ k : nat,
              name = filename +:+ sep +:+ PyStr.of_int (number + Z.of_nat k) +:+ ext
              ∧ ∀ j : nat, (j < k)%nat ->
                  (filename +:+ sep +:+ PyStr.of_int (number + Z.of_nat j) +:+ ext)
                    ∈ filenames)).
Proof.
  unfold get_unique_filename_list.
  set (used := list_to_set filenames : gset string).
  assert (Hused : ∀ x, x ∈ used ↔ x ∈ filenames)
    by (intros x; subst used; apply elem_of_list_to_set).
  case_bool_decide as Hex.
  { eexists. split; [done|]. split; [by rewrite <- Hused|]. by left. }
  destruct (unique_filename_list_loop_first used filename ext sep (S (size used)) number)
    as [(k & Hrun & Hfree & Hbelow)|Hall].
  - eexists. split; [exact Hrun|]. split; [by rewrite <- Hused|].
    right. split; [by apply Hused|]. exists k. split; [done|].
    intros j Hj. apply Hused. by apply Hbelow.
  - exfalso.
    set (l := (fun j : nat =>
                 filename +:+ sep +:+ PyStr.of_int (number + Z.of_nat j) +:+ ext)
                <$> seq 0 (S (size used))).
    assert (Hnd : NoDup l).
    { apply NoDup_fmap_2_strong; [|apply NoDup_seq].
      intros j1 j2 _ _ Heq. apply list_candidate_inj in Heq. lia. }
    assert (Hsub : list_to_set l ⊆ used).
    { intros x Hx. apply elem_of_list_to_set in Hx.
      apply list_elem_of_fmap in Hx as (j & -> & Hj). apply elem_of_seq in Hj.
      apply Hall. lia. }
    apply subseteq_size in Hsub.
    rewrite size_list_to_set in Hsub by done.
    subst l. rewrite length_fmap, length_seq in Hsub. lia.
Qed.

(* ===================================================================== *)
(** * The plain text of a note *)
(* ===================================================================== *)

Section StripTags.

Lemma mem_gt_cons (c : ascii) (s : string) :
  PyStr.mem ">" (String c s) = (Ascii.eqb c ">" || PyStr.mem ">" s)%bool.
Proof. cbn [PyStr.mem]. rewrite (Ascii.eqb_sym ">" c). by destruct (Ascii.eqb c ">"). Qed.

(** A closing bracket of the result was in the line. *)
Lemma mem_strip_tags_from (s : string) :
  ∀ b, PyStr.mem ">" (strip_tags_from b s) = true -> PyStr.mem ">" s = true.
Proof.
  induction s as [|c s IH]; intros b; [done|].
  rewrite mem_gt_cons. cbn [strip_tags_from].
  destruct b.
  - destruct (Ascii.eqb c ">"); [done|]. apply IH.
  - destruct (Ascii.eqb c "<" && PyStr.mem ">" s)%bool eqn:Hopen.
    + intros H%IH. rewrite H. apply orb_true_r.
    + rewrite mem_gt_cons. destruct (Ascii.eqb c ">"); [done|]. apply IH.
Qed.

Lemma strip_tags_from_has_tag (s : string) :
  ∀ b, has_tag (strip_tags_from b s) = false.
Proof.
  induction s as [|c s IH]; intros b; [done|]. cbn [strip_tags_from].
  destruct b; [destruct (Ascii.eqb c ">"); apply IH|].
  destruct (Ascii.eqb c "<" && PyStr.mem ">" s)%bool eqn:Hopen; [apply IH|].
  cbn [has_tag]. rewrite IH, orb_false_r.
  destruct (Ascii.eqb c "<"); [|done]. cbn [andb] in *.
  destruct (PyStr.mem ">" (strip_tags_from false s)) eqn:Hm; [|done].
  apply mem_strip_tags_from in Hm. congruence.
Qed.

(** A line without a complete tag is left as it is. *)
Lemma strip_tags_no_tag (s : string) : has_tag s = false -> strip_tags s = s.
Proof.
  unfold strip_tags. induction s as [|c s IH]; [done|].
  cbn [has_tag strip_tags_from]. intros [Hc Hs]%orb_false_elim.
  rewrite Hc. by rewrite (IH Hs).
Qed.

End StripTags.

(** X4. What [strip_tags] returns holds no complete tag any more (no
    opening angle bracket with a closing one after it), so stripping it
    once more changes nothing. *)
Theorem strip_tags_idempotent (line : string) :
  has_tag (strip_tags line) = false
  ∧ strip_tags (strip_tags line) = strip_tags line.
Proof.
  assert (H : has_tag (strip_tags line) = false) by apply strip_tags_from_has_tag.
  split; [exact H|]. by apply strip_tags_no_tag.
Qed.

Section PlainText.

Lemma plain_text_until_end_spec (mid post : list string) (last : string) (pos : nat) :
  Forall (fun l => str_find "</body>" l = None) mid ->
  str_find "</body>" last = Some pos ->
  plain_text_until_end (mid ++ last :: post)
  = (strip_tags <$> mid) ++ [strip_tags (str_take pos last)].
Proof.
  intros Hmid Hlast. induction Hmid as [|l mid Hl _ IH].
  - cbn. by rewrite Hlast.
  - cbn. by rewrite Hl, IH.
Qed.

Lemma plain_text_until_end_open (lines : list string) :
  Forall (fun l => str_find "</body>" l = None) lines ->
  plain_text_until_end lines = strip_tags <$> lines.
Proof.
  induction 1 as [|l lines Hl _ IH]; [done|]. cbn. by rewrite Hl, IH.
Qed.

End PlainText.

(** X5. The plain text of a note file. Without a line that holds the
    opening body tag, nothing is yielded. Otherwise the first line
    yielded is what follows the opening tag on its line; the lines
    after it are yielded up to the first of them that holds the closing
    tag, of which the part before the tag is the last line yielded. The
    lines before the body and after its end are not read, and each
    line yielded has its tags stripped. A closing tag on the line of the
    opening tag is not looked for. *)
Theorem read_data_as_plain_text_body (pre mid post : list string)
    (first last : string) (pos pos' : nat) :
  Forall (fun l => str_find "<body>" l = None) pre ->
  (read_data_as_plain_text pre = []
   ∧ (str_find "<body>" first = Some pos ->
      Forall (fun l => str_find "</body>" l = None) mid ->
      (read_data_as_plain_text (pre ++ first :: mid)
       = strip_tags (PyStr.drop (pos + 6) first) :: (strip_tags <$> mid))
      ∧ (str_find "</body>" last = Some pos' ->
         read_data_as_plain_text (pre ++ first :: mid ++ last :: post)
         = strip_tags (PyStr.drop (pos + 6) first)
             :: (strip_tags <$> mid) ++ [strip_tags (str_take pos' last)]))).
Proof.
  intros Hpre. induction Hpre as [|l pre Hl _ IH].
  - split; [done|]. intros Hfirst Hmid. cbn. rewrite Hfirst. split.
    + by rewrite plain_text_until_end_open.
    + intros Hlast. by rewrite (plain_text_until_end_spec _ _ _ _ Hmid Hlast).
  - cbn. rewrite Hl. exact IH.
Qed.

Lemma read_data_as_plain_text_body_witness :
  read_data_as_plain_text Scenarios.note_lines
  = [ "Hello world" +:+ NL; "a " +:+ NL; "end" ].
Proof.
  pose proof (read_data_as_plain_text_body
                [ "<html><head><title>t</title></head>" +:+ NL ]
                [ "<p>a < b</p>" +:+ NL ]
                [ "<!-- trailer -->" +:+ NL ]
                ("<body><p>Hello <b>world</b></p>" +:+ NL)
                ("<p>end</p></body></html>" +:+ NL) 0 10) as H.
  destruct H as [_ H].
  - repeat constructor.
  - destruct H as [_ H]; [reflexivity|repeat constructor|].
    etransitivity; [exact (H eq_refl)|]. vm_compute. reflexivity.
Defined.

Section DataFile.

(** [get_path] looks at the heap only. *)
Lemma get_path_heap (n : ref) (w w' : World) :
  heap w' = heap w -> (get_path n w').1 = (get_path n w).1.
Proof.
  intros Hh. unfold get_path, mbind, M_bind, get_world, lift, raise. rewrite Hh.
  destruct (path_list _ _ _) as [l|e]; [|done].
  destruct (rev l) as [|[a|] r]; done.
Qed.

Lemma try_except_inv {A} (m : M A) (c : Exn -> bool) (h : Exn -> M A)
    (w w' : World) (a : A) :
  try_except m c h w = (Ok a, w') ->
  m w = (Ok a, w') ∨ ∃ e w1, m w = (Raise e, w1) ∧ c e = true ∧ h e w1 = (Ok a, w').
Proof.
  unfold try_except. destruct (m w) as [[x|e] w1]; [by left|].
  destruct (c e) eqn:Hc; [|discriminate]. right. eauto.
Qed.

Lemma write_empty_data_file_inv (self : ref) (w w' : World) :
  write_empty_data_file self w = (Ok tt, w') ->
  ∃ p, get_path self w = (Ok p, w)
       ∧ w' = set_fs (os.commit (fs w) (get_page_data_file p) BLANK_NOTE) w.
Proof.
  intros H. unfold write_empty_data_file in H.
  apply bind_inv in H as (p & w1 & Hp & H).
  rewrite get_path_eq in Hp. injection Hp as Hp <-.
  exists p. split; [rewrite get_path_eq; by rewrite Hp|].
  apply try_except_inv in H as [H|(e & w1 & _ & _ & H)]; [|discriminate].
  apply bind_inv in H as ([] & w1 & Hopen & H).
  unfold fs_query in Hopen. injection Hopen as _ <-.
  unfold modify in H. by injection H as <-.
Qed.

End DataFile.

(** X6. A data file that [write_empty_data_file] has just written reads
    as one line, the line feed that ends the line of the empty body:
    [read_data_as_plain_text] on the same node returns and yields that
    line only. *)
Theorem write_empty_data_file_plain_text (self : ref) (w w' : World) :
  write_empty_data_file self w = (Ok tt, w') ->
  NoteBookNode_read_data_as_plain_text self w' = (Ok [NL], w').
Proof.
  intros H. apply write_empty_data_file_inv in H as (p & Hp & ->).
  set (w' := set_fs _ w).
  assert (Hp' : get_path self w' = (Ok p, w')).
  { rewrite get_path_eq. rewrite (get_path_heap self w w') by done. by rewrite Hp. }
  unfold NoteBookNode_read_data_as_plain_text, get_data_file.
  erewrite bind_ok; [|erewrite bind_ok; [|exact Hp']; reflexivity].
  erewrite bind_ok; last first.
  { unfold fs_query, os.read_file. subst w'. cbn. rewrite lookup_insert_eq. reflexivity. }
  reflexivity.
Qed.

Lemma write_empty_data_file_plain_text_witness :
  NoteBookNode_read_data_as_plain_text Examples.a
    (write_empty_data_file Examples.a Examples.w_loaded).2
  = (Ok [NL], (write_empty_data_file Examples.a Examples.w_loaded).2).
Proof.
  assert (H : (write_empty_data_file Examples.a Examples.w_loaded).1 = Ok tt)
    by (vm_compute; reflexivity).
  destruct (write_empty_data_file Examples.a Examples.w_loaded) as [r w'] eqn:E.
  cbn [fst snd] in *. subst r.
  exact (write_empty_data_file_plain_text Examples.a Examples.w_loaded w' E).
Defined.

(* ===================================================================== *)
(** * The path of a node *)
(* ===================================================================== *)

Section PathList.
Variable h : gmap ref NoteBookNode.

Lemma path_list_fuel (k : nat) :
  ∀ (k' : nat) (p : option ref) (l : list (option string)),
    path_list k h p = Ok l -> (k ≤ k')%nat -> path_list k' h p = Ok l.
Proof.
  induction k as [|k IH]; intros k' [n|] l Hl Hk; try (by destruct k').
  destruct k' as [|k']; [lia|]. cbn in Hl |- *.
  destruct (h !! n) as [nd|]; [|discriminate].
  destruct (path_list k h (_parent nd)) as [r|e] eqn:Hr; [|discriminate].
  by rewrite (IH k' _ _ Hr ltac:(lia)).
Qed.

(** The chain of parents has one length, whatever the fuel. *)
Lemma path_list_det (k k' : nat) (p : option ref) (l l' : list (option string)) :
  path_list k h p = Ok l -> path_list k' h p = Ok l' -> l = l'.
Proof.
  intros Hl Hl'.
  pose proof (path_list_fuel k (k `max` k')%nat p l Hl ltac:(lia)) as H1.
  pose proof (path_list_fuel k' (k `max` k')%nat p l' Hl' ltac:(lia)) as H2.
  congruence.
Qed.

End PathList.

Section ChainLength.

(** A chain of parents that ends does not come back to the node [n]:
    it is the same chain in the heap without [n], unless [n] itself has
    a chain that is no longer. *)
Lemma path_list_delete (h : gmap ref NoteBookNode) (n : ref) (k : nat) :
  ∀ (p : option ref) (l : list (option string)),
    path_list k h p = Ok l ->
    path_list k (delete n h) p = Ok l
    ∨ ∃ k' l', path_list k' h (Some n) = Ok l' ∧ (length l' ≤ length l)%nat.
Proof.
  induction k as [|k IH]; intros [m|] l Hl; try done; try (by left).
  destruct (decide (m = n)) as [->|Hne]; [right; by exists (S k), l|].
  cbn in Hl |- *. rewrite lookup_delete_ne by done.
  destruct (h !! m) as [nd|]; [|discriminate].
  destruct (path_list k h (_parent nd)) as [r|e] eqn:Hr; [|discriminate].
  injection Hl as <-.
  destruct (IH _ _ Hr) as [->|(k' & l' & Hl' & Hlen)]; [by left|].
  right. exists k', l'. split; [done|]. cbn. lia.
Qed.

(** A chain of parents that ends is no longer than the heap is large. *)
Lemma path_list_length (k : nat) :
  ∀ (h : gmap ref NoteBookNode) (p : option ref) (l : list (option string)),
    path_list k h p = Ok l -> (length l ≤ size h)%nat.
Proof.
  induction k as [|k IH]; intros h [n|] l Hl; try done;
    try (injection Hl as <-; cbn; lia).
  pose proof Hl as Hl0. cbn in Hl.
  destruct (h !! n) as [nd|] eqn:Hn; [|discriminate].
  destruct (path_list k h (_parent nd)) as [r|e] eqn:Hr; [|discriminate].
  injection Hl as <-.
  destruct (path_list_delete h n k _ _ Hr) as [Hd|(k' & l' & Hl' & Hlen)].
  - apply IH in Hd. rewrite map_size_delete in Hd. rewrite Hn in Hd.
    assert (size h ≠ 0)%nat
      by (intros ->%map_size_empty_inv; by rewrite lookup_empty in Hn).
    cbn. lia.
  - pose proof (path_list_det h _ _ _ _ _ Hl0 Hl') as <-. cbn in Hlen. lia.
Qed.

Lemma join_all_snoc (l : list (option string)) :
  ∀ (acc p b : string),
    join_all acc l = Ok p -> join_all acc (l ++ [Some b]) = Ok (os_path.join p b).
Proof.
  induction l as [|[x|] l IH]; intros acc p b H; cbn in *.
  - by injection H as <-.
  - by apply IH.
  - discriminate.
Qed.

Lemma get_path_inv (n : ref) (w : World) (p : string) :
  (get_path n w).1 = Ok p ->
  ∃ l a r, path_list (S (size (heap w))) (heap w) (Some n) = Ok l
           ∧ rev l = Some a :: r ∧ join_all a r = Ok p.
Proof.
  unfold get_path, mbind, M_bind, get_world, lift, raise.
  destruct (path_list _ _ _) as [l|e]; [|discriminate].
  destruct (rev l) as [|[a|] r] eqn:Hrev; try discriminate.
  cbn. intros H. exists l, a, r. repeat split; [done|].
  by destruct (join_all a r).
Qed.

End ChainLength.

(** X7. The path of a node that has a parent is the path of the parent
    joined with the base name of the node: whenever the parent has a
    path, the node has one, and it is that one. *)
Theorem get_path_of_child (w : World) (self parent : ref) (nd : NoteBookNode)
    (basename parent_path : string) :
  heap w !! self = Some nd ->
  _parent nd = Some parent ->
  _basename nd = Some basename ->
  (get_path parent w).1 = Ok parent_path ->
  get_path self w = (Ok (os_path.join parent_path basename), w).
Proof.
  intros Hself Hparent Hbase Hpp.
  apply get_path_inv in Hpp as (l & a & r & Hl & Hrev & Hjoin).
  pose proof (path_list_length _ _ _ _ Hl) as Hlen.
  assert (Hl' : path_list (size (heap w)) (heap w) (Some parent) = Ok l).
  { destruct l as [|x l]; [discriminate Hrev|].
    cbn in Hl. destruct (heap w !! parent) as [pd|] eqn:Hpd; [|discriminate].
    destruct (path_list _ _ (_parent pd)) as [t|e] eqn:Ht; [|discriminate].
    injection Hl as <- <-.
    pose proof (path_list_length _ _ _ _ Ht) as Hlt.
    assert (path_list (length (_basename pd :: t)) (heap w) (Some parent)
            = Ok (_basename pd :: t)) as Hmin.
    { cbn. rewrite Hpd.
      assert (Hex : ∀ k h p l0, path_list k h p = Ok l0 ->
                               path_list (length l0) h p = Ok l0).
      { clear. induction k as [|k IH]; intros h [n|] l0 H0; try done;
          try (by injection H0 as <-).
        cbn in H0. destruct (h !! n) as [nd|] eqn:Hn; [|discriminate].
        destruct (path_list k h (_parent nd)) as [t|e] eqn:Ht; [|discriminate].
        injection H0 as <-. cbn. rewrite Hn. by rewrite (IH _ _ _ Ht). }
      by rewrite (Hex _ _ _ _ Ht). }
    eapply path_list_fuel; [exact Hmin|exact Hlen]. }
  rewrite get_path_eq. f_equal.
  unfold get_path, mbind, M_bind, get_world, lift, raise.
  cbn [path_list]. rewrite Hself, Hparent, Hl'. cbn [result_bind].
  rewrite Hbase. cbn [rev]. rewrite Hrev. cbn.
  by rewrite (join_all_snoc _ _ _ basename Hjoin).
Qed.

Lemma get_path_of_child_witness :
  get_path Examples.d Examples.w_sub = (Ok (os_path.join "nb/g/c" "d"), Examples.w_sub).
Proof.
  assert (Hnd : ∃ nd, heap Examples.w_sub !! Examples.d = Some nd
                      ∧ _parent nd = Some Examples.c
                      ∧ _basename nd = Some "d").
  { eexists. split; [by vm_compute|]. split; reflexivity. }
  destruct Hnd as (nd & Hnd & Hp & Hb).
  apply (get_path_of_child Examples.w_sub Examples.d Examples.c nd "d" "nb/g/c"
           Hnd Hp Hb).
  vm_compute. reflexivity.
Defined.

(* ===================================================================== *)
(** * Failures and what they leave of the world *)
(* ===================================================================== *)

(** X8. Renaming the root of a notebook never touches the file system:
    the directory keeps its name and no file is written. The title is
    assigned, the root is marked dirty, and the listeners are not told;
    with the title the root already has, nothing happens at all. *)
Theorem rename_root (w : World) (self nbk : ref) (nd : NoteBookNode)
    (title : string) (old : Value) :
  heap w !! self = Some nd ->
  _parent nd = None ->
  _notebook nd = Some nbk ->
  _attr nd !! "title" = Some old ->
  rename self title w
  = (Ok tt,
     if py_eq (VText title) old then w
     else set_dirty ({[self]} ∪ _dirty w)
            (set_heap (<[self := with_attr (<["title" := VText title]> (_attr nd)) nd]>
                         (heap w)) w)).
Proof.
  intros Hself Hparent Hnb Htitle. unfold rename.
  rewrite (bind_ok _ _ _ _ _ (deref_ok _ _ _ Hself)).
  unfold getitem. rewrite Htitle.
  unfold mbind at 1, M_bind at 1, mret at 1, M_ret at 1.
  destruct (py_eq (VText title) old); [reflexivity|].
  rewrite Hparent. exact (set_attr_run _ _ nbk _ "title" (VText title) Hself Hnb).
Qed.

Lemma rename_root_witness :
  ∃ nd, heap Examples.w_loaded !! Examples.nb = Some nd
    ∧ rename Examples.nb "Diary" Examples.w_loaded
      = (Ok tt,
         if py_eq (VText "Diary") (VText "nb") then Examples.w_loaded
         else set_dirty ({[Examples.nb]} ∪ _dirty Examples.w_loaded)
                (set_heap (<[Examples.nb :=
                               with_attr (<["title" := VText "Diary"]> (_attr nd)) nd]>
                             (heap Examples.w_loaded)) Examples.w_loaded)).
Proof.
  assert (Hnd : ∃ nd, heap Examples.w_loaded !! Examples.nb = Some nd
                      ∧ _parent nd = None ∧ _notebook nd = Some Examples.nb
                      ∧ _attr nd !! "title" = Some (VText "nb")).
  { eexists. split; [by vm_compute|]. repeat split. }
  destruct Hnd as (nd & Hnd & Hp & Hnb & Ht). exists nd. split; [exact Hnd|].
  exact (rename_root Examples.w_loaded Examples.nb Examples.nb nd "Diary" (VText "nb")
           Hnd Hp Hnb Ht).
Defined.

Section RemoveTree.

Lemma strip_prefix_Some (p s r : string) :
  PyStr.strip_prefix p s = Some r <-> s = p +:+ r.
Proof.
  revert s. induction p as [|a p IH]; intros s; cbn.
  - split; [by intros [= ->]|by intros ->].
  - destruct s as [|b s]; [by split|].
    destruct (Ascii.eqb_spec a b) as [->|Hne].
    + rewrite IH. split; [by intros ->|by intros [= ->]].
    + split; [done|]. intros [= -> _]. by destruct Hne.
Qed.

Lemma below_Some (p k : string) :
  os.below p k = true <-> ∃ r, k = p +:+ "/" +:+ r.
Proof.
  unfold os.below. destruct (PyStr.strip_prefix (p +:+ "/") k) as [r|] eqn:E.
  - apply strip_prefix_Some in E. rewrite append_assoc in E.
    split; [by exists r|done].
  - split; [done|]. intros (r & Hr). rewrite <- append_assoc in Hr.
    apply strip_prefix_Some in Hr. congruence.
Qed.

Lemma below_trans (p c k : string) :
  os.below p c = true -> os.below c k = true -> os.below p k = true.
Proof.
  rewrite !below_Some. intros (r1 & ->) (r2 & ->).
  exists (r1 +:+ "/" +:+ r2). by rewrite !append_assoc.
Qed.

(** A directory is not below itself. *)
Lemma below_ne (p k : string) : os.below p k = true -> k ≠ p.
Proof.
  rewrite below_Some. intros (r & ->) H.
  apply (f_equal String.length) in H. rewrite !append_length in H. cbn in H. lia.
Qed.

Lemma listed_below (fs : FileSystem) (p c : string) :
  c ∈ os.listed fs p -> os.below p c = true.
Proof.
  unfold os.listed. intros [Hc _]%list_elem_of_filter.
  unfold os.entry_name in Hc. unfold os.below.
  destruct (PyStr.strip_prefix _ c); [done|]. by destruct Hc.
Qed.

Lemma removed_below_refl (p : string) (fs : FileSystem) : removed_below p fs fs.
Proof. split; [done|]. intros k. by left. Qed.

Lemma removed_below_trans (p : string) (fs1 fs2 fs3 : FileSystem) :
  removed_below p fs1 fs2 -> removed_below p fs2 fs3 -> removed_below p fs1 fs3.
Proof.
  intros [Hd1 H1] [Hd2 H2]. split; [congruence|]. intros k.
  destruct (H2 k) as [E2|[E2 Hb]]; [|by right].
  destruct (H1 k) as [E1|[E1 Hb]]; [left; congruence|right; split; [congruence|done]].
Qed.

(** What is removed below an entry of [p] is removed below [p]. *)
Lemma removed_below_up (p c : string) (fs fs' : FileSystem) :
  os.below p c = true -> removed_below c fs fs' -> removed_below p fs fs'.
Proof.
  intros Hc [Hd H]. split; [done|]. intros k.
  destruct (H k) as [E|[E Hb]]; [by left|right]. split; [done|].
  by apply (below_trans p c).
Qed.

Lemma remove_effect (p c : string) (fs fs' : FileSystem) :
  os.below p c = true -> os.remove fs c = Ok fs' -> removed_below p fs fs'.
Proof.
  intros Hc H. unfold os.remove in H.
  destruct (fs_entries fs !! c) as [[|data]|]; try discriminate.
  case_bool_decide; [discriminate|]. injection H as <-. split; [done|].
  intros k. cbn [fs_entries]. destruct (decide (k = c)) as [->|Hne].
  - right. split; [apply lookup_delete_eq|done].
  - left. by apply lookup_delete_ne.
Qed.

Lemma is_empty_dir_lookup (fs : FileSystem) (p k : string) :
  os.is_empty_dir fs p = true -> os.below p k = true -> fs_entries fs !! k = None.
Proof.
  unfold os.is_empty_dir. intros [_ Hall]%andb_prop Hk.
  destruct (fs_entries fs !! k) as [e|] eqn:E; [|done].
  rewrite forallb_forall in Hall.
  assert (Hin : In k (map_to_list (fs_entries fs)).*1).
  { apply list_elem_of_In, list_elem_of_fmap. exists (k, e).
    split; [done|]. by apply elem_of_map_to_list. }
  apply Hall in Hin. by rewrite Hk in Hin.
Qed.

(** The walk of [shutil.rmtree]. When it returns, [p] was a directory
    and it is gone with everything below it, and nothing else has
    changed. When it raises, some of the entries below [p] are gone and
    nothing else has changed: [p] itself is still there. *)
Lemma rmtree_walk_effect (fuel : nat) :
  ∀ (fs : FileSystem) (p : string) (r : result unit) (fs' : FileSystem),
    os.rmtree_walk fuel fs p = (r, fs') ->
    match r with
    | Ok _ =>
        os_path.isdir fs p = true
        ∧ fs_denied fs' = fs_denied fs
        ∧ ∀ k, fs_entries fs' !! k
               = if (String.eqb k p || os.below p k)%bool then None
                 else fs_entries fs !! k
    | Raise _ => removed_below p fs fs'
    end.
Proof.
  induction fuel as [|fuel IH]; intros fs p r fs' H.
  { injection H as <- <-. apply removed_below_refl. }
  cbn [os.rmtree_walk] in H.
  destruct (os_path.isdir fs p) eqn:Hdir; cbn [negb] in H;
    [|injection H as <- <-; apply removed_below_refl].
  match type of H with
  | context [?f (os.listed fs p) fs] => set (entries := f) in H
  end.
  assert (Hloop : ∀ names fs0 r1 fs1,
            (∀ c, c ∈ names -> os.below p c = true) ->
            entries names fs0 = (r1, fs1) -> removed_below p fs0 fs1).
  { clear H. induction names as [|c names IHn]; intros fs0 r1 fs1 Hnames Hrun.
    { injection Hrun as <- <-. apply removed_below_refl. }
    assert (Hc : os.below p c = true) by (apply Hnames; by left).
    cbn in Hrun.
    destruct (if os_path.isdir fs0 c then os.rmtree_walk fuel fs0 c
              else match os.remove fs0 c with
                   | Ok fs1 => (Ok tt, fs1)
                   | Raise e => (Raise e, fs0)
                   end) as [res fsx] eqn:Hone.
    assert (Hstep : removed_below p fs0 fsx).
    { destruct (os_path.isdir fs0 c).
      - apply IH in Hone. destruct res as [[]|e].
        + destruct Hone as (_ & Hd & Hk). split; [done|]. intros k.
          rewrite Hk. destruct (String.eqb_spec k c) as [->|Hne]; cbn [orb].
          * by right.
          * destruct (os.below c k) eqn:Hb; [|by left].
            right. split; [done|]. by apply (below_trans p c).
        + by apply (removed_below_up p c).
      - destruct (os.remove fs0 c) as [fsr|e] eqn:Hrm.
        + injection Hone as <- <-. by apply (remove_effect p c).
        + injection Hone as <- <-. apply removed_below_refl. }
    destruct res as [[]|e].
    - apply (removed_below_trans p fs0 fsx fs1 Hstep).
      apply (IHn fsx r1 fs1); [|exact Hrun]. intros c' Hc'. apply Hnames. by right.
    - by injection Hrun as <- <-. }
  destruct (entries (os.listed fs p) fs) as [r1 fs1] eqn:Hl.
  apply Hloop in Hl; [|intros c; apply listed_below].
  clearbody entries. clear Hloop.
  destruct r1 as [[]|e]; [|by injection H as <- <-].
  destruct (os.rmdir fs1 p) as [fs2|e] eqn:Hrd; [|by injection H as <- <-].
  injection H as <- <-. unfold os.rmdir in Hrd.
  destruct (os.is_empty_dir fs1 p) eqn:Hempty; [|discriminate].
  destruct (negb _); [|discriminate]. cbn [andb] in Hrd. injection Hrd as <-.
  destruct Hl as [Hd Hk]. split; [done|]. split; [done|].
  intros k. cbn [fs_entries].
  destruct (String.eqb_spec k p) as [->|Hne]; cbn [orb]; [apply lookup_delete_eq|].
  rewrite lookup_delete_ne by done.
  destruct (os.below p k) eqn:Hb; [by apply (is_empty_dir_lookup fs1 p)|].
  destruct (Hk k) as [E|[_ Hb']]; [done|congruence].
Qed.

(** What [shutil.rmtree] leaves of the entries when it returns. *)
Lemma rmtree_inv (fs0 fs1 : FileSystem) (p : string) :
  os.rmtree fs0 p = (Ok tt, fs1) ->
  os_path.isdir fs0 p = true
  ∧ ∀ k, fs_entries fs1 !! k
         = if (String.eqb k p || os.below p k)%bool then None else fs_entries fs0 !! k.
Proof.
  intros H. apply rmtree_walk_effect in H as (Hdir & _ & Hk). by split.
Qed.

Lemma fs_run_inv (f : FileSystem -> result unit * FileSystem) (w w' : World)
    (r : result unit) :
  fs_run f w = (r, w') -> ∃ fs', f (fs w) = (r, fs') ∧ w' = set_fs fs' w.
Proof.
  unfold fs_run. destruct (f (fs w)) as [r' fs']. intros [= <- <-]. eauto.
Qed.

End RemoveTree.

(** X9. When the directory of a node cannot be removed, [delete] raises
    the notebook error that wraps the failure and no object has changed:
    the node is still a valid child of its parent and the dirty set is
    what it was. The file system is what [shutil.rmtree] has left: the
    entries below the directory of the node that it removed before it
    failed are gone, and nothing else has changed; the directory itself
    is still there. *)
Theorem delete_failure_keeps_nodes (w : World) (self : ref) (nd : NoteBookNode)
    (path : string) (fs' : FileSystem) :
  heap w !! self = Some nd ->
  node_class nd ≠ NoteBookTrash ->
  (get_path self w).1 = Ok path ->
  os.rmtree (fs w) path = (Raise OSError, fs') ->
  node_delete self w
  = (Raise (NoteBookError "Do not have permission to delete" (Some OSError)),
     set_fs fs' w)
  ∧ removed_below path (fs w) fs'.
Proof.
  intros Hself Hcls Hpath Hrm. split.
  - assert (Hpath' : get_path self w = (Ok path, w))
      by (rewrite get_path_eq; by rewrite Hpath).
    assert (Hdel : node_delete self w = NoteBookNode_delete self w).
    { unfold node_delete. rewrite (bind_ok _ _ _ _ _ (deref_ok _ _ _ Hself)).
      by destruct (node_class nd). }
    rewrite Hdel. unfold NoteBookNode_delete.
    rewrite (bind_ok _ _ _ _ _ Hpath').
    erewrite bind_raise; [reflexivity|].
    erewrite try_except_caught; [reflexivity| |reflexivity].
    unfold fs_run. by rewrite Hrm.
  - exact (rmtree_walk_effect _ _ _ _ _ Hrm).
Qed.

Lemma delete_failure_keeps_nodes_witness :
  ∃ fs',
    node_delete Examples.a Examples.w_locked
    = (Raise (NoteBookError "Do not have permission to delete" (Some OSError)),
       set_fs fs' Examples.w_locked)
    ∧ removed_below "nb/g/a" (fs Examples.w_locked) fs'
    ∧ os_path_isfile (fs Examples.w_locked) "nb/g/a/node.xml" = true
    ∧ fs_entries fs' !! "nb/g/a/node.xml" = None
    ∧ fs_entries fs' !! "nb/g/a" = Some FsDir.
Proof.
  assert (Hnd : ∃ nd, heap Examples.w_locked !! Examples.a = Some nd
                      ∧ node_class nd = NoteBookPage).
  { eexists. split; [by vm_compute|]. reflexivity. }
  destruct Hnd as (nd & Hnd & Hc).
  assert (Hcls : node_class nd ≠ NoteBookTrash) by (rewrite Hc; discriminate).
  assert (Hpath : (get_path Examples.a Examples.w_locked).1 = Ok "nb/g/a")
    by (vm_compute; reflexivity).
  assert (Hr : (os.rmtree (fs Examples.w_locked) "nb/g/a").1 = Raise OSError)
    by (vm_compute; reflexivity).
  assert (Hgone : fs_entries (os.rmtree (fs Examples.w_locked) "nb/g/a").2
                    !! "nb/g/a/node.xml" = None) by (vm_compute; reflexivity).
  assert (Hdir : fs_entries (os.rmtree (fs Examples.w_locked) "nb/g/a").2
                   !! "nb/g/a" = Some FsDir) by (vm_compute; reflexivity).
  assert (Hfile : os_path_isfile (fs Examples.w_locked) "nb/g/a/node.xml" = true)
    by (vm_compute; reflexivity).
  destruct (os.rmtree (fs Examples.w_locked) "nb/g/a") as [r fs'] eqn:E.
  cbn [fst snd] in Hr, Hgone, Hdir. subst r. exists fs'.
  destruct (delete_failure_keeps_nodes _ _ _ _ _ Hnd Hcls Hpath E) as [Hdel Hrem].
  split; [exact Hdel|]. split; [exact Hrem|]. split; [exact Hfile|].
  split; [exact Hgone|exact Hdir].
Defined.

(** X10. When the directory of a node cannot be renamed into the new
    parent, as for a folder that is moved into its own subtree, [move]
    raises the notebook error that wraps the failure and the world is
    what it was: the node keeps its parent, its position and its base
    name. *)
Theorem move_failure_keeps_world (w : World) (self parent : ref) (index : option Z)
    (nd : NoteBookNode) (basename title path parent_path path2 : string) :
  self ≠ parent ->
  heap w !! self = Some nd ->
  node_class nd ≠ NoteBookTrash ->
  _parent nd ≠ Some parent ->
  _basename nd = Some basename ->
  _attr nd !! "title" = Some (VText title) ->
  (get_path self w).1 = Ok path ->
  (get_path parent w).1 = Ok parent_path ->
  get_valid_unique_filename (fs w)
    (os_path.dirname (os_path.join parent_path basename)) title "" " " 2 = Ok path2 ->
  os.rename (fs w) path path2 = Raise OSError ->
  node_move self parent index w
  = (Raise (NoteBookError "Do not have permission for move" (Some OSError)), w).
Proof.
  intros Hne Hself Hcls Hold Hbase Htitle Hpath Hppath Hpath2 Hrename.
  assert (Hpath' : get_path self w = (Ok path, w))
    by (rewrite get_path_eq; by rewrite Hpath).
  assert (Hppath' : get_path parent w = (Ok parent_path, w))
    by (rewrite get_path_eq; by rewrite Hppath).
  assert (Hmv : node_move self parent index w = NoteBookNode_move self parent index w).
  { unfold node_move. rewrite (bind_ok _ _ _ _ _ (deref_ok _ _ _ Hself)).
    by destruct (node_class nd). }
  rewrite Hmv. unfold NoteBookNode_move.
  rewrite (proj2 (Pos.eqb_neq self parent) Hne).
  unfold mbind at 1, M_bind at 1, mret at 1, M_ret at 1.
  rewrite (bind_ok _ _ _ _ _ Hpath').
  rewrite (bind_ok _ _ _ _ _ (deref_ok _ _ _ Hself)).
  rewrite (bool_decide_eq_false_2 _ Hold). cbn [negb].
  erewrite bind_raise; [reflexivity|].
  rewrite (bind_ok _ _ _ _ _ Hppath'). rewrite Hbase.
  unfold mbind at 1, M_bind at 1, mret at 1, M_ret at 1.
  unfold getitem. rewrite Htitle.
  unfold mbind at 1, M_bind at 1, mret at 1, M_ret at 1.
  unfold as_text. unfold mbind at 1, M_bind at 1, mret at 1, M_ret at 1.
  erewrite bind_ok; [|unfold fs_query; by rewrite Hpath2].
  erewrite bind_raise; [reflexivity|].
  erewrite try_except_caught; [reflexivity| |reflexivity].
  unfold fs_call. by rewrite Hrename.
Qed.

Lemma move_failure_keeps_world_witness :
  node_move Examples.g Examples.c None Examples.w_loaded
  = (Raise (NoteBookError "Do not have permission for move" (Some OSError)),
     Examples.w_loaded).
Proof.
  assert (Hnd : ∃ nd, heap Examples.w_loaded !! Examples.g = Some nd
                      ∧ node_class nd = NoteBookDir
                      ∧ _parent nd = Some Examples.nb
                      ∧ _basename nd = Some "g"
                      ∧ _attr nd !! "title" = Some (VText "G")).
  { eexists. split; [by vm_compute|]. repeat split. }
  destruct Hnd as (nd & Hnd & Hc & Hp & Hb & Ht).
  apply (move_failure_keeps_world Examples.w_loaded Examples.g Examples.c None nd
           "g" "G" "nb/g" "nb/g/c" "nb/g/c/g").
  - discriminate.
  - exact Hnd.
  - rewrite Hc. discriminate.
  - rewrite Hp. discriminate.
  - exact Hb.
  - exact Ht.
  - vm_compute. reflexivity.
  - vm_compute. reflexivity.
  - vm_compute. reflexivity.
  - vm_compute. reflexivity.
Defined.

(* ===================================================================== *)
(** * Putting a node into the trash *)
(* ===================================================================== *)

Section InTrash.
Variables (w : World) (self nbk : ref) (nd : NoteBookNode).
Hypothesis Hself : heap w !! self = Some nd.
Hypothesis Hnb : _notebook nd = Some nbk.

Lemma trash_among_cons (p : ref) (l : list ref) :
  _trash w ≠ Some p -> trash_among w (p :: l) ↔ trash_among w l.
Proof.
  intros Hp. unfold trash_among. split; intros (t & Ht & Hin).
  - exists t. split; [done|]. apply elem_of_cons in Hin as [->|Hin]; [done|done].
  - exists t. split; [done|]. by right.
Qed.

(** The loop of [in_trash] over a chain of parents that ends: it
    returns, and says whether the trash folder is on the chain. *)
Lemma in_trash_loop_spec (fuel : nat) :
  ∀ (ptr : option ref) (l : list (option string)),
    path_list fuel (heap w) ptr = Ok l ->
    in_trash_loop fuel self ptr w
    = (Ok (bool_decide (trash_among w (ancestors fuel (heap w) ptr))), w).
Proof.
  assert (Hnil : ¬ trash_among w []).
  { intros (t & _ & Hin). by apply elem_of_nil in Hin. }
  induction fuel as [|fuel IH]; intros [p|] l Hl; try discriminate;
    try (cbn; by rewrite bool_decide_eq_false_2).
  cbn in Hl. destruct (heap w !! p) as [pd|] eqn:Hp; [|discriminate].
  destruct (path_list fuel (heap w) (_parent pd)) as [r|e] eqn:Hr; [|discriminate].
  cbn [in_trash_loop ancestors]. rewrite Hp.
  rewrite (bind_ok _ _ _ _ _ (the_notebook_ok _ _ _ _ Hself Hnb)).
  unfold get_trash at 1. unfold mbind at 1, M_bind at 1, get_world at 1.
  unfold mbind at 1, M_bind at 1, mret at 1, M_ret at 1.
  case_bool_decide as Ht.
  - rewrite bool_decide_eq_true_2; [done|]. exists p. split; [done|]. by left.
  - rewrite (bind_ok _ _ _ _ _ (deref_ok _ _ _ Hp)).
    rewrite (IH _ _ Hr). do 2 f_equal. apply bool_decide_ext.
    symmetry. apply trash_among_cons. congruence.
Qed.

End InTrash.

(** X11. For a node of a notebook that has a path, [in_trash] returns,
    and says whether the trash folder of the notebook is among the
    ancestors of the node (the node itself does not count).
    Accordingly [trash] deletes a node that lies inside the trash
    folder, at whatever depth, and moves any other node into the trash
    folder. *)
Theorem in_trash_ancestors (w : World) (self nbk t : ref) (nd : NoteBookNode)
    (path : string) :
  heap w !! self = Some nd ->
  _notebook nd = Some nbk ->
  (get_path self w).1 = Ok path ->
  _trash w = Some t ->
  in_trash self w
  = (Ok (bool_decide
           (trash_among w (ancestors (S (size (heap w))) (heap w) (_parent nd)))), w)
  ∧ trash self w
    = (if bool_decide
            (trash_among w (ancestors (S (size (heap w))) (heap w) (_parent nd)))
       then node_delete self w
       else node_move self t None w).
Proof.
  intros Hself Hnb Hpath Htrash.
  apply get_path_inv in Hpath as (l & a & r & Hl & _ & _).
  cbn in Hl. rewrite Hself in Hl.
  destruct (path_list (size (heap w)) (heap w) (_parent nd)) as [lp|e] eqn:Hlp;
    [|discriminate].
  assert (Hin : in_trash self w
                = (Ok (bool_decide
                         (trash_among w
                            (ancestors (S (size (heap w))) (heap w) (_parent nd)))), w)).
  { unfold in_trash. rewrite (bind_ok _ _ _ _ _ (deref_ok _ _ _ Hself)).
    unfold mbind at 1, M_bind at 1, get_world at 1.
    eapply (in_trash_loop_spec w self nbk nd Hself Hnb).
    eapply path_list_fuel; [exact Hlp|lia]. }
  split; [exact Hin|].
  unfold trash. rewrite (bind_ok _ _ _ _ _ (deref_ok _ _ _ Hself)). rewrite Hnb.
  rewrite (bind_ok _ _ _ _ _ Hin).
  destruct (bool_decide _); [reflexivity|].
  unfold get_trash. unfold mbind at 1, M_bind at 1, get_world at 1.
  unfold mbind at 1, M_bind at 1, mret at 1, M_ret at 1. by rewrite Htrash.
Qed.

Lemma in_trash_ancestors_witness :
  (in_trash Examples.d Examples.w_sub).1 = Ok false
  ∧ trash Examples.d Examples.w_sub
    = node_move Examples.d Examples.trash None Examples.w_sub.
Proof.
  assert (Hnd : ∃ nd, heap Examples.w_sub !! Examples.d = Some nd
                      ∧ _notebook nd = Some Examples.nb
                      ∧ _parent nd = Some Examples.c).
  { eexists. split; [by vm_compute|]. split; reflexivity. }
  destruct Hnd as (nd & Hnd & Hnb & Hp).
  assert (Hpath : (get_path Examples.d Examples.w_sub).1 = Ok "nb/g/c/d")
    by (vm_compute; reflexivity).
  assert (Htrash : _trash Examples.w_sub = Some Examples.trash)
    by (vm_compute; reflexivity).
  destruct (in_trash_ancestors Examples.w_sub Examples.d Examples.nb Examples.trash nd
              "nb/g/c/d" Hnd Hnb Hpath Htrash) as [Hin Htr].
  assert (Hout : bool_decide
                   (trash_among Examples.w_sub
                      (ancestors (S (size (heap Examples.w_sub))) (heap Examples.w_sub)
                         (_parent nd))) = false).
  { rewrite Hp. vm_compute. reflexivity. }
  rewrite Hout in Hin, Htr. split; [by rewrite Hin|exact Htr].
Defined.

(** X12. The trash folder itself cannot be put into the trash: [trash]
    on it raises the error of a trash folder that is moved away from
    the top level, and the world is what it was. *)
Theorem trash_folder_not_trashed (w : World) (self nbk : ref) (nd rd : NoteBookNode) :
  heap w !! self = Some nd ->
  node_class nd = NoteBookTrash ->
  _notebook nd = Some nbk ->
  _parent nd = Some nbk ->
  heap w !! nbk = Some rd ->
  _parent rd = None ->
  _trash w ≠ Some nbk ->
  trash self w
  = (Raise (NoteBookError "The Trash folder must be a top-level folder." None), w).
Proof.
  intros Hself Hcls Hnb Hparent Hroot Hrp Htrash.
  assert (Hin : in_trash self w = (Ok false, w)).
  { unfold in_trash. rewrite (bind_ok _ _ _ _ _ (deref_ok _ _ _ Hself)).
    unfold mbind at 1, M_bind at 1, get_world at 1.
    rewrite Hparent. cbn [in_trash_loop].
    rewrite (bind_ok _ _ _ _ _ (the_notebook_ok _ _ _ _ Hself Hnb)).
    unfold get_trash at 1. unfold mbind at 1, M_bind at 1, get_world at 1.
    unfold mbind at 1, M_bind at 1, mret at 1, M_ret at 1.
    rewrite bool_decide_eq_false_2 by congruence.
    rewrite (bind_ok _ _ _ _ _ (deref_ok _ _ _ Hroot)). rewrite Hrp.
    by destruct (size (heap w)). }
  unfold trash. rewrite (bind_ok _ _ _ _ _ (deref_ok _ _ _ Hself)). rewrite Hnb.
  rewrite (bind_ok _ _ _ _ _ Hin).
  unfold get_trash. unfold mbind at 1, M_bind at 1, get_world at 1.
  unfold mbind at 1, M_bind at 1, mret at 1, M_ret at 1.
  destruct (_trash w) as [t|] eqn:Ht; [|by rewrite Hcls].
  unfold node_move. rewrite (bind_ok _ _ _ _ _ (deref_ok _ _ _ Hself)). rewrite Hcls.
  unfold NoteBookTrash_move. rewrite (bind_ok _ _ _ _ _ (deref_ok _ _ _ Hself)).
  rewrite Hnb. rewrite bool_decide_eq_false_2; [done|]. congruence.
Qed.

Lemma trash_folder_not_trashed_witness :
  trash Examples.trash Examples.w_loaded
  = (Raise (NoteBookError "The Trash folder must be a top-level folder." None),
     Examples.w_loaded).
Proof.
  assert (Hnd : ∃ nd, heap Examples.w_loaded !! Examples.trash = Some nd
                      ∧ node_class nd = NoteBookTrash
                      ∧ _notebook nd = Some Examples.nb
                      ∧ _parent nd = Some Examples.nb).
  { eexists. split; [by vm_compute|]. repeat split. }
  assert (Hrd : ∃ rd, heap Examples.w_loaded !! Examples.nb = Some rd
                      ∧ _parent rd = None).
  { eexists. split; [by vm_compute|]. reflexivity. }
  destruct Hnd as (nd & Hnd & Hc & Hnb & Hp). destruct Hrd as (rd & Hrd & Hrp).
  apply (trash_folder_not_trashed Examples.w_loaded Examples.trash Examples.nb nd rd
           Hnd Hc Hnb Hp Hrd Hrp).
  vm_compute. discriminate.
Defined.

(* ===================================================================== *)
(** * Reading the metadata of a node *)
(* ===================================================================== *)

Section ParserErrors.
Context {H : Type} (hs : expat.Handlers H) (Q : Exn -> Prop).
Hypothesis Hexpat : Q ExpatError.
Hypothesis Hstart : ∀ name attrs h e,
  expat.StartElementHandler hs name attrs h = Raise e -> Q e.
Hypothesis Hend : ∀ name h e, expat.EndElementHandler hs name h = Raise e -> Q e.
Hypothesis Hchars : ∀ data h e, expat.CharacterDataHandler hs data h = Raise e -> Q e.

Lemma result_bind_raise_inv {A B} (r : result A) (k : A -> result B) (e : Exn) :
  result_bind r k = Raise e -> r = Raise e ∨ ∃ a, r = Ok a ∧ k a = Raise e.
Proof. destruct r as [a|e']; cbn; [right; eauto|intros [= ->]; by left]. Qed.

Lemma char_data_errors (c : ascii) (m : expat.Mode) (p : expat.Parser H) (e : Exn) :
  expat.char_data hs c m p = Raise e -> Q e.
Proof.
  unfold expat.char_data. intros [Hr|(h & _ & Hr)]%result_bind_raise_inv; [|discriminate].
  by eapply Hchars.
Qed.

Lemma start_element_errors (name : string) (attrs : expat.attrs_t)
    (p : expat.Parser H) (e : Exn) :
  expat.start_element hs name attrs p = Raise e -> Q e.
Proof.
  unfold expat.start_element. destruct (_ && _)%bool; [by intros [= <-]|].
  intros [Hr|(h & _ & Hr)]%result_bind_raise_inv; [|discriminate].
  by eapply Hstart.
Qed.

Lemma end_element_errors (name : string) (p : expat.Parser H) (e : Exn) :
  expat.end_element hs name p = Raise e -> Q e.
Proof.
  unfold expat.end_element.
  destruct (expat.open_elements p) as [|top rest]; [by intros [= <-]|].
  destruct (String.eqb top name); [|by intros [= <-]].
  intros [Hr|(h & _ & Hr)]%result_bind_raise_inv; [|discriminate].
  by eapply Hend.
Qed.

Lemma dispatch_errors (c : ascii) (p : expat.Parser H) (e : Exn) :
  expat.dispatch hs p c = Raise e -> Q e.
Proof.
  intros Hr. unfold expat.dispatch, expat.add_attr in Hr.
  repeat case_match; try discriminate;
    try (injection Hr as <-; exact Hexpat);
    try (by eapply char_data_errors);
    try (by eapply start_element_errors);
    try (by eapply end_element_errors).
  apply result_bind_raise_inv in Hr as [Hr|(p1 & _ & Hr)].
  - by eapply start_element_errors.
  - by eapply end_element_errors.
Qed.

Lemma step_errors (c : ascii) (p : expat.Parser H) (e : Exn) :
  expat.step hs p c = Raise e -> Q e.
Proof.
  intros Hr. unfold expat.step in Hr.
  destruct (expat.utf8_step _ c) as [u|]; [|by injection Hr as <-].
  apply result_bind_raise_inv in Hr as [Hr|(p1 & _ & Hr)]; [|discriminate].
  by eapply dispatch_errors.
Qed.

Lemma feed_errors (text : string) :
  ∀ (p : expat.Parser H) (e : Exn), expat.feed hs p text = Raise e -> Q e.
Proof.
  induction text as [|c text IH]; intros p e Hr; [discriminate|].
  cbn in Hr. apply result_bind_raise_inv in Hr as [Hr|(p1 & _ & Hr)].
  - by eapply step_errors.
  - by eapply IH.
Qed.

(** A parse raises what a handler has raised, or [ExpatError]. *)
Lemma ParseFile_errors (h : H) (text : string) (e : Exn) :
  expat.ParseFile hs h text = Raise e -> Q e.
Proof.
  unfold expat.ParseFile. intros [Hr|(p & _ & Hr)]%result_bind_raise_inv.
  - by eapply feed_errors.
  - repeat case_match; try discriminate; by injection Hr as <-.
Qed.

End ParserErrors.

Section MetaHandlers.

Lemma py_int_errors (v : Value) (e : Exn) : py_int v = Raise e -> is_Exception e = true.
Proof. destruct v; cbn; try discriminate; [|case_match]; by intros [= <-]. Qed.

Lemma meta_start_errors (name : string) (attrs : expat.attrs_t)
    (self : NoteBookNodeMetaData) (e : Exn) :
  meta_start_element name attrs self = Raise e -> is_Exception e = true.
Proof.
  unfold meta_start_element. repeat case_match; try discriminate. by intros [= <-].
Qed.

Lemma read_value_errors (a : NoteBookAttr) (x : Value) (e : Exn) :
  NoteBookAttr_read_value a x = Raise e -> is_Exception e = true.
Proof.
  unfold NoteBookAttr_read_value, NoteBookAttr_read.
  destruct x, (attr_datatype a); try discriminate;
    intros [Hr|(i & _ & Hr)]%result_bind_raise_inv; try discriminate;
    by eapply py_int_errors.
Qed.

Lemma meta_end_errors (name : string) (self : NoteBookNodeMetaData) (e : Exn) :
  meta_end_element name self = Raise e -> is_Exception e = true.
Proof.
  unfold meta_end_element.
  set (self0 := if String.eqb name "node" then md_set_root false self else self).
  clearbody self0. destruct (negb (md_meta_root self0)); [discriminate|].
  intros [Hr|(s & _ & Hr)]%result_bind_raise_inv; [|discriminate].
  repeat case_match; try discriminate.
  - apply result_bind_raise_inv in Hr as [Hr|(i & _ & Hr)]; [|discriminate].
    by eapply py_int_errors.
  - apply result_bind_raise_inv in Hr as [Hr|(i & _ & Hr)]; [|discriminate].
    by eapply read_value_errors.
  - by injection Hr as <-.
Qed.

Lemma meta_chars_errors (data : string) (self : NoteBookNodeMetaData) (e : Exn) :
  meta_char_data data self = Raise e -> is_Exception e = true.
Proof. unfold meta_char_data. by case_match. Qed.

Lemma meta_start_timestamps (name : string) (attrs : expat.attrs_t)
    (self self' : NoteBookNodeMetaData) :
  has_timestamps self -> meta_start_element name attrs self = Ok self' ->
  has_timestamps self'.
Proof.
  intros HP Hr. unfold meta_start_element in Hr.
  repeat case_match; try discriminate; by injection Hr as <-.
Qed.

Lemma meta_chars_timestamps (data : string) (self self' : NoteBookNodeMetaData) :
  has_timestamps self -> meta_char_data data self = Ok self' -> has_timestamps self'.
Proof.
  intros HP Hr. unfold meta_char_data in Hr.
  repeat case_match; try discriminate; by injection Hr as <-.
Qed.

Lemma has_timestamps_set_attr (k : string) (v : Value) (self : NoteBookNodeMetaData) :
  has_timestamps self -> has_timestamps (md_set_attr k v self).
Proof.
  intros [Hc Hm]. split; cbn; apply lookup_insert_is_Some'; by right.
Qed.

Lemma meta_end_timestamps (name : string) (self self' : NoteBookNodeMetaData) :
  has_timestamps self -> meta_end_element name self = Ok self' -> has_timestamps self'.
Proof.
  intros HP Hr. unfold meta_end_element in Hr.
  set (self0 := if String.eqb name "node" then md_set_root false self else self) in Hr.
  assert (HP0 : has_timestamps self0)
    by (subst self0; by destruct (String.eqb name "node")).
  clearbody self0. clear HP.
  destruct (negb (md_meta_root self0)); [by injection Hr as <-|].
  apply result_bind_inv in Hr as (self1 & H1 & Hr). injection Hr as <-.
  enough (has_timestamps self1) by done.
  repeat case_match; try discriminate.
  - apply result_bind_inv in H1 as (i & _ & H1). injection H1 as <-.
    by apply has_timestamps_set_attr.
  - apply result_bind_inv in H1 as (v & _ & H1). injection H1 as <-.
    by apply has_timestamps_set_attr.
  - injection H1 as <-. by apply has_timestamps_set_attr.
  - by injection H1 as <-.
  - by injection H1 as <-.
Qed.

End MetaHandlers.

(** X13. Whatever goes wrong when the metadata of a node are read (the
    file cannot be opened, it is not well-formed XML, a handler rejects
    it, a number does not parse), the caller of [read] sees one kind of
    exception: the notebook error with the message of a metadata file
    that cannot be read, which carries the cause. *)
Theorem metadata_read_error (fs : FileSystem) (filename : string)
    (notebook_attrs : gmap string NoteBookAttr) (now : Z) (e : Exn) :
  NoteBookNodeMetaData_read (os.read_file fs filename) notebook_attrs now = Raise e ->
  ∃ cause, e = NoteBookError "Cannot read meta data" (Some cause).
Proof.
  unfold NoteBookNodeMetaData_read. intros Hr.
  destruct (result_bind _ _) as [self|e0] eqn:Hparse; [discriminate|].
  assert (He0 : is_Exception e0 = true).
  { apply result_bind_raise_inv in Hparse as [Hopen|(text & _ & Hparse)].
    - unfold os.read_file in Hopen. repeat case_match; try discriminate;
        by injection Hopen as <-.
    - eapply (ParseFile_errors meta_handlers (fun e => is_Exception e = true));
        [reflexivity|exact meta_start_errors|exact meta_end_errors
        |exact meta_chars_errors|exact Hparse]. }
  rewrite He0 in Hr. injection Hr as <-. eauto.
Qed.

Lemma metadata_read_error_witness :
  ∃ cause,
    NoteBookNodeMetaData_read (os.read_file Scenarios.fs_truncated "n/node.xml")
      default_notebook_attrs 100
    = Raise (NoteBookError "Cannot read meta data" (Some cause)).
Proof.
  assert (H : match NoteBookNodeMetaData_read
                      (os.read_file Scenarios.fs_truncated "n/node.xml")
                      default_notebook_attrs 100 with
              | Ok _ => true
              | Raise _ => false
              end = false) by (vm_compute; reflexivity).
  destruct (NoteBookNodeMetaData_read (os.read_file Scenarios.fs_truncated "n/node.xml")
              default_notebook_attrs 100) as [attr|e] eqn:E; [discriminate H|].
  destruct (metadata_read_error _ _ _ _ _ E) as [cause ->]. by exists cause.
Defined.

(** X14. The attributes that [read] returns always hold a creation time
    and a modification time, and neither is [None]: a file that gives
    none gets the time of the reading. *)
Theorem metadata_read_timestamps (infile : result string)
    (notebook_attrs : gmap string NoteBookAttr) (now : Z) (attr : gmap string Value) :
  NoteBookNodeMetaData_read infile notebook_attrs now = Ok attr ->
  (∃ v, attr !! "created_time" = Some v ∧ v ≠ VNone)
  ∧ (∃ v, attr !! "modified_time" = Some v ∧ v ≠ VNone).
Proof.
  unfold NoteBookNodeMetaData_read. intros Hr.
  destruct (result_bind infile _) as [self|e] eqn:Hparse;
    [|destruct (is_Exception e); discriminate].
  destruct infile as [text|e]; [|discriminate]. cbn in Hparse.
  assert (Hinv : has_timestamps self).
  { eapply (ParseFile_invariant meta_handlers has_timestamps);
      [exact meta_start_timestamps|exact meta_end_timestamps
      |exact meta_chars_timestamps| |exact Hparse].
    split; cbn; [rewrite lookup_insert_ne by done|]; by rewrite lookup_insert_eq. }
  injection Hr as <-. destruct Hinv as [[c Hc] [m Hm]].
  assert (Hfill : ∀ (a : gmap string Value) (k : string) (v : Value),
            a !! k = Some v ->
            ∃ v', (if bool_decide (a !! k = Some VNone) then <[k := VInt now]> a else a)
                    !! k = Some v' ∧ v' ≠ VNone).
  { intros a k v Hk. case_bool_decide as Hnone.
    - exists (VInt now). by rewrite lookup_insert_eq.
    - exists v. split; [done|]. intros ->. done. }
  set (attr1 := if bool_decide (md_attr self !! "created_time" = Some VNone)
                then <["created_time" := VInt now]> (md_attr self) else md_attr self).
  split.
  - destruct (Hfill (md_attr self) "created_time" c Hc) as (v & Hv & Hne).
    fold attr1 in Hv. exists v. split; [|done].
    destruct (bool_decide (attr1 !! "modified_time" = Some VNone)); [|done].
    by rewrite lookup_insert_ne.
  - apply (Hfill attr1 "modified_time" m). subst attr1.
    destruct (bool_decide (md_attr self !! "created_time" = Some VNone)); [|done].
    by rewrite lookup_insert_ne.
Qed.

Lemma metadata_read_timestamps_witness :
  match NoteBookNodeMetaData_read (Ok "<node><version>2</version></node>")
          default_notebook_attrs 100 with
  | Ok attr =>
      (∃ v, attr !! "created_time" = Some v ∧ v ≠ VNone)
      ∧ (∃ v, attr !! "modified_time" = Some v ∧ v ≠ VNone)
  | Raise _ => False
  end.
Proof.
  assert (H : match NoteBookNodeMetaData_read (Ok "<node><version>2</version></node>")
                      default_notebook_attrs 100 with
              | Ok _ => true
              | Raise _ => false
              end = true) by (vm_compute; reflexivity).
  destruct (NoteBookNodeMetaData_read (Ok "<node><version>2</version></node>")
              default_notebook_attrs 100) as [attr|e] eqn:E.
  - exact (metadata_read_timestamps _ _ _ _ E).
  - discriminate H.
Defined.

Section ReadNodeVersion.

Lemma make_node_run (cls : NodeClass) (path : string) (parent nb : ref) (w w1 : World)
    (n : ref) :
  make_node cls path parent nb w = (Ok n, w1) ->
  n = next_ref w
  ∧ ∃ nd, heap w1 !! n = Some nd ∧ _meta nd = ∅.
Proof.
  intros Hrun. destruct (decide (cls = NoteBookTrash)) as [->|Hcls].
  - unfold make_node, NoteBookTrash_init in Hrun.
    apply bind_inv in Hrun as (root & w0 & Hroot & Hrun).
    rewrite get_path_eq in Hroot. injection Hroot as _ <-.
    rewrite (bind_ok _ _ _ _ _ (NoteBookNode_init_run _ _ _ _ _ _ _)) in Hrun.
    set (nd1 := set_basename _ _) in Hrun.
    pose proof (set_basename_fields (Some (get_trash_dir root))
                (mkNode NoteBookTrash (Some nb) (Some nb) None None true
                        NOTEBOOK_FORMAT_VERSION ∅
                        (default_attr (VText TRASH_NAME) CONTENT_TYPE_DIR)))
      as Hf.
    fold nd1 in Hf. clearbody nd1. destruct Hf as (Hc1 & Ha1 & Hm1 & Hn1).
    cbn [node_class _attr _meta _notebook] in Hc1, Ha1, Hm1, Hn1.
    erewrite bind_ok in Hrun;
      [|eapply set_attr_run; [apply lookup_insert_eq|exact Hn1]].
    unfold mret, M_ret in Hrun. injection Hrun as <- <-. split; [done|].
    eexists. split; [cbn [heap set_heap set_dirty]; apply lookup_insert_eq|]. exact Hm1.
  - assert (Hmk : ∃ c ct,
              make_node cls path parent nb
              = NoteBookNode_init c (Some path) (VText "") (Some parent) (Some nb) ct).
    { destruct cls; [by exists NoteBookPage, CONTENT_TYPE_PAGE
                    |by exists NoteBookDir, CONTENT_TYPE_DIR
                    |done
                    |by exists NoteBookDir, CONTENT_TYPE_DIR]. }
    destruct Hmk as (c & ct & Hmk). rewrite Hmk, NoteBookNode_init_run in Hrun.
    injection Hrun as <- <-. split; [done|].
    eexists. split; [rewrite heap_set_heap; apply lookup_insert_eq|].
    apply (set_basename_fields (Some path)).
Qed.

End ReadNodeVersion.

(** X15. A node that [read_node] builds from a directory has the format
    version of the code, [NOTEBOOK_FORMAT_VERSION], whatever version its
    metadata file states: [set_meta_data] looks the version up in the
    node's own metadata object, which has read nothing, and not in the
    one that has read the file. What the file gives, its version
    included, is found among the attributes of the node. *)
Theorem read_node_format_version (w w' : World) (nbk parent n : ref) (path : string) :
  read_node nbk parent path w = (Ok (Some n), w') ->
  ∃ nd attr,
    heap w' !! n = Some nd
    ∧ NoteBookNodeMetaData_read (os.read_file (fs w) (get_node_meta_file path))
        (notebook_attrs w) (clock w) = Ok attr
    ∧ _version nd = NOTEBOOK_FORMAT_VERSION
    ∧ ∀ k v, attr !! k = Some v -> _attr nd !! k = Some v.
Proof.
  intros Hrun. unfold read_node in Hrun.
  unfold mbind at 1, M_bind at 1, get_world at 1 in Hrun.
  destruct (os_path.exists_ (fs w) (get_node_meta_file path)); [|discriminate].
  unfold mbind at 1, M_bind at 1, lift at 1 in Hrun.
  destruct (NoteBookNodeMetaData_read _ _ _) as [attr|e] eqn:Hread; [|discriminate].
  destruct (match default (VText CONTENT_TYPE_DIR) (attr !! "content_type") with
            | VText ct => _makers w !! ct
            | _ => None
            end) as [cls|]; [|discriminate].
  apply bind_inv in Hrun as (node & w1 & Hmake & Hrun).
  apply make_node_run in Hmake as (-> & nd1 & Hnd1 & Hmeta).
  rewrite (bind_ok _ _ _ _ _ (set_meta_data_run _ _ _ attr Hnd1 Hmeta)) in Hrun.
  unfold mret, M_ret in Hrun. injection Hrun as <- <-.
  eexists. exists attr. split; [rewrite heap_set_heap; apply lookup_insert_eq|].
  split; [done|]. split; [done|].
  intros k v Hk. cbn [_attr with_attr]. by apply lookup_union_Some_l.
Qed.

Lemma read_node_format_version_witness :
  ∃ nd attr,
    heap (read_node Examples.nb Examples.nb "nb/p" Scenarios.w_v5).2 !! 2%positive
      = Some nd
    ∧ NoteBookNodeMetaData_read
        (os.read_file (fs Scenarios.w_v5) (get_node_meta_file "nb/p"))
        (notebook_attrs Scenarios.w_v5) (clock Scenarios.w_v5) = Ok attr
    ∧ attr !! "version" = Some (VInt 5)
    ∧ _version nd = NOTEBOOK_FORMAT_VERSION
    ∧ ∀ k v, attr !! k = Some v -> _attr nd !! k = Some v.
Proof.
  assert (H : (read_node Examples.nb Examples.nb "nb/p" Scenarios.w_v5).1
              = Ok (Some 2%positive)) by (vm_compute; reflexivity).
  assert (Hv5 : match NoteBookNodeMetaData_read
                        (os.read_file (fs Scenarios.w_v5) (get_node_meta_file "nb/p"))
                        (notebook_attrs Scenarios.w_v5) (clock Scenarios.w_v5) with
                | Ok attr => attr !! "version"
                | Raise _ => None
                end = Some (VInt 5)) by (vm_compute; reflexivity).
  destruct (read_node Examples.nb Examples.nb "nb/p" Scenarios.w_v5) as [r w'] eqn:E.
  cbn [fst snd] in *. subst r.
  destruct (read_node_format_version _ _ _ _ _ _ E) as (nd & attr & Hnd & Hread & Hv & Ha).
  exists nd, attr. split; [exact Hnd|]. split; [exact Hread|].
  split; [|split; [exact Hv|exact Ha]].
  rewrite Hread in Hv5. exact Hv5.
Defined.

(* ===================================================================== *)
(** * Saving a node *)
(* ===================================================================== *)

Section SaveNode.

Lemma the_notebook_inv (n nbk : ref) (w w' : World) :
  the_notebook n w = (Ok nbk, w') -> w' = w.
Proof.
  unfold the_notebook, mbind, M_bind, deref.
  destruct (heap w !! n) as [nd|]; [|discriminate].
  destruct (_notebook nd); [|discriminate]. by intros [= _ <-].
Qed.

Lemma _set_dirty_false_inv (w w' : World) (n : ref) :
  _set_dirty n false w = (Ok tt, w') ->
  heap w' = heap w ∧ fs w' = fs w ∧ _dirty w' = _dirty w ∖ {[n]}.
Proof.
  intros H. unfold _set_dirty in H. apply bind_inv in H as (nbk & w1 & Hnb & H).
  apply the_notebook_inv in Hnb as ->.
  unfold _set_dirty_node, modify in H. injection H as <-.
  case_bool_decide; [done|]. repeat split. set_solver.
Qed.

Lemma deref_inv (n : ref) (w w' : World) (nd : NoteBookNode) :
  deref n w = (Ok nd, w') -> heap w !! n = Some nd ∧ w' = w.
Proof.
  unfold deref. destruct (heap w !! n) as [nd'|]; [|discriminate].
  by intros [= <- <-].
Qed.

Lemma get_path_inv_ok (n : ref) (w w' : World) (p : string) :
  get_path n w = (Ok p, w') -> (get_path n w).1 = Ok p ∧ w' = w.
Proof. rewrite get_path_eq. by intros [= -> <-]. Qed.

(** A call of [write_meta_data] that returns has written the encoding
    of the attributes of the node to its metadata file, and nothing
    else has changed. *)
Lemma write_meta_data_inv (w w' : World) (self : ref) :
  write_meta_data self w = (Ok tt, w') ->
  ∃ nd path text,
    heap w !! self = Some nd
    ∧ (get_path self w).1 = Ok path
    ∧ meta_text (_version nd) (_attr nd) (notebook_attrs w) = Ok text
    ∧ w' = set_fs (os.commit (fs w) (get_node_meta_file path) text) w.
Proof.
  intros H. unfold write_meta_data, get_meta_file in H.
  rewrite bind_assoc_w in H.
  apply bind_inv in H as (path & w0 & Hpath & H).
  apply get_path_inv_ok in Hpath as [Hpath ->].
  unfold mbind at 1, M_bind at 1, mret at 1, M_ret at 1 in H.
  apply bind_inv in H as (nbk & w1 & Hnb & H). apply the_notebook_inv in Hnb as ->.
  unfold NoteBookNodeMetaData_write in H.
  apply try_except_inv in H as [H|(e & w1 & _ & _ & H)]; [|discriminate].
  apply bind_inv in H as ([] & w1 & Hopen & H).
  unfold fs_query in Hopen. injection Hopen as _ <-.
  apply bind_inv in H as (nd & w1 & Hnd & H). apply deref_inv in Hnd as [Hnd ->].
  unfold mbind at 1, M_bind at 1, get_world at 1 in H.
  apply bind_inv in H as (text & w1 & Htext & H).
  unfold lift in Htext. injection Htext as Htext <-.
  unfold modify in H. injection H as <-. exists nd, path, text. eauto.
Qed.

(** A call of [save] that returns: either the metadata file has been
    written and the node is out of the dirty set, or nothing has
    happened. *)
Lemma NoteBookNode_save_inv (w w' : World) (self : ref) (force : bool) :
  NoteBookNode_save self force w = (Ok tt, w') ->
  ∃ nd,
    heap w !! self = Some nd
    ∧ heap w' = heap w ∧ next_ref w' = next_ref w
    ∧ (if ((force || bool_decide (self ∈ _dirty w)) && _valid nd)%bool
       then _dirty w' = _dirty w ∖ {[self]}
            ∧ ∃ path text,
                (get_path self w).1 = Ok path
                ∧ meta_text (_version nd) (_attr nd) (notebook_attrs w) = Ok text
                ∧ fs w' = os.commit (fs w) (get_node_meta_file path) text
       else w' = w).
Proof.
  intros H. unfold NoteBookNode_save in H.
  apply bind_inv in H as (dirty & w1 & Hdirty & H).
  assert (Hd : w1 = w ∧ dirty = (force || bool_decide (self ∈ _dirty w))%bool).
  { destruct force; [by injection Hdirty as <- <-|].
    unfold _is_dirty in Hdirty. apply bind_inv in Hdirty as (nbk & w2 & Hnb & Hdirty).
    apply the_notebook_inv in Hnb as ->.
    unfold _is_dirty_node, mbind, M_bind, get_world, mret, M_ret in Hdirty.
    by injection Hdirty as <- <-. }
  destruct Hd as [-> ->].
  apply bind_inv in H as (nd & w1 & Hnd & H). apply deref_inv in Hnd as [Hnd ->].
  exists nd. split; [done|].
  destruct ((force || bool_decide (self ∈ _dirty w)) && _valid nd)%bool.
  - apply bind_inv in H as ([] & w1 & Hwrite & H).
    apply write_meta_data_inv in Hwrite as (nd' & path & text & Hnd' & Hpath & Htext & ->).
    assert (nd' = nd) as -> by congruence.
    pose proof (_set_dirty_false_inv _ _ _ H) as (Hh & Hfs & Hd).
    split; [by rewrite Hh|]. split.
    { clear -H. unfold _set_dirty in H. apply bind_inv in H as (nbk & w1 & Hnb & H).
      apply the_notebook_inv in Hnb as ->. unfold _set_dirty_node, modify in H.
      injection H as <-. by case_bool_decide. }
    split; [by rewrite Hd|]. exists path, text. rewrite Hfs. eauto.
  - by injection H as <-.
Qed.

End SaveNode.

(** X16. When [save] returns on a valid node, the node is not in the
    dirty set any more and no object has changed. With [force], or
    when the node was dirty, the metadata file of the node holds the
    encoding of its attributes as they are; otherwise the file system
    is untouched. *)
Theorem save_valid_node (w w' : World) (self : ref) (force : bool)
    (nd : NoteBookNode) (path : string) :
  heap w !! self = Some nd ->
  _valid nd = true ->
  (get_path self w).1 = Ok path ->
  NoteBookNode_save self force w = (Ok tt, w') ->
  (self ∉ _dirty w')
  ∧ heap w' = heap w
  ∧ (if (force || bool_decide (self ∈ _dirty w))%bool
     then ∃ text, meta_text (_version nd) (_attr nd) (notebook_attrs w) = Ok text
                  ∧ fs w' = os.commit (fs w) (get_node_meta_file path) text
     else fs w' = fs w).
Proof.
  intros Hself Hvalid Hpath H.
  apply NoteBookNode_save_inv in H as (nd' & Hnd' & Hh & _ & H).
  assert (nd' = nd) as -> by congruence.
  rewrite Hvalid, andb_true_r in H. split; [|split; [done|]].
  - destruct (force || bool_decide (self ∈ _dirty w))%bool eqn:Hcond.
    + destruct H as [-> _]. set_solver.
    + subst w'. apply orb_false_elim in Hcond as [_ Hcond].
      by apply bool_decide_eq_false in Hcond.
  - destruct (force || bool_decide (self ∈ _dirty w))%bool; [|by subst w'].
    destruct H as (_ & path' & text & Hpath' & Htext & Hfs).
    assert (path' = path) as -> by congruence. eauto.
Qed.

Lemma save_valid_node_witness :
  Examples.d ∈ _dirty Examples.w_edited
  ∧ (Examples.d ∉ _dirty (NoteBookNode_save Examples.d false Examples.w_edited).2)
  ∧ ∃ nd text,
      heap Examples.w_edited !! Examples.d = Some nd
      ∧ meta_text (_version nd) (_attr nd) (notebook_attrs Examples.w_edited) = Ok text
      ∧ os.read_file (fs (NoteBookNode_save Examples.d false Examples.w_edited).2)
          "nb/g/c/d/node.xml" = Ok text.
Proof.
  assert (Hnd : ∃ nd, heap Examples.w_edited !! Examples.d = Some nd
                      ∧ _valid nd = true).
  { eexists. split; [by vm_compute|]. reflexivity. }
  destruct Hnd as (nd & Hnd & Hv).
  assert (Hpath : (get_path Examples.d Examples.w_edited).1 = Ok "nb/g/c/d")
    by (vm_compute; reflexivity).
  assert (Hd : bool_decide (Examples.d ∈ _dirty Examples.w_edited) = true)
    by (vm_compute; reflexivity).
  assert (Hok : (NoteBookNode_save Examples.d false Examples.w_edited).1 = Ok tt)
    by (vm_compute; reflexivity).
  destruct (NoteBookNode_save Examples.d false Examples.w_edited) as [r w'] eqn:E.
  cbn [fst snd] in *. subst r.
  destruct (save_valid_node _ _ _ _ _ _ Hnd Hv Hpath E) as (Hclean & _ & Hfs).
  rewrite Hd in Hfs. cbn [orb] in Hfs. destruct Hfs as (text & Htext & Hfs).
  split; [by apply bool_decide_eq_true in Hd|]. split; [exact Hclean|].
  exists nd, text. split; [exact Hnd|]. split; [exact Htext|].
  rewrite Hfs. unfold os.read_file, os.commit. cbn [fs_entries].
  change (get_node_meta_file "nb/g/c/d") with "nb/g/c/d/node.xml".
  by rewrite lookup_insert_eq.
Defined.

(* ===================================================================== *)
(** * Adding a child *)
(* ===================================================================== *)

Section AddChild.

Lemma py_insert_before_last {A} (x t : A) (l : list A) :
  py_insert (Z.of_nat (length (l ++ [t])) - 1) x (l ++ [t]) = l ++ [x; t].
Proof.
  unfold py_insert. rewrite length_app. cbn [length].
  replace (Z.of_nat (length l + 1) - 1) with (Z.of_nat (length l)) by lia.
  rewrite (proj2 (Z.ltb_ge _ _)) by lia.
  rewrite Z.min_l by lia. rewrite Nat2Z.id.
  rewrite take_app_length, drop_app_length. reflexivity.
Qed.

(** [_add_child] without an index on a node whose children are loaded,
    down to the choice of the place. *)
Lemma _add_child_loaded_run (w : World) (self child nbk : ref) (nd cd : NoteBookNode)
    (l : list ref) :
  self ≠ child ->
  heap w !! self = Some nd ->
  heap w !! child = Some cd ->
  _notebook nd = Some nbk ->
  _children nd = Some l ->
  _add_child self child None w
  = ((if (bool_decide (0 < length l)%nat
          && bool_decide (Some <$> last l = Some (_trash w)))%bool
      then
        update self (with_children
          (Some (py_insert (Z.of_nat (length l) - 1) child l)));;
        _set_child_order self
      else
        update child (fun c =>
          with_attr (<["order" := VInt (Z.of_nat (length l))]> (_attr c)) c);;
        update self (with_children (Some (l ++ [child]))));;
     _set_dirty child true)
      (set_heap (<[child := with_notebook (_notebook nd) cd]> (heap w)) w).
Proof.
  intros Hne Hself Hchild Hnb Hl. unfold _add_child.
  rewrite (bind_ok _ _ _ _ _ (deref_ok _ _ _ Hself)).
  rewrite (bind_ok _ _ _ _ _ (update_ok _ _ _ _ Hchild)).
  set (w1 := set_heap _ w).
  assert (Hself1 : heap w1 !! self = Some nd).
  { subst w1. rewrite heap_set_heap. by rewrite lookup_insert_ne. }
  rewrite (bind_ok _ _ _ _ _ (ensure_children_loaded _ _ _ _ Hself1 Hl)).
  rewrite (bind_ok _ _ _ _ _ (children_of_ok _ _ _ _ Hself1 Hl)).
  unfold get_trash at 1, get_world at 1.
  unfold mbind at 1, M_bind at 1. unfold mbind at 1, M_bind at 1, mret at 1, M_ret at 1.
  rewrite Hnb. rewrite (bool_decide_eq_true_2 (is_Some (Some nbk))) by eauto.
  reflexivity.
Qed.

End AddChild.

(** X17. A child that is added without an index goes to the end of the
    loaded children, except that it goes before the trash folder of the
    notebook when that is the last child: the trash folder stays
    last. *)
Theorem add_child_keeps_trash_last (w : World) (self child nbk : ref)
    (nd cd : NoteBookNode) (l : list ref) :
  self ≠ child ->
  heap w !! self = Some nd ->
  heap w !! child = Some cd ->
  _notebook nd = Some nbk ->
  (∀ t, _children nd = Some (l ++ [t]) -> _trash w = Some t ->
     _children <$> heap (_add_child self child None w).2 !! self
     = Some (Some (l ++ [child; t])))
  ∧ (_children nd = Some l -> Some <$> last l ≠ Some (_trash w) ->
     _children <$> heap (_add_child self child None w).2 !! self
     = Some (Some (l ++ [child]))).
Proof.
  intros Hne Hself Hchild Hnb.
  pose proof (fun l0 => _add_child_loaded_run w self child nbk nd cd l0
                            Hne Hself Hchild Hnb) as Hstart.
  set (w1 := set_heap (<[child := with_notebook (_notebook nd) cd]> (heap w)) w) in *.
  assert (Hself1 : heap w1 !! self = Some nd).
  { subst w1. rewrite heap_set_heap. by rewrite lookup_insert_ne. }
  split.
  - intros t Hl Ht. rewrite (Hstart _ Hl).
    rewrite bool_decide_eq_true_2 by (rewrite length_app; cbn; lia).
    rewrite bool_decide_eq_true_2 by (rewrite last_snoc; cbn; by rewrite Ht).
    cbn [andb]. rewrite bind_assoc_w.
    rewrite (bind_ok _ _ _ _ _ (update_ok _ _ _ _ Hself1)).
    set (w2 := set_heap _ w1).
    rewrite (bind_keeps_tail _ _ w2 (fun _ => keeps_set_dirty child true)).
    rewrite (keeps_set_child_order self w2).
    subst w2. rewrite heap_set_heap, lookup_insert_eq. cbn.
    by rewrite py_insert_before_last.
  - intros Hl Hlast. rewrite (Hstart _ Hl).
    rewrite (bool_decide_eq_false_2 (Some <$> last l = Some (_trash w))) by done.
    rewrite andb_false_r. rewrite bind_assoc_w.
    assert (Hchild1 : heap w1 !! child = Some (with_notebook (_notebook nd) cd)).
    { subst w1. rewrite heap_set_heap. by rewrite lookup_insert_eq. }
    rewrite (bind_ok _ _ _ _ _ (update_ok _ _ _ _ Hchild1)).
    set (w2 := set_heap _ w1).
    assert (Hself2 : heap w2 !! self = Some nd).
    { subst w2. rewrite heap_set_heap. by rewrite lookup_insert_ne. }
    rewrite (bind_ok _ _ _ _ _ (update_ok _ _ _ _ Hself2)).
    rewrite (keeps_set_dirty child true).
    rewrite heap_set_heap, lookup_insert_eq. reflexivity.
Qed.

Lemma add_child_keeps_trash_last_witness :
  _children <$> heap (_add_child Examples.nb Examples.a None Examples.w_loaded).2
                  !! Examples.nb
  = Some (Some ([Examples.f; Examples.g] ++ [Examples.a; Examples.trash])).
Proof.
  assert (Hnd : ∃ nd, heap Examples.w_loaded !! Examples.nb = Some nd
                      ∧ _notebook nd = Some Examples.nb
                      ∧ _children nd = Some ([Examples.f; Examples.g] ++ [Examples.trash])).
  { eexists. split; [by vm_compute|]. split; reflexivity. }
  assert (Hcd : ∃ cd, heap Examples.w_loaded !! Examples.a = Some cd).
  { eexists. by vm_compute. }
  destruct Hnd as (nd & Hnd & Hnb & Hl). destruct Hcd as (cd & Hcd).
  apply (proj1 (add_child_keeps_trash_last Examples.w_loaded Examples.nb Examples.a
                  Examples.nb nd cd [Examples.f; Examples.g]
                  ltac:(discriminate) Hnd Hcd Hnb) Examples.trash Hl).
  vm_compute. reflexivity.
Defined.

(* ===================================================================== *)
(** * What loading, creating, adding and saving leave of the nodes *)
(* ===================================================================== *)

Section KeepsNodes.

Lemma extends_refl (w : World) : extends w w.
Proof. repeat split. lia. Qed.

Lemma extends_trans (w1 w2 w3 : World) :
  extends w1 w2 -> extends w2 w3 -> extends w1 w3.
Proof.
  intros (Hn1 & Hc1 & Ht1 & Ha1) (Hn2 & Hc2 & Ht2 & Ha2).
  split; [lia|]. split; [|split; congruence].
  intros r Hr. rewrite Hc2 by lia. by apply Hc1.
Qed.

Lemma nodes_ret {A} (a : A) : keeps_nodes (mret a).
Proof. intros w. apply extends_refl. Qed.

Lemma nodes_raise {A} (e : Exn) : keeps_nodes (raise (A:=A) e).
Proof. intros w. apply extends_refl. Qed.

Lemma nodes_lift {A} (r : result A) : keeps_nodes (lift r).
Proof. intros w. apply extends_refl. Qed.

Lemma nodes_bind {A B} (m : M A) (k : A -> M B) :
  keeps_nodes m -> (∀ a, keeps_nodes (k a)) -> keeps_nodes (m ≫= k).
Proof.
  intros Hm Hk w. specialize (Hm w). unfold mbind, M_bind.
  destruct (m w) as [[a|e] w1]; [|exact Hm].
  eapply extends_trans; [exact Hm|apply Hk].
Qed.

Lemma nodes_try_except {A} (m : M A) (c : Exn -> bool) (h : Exn -> M A) :
  keeps_nodes m -> (∀ e, keeps_nodes (h e)) -> keeps_nodes (try_except m c h).
Proof.
  intros Hm Hh w. specialize (Hm w). unfold try_except.
  destruct (m w) as [[a|e] w1]; [exact Hm|].
  destruct (c e); [|exact Hm].
  eapply extends_trans; [exact Hm|apply Hh].
Qed.

Lemma nodes_modify (f : World -> World) :
  (∀ w, heap (f w) = heap w ∧ next_ref (f w) = next_ref w
        ∧ _trash (f w) = _trash w ∧ notebook_attrs (f w) = notebook_attrs w) ->
  keeps_nodes (modify f).
Proof.
  intros Hf w. destruct (Hf w) as (Hh & Hn & Ht & Ha). unfold modify. cbn [snd].
  split; [lia|]. split; [|done]. intros r _. by rewrite Hh.
Qed.

Lemma nodes_get_world : keeps_nodes get_world.
Proof. intros w. apply extends_refl. Qed.

Lemma nodes_deref (n : ref) : keeps_nodes (deref n).
Proof. intros w. unfold deref. destruct (heap w !! n); apply extends_refl. Qed.

Lemma nodes_update (n : ref) (f : NoteBookNode -> NoteBookNode) :
  (∀ nd, node_core (f nd) = node_core nd) -> keeps_nodes (update n f).
Proof.
  intros Hf w. unfold update, mbind, M_bind, deref, modify.
  destruct (heap w !! n) as [nd|] eqn:Hn; [|apply extends_refl]. cbn [snd].
  split; [cbn; lia|]. split; [|done]. intros r _. cbn [heap set_heap].
  destruct (decide (n = r)) as [<-|Hne].
  - rewrite lookup_insert_eq, Hn. cbn. by rewrite Hf.
  - by rewrite lookup_insert_ne.
Qed.

Lemma nodes_fs_query {A} (f : FileSystem -> result A) : keeps_nodes (fs_query f).
Proof. intros w. apply extends_refl. Qed.

Lemma nodes_fs_call (f : FileSystem -> result FileSystem) : keeps_nodes (fs_call f).
Proof.
  intros w. unfold fs_call. destruct (f (fs w)); [|apply extends_refl].
  repeat split. cbn. lia.
Qed.

Lemma nodes_get_timestamp : keeps_nodes get_timestamp.
Proof. intros w. apply extends_refl. Qed.

Lemma nodes_getitem (d : gmap string Value) (k : string) : keeps_nodes (getitem d k).
Proof. intros w. unfold getitem. destruct (d !! k); apply extends_refl. Qed.

Lemma nodes_get_path (n : ref) : keeps_nodes (get_path n).
Proof. intros w. rewrite get_path_world. apply extends_refl. Qed.

Lemma nodes_the_notebook (n : ref) : keeps_nodes (the_notebook n).
Proof.
  apply nodes_bind; [apply nodes_deref|].
  intros nd. destruct (_notebook nd); [apply nodes_ret|apply nodes_raise].
Qed.

Lemma nodes_set_dirty (n : ref) (b : bool) : keeps_nodes (_set_dirty n b).
Proof.
  apply nodes_bind; [apply nodes_the_notebook|]. intros _.
  apply nodes_modify. intros w. destruct b; [done|]. by case_bool_decide.
Qed.

Lemma nodes_is_dirty (n : ref) : keeps_nodes (_is_dirty n).
Proof.
  apply nodes_bind; [apply nodes_the_notebook|]. intros _.
  apply nodes_bind; [apply nodes_get_world|]. intros w. apply nodes_ret.
Qed.

Lemma nodes_write_meta_data (n : ref) : keeps_nodes (write_meta_data n).
Proof.
  apply nodes_bind.
  { apply nodes_bind; [apply nodes_get_path|]. intros p. apply nodes_ret. }
  intros filename. apply nodes_bind; [apply nodes_the_notebook|]. intros _.
  apply nodes_try_except; [|intros e; apply nodes_raise].
  apply nodes_bind; [apply nodes_fs_query|]. intros _.
  apply nodes_bind; [apply nodes_deref|]. intros nd.
  apply nodes_bind; [apply nodes_get_world|]. intros w.
  apply nodes_bind; [apply nodes_lift|]. intros text.
  by apply nodes_modify.
Qed.

Lemma nodes_save (n : ref) (force : bool) : keeps_nodes (NoteBookNode_save n force).
Proof.
  apply nodes_bind.
  { destruct force; [apply nodes_ret|apply nodes_is_dirty]. }
  intros dirty. apply nodes_bind; [apply nodes_deref|]. intros nd.
  destruct (dirty && _valid nd)%bool; [|apply nodes_ret].
  apply nodes_bind; [apply nodes_write_meta_data|]. intros _. apply nodes_set_dirty.
Qed.

Lemma nodes_notify_changes (n : ref) (l : list ref) (b : bool) :
  keeps_nodes (notify_changes n l b).
Proof.
  apply nodes_bind; [apply nodes_deref|]. intros nd.
  destruct (_notebook nd); [by apply nodes_modify|apply nodes_ret].
Qed.

(** Assigning to an attribute that is neither the title nor the content
    type keeps the core of the node. *)
Lemma node_core_with_attr (k : string) (v : Value) (nd : NoteBookNode) :
  k ≠ "title" -> k ≠ "content_type" ->
  node_core (with_attr (<[k := v]> (_attr nd)) nd) = node_core nd.
Proof.
  intros H1 H2. unfold node_core. cbn. by rewrite !lookup_insert_ne.
Qed.

Lemma nodes_set_child_order_from (children : list ref) (i : Z) :
  keeps_nodes (set_child_order_from i children).
Proof.
  revert i. induction children as [|child r IH]; intros i; [apply nodes_ret|].
  cbn [set_child_order_from].
  apply nodes_bind; [apply nodes_deref|]. intros nd.
  apply nodes_bind; [apply nodes_getitem|]. intros order.
  apply nodes_bind; [|intros _; apply IH].
  destruct (negb (py_eq order (VInt i))); [|apply nodes_ret].
  apply nodes_bind; [|intros _; apply nodes_set_dirty].
  apply nodes_update. intros nd'. by apply node_core_with_attr.
Qed.

Lemma nodes_children_of (n : ref) : keeps_nodes (children_of n).
Proof.
  apply nodes_bind; [apply nodes_deref|]. intros nd.
  destruct (_children nd); [apply nodes_ret|apply nodes_raise].
Qed.

Lemma nodes_set_child_order (n : ref) : keeps_nodes (_set_child_order n).
Proof.
  apply nodes_bind; [apply nodes_children_of|].
  intros l. apply nodes_set_child_order_from.
Qed.

Lemma nodes_order_keys (children : list ref) : keeps_nodes (order_keys children).
Proof.
  induction children as [|child r IH]; [apply nodes_ret|]. cbn [order_keys].
  apply nodes_bind; [apply nodes_deref|]. intros nd.
  apply nodes_bind; [apply nodes_getitem|]. intros k.
  apply nodes_bind; [apply IH|]. intros ks. apply nodes_ret.
Qed.

(** [read_node] leaves the world as it is or allocates one node. *)
Lemma read_node_heap (w w' : World) (nb parent : ref) (path : string)
    (r : result (option ref)) :
  read_node nb parent path w = (r, w') ->
  w' = w
  ∨ (next_ref w' = Pos.succ (next_ref w)
     ∧ _trash w' = _trash w ∧ notebook_attrs w' = notebook_attrs w
     ∧ ∃ nd, heap w' = <[next_ref w := nd]> (heap w)).
Proof.
  intros Hrun. unfold read_node in Hrun.
  unfold mbind at 1, M_bind at 1, get_world at 1 in Hrun.
  destruct (os_path.exists_ (fs w) (get_node_meta_file path));
    [|left; by injection Hrun as <- <-].
  unfold mbind at 1, M_bind at 1, lift at 1 in Hrun.
  destruct (NoteBookNodeMetaData_read _ _ _) as [attr|e] eqn:Hread;
    [|left; by injection Hrun as <- <-].
  destruct (match default (VText CONTENT_TYPE_DIR) (attr !! "content_type") with
            | VText ct => _makers w !! ct
            | _ => None
            end) as [cls|]; [|left; by injection Hrun as <- <-].
  destruct (decide (cls = NoteBookTrash)) as [->|Hcls].
  - unfold make_node, NoteBookTrash_init in Hrun.
    rewrite !bind_assoc_w in Hrun.
    unfold mbind at 1, M_bind at 1 in Hrun.
    rewrite (get_path_eq nb w) in Hrun.
    destruct (get_path nb w).1 as [root|e]; [|left; by injection Hrun as <- <-].
    rewrite !bind_assoc_w in Hrun.
    rewrite (bind_ok _ _ _ _ _ (NoteBookNode_init_run _ _ _ _ _ _ _)) in Hrun.
    set (nd1 := set_basename _ _) in Hrun.
    pose proof (set_basename_fields (Some (get_trash_dir root))
                (mkNode NoteBookTrash (Some nb) (Some nb) None None true
                        NOTEBOOK_FORMAT_VERSION ∅
                        (default_attr (VText TRASH_NAME) CONTENT_TYPE_DIR)))
      as Hf.
    fold nd1 in Hf. clearbody nd1. destruct Hf as (Hc1 & Ha1 & Hm1 & Hn1).
    cbn [node_class _attr _meta _notebook] in Hc1, Ha1, Hm1, Hn1.
    rewrite !bind_assoc_w in Hrun.
    erewrite bind_ok in Hrun;
      [|eapply set_attr_run; [apply lookup_insert_eq|exact Hn1]].
    unfold mbind at 1, M_bind at 1, mret at 1, M_ret at 1 in Hrun.
    erewrite bind_ok in Hrun;
      [|eapply set_meta_data_run; [apply lookup_insert_eq|exact Hm1]].
    unfold mret, M_ret in Hrun. injection Hrun as <- <-. right.
    repeat split. eexists. cbn [heap set_heap set_dirty set_next_ref].
    by rewrite !insert_insert_eq.
  - assert (Hmk : ∃ c ct,
              make_node cls path parent nb
              = NoteBookNode_init c (Some path) (VText "") (Some parent) (Some nb) ct).
    { destruct cls; [by exists NoteBookPage, CONTENT_TYPE_PAGE
                    |by exists NoteBookDir, CONTENT_TYPE_DIR
                    |done
                    |by exists NoteBookDir, CONTENT_TYPE_DIR]. }
    destruct Hmk as (c & ct & Hmk). rewrite Hmk in Hrun.
    rewrite (bind_ok _ _ _ _ _ (NoteBookNode_init_run _ _ _ _ _ _ _)) in Hrun.
    set (nd1 := set_basename _ _) in Hrun.
    pose proof (set_basename_fields (Some path)
                (mkNode c (Some nb) (Some parent) None None true
                        NOTEBOOK_FORMAT_VERSION ∅ (default_attr (VText "") ct)))
      as Hf.
    fold nd1 in Hf. clearbody nd1. destruct Hf as (Hc1 & Ha1 & Hm1 & Hn1).
    cbn [node_class _attr _meta _notebook] in Hc1, Ha1, Hm1, Hn1.
    erewrite bind_ok in Hrun;
      [|eapply set_meta_data_run; [apply lookup_insert_eq|exact Hm1]].
    unfold mret, M_ret in Hrun. injection Hrun as <- <-. right.
    repeat split. eexists. cbn [heap set_heap set_dirty set_next_ref].
    by rewrite !insert_insert_eq.
Qed.

Lemma nodes_read_node (nb parent : ref) (path : string) :
  keeps_nodes (read_node nb parent path).
Proof.
  intros w. destruct (read_node nb parent path w) as [r w'] eqn:Hrun. cbn [snd].
  apply read_node_heap in Hrun as [->|(Hn & Ht & Ha & nd & Hh)]; [apply extends_refl|].
  split; [lia|]. split; [|done]. intros r0 Hr. rewrite Hh.
  rewrite lookup_insert_ne; [done|]. lia.
Qed.

Lemma nodes_read_children (self : ref) (path : string) (files : list string) :
  keeps_nodes (read_children self path files).
Proof.
  induction files as [|filename files IH]; [apply nodes_ret|]. cbn [read_children].
  apply nodes_bind; [|intros _; apply IH].
  apply nodes_try_except; [|intros e; apply nodes_ret].
  apply nodes_bind; [apply nodes_the_notebook|]. intros nb.
  apply nodes_bind; [apply nodes_read_node|]. intros [node|]; [|apply nodes_ret].
  by apply nodes_update.
Qed.

Lemma nodes_load_children (self : ref) : keeps_nodes (load_children self).
Proof.
  apply nodes_bind; [by apply nodes_update|]. intros _.
  apply nodes_bind; [apply nodes_get_path|]. intros path.
  apply nodes_bind; [|intros files; apply nodes_read_children].
  apply nodes_try_except; [apply nodes_fs_query|intros e; apply nodes_raise].
Qed.

Lemma nodes_get_children (self : ref) : keeps_nodes (_get_children self).
Proof.
  apply nodes_bind; [apply nodes_load_children|]. intros _.
  apply nodes_bind; [apply nodes_children_of|]. intros children.
  apply nodes_bind; [apply nodes_order_keys|]. intros keyed.
  apply nodes_bind; [by apply nodes_update|]. intros _.
  apply nodes_set_child_order.
Qed.

Lemma nodes_ensure_children (self : ref) : keeps_nodes (ensure_children self).
Proof.
  apply nodes_bind; [apply nodes_deref|]. intros nd.
  destruct (_children nd); [apply nodes_ret|apply nodes_get_children].
Qed.

Lemma nodes_get_trash : keeps_nodes get_trash.
Proof. apply nodes_bind; [apply nodes_get_world|]. intros w. apply nodes_ret. Qed.

Lemma nodes_add_child (self child : ref) (index : option Z) :
  keeps_nodes (_add_child self child index).
Proof.
  apply nodes_bind; [apply nodes_deref|]. intros nd.
  apply nodes_bind; [by apply nodes_update|]. intros _.
  apply nodes_bind; [apply nodes_ensure_children|]. intros _.
  apply nodes_bind; [apply nodes_children_of|]. intros children.
  apply nodes_bind; [apply nodes_get_trash|]. intros t.
  apply nodes_bind; [|intros _; apply nodes_set_dirty].
  destruct index as [index|].
  - apply nodes_bind; [by apply nodes_update|]. intros _. apply nodes_set_child_order.
  - destruct (_ && _)%bool.
    + apply nodes_bind; [by apply nodes_update|]. intros _. apply nodes_set_child_order.
    + apply nodes_bind; [|intros _; by apply nodes_update].
      apply nodes_update. intros c. by apply node_core_with_attr.
Qed.

Lemma nodes_write_empty_data_file (self : ref) :
  keeps_nodes (write_empty_data_file self).
Proof.
  apply nodes_bind; [apply nodes_get_path|]. intros p.
  apply nodes_try_except; [|intros e; apply nodes_raise].
  apply nodes_bind; [apply nodes_fs_query|]. intros _. by apply nodes_modify.
Qed.

Lemma nodes_create (self : ref) : keeps_nodes (NoteBookNode_create self).
Proof.
  apply nodes_bind; [apply nodes_get_path|]. intros path.
  apply nodes_bind.
  { apply nodes_try_except; [apply nodes_fs_call|intros e; apply nodes_raise]. }
  intros _. apply nodes_bind; [apply nodes_get_timestamp|]. intros t.
  apply nodes_bind.
  { apply nodes_update. intros nd. by apply node_core_with_attr. }
  intros _. apply nodes_bind; [apply nodes_get_timestamp|]. intros t'.
  apply nodes_bind.
  { apply nodes_update. intros nd. by apply node_core_with_attr. }
  intros _. apply nodes_bind; [apply nodes_write_meta_data|]. intros _.
  apply nodes_bind; [apply nodes_set_dirty|]. intros _.
  apply nodes_bind; [apply nodes_deref|]. intros nd.
  apply nodes_bind; [apply nodes_getitem|]. intros ct.
  destruct (py_eq ct (VText CONTENT_TYPE_PAGE));
    [apply nodes_write_empty_data_file|apply nodes_ret].
Qed.

End KeepsNodes.

(* ===================================================================== *)
(** * New nodes and the trash folder of a notebook *)
(* ===================================================================== *)

Section NewNodes.

Lemma elem_of_py_insert {A} (index : Z) (x : A) (l : list A) : x ∈ py_insert index x l.
Proof. unfold py_insert. apply elem_of_app. right. by left. Qed.

Lemma children_of_inv (n : ref) (w w' : World) (l : list ref) :
  children_of n w = (Ok l, w') ->
  w' = w ∧ ∃ nd, heap w !! n = Some nd ∧ _children nd = Some l.
Proof.
  intros H. unfold children_of in H. apply bind_inv in H as (nd & w1 & Hnd & H).
  apply deref_inv in Hnd as [Hnd ->].
  destruct (_children nd) as [l'|] eqn:Hl; [|discriminate].
  injection H as <- <-. eauto.
Qed.

Lemma update_inv (n : ref) (f : NoteBookNode -> NoteBookNode) (w w' : World) :
  update n f w = (Ok tt, w') ->
  ∃ nd, heap w !! n = Some nd ∧ w' = set_heap (<[n := f nd]> (heap w)) w.
Proof.
  intros H. unfold update in H. apply bind_inv in H as (nd & w1 & Hnd & H).
  apply deref_inv in Hnd as [Hnd ->]. unfold modify in H. injection H as <-. eauto.
Qed.

(** After [_add_child] has returned, the child is among the children of
    the node. *)
Lemma _add_child_member (self child : ref) (index : option Z) (w w' : World) :
  _add_child self child index w = (Ok tt, w') ->
  ∃ l, _children <$> heap w' !! self = Some (Some l) ∧ child ∈ l.
Proof.
  intros H. unfold _add_child in H.
  apply bind_inv in H as (nd & w0 & _ & H).
  apply bind_inv in H as ([] & w1 & _ & H).
  apply bind_inv in H as ([] & w2 & _ & H).
  apply bind_inv in H as (l & w3 & Hl & H).
  apply children_of_inv in Hl as (-> & sd & Hsd & Hl).
  apply bind_inv in H as (t & w3 & Ht & H).
  unfold get_trash, mbind, M_bind, get_world, mret, M_ret in Ht. injection Ht as _ <-.
  apply bind_inv in H as ([] & w3 & Hplace & Hdirty).
  assert (Hplaced : ∃ l', _children <$> heap w3 !! self = Some (Some l') ∧ child ∈ l').
  { assert (Hins : ∀ i, (update self (with_children (Some (py_insert i child l)));;
                         _set_child_order self) w2 = (Ok tt, w3) ->
              _children <$> heap w3 !! self = Some (Some (py_insert i child l))).
    { intros i Hi. apply bind_inv in Hi as ([] & wa & Hupd & Hord).
      apply update_inv in Hupd as (sd' & Hsd' & ->).
      set (wa := set_heap _ w2) in Hord.
      pose proof (keeps_set_child_order self wa self) as Hk. rewrite Hord in Hk.
      cbn [snd] in Hk. rewrite Hk. subst wa.
      rewrite heap_set_heap, lookup_insert_eq. done. }
    destruct index as [i|].
    - exists (py_insert i child l). split; [by apply Hins|apply elem_of_py_insert].
    - destruct (_ && _)%bool.
      + eexists. split; [by apply Hins|apply elem_of_py_insert].
      + apply bind_inv in Hplace as ([] & wa & _ & Hupd).
        apply update_inv in Hupd as (sd' & Hsd' & ->).
        exists (l ++ [child]). rewrite heap_set_heap, lookup_insert_eq.
        split; [done|]. apply elem_of_app. right. by left. }
  destruct Hplaced as (l' & Hl' & Hin). exists l'. split; [|done].
  pose proof (keeps_set_dirty child true w3 self) as Hk. rewrite Hdirty in Hk.
  cbn [snd] in Hk. by rewrite Hk.
Qed.

Lemma notify_changes_inv (n : ref) (nodes : list ref) (b : bool) (w w' : World) :
  notify_changes n nodes b w = (Ok tt, w') ->
  heap w' = heap w ∧ fs w' = fs w ∧ _dirty w' = _dirty w.
Proof.
  intros H. unfold notify_changes in H. apply bind_inv in H as (nd & w1 & Hnd & H).
  apply deref_inv in Hnd as [_ ->].
  destruct (_notebook nd); [|by injection H as <-].
  unfold modify in H. by injection H as <-.
Qed.

(** The core of a node in a world that extends the one it was in. *)
Lemma extends_core (w w' : World) (n : ref) (nd : NoteBookNode) :
  extends w w' -> (n < next_ref w)%positive -> heap w !! n = Some nd ->
  ∃ nd', heap w' !! n = Some nd' ∧ node_core nd' = node_core nd.
Proof.
  intros (_ & Hc & _) Hn Hnd. specialize (Hc n Hn). rewrite Hnd in Hc.
  destruct (heap w' !! n) as [nd'|]; [|discriminate]. cbn in Hc.
  exists nd'. split; [done|congruence].
Qed.

End NewNodes.

Section NewChild.

(** [new_page] and [new_dir] share their body. *)
Lemma new_child_result (cls : NodeClass) (content_type : string) (self node : ref)
    (title : string) (w w' : World) :
  new_child cls content_type self title w = (Ok node, w') ->
  created_under cls content_type self title node w w'.
Proof.
  intros H. unfold created_under. unfold new_child in H.
  apply bind_inv in H as (path0 & w0 & Hpath0 & H).
  apply get_path_inv_ok in Hpath0 as [_ ->].
  apply bind_inv in H as (newpath & w0 & Hnew & H).
  unfold fs_query in Hnew. injection Hnew as _ <-.
  apply bind_inv in H as (sd & w0 & Hsd & H). apply deref_inv in Hsd as [Hsd ->].
  rewrite (bind_ok _ _ _ _ _ (NoteBookNode_init_run _ _ _ _ _ _ _)) in H.
  set (ndB := set_basename _ _) in H. set (wB := set_heap _ _) in H.
  assert (HndB : heap wB !! next_ref w = Some ndB)
    by (subst wB; rewrite heap_set_heap; apply lookup_insert_eq).
  assert (Hfresh : (next_ref w < next_ref wB)%positive) by (subst wB; cbn; lia).
  assert (HcoreB : node_core ndB
                   = (cls, Some self, Some (os_path.basename newpath), true,
                      Some (VText title), Some (VText content_type))).
  { subst ndB. unfold set_basename, node_core. cbn. reflexivity. }
  clearbody ndB wB.
  apply bind_inv in H as ([] & w1 & Hcreate & H).
  apply bind_inv in H as ([] & w2 & Hadd & H).
  apply bind_inv in H as ([] & w3 & Hsave & H).
  apply bind_inv in H as ([] & w4 & Hnotify & H).
  unfold mret, M_ret in H. injection H as <- <-. split; [done|].
  (* the worlds extend each other *)
  pose proof (nodes_create (next_ref w) wB) as E1. rewrite Hcreate in E1.
  pose proof (nodes_add_child self (next_ref w) None w1) as E2. rewrite Hadd in E2.
  cbn [snd] in E1, E2.
  pose proof (extends_trans _ _ _ E1 E2) as E12.
  destruct (extends_core _ _ _ _ E12 Hfresh HndB) as (nd2 & Hnd2 & Hcore2).
  (* the child is in the list *)
  destruct (_add_child_member _ _ _ _ _ Hadd) as (l & Hl & Hin).
  (* the forced save and the notification *)
  unfold notify_change in Hnotify.
  pose proof (nodes_save (next_ref w) true w2) as E3. rewrite Hsave in E3.
  pose proof (nodes_notify_changes self [self] true w3) as E4. rewrite Hnotify in E4.
  cbn [snd] in E3, E4.
  pose proof (keeps_save (next_ref w) true w2 self) as K3. rewrite Hsave in K3.
  pose proof (keeps_notify_changes self [self] true w3 self) as K4.
  rewrite Hnotify in K4. cbn [snd] in K3, K4.
  apply NoteBookNode_save_inv in Hsave as (nd2' & Hnd2' & Hh3 & Hn3 & Hsave).
  assert (nd2' = nd2) as -> by congruence.
  assert (Hfields : node_class nd2 = cls ∧ _parent nd2 = Some self ∧ _valid nd2 = true
                    ∧ _attr nd2 !! "title" = Some (VText title)
                    ∧ _attr nd2 !! "content_type" = Some (VText content_type)).
  { rewrite HcoreB in Hcore2. unfold node_core in Hcore2.
    injection Hcore2 as -> -> _ -> -> ->. done. }
  destruct Hfields as (Hcls & Hparent & Hvalid & Htitle & Hct).
  rewrite Hvalid in Hsave. cbn [orb andb] in Hsave.
  destruct Hsave as (Hd3 & path & text & Hpath & Htext & Hfs3).
  apply notify_changes_inv in Hnotify as (Hh4 & Hfs4 & Hd4).
  exists nd2, l, path, text.
  split; [by rewrite Hh4, Hh3|]. do 5 (split; [done|]).
  split; [by rewrite K4, K3|]. split; [done|].
  split; [rewrite Hd4, Hd3; set_solver|].
  split; [rewrite <- Hpath; apply get_path_heap; by rewrite Hh4, Hh3|].
  split.
  - destruct E3 as (_ & _ & _ & Ha3). destruct E4 as (_ & _ & _ & Ha4).
    by rewrite Ha4, Ha3.
  - rewrite Hfs4, Hfs3. unfold os.read_file, os.commit. cbn [fs_entries].
    by rewrite lookup_insert_eq.
Qed.

End NewChild.

(** X18. When [new_page] or [new_dir] returns, the node it returns is a
    new object of the class asked for ([NoteBookPage] or [NoteBookDir]),
    valid, with the given title, the content type of its class and the
    node it was called on as parent; it is among the children of that
    node and not in the dirty set, and its metadata file holds the
    encoding of its attributes. *)
Theorem new_page_and_new_dir (self node : ref) (title : string) (w w' : World) :
  (new_page self title w = (Ok node, w') ->
   created_under NoteBookPage CONTENT_TYPE_PAGE self title node w w')
  ∧ (new_dir self title w = (Ok node, w') ->
     created_under NoteBookDir CONTENT_TYPE_DIR self title node w w').
Proof. split; apply new_child_result. Qed.

Lemma new_page_and_new_dir_witness :
  created_under NoteBookPage CONTENT_TYPE_PAGE Examples.g "Notes & more" 8%positive
    Examples.w_loaded (new_page Examples.g "Notes & more" Examples.w_loaded).2.
Proof.
  assert (H : (new_page Examples.g "Notes & more" Examples.w_loaded).1 = Ok 8%positive)
    by (vm_compute; reflexivity).
  destruct (new_page Examples.g "Notes & more" Examples.w_loaded) as [r w'] eqn:E.
  cbn [fst snd] in *. subst r.
  exact (proj1 (new_page_and_new_dir Examples.g 8%positive "Notes & more"
                  Examples.w_loaded w') E).
Defined.

(* ===================================================================== *)
(** * Creating and loading a notebook *)
(* ===================================================================== *)

Section CreateNotebook.

Lemma join_length (p x : string) :
  PyStr.startswith "/" x = false ->
  (String.length p + String.length x ≤ String.length (os_path.join p x))%nat.
Proof.
  intros Hx. rewrite join_relative by done.
  destruct (_ || _)%bool; rewrite !append_length; lia.
Qed.

(** A file or directory inside [p] is not [p]. *)
Lemma join_ne (p x : string) :
  PyStr.startswith "/" x = false -> x ≠ "" -> os_path.join p x ≠ p.
Proof.
  intros Hx Hne Heq. pose proof (join_length p x Hx) as Hlen. rewrite Heq in Hlen.
  destruct x; [done|]. cbn in Hlen. lia.
Qed.

Lemma fs_call_inv (f : FileSystem -> result FileSystem) (w w' : World) :
  fs_call f w = (Ok tt, w') -> ∃ fs', f (fs w) = Ok fs' ∧ w' = set_fs fs' w.
Proof.
  unfold fs_call. destruct (f (fs w)) as [fs'|]; [|discriminate].
  intros [= <-]. eauto.
Qed.

Lemma mkdir_inv (fs fs' : FileSystem) (p : string) :
  os.mkdir fs p = Ok fs' ->
  os_path.exists_ fs p = false
  ∧ fs' = mkFS (<[p := FsDir]> (fs_entries fs)) (fs_denied fs).
Proof.
  unfold os.mkdir. destruct (os_path.exists_ fs p); [discriminate|]. cbn [orb].
  destruct (_ || _)%bool; [discriminate|]. by intros [= <-].
Qed.

Lemma path_list_exact (h : gmap ref NoteBookNode) (k : nat) :
  ∀ (p : option ref) (l : list (option string)),
    path_list k h p = Ok l -> path_list (length l) h p = Ok l.
Proof.
  induction k as [|k IH]; intros [n|] l H; try done; try (by injection H as <-).
  cbn in H. destruct (h !! n) as [nd|] eqn:Hn; [|discriminate].
  destruct (path_list k h (_parent nd)) as [t|e] eqn:Ht; [|discriminate].
  injection H as <-. cbn. rewrite Hn. by rewrite (IH _ _ Ht).
Qed.

(** The chain of parents is the same in a heap whose nodes have the
    parents and the base names they have in [h]. *)
Lemma path_list_same (h h' : gmap ref NoteBookNode) :
  (∀ r nd, h !! r = Some nd ->
     ∃ nd', h' !! r = Some nd' ∧ _parent nd' = _parent nd ∧ _basename nd' = _basename nd) ->
  ∀ (k : nat) (p : option ref) (l : list (option string)),
    path_list k h p = Ok l -> path_list k h' p = Ok l.
Proof.
  intros Hsame. induction k as [|k IH]; intros [n|] l H; try done.
  cbn in H |- *. destruct (h !! n) as [nd|] eqn:Hn; [|discriminate].
  destruct (Hsame _ _ Hn) as (nd' & -> & Hp & Hb). rewrite Hp, Hb.
  destruct (path_list k h (_parent nd)) as [t|e] eqn:Ht; [|discriminate].
  by rewrite (IH _ _ Ht).
Qed.

Lemma get_path_same (n : ref) (w w' : World) (p : string) :
  (∀ r nd, heap w !! r = Some nd ->
     ∃ nd', heap w' !! r = Some nd' ∧ _parent nd' = _parent nd
            ∧ _basename nd' = _basename nd) ->
  (get_path n w).1 = Ok p -> (get_path n w').1 = Ok p.
Proof.
  intros Hsame Hp. apply get_path_inv in Hp as (l & a & r & Hl & Hrev & Hjoin).
  apply (path_list_same _ _ Hsame) in Hl.
  pose proof (path_list_length _ _ _ _ Hl) as Hlen.
  apply path_list_exact in Hl.
  apply (path_list_fuel _ _ (S (size (heap w')))) in Hl; [|lia].
  unfold get_path, mbind, M_bind, get_world, lift. rewrite Hl. cbn. rewrite Hrev.
  by rewrite Hjoin.
Qed.

(** Assignments that leave the parent and the base name of a node
    leave every path. *)
Lemma get_path_update (m n : ref) (f : NoteBookNode -> NoteBookNode) (w w' : World)
    (p : string) :
  (∀ nd, _parent (f nd) = _parent nd ∧ _basename (f nd) = _basename nd) ->
  update n f w = (Ok tt, w') ->
  (get_path m w).1 = Ok p -> (get_path m w').1 = Ok p.
Proof.
  intros Hf Hupd. apply update_inv in Hupd as (nd0 & Hnd0 & ->).
  apply get_path_same. intros r nd Hr. rewrite heap_set_heap.
  destruct (decide (n = r)) as [<-|Hne].
  - rewrite lookup_insert_eq. exists (f nd0). split; [done|].
    assert (nd = nd0) as -> by congruence. apply Hf.
  - rewrite lookup_insert_ne by done. eauto.
Qed.

(** The file system after [NoteBookNode.create] has returned on a node
    that is no page. *)
Lemma NoteBookNode_create_inv (self : ref) (w w' : World) :
  NoteBookNode_create self w = (Ok tt, w') ->
  ∃ path fs1 text1,
    (get_path self w).1 = Ok path
    ∧ os.mkdir (fs w) path = Ok fs1
    ∧ (fs w' = os.commit fs1 (get_node_meta_file path) text1
       ∨ fs w' = os.commit (os.commit fs1 (get_node_meta_file path) text1)
                   (get_page_data_file path) BLANK_NOTE)
    ∧ (get_path self w').1 = Ok path.
Proof.
  intros H. unfold NoteBookNode_create in H.
  apply bind_inv in H as (path & w0 & Hpath & H).
  apply get_path_inv_ok in Hpath as [Hpath ->].
  apply bind_inv in H as ([] & w1 & Hmk & H).
  apply try_except_inv in Hmk as [Hmk|(e & wx & _ & _ & Hmk)]; [|discriminate].
  apply fs_call_inv in Hmk as (fs1 & Hfs1 & ->).
  apply bind_inv in H as (t & wx & Ht & H).
  unfold get_timestamp in Ht. injection Ht as _ <-.
  apply bind_inv in H as ([] & w2 & Hu1 & H).
  apply bind_inv in H as (t' & wx & Ht' & H).
  unfold get_timestamp in Ht'. injection Ht' as _ <-.
  apply bind_inv in H as ([] & w3 & Hu2 & H).
  apply bind_inv in H as ([] & w4 & Hwrite & H).
  apply bind_inv in H as ([] & w5 & Hclean & H).
  apply bind_inv in H as (nd & wx & Hnd & H). apply deref_inv in Hnd as [Hnd ->].
  apply bind_inv in H as (ct & wx & Hct & H).
  assert (wx = w5) as ->.
  { unfold getitem in Hct. destruct (_attr nd !! "content_type"); [|discriminate].
    by injection Hct as _ <-. }
  (* the path of the node stays what it is *)
  assert (Hp2 : (get_path self w2).1 = Ok path).
  { eapply get_path_update; [|exact Hu1|]; [done|].
    rewrite <- Hpath. by apply get_path_heap. }
  assert (Hp3 : (get_path self w3).1 = Ok path).
  { eapply get_path_update; [|exact Hu2|exact Hp2]. done. }
  apply update_inv in Hu1 as (nd1 & Hnd1 & ->).
  apply update_inv in Hu2 as (nd2 & Hnd2 & ->).
  apply write_meta_data_inv in Hwrite as (nd3 & path3 & text & Hnd3 & Hpath3 & Htext & ->).
  assert (path3 = path) as -> by congruence.
  apply _set_dirty_false_inv in Hclean as (Hh5 & Hfs5 & _).
  assert (Hp5 : (get_path self w5).1 = Ok path).
  { rewrite <- Hp3. apply get_path_heap. by rewrite Hh5. }
  exists path, fs1, text. split; [done|]. split; [done|].
  destruct (py_eq ct (VText CONTENT_TYPE_PAGE)).
  - apply write_empty_data_file_inv in H as (p5 & Hp5' & ->).
    rewrite get_path_eq in Hp5'. injection Hp5' as Hp5'.
    assert (p5 = path) as -> by congruence.
    split; [right; cbn [fs set_fs]; by rewrite Hfs5|].
    rewrite <- Hp5. by apply get_path_heap.
  - injection H as <-. split; [left; by rewrite Hfs5|done].
Qed.

Lemma isdir_lookup (fs : FileSystem) (p : string) :
  fs_entries fs !! p = Some FsDir -> os_path.isdir fs p = true.
Proof. unfold os_path.isdir. by intros ->. Qed.

Lemma isfile_lookup (fs : FileSystem) (p data : string) :
  fs_entries fs !! p = Some (FsFile data) -> os_path_isfile fs p = true.
Proof. unfold os_path_isfile. by intros ->. Qed.

(** The names of the files of a notebook directory are different
    paths, and none is the directory. *)
Lemma layout_paths (path : string) :
  get_node_meta_file path ≠ path ∧ get_pref_dir path ≠ path ∧ get_pref_file path ≠ path
  ∧ get_page_data_file path ≠ path
  ∧ get_node_meta_file path ≠ get_pref_dir path
  ∧ get_node_meta_file path ≠ get_pref_file path
  ∧ get_node_meta_file path ≠ get_page_data_file path
  ∧ get_pref_dir path ≠ get_pref_file path
  ∧ get_pref_dir path ≠ get_page_data_file path
  ∧ get_pref_file path ≠ get_page_data_file path.
Proof.
  unfold get_node_meta_file, get_pref_dir, get_pref_file, get_page_data_file.
  repeat split; try (by apply join_ne);
    intros Heq; by apply join_inj in Heq.
Qed.

End CreateNotebook.

(** X20. [NoteBook.create] lays a new notebook out on the disk: when
    it returns, the path of the notebook did not exist before and is a
    directory now, which holds the metadata file of the root, the
    preference directory and the preference file. If the path exists
    already, it raises the error of a node that cannot be created and
    changes nothing. *)
Theorem NoteBook_create_layout (self : ref) (w : World) (path : string) :
  (get_path self w).1 = Ok path ->
  (∀ w', NoteBook_create self w = (Ok tt, w') ->
     os_path.exists_ (fs w) path = false
     ∧ os_path.isdir (fs w') path = true
     ∧ os_path_isfile (fs w') (get_node_meta_file path) = true
     ∧ os_path.isdir (fs w') (get_pref_dir path) = true
     ∧ os_path_isfile (fs w') (get_pref_file path) = true)
  ∧ (os_path.exists_ (fs w) path = true ->
     NoteBook_create self w
     = (Raise (NoteBookError "Cannot create node" (Some OSError)), w)).
Proof.
  intros Hpath.
  destruct (layout_paths path)
    as (Hm & Hd & Hf & Hp & Hmd & Hmf & Hmp & Hdf & Hdp & Hfp).
  split.
  - intros w' H. unfold NoteBook_create in H.
    apply bind_inv in H as ([] & w1 & Hcreate & H).
    apply NoteBookNode_create_inv in Hcreate
      as (path1 & fs1 & text1 & Hpath1 & Hmk & Hfs1 & Hp1).
    assert (path1 = path) as -> by congruence.
    apply mkdir_inv in Hmk as [Hnew ->].
    unfold NoteBook_get_pref_dir in H. rewrite bind_assoc_w in H.
    apply bind_inv in H as (p1 & wx & Hp1' & H).
    apply get_path_inv_ok in Hp1' as [Hp1' ->].
    assert (p1 = path) as -> by congruence.
    unfold mbind at 1, M_bind at 1, mret at 1, M_ret at 1 in H.
    apply bind_inv in H as ([] & w2 & Hmk2 & H).
    apply fs_call_inv in Hmk2 as (fs2 & Hfs2 & ->).
    apply mkdir_inv in Hfs2 as [_ ->].
    apply bind_inv in H as ([] & w3 & Hwrite & H).
    apply write_meta_data_inv in Hwrite as (nd3 & p3 & text3 & _ & Hp3 & _ & ->).
    assert (p3 = path) as ->.
    { rewrite (get_path_heap self w1) in Hp3 by done. congruence. }
    cbn [fs set_fs] in H.
    assert (H1 : fs_entries (fs w1) !! path = Some FsDir
                 ∧ fs_entries (fs w1) !! get_pref_dir path
                   = fs_entries (fs w) !! get_pref_dir path).
    { destruct Hfs1 as [-> | ->]; unfold os.commit; cbn [fs_entries];
        split; repeat (rewrite lookup_insert_ne by congruence);
        by rewrite ?lookup_insert_eq. }
    destruct H1 as [H1p _].
    set (fs3 := os.commit _ _ text3) in H.
    assert (Hfs3 : fs_entries fs3 !! path = Some FsDir
                   ∧ fs_entries fs3 !! get_node_meta_file path = Some (FsFile text3)
                   ∧ fs_entries fs3 !! get_pref_dir path = Some FsDir).
    { subst fs3. unfold os.commit. cbn [fs_entries].
      split; [|split]; repeat (rewrite lookup_insert_ne by congruence);
        by rewrite ?lookup_insert_eq. }
    clearbody fs3. destruct Hfs3 as (H3p & H3m & H3d).
    (* the preferences *)
    unfold write_preferences in H.
    apply try_except_inv in H as [H|(e & wx & _ & _ & H)];
      [|destruct (is_XmlError e); discriminate].
    unfold NoteBook_get_pref_dir, NoteBook_get_pref_file in H.
    rewrite !bind_assoc_w in H.
    apply bind_inv in H as (p4 & wx & Hp4 & H).
    apply get_path_inv_ok in Hp4 as [Hp4 ->].
    assert (p4 = path) as ->.
    { rewrite (get_path_heap self w1) in Hp4 by done. congruence. }
    unfold mbind at 1, M_bind at 1, mret at 1, M_ret at 1 in H.
    unfold mbind at 1, M_bind at 1, get_world at 1 in H.
    cbn [fs set_fs] in H.
    assert (Hex : os_path.exists_ fs3 (get_pref_dir path) = true).
    { unfold os_path.exists_. apply bool_decide_eq_true. by rewrite H3d. }
    rewrite Hex in H. cbn [negb] in H.
    unfold mbind at 1, M_bind at 1, mret at 1, M_ret at 1 in H.
    rewrite !bind_assoc_w in H.
    apply bind_inv in H as (p5 & wx & Hp5 & H).
    apply get_path_inv_ok in Hp5 as [Hp5 ->].
    assert (p5 = path) as ->.
    { rewrite (get_path_heap self w1) in Hp5 by done. congruence. }
    unfold mbind at 1, M_bind at 1, mret at 1, M_ret at 1 in H.
    apply bind_inv in H as ([] & wx & Hopen & H).
    unfold fs_query in Hopen. injection Hopen as _ <-.
    unfold modify in H. injection H as <-.
    split; [done|]. cbn [fs set_fs]. unfold os.commit.
    split; [|split; [|split]].
    + apply isdir_lookup. cbn [fs_entries]. by rewrite lookup_insert_ne by congruence.
    + eapply isfile_lookup. cbn [fs_entries].
      rewrite lookup_insert_ne by congruence. exact H3m.
    + apply isdir_lookup. cbn [fs_entries]. by rewrite lookup_insert_ne by congruence.
    + eapply isfile_lookup. cbn [fs_entries]. apply lookup_insert_eq.
  - intros Hex.
    assert (Hpath' : get_path self w = (Ok path, w))
      by (rewrite get_path_eq; by rewrite Hpath).
    unfold NoteBook_create, NoteBookNode_create.
    erewrite bind_raise; [reflexivity|].
    rewrite (bind_ok _ _ _ _ _ Hpath').
    erewrite bind_raise; [reflexivity|].
    erewrite try_except_caught; [reflexivity| |reflexivity].
    unfold fs_call, os.mkdir. by rewrite Hex.
Qed.

Lemma NoteBook_create_layout_witness :
  (∃ w', NoteBook_create Examples.nb Scenarios.w_new = (Ok tt, w')
         ∧ os_path.isdir (fs w') "nb2" = true
         ∧ os_path_isfile (fs w') "nb2/node.xml" = true
         ∧ os_path.isdir (fs w') "nb2/__NOTEBOOK__" = true
         ∧ os_path_isfile (fs w') "nb2/notebook.nbk" = true)
  ∧ NoteBook_create Examples.nb Scenarios.w_v5
    = (Raise (NoteBookError "Cannot create node" (Some OSError)), Scenarios.w_v5).
Proof.
  assert (Hp : (get_path Examples.nb Scenarios.w_new).1 = Ok "nb2") by (vm_compute; reflexivity).
  assert (Hq : (get_path Examples.nb Scenarios.w_v5).1 = Ok "nb") by (vm_compute; reflexivity).
  assert (Hex : os_path.exists_ (fs Scenarios.w_v5) "nb" = true) by (vm_compute; reflexivity).
  assert (H : (NoteBook_create Examples.nb Scenarios.w_new).1 = Ok tt) by (vm_compute; reflexivity).
  split.
  - destruct (NoteBook_create Examples.nb Scenarios.w_new) as [r w'] eqn:E.
    cbn [fst] in H. subst r. exists w'. split; [reflexivity|].
    exact (proj2 (proj1 (NoteBook_create_layout _ _ _ Hp) w' E)).
  - exact (proj2 (NoteBook_create_layout _ _ _ Hq) Hex).
Defined.

(* ===================================================================== *)
(** * Deleting a node *)
(* ===================================================================== *)

Section Frames.

Context (R : World -> World -> Prop) `{!PreOrder R}.

Lemma frame_ret {A} (a : A) : frame R (mret a).
Proof. intros w. reflexivity. Qed.

Lemma frame_raise {A} (e : Exn) : frame R (raise (A:=A) e).
Proof. intros w. reflexivity. Qed.

Lemma frame_bind {A B} (m : M A) (k : A -> M B) :
  frame R m -> (∀ a, frame R (k a)) -> frame R (m ≫= k).
Proof.
  intros Hm Hk w. specialize (Hm w). unfold mbind, M_bind.
  destruct (m w) as [[a|e] w1]; [|exact Hm].
  etransitivity; [exact Hm|apply Hk].
Qed.

Lemma frame_try_except {A} (m : M A) (c : Exn -> bool) (h : Exn -> M A) :
  frame R m -> (∀ e, frame R (h e)) -> frame R (try_except m c h).
Proof.
  intros Hm Hh w. specialize (Hm w). unfold try_except.
  destruct (m w) as [[a|e] w1]; [exact Hm|].
  destruct (c e); [|exact Hm].
  etransitivity; [exact Hm|apply Hh].
Qed.

Lemma frame_lift {A} (r : result A) : frame R (lift r).
Proof. intros w. reflexivity. Qed.

Lemma frame_get_world : frame R get_world.
Proof. intros w. reflexivity. Qed.

Lemma frame_get_path (n : ref) : frame R (get_path n).
Proof. intros w. rewrite get_path_world. reflexivity. Qed.

Lemma frame_deref (n : ref) : frame R (deref n).
Proof. intros w. unfold deref. destruct (heap w !! n); reflexivity. Qed.

Lemma frame_getitem (d : gmap string Value) (k : string) : frame R (getitem d k).
Proof. intros w. unfold getitem. destruct (d !! k); reflexivity. Qed.

Lemma frame_modify (f : World -> World) : (∀ w, R w (f w)) -> frame R (modify f).
Proof. intros Hf w. apply Hf. Qed.

Lemma frame_update (n : ref) (f : NoteBookNode -> NoteBookNode) :
  (∀ w nd, heap w !! n = Some nd -> R w (set_heap (<[n := f nd]> (heap w)) w)) ->
  frame R (update n f).
Proof.
  intros Hf w. unfold update, mbind, M_bind, deref, modify.
  destruct (heap w !! n) as [nd|] eqn:Hn; [|reflexivity]. by apply Hf.
Qed.

Lemma frame_the_notebook (n : ref) : frame R (the_notebook n).
Proof.
  apply frame_bind; [apply frame_deref|].
  intros nd. destruct (_notebook nd); [apply frame_ret|apply frame_raise].
Qed.

Lemma frame_for_each {A} (l : list A) (body : A -> M unit) :
  (∀ x, frame R (body x)) -> frame R (for_each l body).
Proof.
  intros Hb. induction l as [|x l IH]; [apply frame_ret|]. cbn [for_each].
  apply frame_bind; [apply Hb|]. intros _. apply IH.
Qed.

Lemma frame_set_dirty (n : ref) (b : bool) :
  (∀ w d, R w (set_dirty d w)) -> frame R (_set_dirty n b).
Proof.
  intros Hd. apply frame_bind; [apply frame_the_notebook|]. intros _.
  apply frame_modify. intros w. destruct b; [apply Hd|].
  case_bool_decide; [apply Hd|reflexivity].
Qed.

Lemma frame_set_child_order_from (children : list ref) (i : Z) :
  (∀ w d, R w (set_dirty d w)) ->
  (∀ child v, frame R (update child (fun nd =>
                         with_attr (<["order" := v]> (_attr nd)) nd))) ->
  frame R (set_child_order_from i children).
Proof.
  intros Hd Hu. revert i.
  induction children as [|child r IH]; intros i; [apply frame_ret|].
  cbn [set_child_order_from].
  apply frame_bind; [apply frame_deref|]. intros nd.
  apply frame_bind; [apply frame_getitem|]. intros order.
  apply frame_bind; [|intros _; apply IH].
  destruct (negb (py_eq order (VInt i))); [|apply frame_ret].
  apply frame_bind; [apply Hu|]. intros _. by apply frame_set_dirty.
Qed.

Lemma frame_set_child_order (n : ref) :
  (∀ w d, R w (set_dirty d w)) ->
  (∀ child v, frame R (update child (fun nd =>
                         with_attr (<["order" := v]> (_attr nd)) nd))) ->
  frame R (_set_child_order n).
Proof.
  intros Hd Hu. apply frame_bind; [|intros l; by apply frame_set_child_order_from].
  apply frame_bind; [apply frame_deref|]. intros nd.
  destruct (_children nd); [apply frame_ret|apply frame_raise].
Qed.

End Frames.

Section Delete.

#[global] Instance fades_preorder : PreOrder fades.
Proof.
  split; [by repeat split|].
  intros w1 w2 w3 (Hf1 & Hd1 & Hc1 & Hp1 & Hv1) (Hf2 & Hd2 & Hc2 & Hp2 & Hv2).
  split; [congruence|]. split; [congruence|].
  split; [by eapply same_children_trans|]. split.
  - intros r. by rewrite Hp2, Hp1.
  - intros r Hr. by apply Hv2, Hv1.
Qed.

#[global] Instance settled_preorder (p : ref) : PreOrder (settled p).
Proof.
  split; [by repeat split|].
  intros w1 w2 w3 (Hf1 & Hc1 & Hl1) (Hf2 & Hc2 & Hl2).
  split; [congruence|]. split.
  - intros r. by rewrite Hc2, Hc1.
  - intros r Hr. by rewrite Hl2, Hl1.
Qed.

Lemma children_insert (h : gmap ref NoteBookNode) (n r : ref) (nd nd0 : NoteBookNode) :
  h !! n = Some nd0 -> _children nd = _children nd0 ->
  _children <$> <[n := nd]> h !! r = _children <$> h !! r.
Proof.
  intros Hn Hc. destruct (decide (n = r)) as [<-|Hne].
  - rewrite lookup_insert_eq, Hn. cbn. by rewrite Hc.
  - by rewrite lookup_insert_ne.
Qed.

Lemma field_insert {A} (g : NoteBookNode -> A) (h : gmap ref NoteBookNode) (n r : ref)
    (nd nd0 : NoteBookNode) :
  h !! n = Some nd0 -> g nd = g nd0 -> g <$> <[n := nd]> h !! r = g <$> h !! r.
Proof.
  intros Hn Hg. destruct (decide (n = r)) as [<-|Hne].
  - rewrite lookup_insert_eq, Hn. cbn. by rewrite Hg.
  - by rewrite lookup_insert_ne.
Qed.

(** Nodes with the same core have the same parent and validity. *)
Lemma core_fields (h h' : gmap ref NoteBookNode) (r : ref) :
  node_core <$> h' !! r = node_core <$> h !! r ->
  _parent <$> h' !! r = _parent <$> h !! r ∧ _valid <$> h' !! r = _valid <$> h !! r.
Proof.
  destruct (h' !! r), (h !! r); cbn; try done.
  unfold node_core. intros [= ? ? ? ? ? ?]. split; congruence.
Qed.

Lemma core_insert (h : gmap ref NoteBookNode) (n r : ref) (nd nd0 : NoteBookNode) :
  h !! n = Some nd0 -> node_core nd = node_core nd0 ->
  node_core <$> <[n := nd]> h !! r = node_core <$> h !! r.
Proof.
  intros Hn Hc. destruct (decide (n = r)) as [<-|Hne].
  - rewrite lookup_insert_eq, Hn. cbn. by rewrite Hc.
  - by rewrite lookup_insert_ne.
Qed.

Lemma settled_set_dirty (p : ref) (w : World) (d : gset ref) : settled p w (set_dirty d w).
Proof. by repeat split. Qed.

(** An assignment to a field outside the core and other than the
    children list. *)
Lemma settled_update (p n : ref) (f : NoteBookNode -> NoteBookNode) :
  (∀ nd, node_core (f nd) = node_core nd) ->
  (∀ nd, _children (f nd) = _children nd) ->
  frame (settled p) (update n f).
Proof.
  intros Hcore Hch. apply (frame_update (settled p)). intros w nd Hnd.
  split; [done|]. cbn [heap set_heap]. split.
  - intros r. by apply (core_insert _ _ _ _ nd).
  - intros r _. by apply (children_insert _ _ _ _ nd).
Qed.

(** An assignment to the children list of [p]. *)
Lemma settled_update_children (p : ref) (l : option (list ref)) :
  frame (settled p) (update p (with_children l)).
Proof.
  apply (frame_update (settled p)). intros w nd Hnd.
  split; [done|]. cbn [heap set_heap]. split.
  - intros r. by apply (core_insert _ _ _ _ nd).
  - intros r Hr. by rewrite lookup_insert_ne.
Qed.

Lemma settled_update_order (p child : ref) (v : Value) :
  frame (settled p)
    (update child (fun nd => with_attr (<["order" := v]> (_attr nd)) nd)).
Proof. apply settled_update; [|done]. intros nd. by apply node_core_with_attr. Qed.

Lemma settled_set_child_order (p n : ref) : frame (settled p) (_set_child_order n).
Proof.
  apply (frame_set_child_order (settled p));
    [apply settled_set_dirty|apply settled_update_order].
Qed.

Lemma fades_invalidate (child : ref) :
  frame fades (update child (with_valid false)).
Proof.
  apply (frame_update fades). intros w nd Hnd.
  split; [done|]. split; [done|]. cbn [heap set_heap]. split; [|split].
  - intros n. by apply (field_insert _ _ _ _ _ nd).
  - intros r. by apply (field_insert _ _ _ _ _ nd).
  - intros r Hr. destruct (decide (child = r)) as [<-|Hne].
    + by rewrite lookup_insert_eq.
    + by rewrite lookup_insert_ne.
Qed.

Lemma fades_invalidate_walk (fuel : nat) (node : ref) :
  frame fades (invalidate_walk fuel node).
Proof.
  revert node. induction fuel as [|fuel IH]; intros node; [by apply (frame_raise fades)|].
  cbn [invalidate_walk].
  apply (frame_bind fades); [by apply (frame_deref fades)|]. intros nd.
  destruct (_children nd) as [children|]; [|by apply (frame_ret fades)].
  apply (frame_for_each fades). intros child.
  apply (frame_bind fades); [apply fades_invalidate|]. intros _. apply IH.
Qed.

Lemma fades_notify_change (n : ref) (b : bool) : frame fades (notify_change n b).
Proof.
  apply (frame_bind fades); [by apply (frame_deref fades)|]. intros nd.
  destruct (_notebook nd); [|by apply (frame_ret fades)].
  apply (frame_modify fades). intros w. by repeat split.
Qed.

(** What [delete] has done when it returns, on a node whose parent has
    its children loaded. *)
Lemma NoteBookNode_delete_inv (self parent : ref) (nd : NoteBookNode) (l0 : list ref)
    (w w' : World) :
  heap w !! self = Some nd ->
  _parent nd = Some parent ->
  _children <$> heap w !! parent = Some (Some l0) ->
  NoteBookNode_delete self w = (Ok tt, w') ->
  ∃ path l,
    (get_path self w).1 = Ok path
    ∧ os_path.isdir (fs w) path = true
    ∧ (∀ k, fs_entries (fs w') !! k
            = if (String.eqb k path || os.below path k)%bool then None
              else fs_entries (fs w) !! k)
    ∧ py_remove self l0 = Some l
    ∧ _children <$> heap w' !! parent = Some (Some l)
    ∧ _valid <$> heap w' !! self = Some false
    ∧ (self ∉ _dirty w')
    ∧ (∀ r, _parent <$> heap w' !! r = _parent <$> heap w !! r)
    ∧ (∀ r, _valid <$> heap w !! r = Some false -> _valid <$> heap w' !! r = Some false).
Proof.
  intros Hself Hparent Hl0 H. unfold NoteBookNode_delete in H.
  apply bind_inv in H as (path & wx & Hpath & H).
  apply get_path_inv_ok in Hpath as [Hpath ->].
  apply bind_inv in H as ([] & w1 & Hrm & H).
  apply try_except_inv in Hrm as [Hrm|(e & wx & _ & _ & Hrm)]; [|discriminate].
  apply fs_run_inv in Hrm as (fs1 & Hrm & ->).
  apply rmtree_inv in Hrm as [Hdir Hfs1].
  apply bind_inv in H as (nd' & wx & Hnd' & H).
  apply deref_inv in Hnd' as [Hnd' ->]. cbn [heap set_fs] in Hnd'.
  assert (nd' = nd) as -> by congruence. rewrite Hparent in H.
  (* the parent forgets the node *)
  apply bind_inv in H as ([] & w2 & Hremove & H).
  unfold _remove_child in Hremove.
  apply bind_inv in Hremove as ([] & wx & Hens & Hremove).
  destruct (heap w !! parent) as [pd|] eqn:Hpd; [|discriminate].
  injection Hl0 as Hl0.
  unfold ensure_children in Hens.
  rewrite (bind_ok _ _ (set_fs fs1 w) _ pd) in Hens by (by apply deref_ok).
  rewrite Hl0 in Hens. injection Hens as <-.
  apply bind_inv in Hremove as (l0' & wx & Hc & Hremove).
  apply children_of_inv in Hc as (-> & pd' & Hpd' & Hc).
  cbn [heap set_fs] in Hpd'. assert (pd' = pd) as -> by congruence.
  assert (l0' = l0) as -> by congruence.
  destruct (py_remove self l0) as [l|] eqn:Hl; [|discriminate].
  apply update_inv in Hremove as (pd'' & Hpd'' & ->).
  cbn [heap set_fs] in Hpd''. assert (pd'' = pd) as -> by congruence.
  set (w2 := set_heap _ _) in H.
  assert (Hw2 : fs w2 = fs1
                ∧ _children <$> heap w2 !! parent = Some (Some l)
                ∧ (∀ r, _parent <$> heap w2 !! r = _parent <$> heap w !! r)
                ∧ (∀ r, _valid <$> heap w2 !! r = _valid <$> heap w !! r)).
  { split; [done|]. subst w2. cbn [heap set_heap set_fs].
    split; [by rewrite lookup_insert_eq|].
    split; intros r; by apply (field_insert _ _ _ _ _ pd). }
  clearbody w2. destruct Hw2 as (Hfs2 & Hch2 & Hpa2 & Hva2).
  (* the orders of the siblings *)
  apply bind_inv in H as ([] & w3 & Hord & H).
  pose proof (settled_set_child_order parent parent w2) as (Hfs3 & Hco3 & _).
  pose proof (keeps_set_child_order parent w2 parent) as Hch3.
  rewrite Hord in Hfs3, Hco3, Hch3. cbn [snd] in Hfs3, Hco3, Hch3.
  clear Hord.
  (* the node is not valid and not dirty *)
  apply bind_inv in H as ([] & w4 & Hv & H).
  apply update_inv in Hv as (nd3 & Hnd3 & ->).
  apply bind_inv in H as ([] & w5 & Hd & H).
  apply _set_dirty_false_inv in Hd as (Hh5 & Hfs5 & Hd5).
  cbn [heap fs set_heap] in Hh5, Hfs5.
  apply bind_inv in H as (wx & wy & Hget & H). injection Hget as <- <-.
  apply bind_inv in H as ([] & w6 & Hwalk & H).
  pose proof (fades_invalidate_walk (S (size (heap w5))) self w5) as F6.
  rewrite Hwalk in F6. cbn [snd] in F6.
  pose proof (fades_notify_change parent true w6) as F7.
  rewrite H in F7. cbn [snd] in F7.
  destruct (PreOrder_Transitive (R:=fades) _ _ _ F6 F7) as (Ffs & Fd & Fc & Fp & Fv).
  exists path, l. split; [done|]. split; [done|].
  split; [by rewrite Ffs, Hfs5, Hfs3, Hfs2|]. split; [done|].
  split.
  - rewrite Fc, Hh5. destruct (decide (self = parent)) as [<-|Hne].
    + rewrite lookup_insert_eq. cbn. rewrite <- Hch2, <- Hch3. by rewrite Hnd3.
    + rewrite lookup_insert_ne by done. by rewrite Hch3.
  - split; [apply Fv; rewrite Hh5; by rewrite lookup_insert_eq|].
    split; [rewrite Fd, Hd5; set_solver|]. split.
    + intros r. rewrite Fp, Hh5.
      rewrite (field_insert _ _ _ _ _ nd3) by done.
      rewrite <- Hpa2. by apply core_fields.
    + intros r Hr. apply Fv. rewrite Hh5.
      destruct (decide (self = r)) as [<-|Hne]; [by rewrite lookup_insert_eq|].
      rewrite lookup_insert_ne by done.
      rewrite <- Hva2 in Hr. rewrite <- Hr. by apply core_fields.
Qed.

End Delete.

(** X21. When [delete] returns on a node whose parent has its children
    loaded, the path of the node was a directory and its entry and all
    entries below it are gone from the file system while every other
    entry is as before; the first occurrence of the node is gone from
    the children of the parent; the node is not valid and not dirty. *)
Theorem delete_removes (self parent : ref) (nd : NoteBookNode) (l0 : list ref)
    (w w' : World) :
  heap w !! self = Some nd ->
  node_class nd ≠ NoteBookTrash ->
  _parent nd = Some parent ->
  _children <$> heap w !! parent = Some (Some l0) ->
  node_delete self w = (Ok tt, w') ->
  ∃ path l,
    (get_path self w).1 = Ok path
    ∧ os_path.isdir (fs w) path = true
    ∧ (∀ k, fs_entries (fs w') !! k
            = if (String.eqb k path || os.below path k)%bool then None
              else fs_entries (fs w) !! k)
    ∧ py_remove self l0 = Some l
    ∧ _children <$> heap w' !! parent = Some (Some l)
    ∧ _valid <$> heap w' !! self = Some false
    ∧ (self ∉ _dirty w').
Proof.
  intros Hself Hcls Hparent Hl0 H.
  assert (Hdel : node_delete self w = NoteBookNode_delete self w).
  { unfold node_delete. rewrite (bind_ok _ _ _ _ _ (deref_ok _ _ _ Hself)).
    by destruct (node_class nd). }
  rewrite Hdel in H. clear Hdel.
  destruct (NoteBookNode_delete_inv _ _ _ _ _ _ Hself Hparent Hl0 H)
    as (path & l & Hpath & Hdir & Hfs & Hl & Hch & Hv & Hd & _).
  exists path, l. eauto 10.
Qed.

Lemma delete_removes_witness :
  ∃ w' l,
    node_delete Examples.a Examples.w_loaded = (Ok tt, w')
    ∧ os_path.isdir (fs Examples.w_loaded) "nb/g/a" = true
    ∧ fs_entries (fs w') !! "nb/g/a" = None
    ∧ fs_entries (fs w') !! "nb/g/a/node.xml" = None
    ∧ _children <$> heap w' !! Examples.g = Some (Some l)
    ∧ _valid <$> heap w' !! Examples.a = Some false
    ∧ (Examples.a ∉ _dirty w').
Proof.
  assert (Hnd : ∃ nd, heap Examples.w_loaded !! Examples.a = Some nd
                      ∧ node_class nd = NoteBookPage
                      ∧ _parent nd = Some Examples.g).
  { eexists. split; [by vm_compute|]. split; reflexivity. }
  destruct Hnd as (nd & Hnd & Hc & Hp).
  assert (Hl0 : ∃ l0, _children <$> heap Examples.w_loaded !! Examples.g
                      = Some (Some l0)).
  { eexists. vm_compute. reflexivity. }
  destruct Hl0 as (l0 & Hl0).
  assert (Hpath : (get_path Examples.a Examples.w_loaded).1 = Ok "nb/g/a")
    by (vm_compute; reflexivity).
  assert (H : (node_delete Examples.a Examples.w_loaded).1 = Ok tt)
    by (vm_compute; reflexivity).
  destruct (node_delete Examples.a Examples.w_loaded) as [r w'] eqn:E.
  cbn [fst] in H. subst r.
  assert (Hcls : node_class nd ≠ NoteBookTrash) by (rewrite Hc; discriminate).
  destruct (delete_removes _ _ _ _ _ _ Hnd Hcls Hp Hl0 E)
    as (path & l & Hpath' & Hdir & Hfs & Hl & Hch & Hv & Hd).
  assert (path = "nb/g/a") as -> by congruence.
  exists w', l. split; [reflexivity|]. split; [exact Hdir|].
  split; [exact (Hfs "nb/g/a")|]. split; [exact (Hfs "nb/g/a/node.xml")|].
  split; [exact Hch|]. split; [exact Hv|exact Hd].
Defined.

(* ===================================================================== *)
(** * Moving a node to another parent *)
(* ===================================================================== *)

Section MoveAcross.

Lemma _set_dirty_false_attrs (w w' : World) (n : ref) :
  _set_dirty n false w = (Ok tt, w') -> notebook_attrs w' = notebook_attrs w.
Proof.
  intros H. unfold _set_dirty in H. apply bind_inv in H as (nbk & w1 & Hnb & H).
  apply the_notebook_inv in Hnb as ->.
  unfold _set_dirty_node, modify in H. injection H as <-. by case_bool_decide.
Qed.

(** [_remove_child] on a node whose children are loaded. *)
Lemma _remove_child_inv (self child : ref) (l0 : list ref) (w w' : World) :
  _children <$> heap w !! self = Some (Some l0) ->
  _remove_child self child w = (Ok tt, w') ->
  ∃ l nd, py_remove child l0 = Some l ∧ heap w !! self = Some nd
          ∧ w' = set_heap (<[self := with_children (Some l) nd]> (heap w)) w.
Proof.
  intros Hl0 H. unfold _remove_child in H.
  destruct (heap w !! self) as [sd|] eqn:Hsd; [|discriminate].
  injection Hl0 as Hl0.
  apply bind_inv in H as ([] & wx & Hens & H).
  unfold ensure_children in Hens.
  rewrite (bind_ok _ _ w _ sd) in Hens by (by apply deref_ok).
  rewrite Hl0 in Hens. injection Hens as <-.
  apply bind_inv in H as (l0' & wx & Hc & H).
  apply children_of_inv in Hc as (-> & sd' & Hsd' & Hc).
  assert (sd' = sd) as -> by congruence.
  assert (l0' = l0) as -> by congruence.
  destruct (py_remove child l0) as [l|] eqn:Hl; [|discriminate].
  apply update_inv in H as (sd'' & Hsd'' & ->).
  assert (sd'' = sd) as -> by congruence. eauto.
Qed.

(** [_add_child] on a node whose children are loaded. *)
Lemma _add_child_loaded (self child : ref) (index : option Z) (l0 : list ref)
    (w w' : World) :
  _children <$> heap w !! self = Some (Some l0) ->
  _add_child self child index w = (Ok tt, w') ->
  settled self w w'.
Proof.
  intros Hl0 H. unfold _add_child in H.
  apply bind_inv in H as (nd & w0 & Hnd & H). apply deref_inv in Hnd as [Hnd ->].
  apply bind_inv in H as ([] & w1 & Hu & H).
  pose proof (settled_update self child (with_notebook (_notebook nd))
                ltac:(done) ltac:(done) w) as S1.
  pose proof (keeps_update child (with_notebook (_notebook nd)) ltac:(done) w self)
    as K1.
  rewrite Hu in S1, K1. cbn [snd] in S1, K1.
  apply bind_inv in H as ([] & w2 & Hens & H).
  assert (w2 = w1) as ->.
  { unfold ensure_children in Hens. rewrite Hl0 in K1.
    destruct (heap w1 !! self) as [sd|] eqn:Hsd; [|discriminate].
    injection K1 as K1.
    rewrite (bind_ok _ _ w1 _ sd) in Hens by (by apply deref_ok).
    rewrite K1 in Hens. by injection Hens as <-. }
  apply bind_inv in H as (l & wx & Hl & H).
  apply children_of_inv in Hl as (-> & _).
  apply bind_inv in H as (t & wx & Ht & H).
  unfold get_trash, mbind, M_bind, get_world, mret, M_ret in Ht. injection Ht as _ <-.
  etransitivity; [exact S1|].
  match type of H with ?m w1 = _ => assert (F : frame (settled self) m) end.
  { apply (frame_bind (settled self));
      [|intros _; apply (frame_set_dirty (settled self)), settled_set_dirty].
    assert (Hins : ∀ i, frame (settled self)
                          (update self (with_children (Some (py_insert i child l)));;
                           _set_child_order self)).
    { intros i. apply (frame_bind (settled self)); [apply settled_update_children|].
      intros _. apply settled_set_child_order. }
    destruct index as [i|]; [apply Hins|].
    destruct (_ && _)%bool; [apply Hins|].
    apply (frame_bind (settled self)); [apply settled_update_order|].
    intros _. apply settled_update_children. }
  specialize (F w1). by rewrite H in F.
Qed.

End MoveAcross.

(** X22. When [move] to another parent returns, for a valid node whose
    old and new parents have their children loaded: the directory of
    the node has been renamed to the free name that its title gives in
    the directory of the new parent; the first occurrence of the node is
    gone from the children of the old parent and the node is among the
    children of the new one; the node has the new parent and the new
    base name; its metadata file has been written under its new path
    and the node is not dirty. *)
Theorem move_to_parent (self old parent : ref) (index : option Z) (nd : NoteBookNode)
    (l_old l_new : list ref) (basename title path parent_path path2 : string)
    (w w' : World) :
  heap w !! self = Some nd ->
  node_class nd ≠ NoteBookTrash ->
  _valid nd = true ->
  _parent nd = Some old ->
  old ≠ parent ->
  _children <$> heap w !! old = Some (Some l_old) ->
  _children <$> heap w !! parent = Some (Some l_new) ->
  _basename nd = Some basename ->
  _attr nd !! "title" = Some (VText title) ->
  (get_path self w).1 = Ok path ->
  (get_path parent w).1 = Ok parent_path ->
  get_valid_unique_filename (fs w)
    (os_path.dirname (os_path.join parent_path basename)) title "" " " 2 = Ok path2 ->
  node_move self parent index w = (Ok tt, w') ->
  ∃ fs1 nd' l l' p' text,
    os.rename (fs w) path path2 = Ok fs1
    ∧ py_remove self l_old = Some l
    ∧ _children <$> heap w' !! old = Some (Some l)
    ∧ _children <$> heap w' !! parent = Some (Some l') ∧ self ∈ l'
    ∧ heap w' !! self = Some nd'
    ∧ _parent nd' = Some parent
    ∧ _basename nd' = Some (os_path.basename path2)
    ∧ (get_path self w').1 = Ok p'
    ∧ meta_text (_version nd') (_attr nd') (notebook_attrs w') = Ok text
    ∧ fs w' = os.commit fs1 (get_node_meta_file p') text
    ∧ (self ∉ _dirty w').
Proof.
  intros Hself Hcls Hvalid Hparent Hne Hlold Hlnew Hbase Htitle Hpath Hppath Hpath2 H.
  assert (Hmv : node_move self parent index w = NoteBookNode_move self parent index w).
  { unfold node_move. rewrite (bind_ok _ _ _ _ _ (deref_ok _ _ _ Hself)).
    by destruct (node_class nd). }
  rewrite Hmv in H. clear Hmv. unfold NoteBookNode_move in H.
  apply bind_inv in H as ([] & wx & Ha & H).
  destruct (Pos.eqb self parent); [discriminate|]. injection Ha as <-.
  apply bind_inv in H as (path' & wx & Hp & H).
  apply get_path_inv_ok in Hp as [Hp ->].
  assert (path' = path) as -> by congruence. clear Hp.
  apply bind_inv in H as (nd0 & wx & Hd & H). apply deref_inv in Hd as [Hd ->].
  assert (nd0 = nd) as -> by congruence. clear Hd.
  rewrite Hparent in H.
  rewrite (bool_decide_eq_false_2 (Some old = Some parent)) in H by congruence.
  cbn [negb] in H.
  (* the directory *)
  apply bind_inv in H as ([] & w2 & Hblock & H).
  apply bind_inv in Hblock as (pp & wx & Hpp & Hblock).
  apply get_path_inv_ok in Hpp as [Hpp ->].
  assert (pp = parent_path) as -> by congruence. clear Hpp.
  rewrite Hbase in Hblock.
  unfold mbind at 1, M_bind at 1, mret at 1, M_ret at 1 in Hblock.
  unfold getitem in Hblock. rewrite Htitle in Hblock.
  unfold mbind at 1, M_bind at 1, mret at 1, M_ret at 1 in Hblock.
  unfold as_text in Hblock.
  unfold mbind at 1, M_bind at 1, mret at 1, M_ret at 1 in Hblock.
  unfold mbind at 1, M_bind at 1, fs_query at 1 in Hblock.
  rewrite Hpath2 in Hblock.
  apply bind_inv in Hblock as ([] & w1 & Hrn & Hset).
  apply try_except_inv in Hrn as [Hrn|(e & wx & _ & _ & Hrn)]; [|discriminate].
  apply fs_call_inv in Hrn as (fs1 & Hrn & ->).
  unfold _set_basename in Hset. apply update_inv in Hset as (nd1 & Hnd1 & ->).
  cbn [heap set_fs] in Hnd1. assert (nd1 = nd) as -> by congruence. clear Hnd1.
  assert (Hnd2 : set_basename (Some path2) nd
                 = with_basename (Some (os_path.basename path2)) nd).
  { unfold set_basename. by rewrite Hparent. }
  rewrite Hnd2 in H. clear Hnd2.
  set (nd2 := with_basename (Some (os_path.basename path2)) nd) in H.
  set (w2 := set_heap _ (set_fs fs1 w)) in H.
  assert (F2 : fs w2 = fs1) by done.
  assert (Hself2 : heap w2 !! self = Some nd2)
    by (subst w2; cbn [heap set_heap]; apply lookup_insert_eq).
  assert (C2 : ∀ r, _children <$> heap w2 !! r = _children <$> heap w !! r).
  { intros r. subst w2. cbn [heap set_heap set_fs]. by apply (children_insert _ _ _ _ nd). }
  clearbody w2.
  (* the old parent *)
  apply bind_inv in H as ([] & w3 & Hrm & H).
  apply (_remove_child_inv _ _ l_old) in Hrm as (l & od & Hl & Hod & ->);
    [|by rewrite C2].
  set (w3 := set_heap _ w2) in H.
  assert (F3 : fs w3 = fs1) by done.
  assert (Hold3 : _children <$> heap w3 !! old = Some (Some l))
    by (subst w3; cbn [heap set_heap]; by rewrite lookup_insert_eq).
  assert (Hnew3 : _children <$> heap w3 !! parent = Some (Some l_new)).
  { subst w3. cbn [heap set_heap]. rewrite lookup_insert_ne by done.
    by rewrite C2. }
  assert (Hcore3 : node_core <$> heap w3 !! self = Some (node_core nd2)).
  { subst w3. cbn [heap set_heap]. rewrite (core_insert _ _ _ _ od) by done.
    by rewrite Hself2. }
  clearbody w3. clear C2 Hself2 Hod.
  rewrite (proj2 (Pos.eqb_neq old parent) Hne) in H. cbn [negb] in H.
  apply bind_inv in H as ([] & w6 & Hmid & H).
  apply bind_inv in Hmid as ([] & w4 & Hord & Hmid).
  apply bind_inv in Hmid as ([] & w5 & Hup & Hadd).
  pose proof (settled_set_child_order old old w3) as (F4 & Hc4 & _).
  pose proof (keeps_set_child_order old w3) as K4.
  rewrite Hord in F4, Hc4, K4. cbn [snd] in F4, Hc4, K4. clear Hord.
  apply update_inv in Hup as (nd4 & Hnd4 & ->).
  assert (Hcore4 : node_core nd4 = node_core nd2).
  { specialize (Hc4 self). rewrite Hnd4, Hcore3 in Hc4. cbn in Hc4. congruence. }
  set (nd5 := with_parent (Some parent) nd4) in Hadd.
  set (w5 := set_heap _ w4) in Hadd.
  assert (F5 : fs w5 = fs1) by (subst w5; cbn [fs set_heap]; congruence).
  assert (Hself5 : heap w5 !! self = Some nd5)
    by (subst w5; cbn [heap set_heap]; apply lookup_insert_eq).
  assert (C5 : ∀ r, _children <$> heap w5 !! r = _children <$> heap w3 !! r).
  { intros r. subst w5. cbn [heap set_heap].
    rewrite (children_insert _ _ _ _ nd4) by done. apply K4. }
  clearbody w5.
  (* the new parent *)
  pose proof (_add_child_member _ _ _ _ _ Hadd) as (l' & Hl' & Hin).
  apply (_add_child_loaded _ _ _ l_new) in Hadd as (F6 & Hc6 & Hch6);
    [|by rewrite C5].
  (* the node is saved *)
  apply bind_inv in H as ([] & w7 & Hdirty & H).
  apply _set_dirty_true_inv in Hdirty as ->.
  apply bind_inv in H as ([] & w8 & Hsave & H).
  unfold NoteBookNode_save in Hsave.
  unfold mbind at 1, M_bind at 1, mret at 1, M_ret at 1 in Hsave.
  apply bind_inv in Hsave as (nd7 & wx & Hnd7 & Hsave).
  apply deref_inv in Hnd7 as [Hnd7 ->]. cbn [heap set_dirty] in Hnd7.
  assert (Hcore7 : node_core nd7 = node_core nd5).
  { specialize (Hc6 self). rewrite Hnd7, Hself5 in Hc6. cbn in Hc6. congruence. }
  assert (Hfields : _parent nd7 = Some parent
                    ∧ _basename nd7 = Some (os_path.basename path2)
                    ∧ _valid nd7 = true).
  { unfold node_core in Hcore7, Hcore4. subst nd5 nd2. cbn in Hcore7, Hcore4.
    injection Hcore7 as ? ? ? ? ? ?. injection Hcore4 as ? ? ? ? ? ?.
    repeat split; congruence. }
  destruct Hfields as (Hp7 & Hb7 & Hv7).
  rewrite Hv7 in Hsave. cbn [andb] in Hsave.
  apply bind_inv in Hsave as ([] & w7 & Hwrite & Hclean).
  apply write_meta_data_inv in Hwrite as (nd7' & p' & text & Hnd7' & Hp' & Htext & ->).
  cbn [heap set_dirty] in Hnd7'. assert (nd7' = nd7) as -> by congruence.
  pose proof (_set_dirty_false_attrs _ _ _ Hclean) as Ha8.
  apply _set_dirty_false_inv in Hclean as (Hh8 & Hfs8 & Hd8).
  cbn [heap fs set_fs set_dirty notebook_attrs] in Hh8, Hfs8, Ha8.
  (* the listeners *)
  assert (Hlast : heap w' = heap w8 ∧ fs w' = fs w8 ∧ _dirty w' = _dirty w8
                  ∧ notebook_attrs w' = notebook_attrs w8).
  { destruct (negb (Pos.eqb parent old)); unfold notify_change, notify_changes in H;
      apply bind_inv in H as (ndn & wx & Hn & H); apply deref_inv in Hn as [_ ->];
      destruct (_notebook ndn); unfold modify, mret, M_ret in H;
      by injection H as <-. }
  destruct Hlast as (Hh' & Hfs' & Hd' & Ha').
  exists fs1, nd7, l, l', p', text.
  split; [done|]. split; [done|].
  split; [by rewrite Hh', Hh8, Hch6, C5|].
  split; [by rewrite Hh', Hh8|]. split; [done|].
  split; [by rewrite Hh', Hh8|]. split; [done|]. split; [done|].
  split.
  { rewrite <- Hp'. apply get_path_heap. by rewrite Hh', Hh8. }
  split; [by rewrite Ha', Ha8|].
  split; [rewrite Hfs', Hfs8; by rewrite F6, F5|].
  rewrite Hd', Hd8. set_solver.
Qed.

Lemma move_to_parent_witness :
  ∃ w' nd' l l',
    node_move Examples.a Examples.nb None Examples.w_loaded = (Ok tt, w')
    ∧ py_remove Examples.a [Examples.a; Examples.b; Examples.c] = Some l
    ∧ _children <$> heap w' !! Examples.g = Some (Some l)
    ∧ _children <$> heap w' !! Examples.nb = Some (Some l')
    ∧ Examples.a ∈ l'
    ∧ heap w' !! Examples.a = Some nd'
    ∧ _parent nd' = Some Examples.nb
    ∧ _basename nd' = Some "a"
    ∧ (Examples.a ∉ _dirty w').
Proof.
  assert (Hnd : ∃ nd, heap Examples.w_loaded !! Examples.a = Some nd
                      ∧ node_class nd = NoteBookPage
                      ∧ _valid nd = true
                      ∧ _parent nd = Some Examples.g
                      ∧ _basename nd = Some "a"
                      ∧ _attr nd !! "title" = Some (VText "A")).
  { eexists. split; [by vm_compute|]. repeat split; reflexivity. }
  destruct Hnd as (nd & Hnd & Hc & Hv & Hp & Hb & Ht).
  assert (Hlo : _children <$> heap Examples.w_loaded !! Examples.g
                = Some (Some [Examples.a; Examples.b; Examples.c]))
    by (vm_compute; reflexivity).
  assert (Hln : ∃ l_new, _children <$> heap Examples.w_loaded !! Examples.nb
                         = Some (Some l_new)).
  { eexists. vm_compute. reflexivity. }
  destruct Hln as (l_new & Hln).
  assert (Hpath : (get_path Examples.a Examples.w_loaded).1 = Ok "nb/g/a")
    by (vm_compute; reflexivity).
  assert (Hppath : (get_path Examples.nb Examples.w_loaded).1 = Ok "nb")
    by (vm_compute; reflexivity).
  assert (Hpath2 : get_valid_unique_filename (fs Examples.w_loaded)
                     (os_path.dirname (os_path.join "nb" "a")) "A" "" " " 2
                   = Ok "nb/a") by (vm_compute; reflexivity).
  assert (H : (node_move Examples.a Examples.nb None Examples.w_loaded).1 = Ok tt)
    by (vm_compute; reflexivity).
  destruct (node_move Examples.a Examples.nb None Examples.w_loaded) as [r w'] eqn:E.
  cbn [fst] in H. subst r.
  assert (Hcls : node_class nd ≠ NoteBookTrash) by (rewrite Hc; discriminate).
  assert (Hne : Examples.g ≠ Examples.nb) by discriminate.
  destruct (move_to_parent _ _ _ _ _ _ _ _ _ _ _ _ _ _
              Hnd Hcls Hv Hp Hne Hlo Hln Hb Ht Hpath Hppath Hpath2 E)
    as (fs1 & nd' & l & l' & p' & text & _ & Hl & Hold & Hnew & Hin & Hnd'
        & Hp' & Hb' & _ & _ & _ & Hd).
  exists w', nd', l, l'. split; [reflexivity|].
  split; [exact Hl|]. split; [exact Hold|]. split; [exact Hnew|].
  split; [exact Hin|]. split; [exact Hnd'|]. split; [exact Hp'|].
  split; [exact Hb'|exact Hd].
Defined.

(* ===================================================================== *)
(** * Renaming a node *)
(* ===================================================================== *)

(** X23. When [rename] to another title returns on a valid node below
    the root: the directory of the node has been renamed to the free
    name that the title gives in the directory it lies in; the node has
    the new title and the new base name and nothing else of the heap
    has changed; the metadata file has been written under the new path;
    the node is not dirty. *)
Theorem rename_success (self parent : ref) (nd : NoteBookNode) (title : string)
    (old : Value) (path path2 : string) (w w' : World) :
  heap w !! self = Some nd ->
  _parent nd = Some parent ->
  _valid nd = true ->
  _attr nd !! "title" = Some old ->
  py_eq (VText title) old = false ->
  (get_path self w).1 = Ok path ->
  get_valid_unique_filename (fs w) (os_path.dirname path) title "" " " 2 = Ok path2 ->
  rename self title w = (Ok tt, w') ->
  ∃ fs1 p' text,
    let nd' := with_basename (Some (os_path.basename path2))
                 (with_attr (<["title" := VText title]> (_attr nd)) nd) in
    os.rename (fs w) path path2 = Ok fs1
    ∧ heap w' = <[self := nd']> (heap w)
    ∧ (get_path self w').1 = Ok p'
    ∧ meta_text (_version nd') (_attr nd') (notebook_attrs w') = Ok text
    ∧ fs w' = os.commit fs1 (get_node_meta_file p') text
    ∧ (self ∉ _dirty w').
Proof.
  intros Hself Hparent Hvalid Htitle Hneq Hpath Hpath2 H.
  unfold rename in H.
  rewrite (bind_ok _ _ _ _ _ (deref_ok _ _ _ Hself)) in H.
  unfold getitem in H. rewrite Htitle in H.
  unfold mbind at 1, M_bind at 1, mret at 1, M_ret at 1 in H.
  rewrite Hneq, Hparent in H.
  apply bind_inv in H as (path' & wx & Hp & H).
  apply get_path_inv_ok in Hp as [Hp ->].
  assert (path' = path) as -> by congruence. clear Hp.
  unfold mbind at 1, M_bind at 1, fs_query at 1 in H. rewrite Hpath2 in H.
  apply bind_inv in H as ([] & w4 & Hblock & Hnotify).
  apply try_except_inv in Hblock as [Hblock|(e & wx & _ & _ & Hblock)]; [|discriminate].
  apply bind_inv in Hblock as ([] & w1 & Hrn & Hblock).
  apply fs_call_inv in Hrn as (fs1 & Hrn & ->).
  apply bind_inv in Hblock as ([] & w2 & Hupd & Hblock).
  apply update_inv in Hupd as (nd1 & Hnd1 & ->).
  cbn [heap set_fs] in Hnd1. assert (nd1 = nd) as -> by congruence. clear Hnd1.
  apply bind_inv in Hblock as ([] & w3 & Hset & Hsave).
  unfold _set_basename in Hset. apply update_inv in Hset as (nd2 & Hnd2 & ->).
  cbn [heap set_heap set_fs] in Hnd2. rewrite lookup_insert_eq in Hnd2.
  injection Hnd2 as <-.
  assert (Hnd3 : set_basename (Some path2)
                   (with_attr (<["title" := VText title]> (_attr nd)) nd)
                 = with_basename (Some (os_path.basename path2))
                     (with_attr (<["title" := VText title]> (_attr nd)) nd)).
  { unfold set_basename. cbn [_parent with_attr]. by rewrite Hparent. }
  rewrite Hnd3 in Hsave. clear Hnd3.
  set (nd' := with_basename _ _) in Hsave.
  set (w3 := set_heap _ _) in Hsave.
  assert (H3 : heap w3 = <[self := nd']> (heap w) ∧ fs w3 = fs1
               ∧ notebook_attrs w3 = notebook_attrs w).
  { subst w3. cbn [heap fs notebook_attrs set_heap set_fs].
    by rewrite insert_insert_eq. }
  clearbody w3. destruct H3 as (Hh3 & Hfs3 & Ha3).
  (* the node is saved *)
  unfold NoteBookNode_save in Hsave.
  unfold mbind at 1, M_bind at 1, mret at 1, M_ret at 1 in Hsave.
  apply bind_inv in Hsave as (nd3 & wx & Hd3 & Hsave).
  apply deref_inv in Hd3 as [Hd3 ->].
  rewrite Hh3, lookup_insert_eq in Hd3. injection Hd3 as <-.
  assert (Hv : _valid nd' = true) by done. rewrite Hv in Hsave. cbn [andb] in Hsave.
  apply bind_inv in Hsave as ([] & wx & Hwrite & Hclean).
  apply write_meta_data_inv in Hwrite as (nd3 & p' & text & Hd3 & Hp' & Htext & ->).
  rewrite Hh3, lookup_insert_eq in Hd3. injection Hd3 as <-.
  pose proof (_set_dirty_false_attrs _ _ _ Hclean) as Ha4.
  apply _set_dirty_false_inv in Hclean as (Hh4 & Hfs4 & Hd4).
  cbn [heap fs set_fs notebook_attrs] in Hh4, Hfs4, Ha4.
  (* the listeners *)
  assert (Hlast : heap w' = heap w4 ∧ fs w' = fs w4 ∧ _dirty w' = _dirty w4
                  ∧ notebook_attrs w' = notebook_attrs w4).
  { unfold notify_change, notify_changes in Hnotify.
    apply bind_inv in Hnotify as (ndn & wx & Hn & Hnotify).
    apply deref_inv in Hn as [_ ->].
    destruct (_notebook ndn); unfold modify, mret, M_ret in Hnotify;
      by injection Hnotify as <-. }
  destruct Hlast as (Hh' & Hfs' & Hd' & Ha').
  exists fs1, p', text. cbn zeta. fold nd'.
  split; [done|]. split; [by rewrite Hh', Hh4|].
  split.
  { rewrite <- Hp'. apply get_path_heap. by rewrite Hh', Hh4. }
  split; [by rewrite Ha', Ha4|].
  split; [by rewrite Hfs', Hfs4, Hfs3|].
  rewrite Hd', Hd4. set_solver.
Qed.

Lemma rename_success_witness :
  ∃ w' nd',
    rename Examples.a "Alpha" Examples.w_loaded = (Ok tt, w')
    ∧ os_path.isdir (fs w') "nb/g/alpha" = true
    ∧ os_path.exists_ (fs w') "nb/g/a" = false
    ∧ heap w' !! Examples.a = Some nd'
    ∧ _attr nd' !! "title" = Some (VText "Alpha")
    ∧ _basename nd' = Some "alpha"
    ∧ (Examples.a ∉ _dirty w').
Proof.
  assert (Hnd : ∃ nd, heap Examples.w_loaded !! Examples.a = Some nd
                      ∧ _parent nd = Some Examples.g
                      ∧ _valid nd = true
                      ∧ _attr nd !! "title" = Some (VText "A")).
  { eexists. split; [by vm_compute|]. repeat split; reflexivity. }
  destruct Hnd as (nd & Hnd & Hp & Hv & Ht).
  assert (Hpath : (get_path Examples.a Examples.w_loaded).1 = Ok "nb/g/a")
    by (vm_compute; reflexivity).
  assert (Hpath2 : get_valid_unique_filename (fs Examples.w_loaded)
                     (os_path.dirname "nb/g/a") "Alpha" "" " " 2
                   = Ok "nb/g/alpha") by (vm_compute; reflexivity).
  assert (Hfs : (os_path.isdir (fs (rename Examples.a "Alpha" Examples.w_loaded).2)
                   "nb/g/alpha"
                 && negb (os_path.exists_
                            (fs (rename Examples.a "Alpha" Examples.w_loaded).2)
                            "nb/g/a"))%bool = true)
    by (vm_compute; reflexivity).
  assert (H : (rename Examples.a "Alpha" Examples.w_loaded).1 = Ok tt)
    by (vm_compute; reflexivity).
  destruct (rename Examples.a "Alpha" Examples.w_loaded) as [r w'] eqn:E.
  cbn [fst snd] in H, Hfs. subst r.
  apply andb_true_iff in Hfs as [Hfs1 Hfs2]. apply negb_true_iff in Hfs2.
  assert (Hneq : py_eq (VText "Alpha") (VText "A") = false) by reflexivity.
  destruct (rename_success _ _ _ _ _ _ _ _ _ Hnd Hp Hv Ht Hneq Hpath Hpath2 E)
    as (fs1 & p' & text & _ & Hh & _ & _ & _ & Hd).
  eexists w', _. split; [reflexivity|].
  split; [exact Hfs1|]. split; [exact Hfs2|].
  split; [rewrite Hh; apply lookup_insert_eq|].
  split; [apply lookup_insert_eq|]. split; [reflexivity|exact Hd].
Defined.

(* ===================================================================== *)
(** * Loading a notebook *)
(* ===================================================================== *)

Section LoadNotebook.

#[global] Instance same_places_preorder : PreOrder same_places.
Proof.
  split; [repeat split; eauto|].
  intros w1 w2 w3 (Hf1 & Ht1 & Hp1) (Hf2 & Ht2 & Hp2).
  split; [congruence|]. split; [congruence|].
  intros r nd Hnd. destruct (Hp1 _ _ Hnd) as (nd2 & Hnd2 & Hpa & Hba).
  destruct (Hp2 _ _ Hnd2) as (nd3 & Hnd3 & Hpb & Hbb).
  exists nd3. split; [done|]. split; congruence.
Qed.

Lemma places_update (n : ref) (f : NoteBookNode -> NoteBookNode) :
  (∀ nd, _parent (f nd) = _parent nd ∧ _basename (f nd) = _basename nd) ->
  frame same_places (update n f).
Proof.
  intros Hf. apply (frame_update same_places). intros w nd0 Hnd0.
  split; [done|]. split; [done|]. intros r nd Hr. cbn [heap set_heap].
  destruct (decide (n = r)) as [<-|Hne].
  - rewrite lookup_insert_eq. exists (f nd0). split; [done|].
    assert (nd = nd0) as -> by congruence. apply Hf.
  - rewrite lookup_insert_ne by done. eauto.
Qed.

Lemma places_read_meta_data (self : ref) : frame same_places (read_meta_data self).
Proof.
  apply (frame_bind same_places).
  { apply (frame_bind same_places); [apply (frame_get_path same_places)|].
    intros p. apply (frame_ret same_places). }
  intros filename.
  apply (frame_bind same_places); [apply (frame_the_notebook same_places)|]. intros _.
  apply (frame_bind same_places); [apply (frame_get_world same_places)|]. intros w.
  apply (frame_bind same_places); [by apply places_update|]. intros _.
  apply (frame_bind same_places); [apply (frame_lift same_places)|]. intros attr.
  apply (frame_bind same_places); [apply (frame_deref same_places)|]. intros nd.
  apply (frame_bind same_places); [|intros v; by apply places_update].
  destruct (_meta nd !! "version") as [[]|];
    first [apply (frame_ret same_places)|apply (frame_raise same_places)].
Qed.

Lemma places_read_preferences (self : ref) :
  frame same_places (read_preferences self).
Proof.
  apply (frame_bind same_places).
  - apply (frame_try_except same_places).
    + apply (frame_bind same_places).
      { apply (frame_bind same_places); [apply (frame_get_path same_places)|].
        intros p. apply (frame_ret same_places). }
      intros f.
      apply (frame_bind same_places); [apply (frame_get_world same_places)|]. intros w.
      apply (frame_bind same_places); [apply (frame_lift same_places)|]. intros p.
      apply (frame_modify same_places). intros w0. repeat split; eauto.
    + intros e. destruct (is_IOError e); apply (frame_raise same_places).
  - intros _.
    apply (frame_bind same_places); [apply (frame_get_world same_places)|]. intros w.
    destruct (_ <? _); [apply (frame_raise same_places)|apply (frame_ret same_places)].
Qed.

Lemma places_notify_change (n : ref) (b : bool) :
  frame same_places (notify_change n b).
Proof.
  apply (frame_bind same_places); [apply (frame_deref same_places)|]. intros nd.
  destruct (_notebook nd); [|apply (frame_ret same_places)].
  apply (frame_modify same_places). intros w. repeat split; eauto.
Qed.

(** An entry is a file or a directory, not both. *)
Lemma isfile_not_isdir (fs : FileSystem) (p : string) :
  os_path_isfile fs p = true -> os_path.isdir fs p = false.
Proof.
  unfold os_path_isfile, os_path.isdir. by destruct (fs_entries fs !! p) as [[]|].
Qed.

(** The path of a node without parent is its base name. *)
Lemma get_path_root (w : World) (self : ref) (nd : NoteBookNode) (p : string) :
  heap w !! self = Some nd -> _parent nd = None -> _basename nd = Some p ->
  get_path self w = (Ok p, w).
Proof.
  intros Hnd Hp Hb. unfold get_path, mbind, M_bind, get_world, lift.
  cbn [path_list]. rewrite Hnd, Hp, Hb. by destruct (size (heap w)).
Qed.

End LoadNotebook.

(** X24. [NoteBook.load(filename)] finds the directory of the notebook
    from the name it is given. A name that is neither a directory nor
    a file raises the error that names it, with the world as it was; a
    file inside a directory is loaded as that directory is; and when
    the load of a directory returns, the path of the notebook is that
    directory, the path of its trash folder is the trash directory
    inside it, and nothing has been written to the file system. *)
Theorem NoteBook_load_path (self : ref) (nd : NoteBookNode) (filename : string)
    (w : World) :
  heap w !! self = Some nd ->
  _parent nd = None ->
  (os_path.isdir (fs w) filename = false ->
   os_path_isfile (fs w) filename = false ->
   NoteBook_load self (Some filename) w
   = (Raise (NoteBookError ("Cannot find notebook '" +:+ filename +:+ "'") None), w))
  ∧ (os_path_isfile (fs w) filename = true ->
     os_path.isdir (fs w) (os_path.dirname filename) = true ->
     NoteBook_load self (Some filename) w
     = NoteBook_load self (Some (os_path.dirname filename)) w)
  ∧ (os_path.isdir (fs w) filename = true ->
     ∀ w', NoteBook_load self (Some filename) w = (Ok tt, w') ->
       (get_path self w').1 = Ok filename
       ∧ _trash_path w' = Some (get_trash_dir filename)
       ∧ fs w' = fs w).
Proof.
  intros Hself Hparent. split; [|split].
  - intros Hd Hf. unfold NoteBook_load.
    unfold mbind at 1 2 3 4, M_bind at 1 2 3 4, get_world at 1. by rewrite Hd, Hf.
  - intros Hf Hd. pose proof (isfile_not_isdir _ _ Hf) as Hnd.
    unfold NoteBook_load, mbind, M_bind, get_world. by rewrite Hnd, Hf, Hd.
  - intros Hd w' H. unfold NoteBook_load in H.
    apply bind_inv in H as ([] & w2 & Hset & H).
    apply bind_inv in Hset as (w0 & wx & Hget & Hset). injection Hget as <- <-.
    rewrite Hd in Hset.
    apply bind_inv in Hset as ([] & w1 & Hbase & Hset).
    unfold _set_basename in Hbase. apply update_inv in Hbase as (nd0 & Hnd0 & ->).
    assert (nd0 = nd) as -> by congruence. clear Hnd0.
    assert (Hnd1 : set_basename (Some filename) nd = with_basename (Some filename) nd).
    { unfold set_basename. by rewrite Hparent. }
    rewrite Hnd1 in Hset. clear Hnd1.
    set (w1 := set_heap _ w) in Hset.
    assert (Hp1 : get_path self w1 = (Ok filename, w1)).
    { apply (get_path_root _ _ (with_basename (Some filename) nd)); [|done..].
      subst w1. cbn [heap set_heap]. apply lookup_insert_eq. }
    rewrite (bind_ok _ _ _ _ _ Hp1) in Hset.
    unfold modify in Hset. injection Hset as <-.
    set (w2 := set_trash_path _ w1) in H.
    assert (Hp2 : (get_path self w2).1 = Ok filename).
    { rewrite (get_path_heap self w1 w2) by done. by rewrite Hp1. }
    assert (H2 : _trash_path w2 = Some (get_trash_dir filename) ∧ fs w2 = fs w) by done.
    clearbody w2. clear Hp1. clearbody w1. destruct H2 as [Ht2 Hf2].
    apply bind_inv in H as ([] & w3 & Hmeta & H).
    apply bind_inv in H as ([] & w4 & Hpref & H).
    pose proof (places_read_meta_data self w2) as P3. rewrite Hmeta in P3.
    pose proof (places_read_preferences self w3) as P4. rewrite Hpref in P4.
    pose proof (places_notify_change self true w4) as P5. rewrite H in P5.
    cbn [snd] in P3, P4, P5.
    destruct (PreOrder_Transitive (R:=same_places) _ _ _
                (PreOrder_Transitive (R:=same_places) _ _ _ P3 P4) P5)
      as (Hfs & Htp & Hpl).
    split; [by apply (get_path_same self w2)|]. split; congruence.
Qed.

Lemma NoteBook_load_path_witness :
  NoteBook_load Examples.nb (Some "elsewhere") Examples.w_init
  = (Raise (NoteBookError "Cannot find notebook 'elsewhere'" None), Examples.w_init)
  ∧ NoteBook_load Examples.nb (Some "nb/notebook.nbk") Examples.w_init
    = NoteBook_load Examples.nb (Some "nb") Examples.w_init
  ∧ ∃ w', NoteBook_load Examples.nb (Some "nb") Examples.w_init = (Ok tt, w')
          ∧ (get_path Examples.nb w').1 = Ok "nb"
          ∧ _trash_path w' = Some "nb/__TRASH__"
          ∧ fs w' = fs Examples.w_init.
Proof.
  assert (Hnd : ∃ nd, heap Examples.w_init !! Examples.nb = Some nd ∧ _parent nd = None).
  { eexists. split; [by vm_compute|]. reflexivity. }
  destruct Hnd as (nd & Hnd & Hp).
  assert (H1 : os_path.isdir (fs Examples.w_init) "elsewhere" = false)
    by (vm_compute; reflexivity).
  assert (H2 : os_path_isfile (fs Examples.w_init) "elsewhere" = false)
    by (vm_compute; reflexivity).
  assert (H3 : os_path_isfile (fs Examples.w_init) "nb/notebook.nbk" = true)
    by (vm_compute; reflexivity).
  assert (H4 : os_path.isdir (fs Examples.w_init) (os_path.dirname "nb/notebook.nbk")
               = true) by (vm_compute; reflexivity).
  assert (H5 : os_path.isdir (fs Examples.w_init) "nb" = true)
    by (vm_compute; reflexivity).
  assert (H : (NoteBook_load Examples.nb (Some "nb") Examples.w_init).1 = Ok tt)
    by (vm_compute; reflexivity).
  split; [exact (proj1 (NoteBook_load_path _ _ "elsewhere" _ Hnd Hp) H1 H2)|].
  split; [exact (proj1 (proj2 (NoteBook_load_path _ _ "nb/notebook.nbk" _ Hnd Hp)) H3 H4)|].
  destruct (NoteBook_load Examples.nb (Some "nb") Examples.w_init) as [r w'] eqn:E.
  cbn [fst] in H. subst r. exists w'. split; [reflexivity|].
  exact (proj2 (proj2 (NoteBook_load_path _ _ "nb" _ Hnd Hp)) H5 w' E).
Defined.

(* ===================================================================== *)
(** * Emptying the trash folder *)
(* ===================================================================== *)

Section EmptyTrash.

Lemma py_remove_length (x : ref) (l l' : list ref) :
  py_remove x l = Some l' -> length l = S (length l').
Proof.
  revert l'. induction l as [|y l IH]; intros l' H; [discriminate|].
  cbn in H. destruct (Pos.eqb y x); [by injection H as <-|].
  destruct (py_remove x l) as [r|]; [|discriminate].
  injection H as <-. cbn. by rewrite (IH r).
Qed.

Lemma elem_of_rev (x : ref) (l : list ref) : x ∈ rev l <-> x ∈ l.
Proof. rewrite !list_elem_of_In. symmetry. apply in_rev. Qed.

(** Deleting, one after the other, nodes that have [t] as their parent:
    each call takes one node out of the children of [t] and leaves it
    invalid. *)
Lemma delete_each (t : ref) (D : list ref) :
  ∀ (L : list ref) (w w' : World),
    _children <$> heap w !! t = Some (Some L) ->
    (∀ c, c ∈ D -> _parent <$> heap w !! c = Some (Some t)) ->
    for_each D node_delete w = (Ok tt, w') ->
    ∃ L', _children <$> heap w' !! t = Some (Some L')
          ∧ length L = (length L' + length D)%nat
          ∧ (∀ r, _valid <$> heap w !! r = Some false ->
                  _valid <$> heap w' !! r = Some false)
          ∧ ∀ c, c ∈ D -> _valid <$> heap w' !! c = Some false.
Proof.
  induction D as [|d D IH]; intros L w w' HL HD H.
  - injection H as <-. exists L. split; [done|]. split; [cbn; lia|].
    split; [done|]. intros c Hc. by apply elem_of_nil in Hc.
  - cbn [for_each] in H. apply bind_inv in H as ([] & w1 & Hdel & H).
    unfold node_delete in Hdel.
    apply bind_inv in Hdel as (nd & wx & Hnd & Hdel).
    apply deref_inv in Hnd as [Hnd ->].
    assert (Hp : _parent nd = Some t).
    { specialize (HD d ltac:(left)). rewrite Hnd in HD. by injection HD. }
    assert (Hdel' : NoteBookNode_delete d w = (Ok tt, w1))
      by (destruct (node_class nd); done).
    clear Hdel.
    destruct (NoteBookNode_delete_inv _ _ _ _ _ _ Hnd Hp HL Hdel')
      as (path & L1 & _ & _ & _ & HL1 & Hch1 & Hv1 & _ & Hpa1 & Hva1).
    destruct (IH L1 w1 w' Hch1) as (L' & HL' & Hlen & Hmono & Hinv); [|done|].
    { intros c Hc. rewrite Hpa1. apply HD. by right. }
    exists L'. split; [done|]. split.
    { rewrite (py_remove_length _ _ _ HL1), Hlen. cbn. lia. }
    split; [intros r Hr; by apply Hmono, Hva1|].
    intros c Hc. apply elem_of_cons in Hc as [->|Hc]; [by apply Hmono|by apply Hinv].
Qed.

End EmptyTrash.

(** X25. When [empty_trash] returns, in a notebook whose trash folder
    has its children loaded and is the parent of each of them, the
    trash folder has no children left and every node that was in it is
    invalid. *)
Theorem empty_trash_empties (self t : ref) (l : list ref) (w w' : World) :
  _trash w = Some t ->
  _children <$> heap w !! t = Some (Some l) ->
  (∀ c, c ∈ l -> _parent <$> heap w !! c = Some (Some t)) ->
  empty_trash self w = (Ok tt, w') ->
  _children <$> heap w' !! t = Some (Some [])
  ∧ ∀ c, c ∈ l -> _valid <$> heap w' !! c = Some false.
Proof.
  intros Ht Hl Hparents H. unfold empty_trash in H.
  apply bind_inv in H as (t0 & wx & Hg & H).
  unfold get_trash, mbind, M_bind, get_world, mret, M_ret in Hg.
  injection Hg as <- <-. rewrite Ht in H.
  apply bind_inv in H as ([] & wx & Hg & H). injection Hg as <-.
  apply bind_inv in H as (t0 & wx & Hg & H).
  unfold get_trash, mbind, M_bind, get_world, mret, M_ret in Hg.
  injection Hg as <- <-. rewrite Ht in H.
  apply bind_inv in H as (children & w1 & Hch & H).
  assert (children = l ∧ w1 = w) as [-> ->].
  { unfold NoteBookNode_get_children in Hch.
    apply bind_inv in Hch as ([] & w0 & Hens & Hch).
    destruct (heap w !! t) as [td|] eqn:Htd; [|discriminate]. injection Hl as Hl.
    unfold ensure_children in Hens.
    rewrite (bind_ok _ _ w _ td) in Hens by (by apply deref_ok).
    rewrite Hl in Hens. injection Hens as <-.
    apply children_of_inv in Hch as (-> & td' & Htd' & Hch).
    split; [|done]. congruence. }
  destruct (delete_each t (rev l) l w w' Hl) as (L' & HL' & Hlen & _ & Hinv); [|done|].
  { intros c Hc. apply Hparents. by apply (proj1 (elem_of_rev c l)). }
  rewrite length_rev in Hlen. destruct L' as [|x L']; [|cbn in Hlen; lia].
  split; [done|]. intros c Hc. apply Hinv. by apply (proj2 (elem_of_rev c l)).
Qed.

Lemma empty_trash_empties_witness :
  ∃ w', empty_trash Examples.nb Scenarios.w_trashed = (Ok tt, w')
        ∧ _children <$> heap w' !! Examples.trash = Some (Some [])
        ∧ _valid <$> heap w' !! Examples.a = Some false
        ∧ _valid <$> heap w' !! Examples.b = Some false.
Proof.
  assert (Ht : _trash Scenarios.w_trashed = Some Examples.trash) by (vm_compute; reflexivity).
  assert (Hl : _children <$> heap Scenarios.w_trashed !! Examples.trash
               = Some (Some [Examples.a; Examples.b])) by (vm_compute; reflexivity).
  assert (Ha : _parent <$> heap Scenarios.w_trashed !! Examples.a = Some (Some Examples.trash))
    by (vm_compute; reflexivity).
  assert (Hb : _parent <$> heap Scenarios.w_trashed !! Examples.b = Some (Some Examples.trash))
    by (vm_compute; reflexivity).
  assert (Hp : ∀ c, c ∈ [Examples.a; Examples.b] ->
                 _parent <$> heap Scenarios.w_trashed !! c = Some (Some Examples.trash)).
  { intros c Hc. apply elem_of_cons in Hc as [->|Hc]; [exact Ha|].
    apply elem_of_cons in Hc as [->|Hc]; [exact Hb|]. destruct (proj1 (elem_of_nil c) Hc). }
  assert (H : (empty_trash Examples.nb Scenarios.w_trashed).1 = Ok tt) by (vm_compute; reflexivity).
  destruct (empty_trash Examples.nb Scenarios.w_trashed) as [r w'] eqn:E.
  cbn [fst] in H. subst r. exists w'. split; [reflexivity|].
  destruct (empty_trash_empties _ _ _ _ _ Ht Hl Hp E) as [Hempty Hinv].
  split; [exact Hempty|].
  split; apply Hinv; [left|right; left].
Defined.

(* ===================================================================== *)
(** * Loading the children of a node *)
(* ===================================================================== *)

Section LoadChildren.

#[global] Instance in_memory_preorder : PreOrder in_memory.
Proof.
  split; [by repeat split|].
  intros w1 w2 w3 (H1 & H2 & H3 & H4 & H5) (K1 & K2 & K3 & K4 & K5).
  repeat split; congruence.
Qed.

Lemma memory_update (n : ref) (f : NoteBookNode -> NoteBookNode) :
  frame in_memory (update n f).
Proof. apply (frame_update in_memory). intros w nd _. by repeat split. Qed.

Lemma memory_set_dirty (n : ref) (b : bool) : frame in_memory (_set_dirty n b).
Proof. apply (frame_set_dirty in_memory). intros w d. by repeat split. Qed.

Lemma memory_init (cls : NodeClass) (path : option string) (title : Value)
    (parent notebook : option ref) (content_type : string) :
  frame in_memory (NoteBookNode_init cls path title parent notebook content_type).
Proof.
  apply (frame_bind in_memory); [apply (frame_get_world in_memory)|]. intros w.
  apply (frame_bind in_memory).
  { apply (frame_modify in_memory). intros w0. by repeat split. }
  intros _. apply (frame_bind in_memory); [apply memory_update|].
  intros _. apply (frame_ret in_memory).
Qed.

Lemma memory_make_node (cls : NodeClass) (path : string) (parent notebook : ref) :
  frame in_memory (make_node cls path parent notebook).
Proof.
  destruct cls; try apply memory_init.
  apply (frame_bind in_memory); [apply (frame_get_path in_memory)|]. intros root.
  apply (frame_bind in_memory); [apply memory_init|]. intros self.
  apply (frame_bind in_memory); [|intros _; apply (frame_ret in_memory)].
  apply (frame_bind in_memory); [apply memory_update|]. intros _.
  apply memory_set_dirty.
Qed.

Lemma memory_set_meta_data (n : ref) (attr : gmap string Value) :
  frame in_memory (set_meta_data n attr).
Proof.
  apply (frame_bind in_memory); [apply (frame_deref in_memory)|]. intros nd.
  apply (frame_bind in_memory); [|intros v; apply memory_update].
  destruct (_meta nd !! "version") as [[]|];
    first [apply (frame_ret in_memory)|apply (frame_raise in_memory)].
Qed.

Lemma memory_read_node (notebook parent : ref) (path : string) :
  frame in_memory (read_node notebook parent path).
Proof.
  apply (frame_bind in_memory); [apply (frame_get_world in_memory)|]. intros w.
  destruct (os_path.exists_ _ _); [|apply (frame_ret in_memory)].
  apply (frame_bind in_memory); [apply (frame_lift in_memory)|]. intros attr.
  destruct (match default _ _ with VText ct => _ | _ => None end) as [cls|];
    [|apply (frame_ret in_memory)].
  apply (frame_bind in_memory); [apply memory_make_node|]. intros node.
  apply (frame_bind in_memory); [apply memory_set_meta_data|]. intros _.
  apply (frame_ret in_memory).
Qed.

Lemma memory_read_children (self : ref) (path : string) (files : list string) :
  frame in_memory (read_children self path files).
Proof.
  induction files as [|filename files IH]; [apply (frame_ret in_memory)|].
  cbn [read_children].
  apply (frame_bind in_memory); [|intros _; apply IH].
  apply (frame_try_except in_memory); [|intros e; apply (frame_ret in_memory)].
  apply (frame_bind in_memory); [apply (frame_the_notebook in_memory)|]. intros nb.
  apply (frame_bind in_memory); [apply memory_read_node|].
  intros [node|]; [apply memory_update|apply (frame_ret in_memory)].
Qed.

Lemma memory_order_keys (children : list ref) : frame in_memory (order_keys children).
Proof.
  induction children as [|child r IH]; [apply (frame_ret in_memory)|].
  cbn [order_keys].
  apply (frame_bind in_memory); [apply (frame_deref in_memory)|]. intros nd.
  apply (frame_bind in_memory); [apply (frame_getitem in_memory)|]. intros k.
  apply (frame_bind in_memory); [apply IH|]. intros ks. apply (frame_ret in_memory).
Qed.

Lemma memory_children_of (n : ref) : frame in_memory (children_of n).
Proof.
  apply (frame_bind in_memory); [apply (frame_deref in_memory)|]. intros nd.
  destruct (_children nd); [apply (frame_ret in_memory)|apply (frame_raise in_memory)].
Qed.

Lemma memory_get_children (self : ref) : frame in_memory (_get_children self).
Proof.
  apply (frame_bind in_memory).
  { apply (frame_bind in_memory); [apply memory_update|]. intros _.
    apply (frame_bind in_memory); [apply (frame_get_path in_memory)|]. intros path.
    apply (frame_bind in_memory); [|intros files; apply memory_read_children].
    apply (frame_try_except in_memory); [|intros e; apply (frame_raise in_memory)].
    intros w. by repeat split. }
  intros _. apply (frame_bind in_memory); [apply memory_children_of|]. intros children.
  apply (frame_bind in_memory); [apply memory_order_keys|]. intros keyed.
  apply (frame_bind in_memory); [apply memory_update|]. intros _.
  apply (frame_set_child_order in_memory).
  - intros w d. by repeat split.
  - intros child v. apply memory_update.
Qed.

End LoadChildren.

(** X26. [get_children] of a node works in memory only: whether it
    returns or raises, nothing is written to the file system, and the
    preferences, the trash folder and its path are untouched and no
    listener is told, although the renumbering may mark children dirty.
    Once it has returned, a second call returns the same list and
    changes nothing. *)
Theorem get_children_in_memory (self : ref) (w : World) :
  in_memory w (NoteBookNode_get_children self w).2
  ∧ ∀ l w', NoteBookNode_get_children self w = (Ok l, w') ->
      NoteBookNode_get_children self w' = (Ok l, w').
Proof.
  split.
  - revert w. apply (frame_bind in_memory); [|intros _; apply memory_children_of].
    apply (frame_bind in_memory); [apply (frame_deref in_memory)|]. intros nd.
    destruct (_children nd); [apply (frame_ret in_memory)|apply memory_get_children].
  - intros l w' H. unfold NoteBookNode_get_children in H.
    apply bind_inv in H as ([] & w1 & _ & H).
    apply children_of_inv in H as (-> & nd & Hnd & Hl).
    unfold NoteBookNode_get_children, ensure_children.
    rewrite !bind_assoc_w.
    rewrite (bind_ok _ _ _ _ _ (deref_ok _ _ _ Hnd)). rewrite Hl.
    unfold mbind at 1, M_bind at 1, mret at 1, M_ret at 1.
    by apply children_of_ok with nd.
Qed.

Lemma get_children_in_memory_witness :
  ∃ l w', NoteBookNode_get_children Examples.g Examples.w_root = (Ok l, w')
          ∧ NoteBookNode_get_children Examples.g w' = (Ok l, w')
          ∧ fs w' = fs Examples.w_root.
Proof.
  assert (H : ∃ l, (NoteBookNode_get_children Examples.g Examples.w_root).1 = Ok l).
  { eexists. vm_compute. reflexivity. }
  destruct H as (l & H).
  pose proof (get_children_in_memory Examples.g Examples.w_root) as [Hm Hagain].
  destruct (NoteBookNode_get_children Examples.g Examples.w_root) as [r w'] eqn:E.
  cbn [fst snd] in H, Hm. subst r. exists l, w'. split; [reflexivity|].
  split; [exact (Hagain l w' eq_refl)|exact (proj1 Hm)].
Defined.

(* ===================================================================== *)
(** * The trash folder of a notebook *)
(* ===================================================================== *)

Section InitTrash.

Lemma keeps_fs_call (f : FileSystem -> result FileSystem) : keeps_children (fs_call f).
Proof. intros w n. unfold fs_call. by destruct (f (fs w)). Qed.

Lemma keeps_create (self : ref) : keeps_children (NoteBookNode_create self).
Proof.
  apply keeps_bind; [apply keeps_get_path|]. intros path.
  apply keeps_bind.
  { apply keeps_try_except; [apply keeps_fs_call|intros e; apply keeps_raise]. }
  intros _. apply keeps_bind; [by intros w|]. intros t.
  apply keeps_bind; [by apply keeps_update|].
  intros _. apply keeps_bind; [by intros w|]. intros t'.
  apply keeps_bind; [by apply keeps_update|].
  intros _. apply keeps_bind; [apply keeps_write_meta_data|]. intros _.
  apply keeps_bind; [apply keeps_set_dirty|]. intros _.
  apply keeps_bind; [apply keeps_deref|]. intros nd.
  apply keeps_bind; [apply keeps_getitem|]. intros ct.
  destruct (py_eq ct (VText CONTENT_TYPE_PAGE)); [|apply keeps_ret].
  apply keeps_bind; [apply keeps_get_path|]. intros p.
  apply keeps_try_except; [|intros e; apply keeps_raise].
  apply keeps_bind; [apply keeps_fs_query|]. intros _. by apply keeps_modify.
Qed.

(** What [is_trash_dir] has compared when it answers. *)
Lemma is_trash_dir_inv (child : ref) (w w' : World) (b : bool) :
  is_trash_dir child w = (Ok b, w') ->
  w' = w ∧ if b then at_trash_path w child else off_trash_path w child.
Proof.
  intros H. unfold is_trash_dir in H. apply bind_inv in H as (p & w1 & Hp & H).
  apply get_path_inv_ok in Hp as [Hp ->].
  unfold mbind, M_bind, get_world in H.
  destruct (_trash_path w) as [t|] eqn:Ht; [|discriminate].
  injection H as <- <-. split; [done|].
  destruct (String.eqb_spec p t) as [->|Hne].
  - exists t. by rewrite Ht.
  - exists p, t. by rewrite Ht.
Qed.

(** The search of [_init_trash] stops at the first child whose path is
    the path of the trash folder and assigns it to [_trash]; when there
    is none, it assigns nothing. *)
Lemma find_trash_inv (l : list ref) :
  ∀ w w', find_trash l w = (Ok tt, w') ->
    (w' = w ∧ Forall (off_trash_path w) l)
    ∨ ∃ pre c post, l = pre ++ c :: post ∧ Forall (off_trash_path w) pre
                    ∧ at_trash_path w c ∧ w' = set_trash (Some c) w.
Proof.
  induction l as [|child l IH]; intros w w' H.
  { left. injection H as <-. by split. }
  cbn [find_trash] in H. apply bind_inv in H as (b & w1 & Hb & H).
  apply is_trash_dir_inv in Hb as [-> Hb]. destruct b.
  - unfold modify in H. injection H as <-. right. by exists [], child, l.
  - apply IH in H as [[-> Hoff]|(pre & c & post & -> & Hpre & Hc & ->)].
    + left. split; [done|]. by constructor.
    + right. exists (child :: pre), c, post. split; [done|]. split; [by constructor|done].
Qed.

Lemma off_trash_path_heap (w w' : World) (c : ref) :
  heap w' = heap w -> _trash_path w' = _trash_path w ->
  off_trash_path w c -> off_trash_path w' c.
Proof.
  intros Hh Ht (p & t & Hp & Htp & Hne). exists p, t.
  split; [by rewrite (get_path_heap c w w' Hh)|]. split; [congruence|done].
Qed.

Lemma at_trash_path_heap (w w' : World) (c : ref) :
  heap w' = heap w -> _trash_path w' = _trash_path w ->
  at_trash_path w c -> at_trash_path w' c.
Proof.
  intros Hh Ht (p & Hp & Htp). exists p.
  split; [by rewrite (get_path_heap c w w' Hh)|congruence].
Qed.

(** The directory made by [create] is there when [create] returns. *)
Lemma NoteBookNode_create_isdir (self : ref) (w w' : World) :
  NoteBookNode_create self w = (Ok tt, w') ->
  ∃ path, (get_path self w').1 = Ok path ∧ os_path.isdir (fs w') path = true.
Proof.
  intros H. apply NoteBookNode_create_inv in H as (path & fs1 & text & _ & Hmk & Hfs & Hp).
  exists path. split; [done|].
  apply mkdir_inv in Hmk as [_ ->].
  assert (Hmeta : get_node_meta_file path ≠ path) by (by apply join_ne).
  assert (Hdata : get_page_data_file path ≠ path) by (by apply join_ne).
  apply isdir_lookup.
  destruct Hfs as [->| ->]; unfold os.commit; cbn [fs_entries].
  - rewrite lookup_insert_ne by done. apply lookup_insert_eq.
  - rewrite !lookup_insert_ne by done. apply lookup_insert_eq.
Qed.

End InitTrash.

(** X19. Loading the children of the notebook root gives the notebook
    its trash folder. When [NoteBook.get_children] returns on a root
    whose children were not loaded, [_trash] is one of the children
    returned, and it is one of two nodes. Either it is the first of the
    children loaded by [_get_children] whose path is the path of the
    trash folder; then the children returned are the children loaded
    and nothing but [_trash] has been assigned. Or no loaded child has
    that path, and it is the object built by [NoteBookTrash(TRASH_NAME,
    self)]: a valid trash folder with the notebook as parent, whose
    directory has been made. *)
Theorem get_children_has_trash (w w' : World) (self : ref) (sd : NoteBookNode)
    (l : list ref) :
  heap w !! self = Some sd ->
  _children sd = None ->
  (self < next_ref w)%positive ->
  NoteBook_get_children self w = (Ok l, w') ->
  ∃ t w1 l1,
    _get_children self w = (Ok tt, w1)
    ∧ _children <$> heap w1 !! self = Some (Some l1)
    ∧ _trash w' = Some t ∧ t ∈ l
    ∧ (trash_found t l1 l w1 w' ∨ trash_created self t l1 w1 w').
Proof.
  intros Hsd Hnone Hself H. unfold NoteBook_get_children in H.
  rewrite (bind_ok _ _ _ _ _ (deref_ok _ _ _ Hsd)) in H. rewrite Hnone in H.
  apply bind_inv in H as ([] & w2 & Hload & Hl).
  apply children_of_inv in Hl as (-> & sd2 & Hsd2 & Hl).
  apply bind_inv in Hload as ([] & w1 & Hget & Hinit).
  pose proof (nodes_get_children self w) as E0. rewrite Hget in E0. cbn [snd] in E0.
  destruct E0 as (Hnext & _).
  unfold _init_trash in Hinit.
  apply bind_inv in Hinit as ([] & wa & Hreset & Hinit).
  unfold modify in Hreset. injection Hreset as <-.
  apply bind_inv in Hinit as (l1 & wa & Hl1 & Hinit).
  apply children_of_inv in Hl1 as (-> & sd1 & Hsd1 & Hl1).
  cbn [heap set_trash] in Hsd1.
  assert (Hloaded : _children <$> heap w1 !! self = Some (Some l1))
    by (by rewrite Hsd1; cbn; rewrite Hl1).
  apply bind_inv in Hinit as ([] & wb & Hfind & Hinit).
  apply bind_inv in Hinit as (t0 & wb' & Ht0 & Hinit).
  unfold get_trash, mbind, M_bind, get_world, mret, M_ret in Ht0.
  injection Ht0 as <- <-.
  apply find_trash_inv in Hfind as [[-> Hoff]|(pre & c & post & -> & Hpre & Hat & ->)].
  - (* no child is the trash folder: it is created *)
    cbn [_trash set_trash] in Hinit.
    apply try_except_inv in Hinit as [Hinit|(e & wx & _ & _ & Hinit)]; [|discriminate].
    apply bind_inv in Hinit as (t & wc & Hmake & Hinit).
    unfold NoteBookTrash_init in Hmake.
    apply bind_inv in Hmake as (root & wx & Hroot & Hmake).
    apply get_path_inv_ok in Hroot as [Hroot ->].
    rewrite (bind_ok _ _ _ _ _ (NoteBookNode_init_run _ _ _ _ _ _ _)) in Hmake.
    change (next_ref (set_trash None w1)) with (next_ref w1) in Hmake.
    set (ndB := set_basename _ _) in Hmake. set (wB := set_heap _ _) in Hmake.
    assert (HndB : heap wB !! next_ref w1 = Some ndB)
      by (subst wB; rewrite heap_set_heap; apply lookup_insert_eq).
    apply bind_inv in Hmake as ([] & wC & Hset & Hmake).
    unfold mret, M_ret in Hmake. injection Hmake as <- <-.
    rewrite (set_attr_run wB (next_ref w1) self ndB _ _ HndB eq_refl) in Hset.
    injection Hset as <-.
    apply bind_inv in Hinit as ([] & wd & Hset & Hinit).
    unfold modify in Hset. injection Hset as <-.
    apply bind_inv in Hinit as ([] & we & Hcreate & Hadd).
    set (ndC := with_attr _ ndB) in Hcreate. set (wd := set_trash _ _) in Hcreate.
    assert (HndC : heap wd !! next_ref w1 = Some ndC)
      by (subst wd; cbn; apply lookup_insert_eq).
    assert (Hfresh : (next_ref w1 < next_ref wd)%positive) by (subst wd wB; cbn; lia).
    assert (Hne : next_ref w1 ≠ self) by lia.
    assert (Hself_d : _children <$> heap wd !! self = Some (Some l1)).
    { subst wd wB. cbn. rewrite !lookup_insert_ne by done. exact Hloaded. }
    assert (Htrash_d : _trash wd = Some (next_ref w1)) by reflexivity.
    assert (HcoreC : node_core ndC
                     = (NoteBookTrash, Some self,
                        Some (os_path.basename (get_trash_dir root)), true,
                        Some (VText TRASH_NAME), Some (VText CONTENT_TYPE_TRASH)))
      by reflexivity.
    clearbody ndC wd. clear HndB ndB wB.
    (* creating the folder and adding it extend the world *)
    pose proof (nodes_create (next_ref w1) wd) as E1. rewrite Hcreate in E1.
    pose proof (nodes_add_child self (next_ref w1) None we) as E2. rewrite Hadd in E2.
    cbn [snd] in E1, E2.
    pose proof (extends_trans _ _ _ E1 E2) as E12.
    destruct (extends_core _ _ _ _ E12 Hfresh HndC) as (td & Htd & Hcore).
    rewrite HcoreC in Hcore. unfold node_core in Hcore.
    injection Hcore as Hcls Hpar Hbase Hvalid Htitle Hct.
    (* the children of the notebook are loaded when the folder is added *)
    pose proof (keeps_create (next_ref w1) wd self) as K1. rewrite Hcreate in K1.
    cbn [snd] in K1. rewrite Hself_d in K1.
    pose proof (_add_child_loaded _ _ _ _ _ _ K1 Hadd) as (Hfs & Hcores & _).
    destruct (NoteBookNode_create_isdir _ _ _ Hcreate) as (p & Hp & Hdir).
    destruct (_add_child_member _ _ _ _ _ Hadd) as (l' & Hl' & Hin).
    exists (next_ref w1), w1, l1. split; [done|]. split; [done|].
    split. { destruct E12 as (_ & _ & -> & _). exact Htrash_d. }
    split. { rewrite Hsd2 in Hl'. cbn in Hl'. congruence. }
    right. split.
    { eapply Forall_impl; [exact Hoff|]. intros c. by apply off_trash_path_heap. }
    split; [done|]. exists td, root, p.
    split. { rewrite <- Hroot. by apply get_path_heap. }
    do 7 (split; [done|]). split; [|by rewrite Hfs].
    apply (get_path_same _ we); [|done].
    intros r nd Hr. specialize (Hcores r). rewrite Hr in Hcores.
    destruct (heap w2 !! r) as [nd'|]; [|discriminate]. cbn in Hcores.
    exists nd'. split; [done|]. unfold node_core in Hcores.
    injection Hcores as _ ? ? _ _ _. done.
  - (* the first child at the path of the trash folder *)
    cbn [_trash set_trash] in Hinit. unfold mret, M_ret in Hinit. injection Hinit as <-.
    exists c, w1, (pre ++ c :: post). split; [done|]. split; [done|].
    split; [done|]. cbn [heap set_trash] in Hsd2.
    assert (l = pre ++ c :: post) as -> by congruence.
    split; [apply elem_of_app; right; by left|].
    left. split; [done|]. split; [done|]. exists pre, post. split; [done|].
    split.
    + eapply Forall_impl; [exact Hpre|]. intros c'. by apply off_trash_path_heap.
    + revert Hat. by apply at_trash_path_heap.
Qed.

Lemma get_children_has_trash_witness :
  (∃ w1, _get_children Examples.nb Scenarios.w_v5 = (Ok tt, w1)
         ∧ trash_created Examples.nb 3%positive [2%positive] w1
             (NoteBook_get_children Examples.nb Scenarios.w_v5).2)
  ∧ (∃ w1, _get_children Examples.nb Examples.w_init = (Ok tt, w1)
           ∧ trash_found 2%positive [4%positive; 3%positive; 2%positive]
               [4%positive; 3%positive; 2%positive] w1
               (NoteBook_get_children Examples.nb Examples.w_init).2).
Proof.
  split.
  - (* a notebook without a trash folder on disk *)
    assert (Hsd : ∃ sd, heap Scenarios.w_v5 !! Examples.nb = Some sd ∧ _children sd = None).
    { eexists. split; [by vm_compute|]. reflexivity. }
    destruct Hsd as (sd & Hsd & Hnone).
    assert (Hself : (Examples.nb < next_ref Scenarios.w_v5)%positive)
      by (vm_compute; reflexivity).
    assert (H : (NoteBook_get_children Examples.nb Scenarios.w_v5).1
                = Ok [2%positive; 3%positive]) by (vm_compute; reflexivity).
    assert (Hc1 : _children <$> heap (_get_children Examples.nb Scenarios.w_v5).2
                                  !! Examples.nb = Some (Some [2%positive]))
      by (vm_compute; reflexivity).
    assert (Hn1 : next_ref (_get_children Examples.nb Scenarios.w_v5).2 = 3%positive)
      by (vm_compute; reflexivity).
    destruct (NoteBook_get_children Examples.nb Scenarios.w_v5) as [r w'] eqn:E.
    cbn [fst snd] in *. subst r.
    destruct (get_children_has_trash _ _ _ _ _ Hsd Hnone Hself E)
      as (t & w1 & l1 & Hget & Hl1 & _ & _ & Hcase).
    rewrite Hget in Hc1, Hn1. cbn [snd] in Hc1, Hn1.
    rewrite Hl1 in Hc1. injection Hc1 as ->.
    exists w1. split; [exact Hget|].
    destruct Hcase as [(Hl & _)|Hcreated]; [discriminate Hl|].
    destruct Hcreated as (Hoff & Ht & Hrest). rewrite Hn1 in Ht. subst t.
    split; [exact Hoff|]. split; [symmetry; exact Hn1|exact Hrest].
  - (* a notebook whose trash folder is on disk *)
    assert (Hsd : ∃ sd, heap Examples.w_init !! Examples.nb = Some sd ∧ _children sd = None).
    { eexists. split; [by vm_compute|]. reflexivity. }
    destruct Hsd as (sd & Hsd & Hnone).
    assert (Hself : (Examples.nb < next_ref Examples.w_init)%positive)
      by (vm_compute; reflexivity).
    assert (H : (NoteBook_get_children Examples.nb Examples.w_init).1
                = Ok [4%positive; 3%positive; 2%positive]) by (vm_compute; reflexivity).
    assert (Ht' : _trash (NoteBook_get_children Examples.nb Examples.w_init).2
                  = Some 2%positive) by (vm_compute; reflexivity).
    assert (Hc1 : _children <$> heap (_get_children Examples.nb Examples.w_init).2
                                  !! Examples.nb
                  = Some (Some [4%positive; 3%positive; 2%positive]))
      by (vm_compute; reflexivity).
    assert (Hn1 : next_ref (_get_children Examples.nb Examples.w_init).2 = 5%positive)
      by (vm_compute; reflexivity).
    destruct (NoteBook_get_children Examples.nb Examples.w_init) as [r w'] eqn:E.
    cbn [fst snd] in *. subst r.
    destruct (get_children_has_trash _ _ _ _ _ Hsd Hnone Hself E)
      as (t & w1 & l1 & Hget & Hl1 & Ht & _ & Hcase).
    rewrite Hget in Hc1, Hn1. cbn [snd] in Hc1, Hn1.
    rewrite Hl1 in Hc1. injection Hc1 as ->.
    rewrite Ht' in Ht. injection Ht as <-.
    exists w1. split; [exact Hget|].
    destruct Hcase as [Hfound|(_ & Hnew & _)]; [exact Hfound|].
    rewrite Hn1 in Hnew. discriminate Hnew.
Defined.

(* ===================================================================== *)
(** * Moving a node within its parent *)
(* ===================================================================== *)

Section MoveWithin.

#[global] Instance same_heap_preorder : PreOrder same_heap.
Proof.
  split; [by intros w|]. intros w1 w2 w3 H1 H2. unfold same_heap in *. congruence.
Qed.











End MoveWithin.

Section MoveWithinParent.


End MoveWithinParent.


